(** * Skill-Swap: the swap-request lifecycle, ratings, skill associations,
      browsing and admin statistics, as the Express route handlers implement
      them over the Mongoose models.

    The repository holds two generations of the server.  Both are embedded:

    - module [Server]  : [server/Routes/swaps.js], first file (models taken from
      [database/init.js]); cancel is [PUT /swaps/:swapId/cancel];
    - module [Backend] : the second file, models required one by one; cancel is
      [DELETE /swaps/:swapId].

    A handler is a function from the document store to a reply and a new
    store.  A Mongoose call that rejects, or a free identifier that is not
    bound in the module, raises; the handler's [try { } catch] turns whatever
    was raised into its 500 reply.  Where it matters that other requests
    run between the awaits of one, the routes are also given await by await
    ([script], [interleave]). *)

From Stdlib Require Import List String Bool Arith ZArith QArith_base Lia.
Import ListNotations.
Open Scope string_scope.
Open Scope nat_scope.

(* ------------------------------------------------------------------ *)
(** ** Documents *)

(** An ObjectId: twelve bytes, read as a number. *)
Definition oid := nat.

(** A request names a document by the text of its ObjectId, 24 hexadecimal
    digits.  The digits a to f may come in either case: Mongoose casts both
    spellings to the same ObjectId, while [toString()] gives the lower-case
    one, and so does the [id] claim of a token, which is signed from
    [user._id]. *)
Definition hex_value (c : Ascii.ascii) : option nat :=
  let n := Ascii.nat_of_ascii c in
  if (48 <=? n) && (n <=? 57) then Some (n - 48)
  else if (97 <=? n) && (n <=? 102) then Some (n - 87)
  else if (65 <=? n) && (n <=? 70) then Some (n - 55)
  else None.

Fixpoint hex_number (acc : nat) (x : string) : option nat :=
  match x with
  | EmptyString => Some acc
  | String c r =>
      match hex_value c with
      | Some v => hex_number (16 * acc + v) r
      | None => None
      end
  end.

(** The cast of a string to an ObjectId: the string must be 24 hexadecimal
    digits. *)
Definition ObjectId_cast (x : string) : option oid :=
  if String.length x =? 24 then hex_number 0 x else None.

Definition hex_digit (v : nat) : Ascii.ascii :=
  Ascii.ascii_of_nat (if v <? 10 then 48 + v else 87 + v).

Fixpoint hex_digits (k n : nat) : string :=
  match k with
  | 0 => EmptyString
  | S k' => (hex_digits k' (n / 16) ++ String (hex_digit (n mod 16)) EmptyString)%string
  end.

(** [id.toString()], and [req.user.id]. *)
Definition ObjectId_toString (i : oid) : string := hex_digits 24 i.

Arguments ObjectId_cast x : simpl never.
Arguments ObjectId_toString i : simpl never.

Record User := mkUser {
  user__id : oid;
  user_name : string;
  user_location : option string;
  is_public : bool;
  is_admin : bool;
  is_banned : bool
}.

Record Skill := mkSkill {
  skill__id : oid;
  skill_name : string;
  skill_category : option string
}.

(** [UserSkillOffered] and [UserSkillWanted] share their shape: the level is
    [proficiency_level] in the first and [priority_level] in the second. *)
Record UserSkill := mkUserSkill {
  us__id : oid;
  us_user_id : oid;
  us_skill_id : oid;
  us_description : string;
  us_level : string
}.

Record SwapRequest := mkSwap {
  swap__id : oid;
  requester_id : oid;
  recipient_id : oid;
  offered_skill_id : oid;
  requested_skill_id : oid;
  status : string;
  message : option string
}.

Record Rating := mkRating {
  rating__id : oid;
  swap_id : oid;
  rater_id : oid;
  rated_user_id : oid;
  rating : Z;
  feedback : option string
}.

(** The store: one list per collection, in insertion order, and the
    generator of the next ObjectId. *)
Record db := mkDb {
  users : list User;
  skills : list Skill;
  offered : list UserSkill;
  wanted : list UserSkill;
  swaps : list SwapRequest;
  ratings : list Rating;
  next_id : oid
}.

Definition empty_db : db := mkDb [] [] [] [] [] [] 0.

(* ------------------------------------------------------------------ *)
(** ** Schemas ([database/init.js], [models/*.js]) *)

(** [swapRequestSchema.status]: [enum: ['pending', 'accepted', 'rejected']],
    [default: 'pending']. *)
Definition swap_status_enum : list string := ["pending"; "accepted"; "rejected"].
Definition swap_status_default : string := "pending".

(** [proficiency_level]: [enum: ['beginner', 'intermediate', 'advanced']]. *)
Definition proficiency_enum : list string := ["beginner"; "intermediate"; "advanced"].

Definition mem_string (x : string) (l : list string) : bool :=
  existsb (String.eqb x) l.

Definition validate_swap (d : SwapRequest) : bool :=
  mem_string (status d) swap_status_enum.

Definition validate_offered (d : UserSkill) : bool :=
  mem_string (us_level d) proficiency_enum.

(** [ratingSchema.rating]: [min: 1, max: 5]. *)
Definition validate_rating (d : Rating) : bool :=
  ((1 <=? rating d) && (rating d <=? 5))%Z.

(* ------------------------------------------------------------------ *)
(** ** Replies *)

(** One constructor per failing [return res.status(..)] of the handlers,
    named after the spec's failure kinds. *)
Inductive failure : Type :=
| ValidationError            (* 400 { errors: errors.array() } *)
| SelfSwap                   (* 400 Cannot create swap request with yourself *)
| RecipientNotFound          (* 404 Recipient not found *)
| RecipientBanned            (* 403 Cannot create swap request with banned user *)
| OfferedSkillNotOwned       (* 400 You do not have the offered skill *)
| RequestedSkillNotOffered   (* 400 Recipient does not have the requested skill *)
| DuplicatePendingRequest    (* 400 You already have a pending swap request with this user *)
| NotFound                   (* 404 Swap request not found / Offered skill not found / User not found *)
| Forbidden                  (* 403 You can only ... *)
| InvalidTransition          (* 400 Can only accept / reject / cancel pending requests *)
| InvalidState               (* 400 Can only rate completed swaps *)
| DuplicateRating            (* 400 You have already rated this swap *)
| SkillNotFound              (* 404 Skill not found *)
| DuplicateAssociation       (* 400 You already have this skill listed as offered *)
| SelfBanForbidden           (* 400 Cannot ban yourself *)
| BannedActor                (* 403 Your account has been banned *)
| AdminRequired              (* 403 Admin access required *)
| ServerError.               (* 500 Server error / Database error *)

Definition http_status (e : failure) : nat :=
  match e with
  | ValidationError | SelfSwap | OfferedSkillNotOwned | RequestedSkillNotOffered
  | DuplicatePendingRequest | InvalidTransition | InvalidState | DuplicateRating
  | DuplicateAssociation | SelfBanForbidden => 400
  | RecipientBanned | Forbidden | BannedActor | AdminRequired => 403
  | RecipientNotFound | NotFound | SkillNotFound => 404
  | ServerError => 500
  end.

(** The spec's [Conflict] kind: duplicate association, duplicate pending
    request, duplicate rating. *)
Definition is_conflict (e : failure) : bool :=
  match e with
  | DuplicateAssociation | DuplicatePendingRequest | DuplicateRating => true
  | _ => false
  end.

Inductive reply : Type :=
| Done (code : nat)               (* res.json(..) is 200, res.status(201).json(..) *)
| Created (swapId : oid)          (* 201 with the new request's _id *)
| Fail (e : failure).

Definition succeeded (r : reply) : bool :=
  match r with
  | Fail _ => false
  | _ => true
  end.

(* ------------------------------------------------------------------ *)
(** ** Awaited calls *)

Inductive thrown : Type :=
| ReferenceError (ident : string)     (* a free identifier with no binding *)
| MongooseValidationError             (* a validator of the schema rejected the document *)
| TypeError                           (* a property read on null *)
| CastError                           (* a string that spells no ObjectId where one is due *)
| DocumentNotFoundError               (* a save whose document is no longer stored *)
| MongoError.                         (* the database refused the query *)

(** An awaited call runs on the store and either raises or returns a value;
    either way it hands on the store as it left it. *)
Definition io (A : Type) : Type := db -> (thrown + A) * db.

Definition ret {A} (a : A) : io A := fun s => (inr a, s).
Definition throw {A} (e : thrown) : io A := fun s => (inl e, s).
Definition bind {A B} (m : io A) (k : A -> io B) : io B :=
  fun s => match m s with
           | (inl e, s') => (inl e, s')
           | (inr a, s') => k a s'
           end.

Notation "'let*' x ':=' m 'in' k" := (bind m (fun x => k))
  (at level 10, x name, m at level 100, k at level 200).
Notation "m ';;' k" := (bind m (fun _ => k))
  (at level 100, k at level 200, right associativity).

Definition handler : Type := db -> reply * db.

(** [try { body } catch (error) { res.status(500).json(..) }] *)
Definition try_catch_with {R} (on_error : R) (body : io R) : db -> R * db :=
  fun s => match body s with
           | (inl _, s') => (on_error, s')
           | (inr r, s') => (r, s')
           end.

Definition try_catch : io reply -> handler := try_catch_with (Fail ServerError).

(** A module's top-level bindings.  Evaluating a free identifier that the
    module never bound raises [ReferenceError]. *)
Definition scope := list string.

Definition resolve (sc : scope) (ident : string) : io unit :=
  if mem_string ident sc then ret tt else throw (ReferenceError ident).

(** [Model.call(..)] written in a module with bindings [sc]. *)
Definition on {A} (sc : scope) (model : string) (call : io A) : io A :=
  resolve sc model ;; call.

(** A query or a document that is handed an identifier as text casts it;
    text that spells no ObjectId raises. *)
Definition casting {A} (x : string) (call : oid -> io A) : io A :=
  match ObjectId_cast x with
  | Some i => call i
  | None => throw CastError
  end.

(* ------------------------------------------------------------------ *)
(** ** Model calls *)

Definition findById {D} (key : D -> oid) (i : oid) (l : list D) : option D :=
  find (fun d => key d =? i) l.

(** [doc.save()] on a loaded document: the document stored under its [_id]
    is replaced. *)
Definition replace_by_id {D} (key : D -> oid) (d : D) (l : list D) : list D :=
  map (fun x => if key x =? key d then d else x) l.

Definition delete_by_id {D} (key : D -> oid) (i : oid) (l : list D) : list D :=
  filter (fun x => negb (key x =? i)) l.

(** [findOneAndDelete(query)]: the first match goes, the rest stays. *)
Fixpoint delete_first {D} (p : D -> bool) (l : list D) : list D :=
  match l with
  | [] => []
  | x :: r => if p x then r else x :: delete_first p r
  end.

Definition set_swaps (s : db) (l : list SwapRequest) : db :=
  mkDb (users s) (skills s) (offered s) (wanted s) l (ratings s) (next_id s).
Definition set_ratings (s : db) (l : list Rating) : db :=
  mkDb (users s) (skills s) (offered s) (wanted s) (swaps s) l (next_id s).
Definition set_offered (s : db) (l : list UserSkill) : db :=
  mkDb (users s) (skills s) l (wanted s) (swaps s) (ratings s) (next_id s).
Definition set_users (s : db) (l : list User) : db :=
  mkDb l (skills s) (offered s) (wanted s) (swaps s) (ratings s) (next_id s).
Definition bump (s : db) : db :=
  mkDb (users s) (skills s) (offered s) (wanted s) (swaps s) (ratings s) (S (next_id s)).

Definition User_findById (i : oid) : io (option User) :=
  fun s => (inr (findById user__id i (users s)), s).

Definition Skill_findById (i : oid) : io (option Skill) :=
  fun s => (inr (findById skill__id i (skills s)), s).

(** [UserSkillOffered.findOne({ user_id, skill_id })] *)
Definition by_user_skill (u sk : oid) (d : UserSkill) : bool :=
  (us_user_id d =? u) && (us_skill_id d =? sk).

Definition UserSkillOffered_findOne (u sk : oid) : io (option UserSkill) :=
  fun s => (inr (find (by_user_skill u sk) (offered s)), s).

Definition SwapRequest_findById (i : oid) : io (option SwapRequest) :=
  fun s => (inr (findById swap__id i (swaps s)), s).

(** [SwapRequest.findOne({ requester_id, recipient_id, status: 'pending' })] *)
Definition pending_between (rq rc : oid) (d : SwapRequest) : bool :=
  (requester_id d =? rq) && (recipient_id d =? rc) && (status d =? "pending")%string.

Definition SwapRequest_findOne_pending (rq rc : oid) : io (option SwapRequest) :=
  fun s => (inr (find (pending_between rq rc) (swaps s)), s).

(** [SwapRequest.create({..})]: the schema default fills [status], the
    document is validated and inserted under a fresh [_id]. *)
Definition SwapRequest_create (rq rc off req : oid) (msg : option string) : io SwapRequest :=
  fun s =>
    let d := mkSwap (next_id s) rq rc off req swap_status_default msg in
    if validate_swap d then (inr d, bump (set_swaps s (swaps s ++ [d])))
    else (inl MongooseValidationError, s).

(** [swap.save()]: validation runs before the write, and the write is an
    update of the document stored under that [_id], whatever its status has
    become since it was read. *)
Definition SwapRequest_save (d : SwapRequest) : io unit :=
  fun s =>
    if validate_swap d then
      match findById swap__id (swap__id d) (swaps s) with
      | Some _ => (inr tt, set_swaps s (replace_by_id swap__id d (swaps s)))
      | None => (inl DocumentNotFoundError, s)
      end
    else (inl MongooseValidationError, s).

Definition SwapRequest_findByIdAndDelete (i : oid) : io unit :=
  fun s => (inr tt, set_swaps s (delete_by_id swap__id i (swaps s))).

(** [Rating.findOne({ swap_id, rater_id })] *)
Definition by_swap_rater (sw u : oid) (d : Rating) : bool :=
  (swap_id d =? sw) && (rater_id d =? u).

Definition Rating_findOne (sw u : oid) : io (option Rating) :=
  fun s => (inr (find (by_swap_rater sw u) (ratings s)), s).

Definition Rating_create (sw rater rated : oid) (score : Z) (fb : option string) : io unit :=
  fun s =>
    let d := mkRating (next_id s) sw rater rated score fb in
    if validate_rating d then (inr tt, bump (set_ratings s (ratings s ++ [d])))
    else (inl MongooseValidationError, s).

(** [new UserSkillOffered({..}).save()]: the schema's validators, then the
    insert, which the unique index on [(user_id, skill_id)] refuses when
    another add has stored the pair since the handler looked. *)
Definition UserSkillOffered_save_new (u sk : oid) (descr level : string) : io unit :=
  fun s =>
    let d := mkUserSkill (next_id s) u sk descr level in
    if validate_offered d then
      if existsb (by_user_skill u sk) (offered s) then (inl MongoError, s)
      else (inr tt, bump (set_offered s (offered s ++ [d])))
    else (inl MongooseValidationError, s).

(** [UserSkillOffered.findOneAndDelete({ _id, user_id })] *)
Definition by_id_user (i u : oid) (d : UserSkill) : bool :=
  (us__id d =? i) && (us_user_id d =? u).

Definition UserSkillOffered_findOneAndDelete (i u : oid) : io (option UserSkill) :=
  fun s => match find (by_id_user i u) (offered s) with
           | None => (inr None, s)
           | Some d => (inr (Some d), set_offered s (delete_first (by_id_user i u) (offered s)))
           end.

Definition with_is_banned (u : User) (b : bool) : User :=
  mkUser (user__id u) (user_name u) (user_location u) (is_public u) (is_admin u) b.

(** [User.findByIdAndUpdate(userId, { is_banned }, { new: true })] *)
Definition User_findByIdAndUpdate_ban (i : oid) (b : bool) : io (option User) :=
  fun s => match findById user__id i (users s) with
           | None => (inr None, s)
           | Some u => (inr (Some (with_is_banned u b)),
                        set_users s (replace_by_id user__id (with_is_banned u b) (users s)))
           end.

Definition with_status (d : SwapRequest) (st : string) : SwapRequest :=
  mkSwap (swap__id d) (requester_id d) (recipient_id d) (offered_skill_id d)
         (requested_skill_id d) st (message d).

(* ------------------------------------------------------------------ *)
(** ** Middleware ([middleware/auth.js]) *)

(** [authenticateToken] puts the token's claims in [req.user]; a handler
    below receives them as its caller. *)

Definition auth_scope : scope :=
  ["jwt"; "User"; "JWT_SECRET"; "authenticateToken"; "requireAdmin";
   "checkNotBanned"; "checkUserExists"].

Definition checkNotBanned (userId : oid) (next : handler) : handler :=
  fun s =>
    match on auth_scope "User" (User_findById userId) s with
    | (inl _, s') => (Fail ServerError, s')
    | (inr None, s') => (Fail NotFound, s')
    | (inr (Some user), s') =>
        if is_banned user then (Fail BannedActor, s') else next s'
    end.

Definition requireAdmin (token_is_admin : bool) (next : handler) : handler :=
  fun s => if negb token_is_admin then (Fail AdminRequired, s) else next s.

(* ------------------------------------------------------------------ *)
(** ** Swap routes ([Routes/swaps.js]) *)

(** Request bodies after the express-validator chain has run: a field that
    is absent or that its validator rejects ([isMongoId], [isInt]) reads
    [None], and [validationResult(req)] is non-empty exactly then.  The
    handler compares [recipientId] as the text it was sent before any query
    casts it; the two skill identifiers are only ever cast, and are kept as
    the ObjectIds they spell. *)
Record create_body := mkCreateBody {
  recipientId : option string;
  offeredSkillId : option oid;
  requestedSkillId : option oid;
  create_message : option string
}.

Record rate_body := mkRateBody {
  body_rating : option Z;
  body_feedback : option string
}.

(** [body('rating').isInt({ min: 1, max: 5 })] *)
Definition isInt_1_5 (v : option Z) : option Z :=
  match v with
  | Some z => if ((1 <=? z) && (z <=? 5))%Z then Some z else None
  | None => None
  end.

Section SwapRoutes.

(** The bindings of the module the handlers are written in. *)
Variable sc : scope.

(** [POST /swaps] *)
Definition create_swap (requesterId : oid) (b : create_body) : handler :=
  try_catch
    match recipientId b, offeredSkillId b, requestedSkillId b with
    | Some recipientId, Some offeredSkillId, Some requestedSkillId =>
        if (ObjectId_toString requesterId =? recipientId)%string
        then ret (Fail SelfSwap) else
        let* recipient := on sc "User" (casting recipientId User_findById) in
        match recipient with
        | None => ret (Fail RecipientNotFound)
        | Some recipient =>
        if is_banned recipient then ret (Fail RecipientBanned) else
        let* offeredSkill :=
          on sc "UserSkillOffered" (UserSkillOffered_findOne requesterId offeredSkillId) in
        match offeredSkill with
        | None => ret (Fail OfferedSkillNotOwned)
        | Some _ =>
        let* requestedSkill :=
          on sc "UserSkillOffered"
             (casting recipientId (fun user_id =>
                UserSkillOffered_findOne user_id requestedSkillId)) in
        match requestedSkill with
        | None => ret (Fail RequestedSkillNotOffered)
        | Some _ =>
        let* existing :=
          on sc "SwapRequest"
             (casting recipientId (SwapRequest_findOne_pending requesterId)) in
        match existing with
        | Some _ => ret (Fail DuplicatePendingRequest)
        | None =>
        let* swapRequest :=
          on sc "SwapRequest"
             (casting recipientId (fun recipient_id =>
                SwapRequest_create requesterId recipient_id offeredSkillId
                                   requestedSkillId (create_message b))) in
        ret (Created (swap__id swapRequest))
        end end end end
    | _, _, _ => ret (Fail ValidationError)
    end.

(** [PUT /swaps/:swapId/accept] *)
Definition accept_swap (userId swapId : oid) : handler :=
  try_catch
    (let* swap := on sc "SwapRequest" (SwapRequest_findById swapId) in
     match swap with
     | None => ret (Fail NotFound)
     | Some swap =>
         if negb (recipient_id swap =? userId) then ret (Fail Forbidden) else
         if negb (status swap =? "pending")%string then ret (Fail InvalidTransition) else
         SwapRequest_save (with_status swap "accepted") ;;
         ret (Done 200)
     end).

(** [PUT /swaps/:swapId/reject] *)
Definition reject_swap (userId swapId : oid) : handler :=
  try_catch
    (let* swap := on sc "SwapRequest" (SwapRequest_findById swapId) in
     match swap with
     | None => ret (Fail NotFound)
     | Some swap =>
         if negb (recipient_id swap =? userId) then ret (Fail Forbidden) else
         if negb (status swap =? "pending")%string then ret (Fail InvalidTransition) else
         SwapRequest_save (with_status swap "rejected") ;;
         ret (Done 200)
     end).

(** [PUT /swaps/:swapId/cancel]: the status is set and the document saved. *)
Definition cancel_swap (userId swapId : oid) : handler :=
  try_catch
    (let* swap := on sc "SwapRequest" (SwapRequest_findById swapId) in
     match swap with
     | None => ret (Fail NotFound)
     | Some swap =>
         if negb (requester_id swap =? userId) then ret (Fail Forbidden) else
         if negb (status swap =? "pending")%string then ret (Fail InvalidTransition) else
         SwapRequest_save (with_status swap "cancelled") ;;
         ret (Done 200)
     end).

(** [DELETE /swaps/:swapId]: the document is deleted. *)
Definition delete_swap (userId swapId : oid) : handler :=
  try_catch
    (let* swap := on sc "SwapRequest" (SwapRequest_findById swapId) in
     match swap with
     | None => ret (Fail NotFound)
     | Some swap =>
         if negb (requester_id swap =? userId) then ret (Fail Forbidden) else
         if negb (status swap =? "pending")%string then ret (Fail InvalidTransition) else
         on sc "SwapRequest" (SwapRequest_findByIdAndDelete swapId) ;;
         ret (Done 200)
     end).

(** [POST /swaps/:swapId/rate] *)
Definition rate_swap (userId swapId : oid) (b : rate_body) : handler :=
  try_catch
    match isInt_1_5 (body_rating b) with
    | None => ret (Fail ValidationError)
    | Some rating =>
        let* swap := on sc "SwapRequest" (SwapRequest_findById swapId) in
        match swap with
        | None => ret (Fail NotFound)
        | Some swap =>
        if negb (status swap =? "accepted")%string then ret (Fail InvalidState) else
        match (if requester_id swap =? userId then Some (recipient_id swap)
               else if recipient_id swap =? userId then Some (requester_id swap)
               else None) with
        | None => ret (Fail Forbidden)
        | Some ratedUserId =>
        let* existingRating := on sc "Rating" (Rating_findOne swapId userId) in
        match existingRating with
        | Some _ => ret (Fail DuplicateRating)
        | None =>
        on sc "Rating" (Rating_create swapId userId ratedUserId rating (body_feedback b)) ;;
        ret (Done 201)
        end end end
    end.

End SwapRoutes.

(** [server/Routes/swaps.js], first generation:
    [const { SwapRequest, User, UserSkillOffered } = require('../database/init')]. *)
Module Server.
Definition bindings : scope :=
  ["express"; "body"; "validationResult"; "authenticateToken"; "checkNotBanned";
   "SwapRequest"; "User"; "UserSkillOffered"; "router"].

Definition create_swap := create_swap bindings.
Definition accept_swap := accept_swap bindings.
Definition reject_swap := reject_swap bindings.
Definition cancel_swap := cancel_swap bindings.
Definition rate_swap := rate_swap bindings.
End Server.

(** Second generation: each model is required from its own file,
    [Rating] among them; cancel is the [DELETE] route. *)
Module Backend.
Definition bindings : scope :=
  ["express"; "body"; "validationResult"; "authenticateToken"; "checkNotBanned";
   "SwapRequest"; "User"; "UserSkillOffered"; "Rating"; "router"].

Definition create_swap := create_swap bindings.
Definition accept_swap := accept_swap bindings.
Definition reject_swap := reject_swap bindings.
Definition delete_swap := delete_swap bindings.
Definition rate_swap := rate_swap bindings.
End Backend.

(* ------------------------------------------------------------------ *)
(** ** Skill associations ([/users/me/skills/offered]) *)

Record offered_body := mkOfferedBody {
  skillId : oid;
  description : option string;
  proficiencyLevel : option string
}.

(** [v || d] on a string that may be absent. *)
Definition or_default (v : option string) (d : string) : string :=
  match v with
  | Some x => if (x =? "")%string then d else x
  | None => d
  end.

Module Users.
Definition bindings : scope :=
  ["express"; "router"; "User"; "UserSkillOffered"; "UserSkillWanted"; "Skill"; "auth"].

(** [POST /users/me/skills/offered] *)
Definition add_offered (userId : oid) (b : offered_body) : handler :=
  try_catch
    (let* skill := on bindings "Skill" (Skill_findById (skillId b)) in
     match skill with
     | None => ret (Fail SkillNotFound)
     | Some _ =>
         let* existingSkill :=
           on bindings "UserSkillOffered" (UserSkillOffered_findOne userId (skillId b)) in
         match existingSkill with
         | Some _ => ret (Fail DuplicateAssociation)
         | None =>
             on bindings "UserSkillOffered"
                (UserSkillOffered_save_new userId (skillId b)
                   (or_default (description b) "")
                   (or_default (proficiencyLevel b) "intermediate")) ;;
             ret (Done 201)
         end
     end).

(** [DELETE /users/me/skills/offered/:skillId]: the parameter is matched
    against the association's own [_id]. *)
Definition remove_offered (userId skillId : oid) : handler :=
  try_catch
    (let* result :=
       on bindings "UserSkillOffered" (UserSkillOffered_findOneAndDelete skillId userId) in
     match result with
     | None => ret (Fail NotFound)
     | Some _ => ret (Done 200)
     end).
End Users.

(* ------------------------------------------------------------------ *)
(** ** Admin routes ([Routes/admin.js]) *)

Record stats := mkStats {
  totalUsers : nat;
  bannedUsers : nat;
  totalSwaps : nat;
  acceptedSwaps : nat;
  pendingSwaps : nat;
  totalSkills : nat;
  averageRating : Q
}.

Inductive stats_reply : Type :=
| StatsJson (st : stats)
| StatsFail (e : failure).

Definition countDocuments {D} (p : D -> bool) (l : list D) : nat :=
  List.length (filter p l).

(** [Rating.aggregate([{ $group: { _id: null, average: { $avg: '$rating' } } }])]:
    one group when the collection has documents, none when it is empty. *)
Definition Rating_aggregate_avg : io (list Q) :=
  fun s => (inr match ratings s with
                | [] => []
                | _ :: _ =>
                    [Qmake (fold_right Z.add 0%Z (map rating (ratings s)))
                           (Pos.of_nat (List.length (ratings s)))]
                end, s).

Module Admin.
(** [const { User, SwapRequest, AdminMessage, Rating } = require('../database/init')] *)
Definition bindings : scope :=
  ["express"; "body"; "validationResult"; "authenticateToken"; "requireAdmin";
   "User"; "SwapRequest"; "AdminMessage"; "Rating"; "router"].

(** [PUT /admin/users/:userId/ban]; [isBanned] reads [None] when
    [isBoolean()] rejects it.  [userId] is the parameter of the path, as
    text: it is compared with the admin's own identifier before the update
    casts it. *)
Definition ban_user (adminId : oid) (userId : string) (isBanned : option bool) : handler :=
  try_catch
    match isBanned with
    | None => ret (Fail ValidationError)
    | Some isBanned =>
        if (userId =? ObjectId_toString adminId)%string then ret (Fail SelfBanForbidden) else
        let* user :=
          on bindings "User"
             (casting userId (fun user_id => User_findByIdAndUpdate_ban user_id isBanned)) in
        match user with
        | None => ret (Fail NotFound)
        | Some _ => ret (Done 200)
        end
    end.

(** [GET /admin/stats] *)
Definition get_stats : db -> stats_reply * db :=
  try_catch_with (StatsFail ServerError)
    (let* totalUsers :=
       on bindings "User" (fun s => (inr (countDocuments (fun _ => true) (users s)), s)) in
     let* bannedUsers :=
       on bindings "User" (fun s => (inr (countDocuments is_banned (users s)), s)) in
     let* totalSwaps :=
       on bindings "SwapRequest"
          (fun s => (inr (countDocuments (fun _ => true) (swaps s)), s)) in
     let* acceptedSwaps :=
       on bindings "SwapRequest"
          (fun s => (inr (countDocuments (fun d => (status d =? "accepted")%string) (swaps s)), s)) in
     let* pendingSwaps :=
       on bindings "SwapRequest"
          (fun s => (inr (countDocuments (fun d => (status d =? "pending")%string) (swaps s)), s)) in
     let* totalSkills :=
       on bindings "Skill" (fun s => (inr (countDocuments (fun _ => true) (skills s)), s)) in
     let* ratingStats := on bindings "Rating" Rating_aggregate_avg in
     let averageRating := match ratingStats with
                          | average :: _ => average
                          | [] => Qmake 0 1
                          end in
     ret (StatsJson (mkStats totalUsers bannedUsers totalSwaps acceptedSwaps
                             pendingSwaps totalSkills averageRating))).
End Admin.

(* ------------------------------------------------------------------ *)
(** ** Browsing ([GET /users/browse]) *)

Record browse_query := mkBrowseQuery {
  page : Z;          (* default 1 *)
  limit : Z;         (* default 10 *)
  search : string;   (* default '' *)
  skill : string;    (* default '' *)
  location : string  (* default '' *)
}.

Record skill_view := mkSkillView {
  sv_id : oid;
  sv_name : string;
  sv_category : option string;
  sv_description : string;
  sv_level : string
}.

Record browse_entry := mkBrowseEntry {
  be_user : User;
  offeredSkills : list skill_view;
  wantedSkills : list skill_view
}.

Record pagination := mkPagination {
  pg_page : Z;
  pg_pages : option Z;   (* Math.ceil(total / limit); not a number when limit is 0 *)
  pg_total : nat
}.

Inductive browse_reply : Type :=
| BrowseJson (us : list browse_entry) (pg : pagination)
| BrowseFail (e : failure).

Definition truthy (x : string) : bool := negb (x =? "")%string.

Section Browse.

(** The regular-expression engine: whether a pattern compiles, and whether
    it matches a subject case-insensitively. *)
Variable regex_valid : string -> bool.
Variable regex_test : string -> string -> bool.

Definition regex_field (pattern : string) (field : option string) : bool :=
  match field with
  | Some x => regex_test pattern x
  | None => false
  end.

(** The filter built in [query]: [is_public: true], the [$or] over name
    and location when [search] is given, the location pattern when
    [location] is given. *)
Definition browse_match (q : browse_query) (u : User) : bool :=
  Bool.eqb (is_public u) true
  && (if truthy (search q)
      then regex_test (search q) (user_name u) || regex_field (search q) (user_location u)
      else true)
  && (if truthy (location q) then regex_field (location q) (user_location u) else true).

Definition patterns_valid (q : browse_query) : bool :=
  (if truthy (search q) then regex_valid (search q) else true)
  && (if truthy (location q) then regex_valid (location q) else true).

(** [.skip(skip).limit(parseInt(limit))]: a negative skip is refused by the
    database; a limit of 0 is no limit, a negative one counts as its
    absolute value. *)
Definition paged (skip lim : Z) (l : list User) : thrown + list User :=
  if (skip <? 0)%Z then inl MongoError
  else
    let rest := skipn (Z.to_nat skip) l in
    inr (if (lim =? 0)%Z then rest else firstn (Z.to_nat (Z.abs lim)) rest).

Definition User_find_paged (q : browse_query) : io (list User) :=
  fun s =>
    if patterns_valid q then
      match paged ((page q - 1) * limit q) (limit q) (filter (browse_match q) (users s)) with
      | inl e => (inl e, s)
      | inr l => (inr l, s)
      end
    else (inl MongoError, s).

Definition User_countDocuments (q : browse_query) : io nat :=
  fun s =>
    if patterns_valid q then (inr (countDocuments (browse_match q) (users s)), s)
    else (inl MongoError, s).

(** [.populate({ path: 'user_id', match: { is_public: true } })
     .populate({ path: 'skill_id', match: { name: skillRegex } })]
    and the test [item.user_id && item.skill_id]. *)
Definition item_matches (pattern : string) (s : db) (item : UserSkill) : bool :=
  match findById user__id (us_user_id item) (users s) with
  | Some u =>
      is_public u &&
      match findById skill__id (us_skill_id item) (skills s) with
      | Some k => regex_test pattern (skill_name k)
      | None => false
      end
  | None => false
  end.

Definition matchingUserIds (pattern : string) (s : db) : list oid :=
  map us_user_id (filter (item_matches pattern s) (offered s))
  ++ map us_user_id (filter (item_matches pattern s) (wanted s)).

(** [.populate('skill_id')] followed by the projection of each item;
    reading [item.skill_id.name] on a skill that is gone raises. *)
Fixpoint project_skills (ks : list Skill) (items : list UserSkill) : thrown + list skill_view :=
  match items with
  | [] => inr []
  | item :: rest =>
      match findById skill__id (us_skill_id item) ks with
      | None => inl TypeError
      | Some k =>
          match project_skills ks rest with
          | inl e => inl e
          | inr vs => inr (mkSkillView (us__id item) (skill_name k) (skill_category k)
                                       (us_description item) (us_level item) :: vs)
          end
      end
  end.

Definition with_skills (s : db) (u : User) : thrown + browse_entry :=
  match project_skills (skills s) (filter (fun d => us_user_id d =? user__id u) (offered s)),
        project_skills (skills s) (filter (fun d => us_user_id d =? user__id u) (wanted s)) with
  | inr o, inr w => inr (mkBrowseEntry u o w)
  | inl e, _ => inl e
  | _, inl e => inl e
  end.

Fixpoint all_with_skills (s : db) (us : list User) : thrown + list browse_entry :=
  match us with
  | [] => inr []
  | u :: rest =>
      match with_skills s u, all_with_skills s rest with
      | inr e, inr es => inr (e :: es)
      | inl x, _ => inl x
      | _, inl x => inl x
      end
  end.

Definition ceil_div (a b : Z) : Z := (- ((- a) / b))%Z.

Definition browse (q : browse_query) : db -> browse_reply * db :=
  try_catch_with (BrowseFail ServerError)
    (let* users := User_find_paged q in
     let* total := User_countDocuments q in
     let* filteredUsers :=
       if truthy (skill q) then
         if regex_valid (skill q) then
           fun s => (inr (filter (fun u => existsb (Nat.eqb (user__id u))
                                                   (matchingUserIds (skill q) s)) users), s)
         else throw MongoError
       else ret users in
     let* usersWithSkills :=
       fun s => match all_with_skills s filteredUsers with
                | inl e => (inl e, s)
                | inr es => (inr es, s)
                end in
     ret (BrowseJson usersWithSkills
            (mkPagination (page q)
               (if (limit q =? 0)%Z then None
                else Some (ceil_div (Z.of_nat total) (limit q)))
               total))).

End Browse.

(* ------------------------------------------------------------------ *)
(** ** The service: every writing route behind its middleware *)

Inductive request : Type :=
| CreateSwap (caller : oid) (b : create_body)          (* POST   /swaps *)
| AcceptSwap (caller swapId : oid)                     (* PUT    /swaps/:swapId/accept *)
| RejectSwap (caller swapId : oid)                     (* PUT    /swaps/:swapId/reject *)
| CancelSwap (caller swapId : oid)                     (* PUT    /swaps/:swapId/cancel, first generation *)
| DeleteSwap (caller swapId : oid)                     (* DELETE /swaps/:swapId, second generation *)
| RateSwapServer (caller swapId : oid) (b : rate_body) (* POST   /swaps/:swapId/rate, first generation *)
| RateSwap (caller swapId : oid) (b : rate_body)       (* POST   /swaps/:swapId/rate, second generation *)
| AddOffered (caller : oid) (b : offered_body)         (* POST   /users/me/skills/offered *)
| RemoveOffered (caller assocId : oid)                 (* DELETE /users/me/skills/offered/:skillId *)
| BanUser (caller : oid) (token_is_admin : bool) (userId : string) (isBanned : option bool).
                                                       (* PUT    /admin/users/:userId/ban *)

(** Creation, accept and reject are the same handler in both generations;
    the cancel and the rating of each generation have a request of their
    own. *)
Definition route (r : request) : handler :=
  match r with
  | CreateSwap u b => checkNotBanned u (Backend.create_swap u b)
  | AcceptSwap u i => checkNotBanned u (Backend.accept_swap u i)
  | RejectSwap u i => checkNotBanned u (Backend.reject_swap u i)
  | CancelSwap u i => checkNotBanned u (Server.cancel_swap u i)
  | DeleteSwap u i => checkNotBanned u (Backend.delete_swap u i)
  | RateSwapServer u i b => checkNotBanned u (Server.rate_swap u i b)
  | RateSwap u i b => checkNotBanned u (Backend.rate_swap u i b)
  | AddOffered u b => Users.add_offered u b
  | RemoveOffered u a => Users.remove_offered u a
  | BanUser u adm t v => requireAdmin adm (Admin.ban_user u t v)
  end.

(** Requests served one after the other. *)
Fixpoint serve (rs : list request) (s : db) : list reply * db :=
  match rs with
  | [] => ([], s)
  | r :: rest =>
      let (a, s1) := route r s in
      let (al, s2) := serve rest s1 in
      (a :: al, s2)
  end.

(* ------------------------------------------------------------------ *)
(** ** Requests in flight *)

(** Node runs a handler up to its next [await] and then turns to whichever
    request is ready; the store is all that requests share.  So a handler is
    also given as the sequence of its awaited calls: each call runs on the
    store as it is when its turn comes, and what follows is computed from
    its result. *)
Inductive script (R : Type) : Type :=
| Answer (r : R)
| Await {A : Type} (call : io A) (k : A -> script R).

Arguments Answer {R} r.
Arguments Await {R A} call k.

Notation "'await' x ':=' m 'in' k" := (Await m (fun x => k))
  (at level 10, x name, m at level 100, k at level 200).

(** One turn of a request: the awaited call runs; one that raises lands in
    the [catch] of the handler, which answers [on_error]. *)
Definition step {R} (on_error : R) (p : script R) (s : db) : script R * db :=
  match p with
  | Answer r => (Answer r, s)
  | Await call k =>
      match call s with
      | (inl _, s') => (Answer on_error, s')
      | (inr a, s') => (k a, s')
      end
  end.

(** A request served with nothing else in flight. *)
Fixpoint run {R} (on_error : R) (p : script R) (s : db) : R * db :=
  match p with
  | Answer r => (r, s)
  | Await call k =>
      match call s with
      | (inl _, s') => (on_error, s')
      | (inr a, s') => run on_error (k a) s'
      end
  end.

(** [n] turns of a request that is alone in flight. *)
Fixpoint turns {R} (on_error : R) (n : nat) (p : script R) (s : db) : script R * db :=
  match n with
  | 0 => (p, s)
  | S m => let (p', s') := step on_error p s in turns on_error m p' s'
  end.

Definition checkNotBanned_steps (userId : oid) (next : script reply) : script reply :=
  await user := on auth_scope "User" (User_findById userId) in
  match user with
  | None => Answer (Fail NotFound)
  | Some user => if is_banned user then Answer (Fail BannedActor) else next
  end.

Definition requireAdmin_steps (token_is_admin : bool) (next : script reply) : script reply :=
  if negb token_is_admin then Answer (Fail AdminRequired) else next.

Section SwapRoutesInFlight.

Variable sc : scope.

Definition create_swap_steps (requesterId : oid) (b : create_body) : script reply :=
  match recipientId b, offeredSkillId b, requestedSkillId b with
  | Some recipientId, Some offeredSkillId, Some requestedSkillId =>
      if (ObjectId_toString requesterId =? recipientId)%string
      then Answer (Fail SelfSwap) else
      await recipient := on sc "User" (casting recipientId User_findById) in
      match recipient with
      | None => Answer (Fail RecipientNotFound)
      | Some recipient =>
      if is_banned recipient then Answer (Fail RecipientBanned) else
      await offeredSkill :=
        on sc "UserSkillOffered" (UserSkillOffered_findOne requesterId offeredSkillId) in
      match offeredSkill with
      | None => Answer (Fail OfferedSkillNotOwned)
      | Some _ =>
      await requestedSkill :=
        on sc "UserSkillOffered"
           (casting recipientId (fun user_id =>
              UserSkillOffered_findOne user_id requestedSkillId)) in
      match requestedSkill with
      | None => Answer (Fail RequestedSkillNotOffered)
      | Some _ =>
      await existing :=
        on sc "SwapRequest"
           (casting recipientId (SwapRequest_findOne_pending requesterId)) in
      match existing with
      | Some _ => Answer (Fail DuplicatePendingRequest)
      | None =>
      await swapRequest :=
        on sc "SwapRequest"
           (casting recipientId (fun recipient_id =>
              SwapRequest_create requesterId recipient_id offeredSkillId
                                 requestedSkillId (create_message b))) in
      Answer (Created (swap__id swapRequest))
      end end end end
  | _, _, _ => Answer (Fail ValidationError)
  end.

(** Accept, reject and both cancels: [findById], the two tests, then the
    write of the document as it was read. *)
Definition transition_steps (party : SwapRequest -> oid) (userId swapId : oid)
           (write : SwapRequest -> io unit) : script reply :=
  await swap := on sc "SwapRequest" (SwapRequest_findById swapId) in
  match swap with
  | None => Answer (Fail NotFound)
  | Some swap =>
      if negb (party swap =? userId) then Answer (Fail Forbidden) else
      if negb (status swap =? "pending")%string then Answer (Fail InvalidTransition) else
      await _ := write swap in
      Answer (Done 200)
  end.

Definition accept_swap_steps (userId swapId : oid) : script reply :=
  transition_steps recipient_id userId swapId
    (fun swap => SwapRequest_save (with_status swap "accepted")).

Definition reject_swap_steps (userId swapId : oid) : script reply :=
  transition_steps recipient_id userId swapId
    (fun swap => SwapRequest_save (with_status swap "rejected")).

Definition cancel_swap_steps (userId swapId : oid) : script reply :=
  transition_steps requester_id userId swapId
    (fun swap => SwapRequest_save (with_status swap "cancelled")).

Definition delete_swap_steps (userId swapId : oid) : script reply :=
  transition_steps requester_id userId swapId
    (fun _ => on sc "SwapRequest" (SwapRequest_findByIdAndDelete swapId)).

Definition rate_swap_steps (userId swapId : oid) (b : rate_body) : script reply :=
  match isInt_1_5 (body_rating b) with
  | None => Answer (Fail ValidationError)
  | Some rating =>
      await swap := on sc "SwapRequest" (SwapRequest_findById swapId) in
      match swap with
      | None => Answer (Fail NotFound)
      | Some swap =>
      if negb (status swap =? "accepted")%string then Answer (Fail InvalidState) else
      match (if requester_id swap =? userId then Some (recipient_id swap)
             else if recipient_id swap =? userId then Some (requester_id swap)
             else None) with
      | None => Answer (Fail Forbidden)
      | Some ratedUserId =>
      await existingRating := on sc "Rating" (Rating_findOne swapId userId) in
      match existingRating with
      | Some _ => Answer (Fail DuplicateRating)
      | None =>
      await _ :=
        on sc "Rating" (Rating_create swapId userId ratedUserId rating (body_feedback b)) in
      Answer (Done 201)
      end end end
  end.

End SwapRoutesInFlight.

Definition add_offered_steps (userId : oid) (b : offered_body) : script reply :=
  await skill := on Users.bindings "Skill" (Skill_findById (skillId b)) in
  match skill with
  | None => Answer (Fail SkillNotFound)
  | Some _ =>
      await existingSkill :=
        on Users.bindings "UserSkillOffered" (UserSkillOffered_findOne userId (skillId b)) in
      match existingSkill with
      | Some _ => Answer (Fail DuplicateAssociation)
      | None =>
          await _ :=
            on Users.bindings "UserSkillOffered"
               (UserSkillOffered_save_new userId (skillId b)
                  (or_default (description b) "")
                  (or_default (proficiencyLevel b) "intermediate")) in
          Answer (Done 201)
      end
  end.

Definition remove_offered_steps (userId skillId : oid) : script reply :=
  await result :=
    on Users.bindings "UserSkillOffered" (UserSkillOffered_findOneAndDelete skillId userId) in
  match result with
  | None => Answer (Fail NotFound)
  | Some _ => Answer (Done 200)
  end.

Definition ban_user_steps (adminId : oid) (userId : string) (isBanned : option bool)
  : script reply :=
  match isBanned with
  | None => Answer (Fail ValidationError)
  | Some isBanned =>
      if (userId =? ObjectId_toString adminId)%string then Answer (Fail SelfBanForbidden) else
      await user :=
        on Admin.bindings "User"
           (casting userId (fun user_id => User_findByIdAndUpdate_ban user_id isBanned)) in
      match user with
      | None => Answer (Fail NotFound)
      | Some _ => Answer (Done 200)
      end
  end.

(** [route], await by await. *)
Definition route_steps (r : request) : script reply :=
  match r with
  | CreateSwap u b => checkNotBanned_steps u (create_swap_steps Backend.bindings u b)
  | AcceptSwap u i => checkNotBanned_steps u (accept_swap_steps Backend.bindings u i)
  | RejectSwap u i => checkNotBanned_steps u (reject_swap_steps Backend.bindings u i)
  | CancelSwap u i => checkNotBanned_steps u (cancel_swap_steps Server.bindings u i)
  | DeleteSwap u i => checkNotBanned_steps u (delete_swap_steps Backend.bindings u i)
  | RateSwapServer u i b => checkNotBanned_steps u (rate_swap_steps Server.bindings u i b)
  | RateSwap u i b => checkNotBanned_steps u (rate_swap_steps Backend.bindings u i b)
  | AddOffered u b => add_offered_steps u b
  | RemoveOffered u a => remove_offered_steps u a
  | BanUser u adm t v => requireAdmin_steps adm (ban_user_steps u t v)
  end.

Fixpoint replace_nth {A} (i : nat) (x : A) (l : list A) : list A :=
  match l, i with
  | [], _ => []
  | _ :: rest, 0 => x :: rest
  | y :: rest, S j => y :: replace_nth j x rest
  end.

(** Requests in flight together: [schedule] names, turn by turn, the request
    that goes on to its next await. *)
Fixpoint interleave (schedule : list nat) (pool : list (script reply)) (s : db)
  : list (script reply) * db :=
  match schedule with
  | [] => (pool, s)
  | i :: rest =>
      match nth_error pool i with
      | None => interleave rest pool s
      | Some p =>
          let (p', s') := step (Fail ServerError) p s in
          interleave rest (replace_nth i p' pool) s'
      end
  end.

(** The answers given so far. *)
Definition answered (pool : list (script reply)) : list (option reply) :=
  map (fun p => match p with Answer r => Some r | Await _ _ => None end) pool.

(** The requests of [pool] all begun on [s] and their turns taken as
    [schedule] has them: the answers given by the end, and the store. *)
Definition in_flight (schedule : list nat) (pool : list (script reply)) (s : db)
  : list (option reply) * db :=
  let (pool', s') := interleave schedule pool s in
  (answered pool', s').

(* ------------------------------------------------------------------ *)
(** ** Vocabulary of the properties *)

(** What is left of a rating once its three reads are done: the insert. *)
Definition rating_left (u i rated : oid) (z : Z) (fb : option string) : script reply :=
  await _ := on Backend.bindings "Rating" (Rating_create i u rated z fb) in
  Answer (Done 201).

(** What is left of a creation once its five reads are done: the insert. *)
Definition insert_left (sc : scope) (u : oid) (r : string) (off req : oid)
           (msg : option string) : script reply :=
  await swapRequest :=
    on sc "SwapRequest"
       (casting r (fun recipient_id => SwapRequest_create u recipient_id off req msg)) in
  Answer (Created (swap__id swapRequest)).

(** The guards shared by accept, reject and both cancels: the document must
    exist, the caller must be [party] of it, its status must be pending. *)
Definition guarded (party : SwapRequest -> oid) (userId swapId : oid) (s : db)
           (k : SwapRequest -> reply * db) : reply * db :=
  match findById swap__id swapId (swaps s) with
  | None => (Fail NotFound, s)
  | Some swap =>
      if negb (party swap =? userId) then (Fail Forbidden, s)
      else if negb (status swap =? "pending")%string then (Fail InvalidTransition, s)
      else k swap
  end.

(** The checks of a rating up to the first use of [Rating]. *)
Definition rate_guards (u i : oid) (b : rate_body) (s : db)
           (k : Z -> SwapRequest -> oid -> reply * db) : reply * db :=
  match isInt_1_5 (body_rating b) with
  | None => (Fail ValidationError, s)
  | Some z =>
      match findById swap__id i (swaps s) with
      | None => (Fail NotFound, s)
      | Some swap =>
          if negb (status swap =? "accepted")%string then (Fail InvalidState, s)
          else if requester_id swap =? u then k z swap (recipient_id swap)
          else if recipient_id swap =? u then k z swap (requester_id swap)
          else (Fail Forbidden, s)
      end
  end.

(** How one request may change the collection of swap requests. *)
Inductive effect (s s' : db) : Prop :=
| eff_none :
    swaps s' = swaps s -> next_id s <= next_id s' -> effect s s'
| eff_create (d : SwapRequest) :
    swaps s' = (swaps s ++ [d])%list ->
    swap__id d = next_id s -> next_id s' = S (next_id s) ->
    status d = "pending" ->
    find (pending_between (requester_id d) (recipient_id d)) (swaps s) = None ->
    effect s s'
| eff_settle (sw : SwapRequest) (st : string) :
    findById swap__id (swap__id sw) (swaps s) = Some sw ->
    status sw = "pending" ->
    st = "accepted" \/ st = "rejected" ->
    swaps s' = replace_by_id swap__id (with_status sw st) (swaps s) ->
    next_id s' = next_id s ->
    effect s s'
| eff_delete (i : oid) :
    swaps s' = delete_by_id swap__id i (swaps s) ->
    next_id s' = next_id s ->
    effect s s'.

(** How one request may change the collection of ratings. *)
Inductive rating_effect (s s' : db) : Prop :=
| reff_none :
    ratings s' = ratings s -> rating_effect s s'
| reff_add (d : Rating) :
    ratings s' = (ratings s ++ [d])%list ->
    find (by_swap_rater (swap_id d) (rater_id d)) (ratings s) = None ->
    rating_effect s s'.

(** Every stored request carries a status of the schema's enum. *)
Definition status_admissible (s : db) : Prop :=
  Forall (fun d => In (status d) swap_status_enum) (swaps s).

(** No stored request has an [_id] the generator has yet to hand out. *)
Definition swap_ids_fresh (s : db) : Prop :=
  Forall (fun d => swap__id d < next_id s) (swaps s).

(** At most one pending request for each ordered pair of users. *)
Definition pending_unique (s : db) : Prop :=
  forall rq rc, countDocuments (pending_between rq rc) (swaps s) <= 1.

(** At most one offered association for each (user, skill) pair. *)
Definition offered_unique (s : db) : Prop :=
  forall u sk, countDocuments (by_user_skill u sk) (offered s) <= 1.

(** At most one rating for each (swap, rater) pair. *)
Definition rating_unique (s : db) : Prop :=
  forall sw u, countDocuments (by_swap_rater sw u) (ratings s) <= 1.

(** The requests that try to move swap [i] out of pending. *)
Definition transition_on (i : oid) (r : request) : bool :=
  match r with
  | AcceptSwap _ j | RejectSwap _ j | CancelSwap _ j | DeleteSwap _ j => j =? i
  | _ => false
  end.

(** How many of them succeed while [rs] is served from [s]. *)
Fixpoint successes (i : oid) (rs : list request) (s : db) : nat :=
  match rs with
  | [] => 0
  | r :: rest =>
      let (a, s1) := route r s in
      (if transition_on i r && succeeded a then 1 else 0) + successes i rest s1
  end.

(** The six validations of a creation, each with its failure, in the order
    the spec lists them; every test is stated on its own. *)
Definition creation_checks (s : db) (requester : oid) (recipientId : string)
           (recipient offeredSkill requestedSkill : oid)
  : list (bool * failure) :=
  [ ((ObjectId_toString requester =? recipientId)%string, SelfSwap);
    (match findById user__id recipient (users s) with None => true | Some _ => false end,
     RecipientNotFound);
    (match findById user__id recipient (users s) with None => false | Some u => is_banned u end,
     RecipientBanned);
    (negb (existsb (by_user_skill requester offeredSkill) (offered s)), OfferedSkillNotOwned);
    (negb (existsb (by_user_skill recipient requestedSkill) (offered s)),
     RequestedSkillNotOffered);
    (existsb (pending_between requester recipient) (swaps s), DuplicatePendingRequest) ].

Fixpoint first_failure (checks : list (bool * failure)) : option failure :=
  match checks with
  | [] => None
  | (true, e) :: _ => Some e
  | (false, _) :: rest => first_failure rest
  end.

(** Swap [i] is settled in [s]: whatever is stored under that [_id] has left
    pending, and the generator is past it. *)
Definition settled (i : oid) (s : db) : Prop :=
  (forall d, In d (swaps s) -> swap__id d = i -> status d <> "pending") /\ i < next_id s.

(** The two modules that define the swap routes. *)
Definition generations : list scope := [Server.bindings; Backend.bindings].

(* ------------------------------------------------------------------ *)
(** ** A small population *)

Module Sample.
Definition alice : User := mkUser 1 "Alice" (Some "Paris") true false false.
Definition bob : User := mkUser 2 "Bob" (Some "Berlin") true false false.
Definition carol : User := mkUser 3 "Carol" None true false false.
(** Dave keeps his profile private. *)
Definition dave : User := mkUser 4 "Dave" (Some "Paris") false false false.

Definition python : Skill := mkSkill 10 "Python" (Some "Programming").
Definition guitar : Skill := mkSkill 11 "Guitar" (Some "Music").
Definition cooking : Skill := mkSkill 12 "Cooking" (Some "Lifestyle").

Definition alice_python : UserSkill := mkUserSkill 20 1 10 "" "intermediate".
Definition bob_guitar : UserSkill := mkUserSkill 21 2 11 "" "advanced".
Definition dave_python : UserSkill := mkUserSkill 22 4 10 "" "beginner".

(** Alice offers Python, Bob offers Guitar; nobody has asked for anything. *)
Definition db0 : db :=
  mkDb [alice; bob; carol; dave] [python; guitar; cooking]
       [alice_python; bob_guitar; dave_python] [] [] [] 100.

(** The identifiers of Alice and Bob, as their tokens carry them. *)
Definition alice_id : string := "000000000000000000000001".
Definition bob_id : string := "000000000000000000000002".

Definition python_for_guitar : create_body :=
  mkCreateBody (Some bob_id) (Some 10) (Some 11) None.

Definition request100 (st : string) : SwapRequest := mkSwap 100 1 2 10 11 st None.

(** Alice has asked Bob: Python for Guitar. *)
Definition db_pending : db :=
  mkDb (users db0) (skills db0) (offered db0) [] [request100 "pending"] [] 101.

(** Bob has accepted. *)
Definition db_accepted : db :=
  mkDb (users db0) (skills db0) (offered db0) [] [request100 "accepted"] [] 101.

Definition five_stars : rate_body := mkRateBody (Some 5%Z) None.

(** What can still be tried on request 100 once it exists. *)
Definition attempts : list request :=
  [ CancelSwap 1 100; AcceptSwap 3 100; AcceptSwap 2 100;
    RejectSwap 2 100; DeleteSwap 1 100; AcceptSwap 2 100 ].

(** Bob asks Alice in turn, Guitar for Python, and then all of the above. *)
Definition guitar_for_python : create_body :=
  mkCreateBody (Some alice_id) (Some 11) (Some 10) None.

Definition busy_day : list request := CreateSwap 2 guitar_for_python :: attempts.

(** Alice asks Bob again, this time offering Cooking, which she does not
    offer. *)
Definition cooking_for_guitar : create_body :=
  mkCreateBody (Some bob_id) (Some 12) (Some 11) None.

(** A pattern matches every subject that contains it, letter case
    ignored by folding both to upper case. *)
Definition upcase (c : Ascii.ascii) : Ascii.ascii :=
  let n := Ascii.nat_of_ascii c in
  if (97 <=? n) && (n <=? 122) then Ascii.ascii_of_nat (n - 32) else c.

Fixpoint upper (x : string) : string :=
  match x with
  | EmptyString => EmptyString
  | String c r => String (upcase c) (upper r)
  end.

Fixpoint contains (fuel : nat) (pattern subject : string) : bool :=
  String.prefix pattern subject
  || match fuel, subject with
     | S n, String _ r => contains n pattern r
     | _, _ => false
     end.

Definition regex_test (pattern subject : string) : bool :=
  contains (String.length subject) (upper pattern) (upper subject).

Definition regex_valid (pattern : string) : bool := true.

(** Everyone in Paris who has to do with Python. *)
Definition paris_python : browse_query := mkBrowseQuery 1 10 "paris" "python" "".

Definition expert_cooking : offered_body := mkOfferedBody 12 None (Some "advanced").
End Sample.

(* ================================================================== *)
(** * The rest of the routes, and what the store keeps *)

(** ** One request, one change *)

(** Everything a request served by [route] can do to the store. *)
Inductive change (s s' : db) : Prop :=
| ch_none :
    s' = s -> change s s'
| ch_create (requester : User) (recipient : User) (u rc off req : oid) (msg : option string) :
    findById user__id u (users s) = Some requester -> is_banned requester = false ->
    findById user__id rc (users s) = Some recipient -> is_banned recipient = false ->
    existsb (by_user_skill u off) (offered s) = true ->
    existsb (by_user_skill rc req) (offered s) = true ->
    existsb (pending_between u rc) (swaps s) = false ->
    s' = bump (set_swaps s (swaps s ++ [mkSwap (next_id s) u rc off req "pending" msg])) ->
    change s s'
| ch_settle (sw : SwapRequest) (st : string) :
    findById swap__id (swap__id sw) (swaps s) = Some sw ->
    status sw = "pending" ->
    st = "accepted" \/ st = "rejected" ->
    s' = set_swaps s (replace_by_id swap__id (with_status sw st) (swaps s)) ->
    change s s'
| ch_delete (sw : SwapRequest) :
    findById swap__id (swap__id sw) (swaps s) = Some sw ->
    status sw = "pending" ->
    s' = set_swaps s (delete_by_id swap__id (swap__id sw) (swaps s)) ->
    change s s'
| ch_rate (sw : SwapRequest) (u rated : oid) (z : Z) (fb : option string) :
    findById swap__id (swap__id sw) (swaps s) = Some sw ->
    status sw = "accepted" ->
    (requester_id sw = u /\ rated = recipient_id sw)
    \/ (recipient_id sw = u /\ rated = requester_id sw) ->
    (1 <= z <= 5)%Z ->
    find (by_swap_rater (swap__id sw) u) (ratings s) = None ->
    s' = bump (set_ratings s (ratings s ++ [mkRating (next_id s) (swap__id sw) u rated z fb])) ->
    change s s'
| ch_add_offered (u sk : oid) (descr level : string) :
    findById skill__id sk (skills s) <> None ->
    find (by_user_skill u sk) (offered s) = None ->
    mem_string level proficiency_enum = true ->
    s' = bump (set_offered s (offered s ++ [mkUserSkill (next_id s) u sk descr level])) ->
    change s s'
| ch_remove_offered (a u : oid) (d : UserSkill) :
    find (by_id_user a u) (offered s) = Some d ->
    s' = set_offered s (delete_first (by_id_user a u) (offered s)) ->
    change s s'
| ch_ban (t : oid) (b : bool) (usr : User) :
    findById user__id t (users s) = Some usr ->
    s' = set_users s (replace_by_id user__id (with_is_banned usr b) (users s)) ->
    change s s'.

(** ** Well-formed stores *)

(** No two stored requests share an [_id]. *)
Definition request_ids_unique (s : db) : Prop := NoDup (map swap__id (swaps s)).

(** No stored request is from a user to themselves. *)
Definition parties_distinct (s : db) : Prop :=
  Forall (fun d => requester_id d <> recipient_id d) (swaps s).

(** A user with the ban flag left out. *)
Definition unflagged (u : User) : User := with_is_banned u false.



(** ** Contracts *)

(** What it is for a handler [h] to move request [i] to status [st] on behalf
    of its [party]: it succeeds exactly on a stored, pending request whose
    party the caller is; it then rewrites the status of that request and
    nothing else; and when it fails it writes nothing. *)
Definition transition_contract (h : handler) (party : SwapRequest -> oid)
           (u i : oid) (st : string) (s : db) : Prop :=
  (succeeded (fst (h s)) = true <->
   exists swap, findById swap__id i (swaps s) = Some swap
                /\ party swap = u /\ status swap = "pending")
  /\ (succeeded (fst (h s)) = true ->
      (forall swap, findById swap__id i (swaps s) = Some swap ->
                    findById swap__id i (swaps (snd (h s))) = Some (with_status swap st))
      /\ (forall j, j <> i ->
                    findById swap__id j (swaps (snd (h s))) = findById swap__id j (swaps s))
      /\ snd (h s) = set_swaps s (swaps (snd (h s))))
  /\ (succeeded (fst (h s)) = false -> snd (h s) = s).

(** The same contract behind [checkNotBanned]: a caller who is not stored or
    who is banned is refused before the handler runs; for a caller in good
    standing the route is the handler; and only such a caller succeeds. *)
Definition served_contract (next : handler) (party : SwapRequest -> oid)
           (u i : oid) (st : string) (s : db) : Prop :=
  let h := checkNotBanned u next in
  (findById user__id u (users s) = None -> h s = (Fail NotFound, s))
  /\ (forall caller, findById user__id u (users s) = Some caller ->
        is_banned caller = true -> h s = (Fail BannedActor, s))
  /\ (forall caller, findById user__id u (users s) = Some caller ->
        is_banned caller = false ->
        h s = next s /\ transition_contract next party u i st s)
  /\ (succeeded (fst (h s)) = true ->
      exists caller, findById user__id u (users s) = Some caller
                     /\ is_banned caller = false).

(** The caller a swap route checks against the ban list. *)
Definition swap_caller (r : request) : option oid :=
  match r with
  | CreateSwap u _ | AcceptSwap u _ | RejectSwap u _ | CancelSwap u _ | DeleteSwap u _
  | RateSwapServer u _ _ | RateSwap u _ _ => Some u
  | AddOffered _ _ | RemoveOffered _ _ | BanUser _ _ _ _ => None
  end.

(** The associations of everyone but [u]. *)
Definition others_offered (u : oid) (s : db) : list UserSkill :=
  filter (fun d => negb (us_user_id d =? u)) (offered s).

(* ------------------------------------------------------------------ *)
(** ** Wanted skills, own skills and public profiles ([Routes/users.js]) *)

(** [userWantedSkillSchema.priority_level]: [enum: ['low', 'medium', 'high']],
    [default: 'medium']. *)
Definition priority_enum : list string := ["low"; "medium"; "high"].

Definition validate_wanted (d : UserSkill) : bool :=
  mem_string (us_level d) priority_enum.

Definition set_wanted (s : db) (l : list UserSkill) : db :=
  mkDb (users s) (skills s) (offered s) l (swaps s) (ratings s) (next_id s).

(** [UserSkillWanted.findOne({ user_id, skill_id })] *)
Definition UserSkillWanted_findOne (u sk : oid) : io (option UserSkill) :=
  fun s => (inr (find (by_user_skill u sk) (wanted s)), s).

(** [new UserSkillWanted({..}).save()] *)
Definition UserSkillWanted_save_new (u sk : oid) (descr level : string) : io unit :=
  fun s =>
    let d := mkUserSkill (next_id s) u sk descr level in
    if validate_wanted d then (inr tt, bump (set_wanted s (wanted s ++ [d])))
    else (inl MongooseValidationError, s).

(** [UserSkillWanted.findOneAndDelete({ _id, user_id })] *)
Definition UserSkillWanted_findOneAndDelete (i u : oid) : io (option UserSkill) :=
  fun s => match find (by_id_user i u) (wanted s) with
           | None => (inr None, s)
           | Some d => (inr (Some d), set_wanted s (delete_first (by_id_user i u) (wanted s)))
           end.

(** [Model.find({ user_id })] *)
Definition of_user (u : oid) (d : UserSkill) : bool := us_user_id d =? u.

Definition UserSkillOffered_find (u : oid) : io (list UserSkill) :=
  fun s => (inr (filter (of_user u) (offered s)), s).

Definition UserSkillWanted_find (u : oid) : io (list UserSkill) :=
  fun s => (inr (filter (of_user u) (wanted s)), s).

(** [.populate('skill_id')] and the [items.map(item => ({ .. item.skill_id.name .. }))]
    that follows. *)
Definition populate_skills (items : list UserSkill) : io (list skill_view) :=
  fun s => match project_skills (skills s) items with
           | inl e => (inl e, s)
           | inr vs => (inr vs, s)
           end.

Record wanted_body := mkWantedBody {
  wb_skillId : oid;
  wb_description : option string;
  priorityLevel : option string
}.

Inductive skills_reply : Type :=
| SkillsJson (offeredSkills wantedSkills : list skill_view)
| SkillsFail (e : failure).

Inductive profile_reply : Type :=
| ProfileJson (user : browse_entry)
| ProfileFail (e : failure).

Module Profiles.
(** [GET /users/me/skills] *)
Definition me_skills (userId : oid) : db -> skills_reply * db :=
  try_catch_with (SkillsFail ServerError)
    (let* offeredSkills := on Users.bindings "UserSkillOffered" (UserSkillOffered_find userId) in
     let* wantedSkills := on Users.bindings "UserSkillWanted" (UserSkillWanted_find userId) in
     let* offeredViews := populate_skills offeredSkills in
     let* wantedViews := populate_skills wantedSkills in
     ret (SkillsJson offeredViews wantedViews)).

(** [POST /users/me/skills/wanted] *)
Definition add_wanted (userId : oid) (b : wanted_body) : handler :=
  try_catch
    (let* skill := on Users.bindings "Skill" (Skill_findById (wb_skillId b)) in
     match skill with
     | None => ret (Fail SkillNotFound)
     | Some _ =>
         let* existingSkill :=
           on Users.bindings "UserSkillWanted" (UserSkillWanted_findOne userId (wb_skillId b)) in
         match existingSkill with
         | Some _ => ret (Fail DuplicateAssociation)
         | None =>
             on Users.bindings "UserSkillWanted"
                (UserSkillWanted_save_new userId (wb_skillId b)
                   (or_default (wb_description b) "")
                   (or_default (priorityLevel b) "medium")) ;;
             ret (Done 201)
         end
     end).

(** [DELETE /users/me/skills/wanted/:skillId] *)
Definition remove_wanted (userId skillId : oid) : handler :=
  try_catch
    (let* result :=
       on Users.bindings "UserSkillWanted" (UserSkillWanted_findOneAndDelete skillId userId) in
     match result with
     | None => ret (Fail NotFound)
     | Some _ => ret (Done 200)
     end).

(** [GET /users/:userId] *)
Definition get_user (userId : oid) : db -> profile_reply * db :=
  try_catch_with (ProfileFail ServerError)
    (let* user := on Users.bindings "User" (User_findById userId) in
     match user with
     | None => ret (ProfileFail NotFound)
     | Some user =>
         if negb (is_public user) then ret (ProfileFail NotFound) else
         let* offeredSkills :=
           on Users.bindings "UserSkillOffered" (UserSkillOffered_find (user__id user)) in
         let* wantedSkills :=
           on Users.bindings "UserSkillWanted" (UserSkillWanted_find (user__id user)) in
         let* offeredViews := populate_skills offeredSkills in
         let* wantedViews := populate_skills wantedSkills in
         ret (ProfileJson (mkBrowseEntry user offeredViews wantedViews))
     end).
End Profiles.

(* ------------------------------------------------------------------ *)
(** ** Listings of swap requests ([GET /swaps/my-requests], [GET /admin/swaps]) *)

(** The middleware again, in front of a handler whose reply is of another
    shape; [deny] builds the refusal. *)
Definition checkNotBanned_as {R} (deny : failure -> R) (userId : oid)
           (next : db -> R * db) : db -> R * db :=
  fun s =>
    match on auth_scope "User" (User_findById userId) s with
    | (inl _, s') => (deny ServerError, s')
    | (inr None, s') => (deny NotFound, s')
    | (inr (Some user), s') =>
        if is_banned user then (deny BannedActor, s') else next s'
    end.

Definition requireAdmin_as {S R} (deny : failure -> R) (token_is_admin : bool)
           (next : S -> R * S) : S -> R * S :=
  fun s => if negb token_is_admin then (deny AdminRequired, s) else next s.

(** [req.query] of the listings: [status] and [type] as sent, [page] and
    [limit] once read as numbers. *)
Record requests_query := mkRequestsQuery {
  rq_status : option string;
  rq_type : option string;     (* default 'all' *)
  rq_page : Z;                 (* default 1 *)
  rq_limit : Z                 (* default 10, 20 for the admin *)
}.

Record request_view := mkRequestView {
  rv_id : oid;
  rv_status : string;
  rv_message : option string;
  rv_requester_id : oid;
  rv_recipient_id : oid;
  requester_name : string;
  recipient_name : string;
  offered_skill_name : string;
  requested_skill_name : string
}.

Record page_info := mkPageInfo {
  pi_page : Z;
  pi_limit : Z;
  pi_total : nat;
  pi_pages : option Z          (* Math.ceil(total / limit); not a number when limit is 0 *)
}.

Inductive requests_reply : Type :=
| RequestsJson (requests : list request_view) (pg : option page_info)
| RequestsFail (e : failure).

(** [if (status) query.status = status] *)
Definition status_filter (q : requests_query) (d : SwapRequest) : bool :=
  match rq_status q with
  | Some st => if truthy st then (status d =? st)%string else true
  | None => true
  end.

(** The [query] of [/my-requests]. *)
Definition my_requests_query (userId : oid) (q : requests_query) (d : SwapRequest) : bool :=
  let type := match rq_type q with Some t => t | None => "all" end in
  (if (type =? "sent")%string then requester_id d =? userId
   else if (type =? "received")%string then recipient_id d =? userId
   else (requester_id d =? userId) || (recipient_id d =? userId))
  && status_filter q d.

(** [.sort({ created_at: -1 })]: documents are stored in the order of their
    creation, and an update keeps a document's place. *)
Definition sort_created_desc {D} (l : list D) : list D := rev l.

(** [.skip(skip).limit(n)] on any collection. *)
Definition skip_limit {D} (skip lim : Z) (l : list D) : thrown + list D :=
  if (skip <? 0)%Z then inl MongoError
  else
    let rest := skipn (Z.to_nat skip) l in
    inr (if (lim =? 0)%Z then rest else firstn (Z.to_nat (Z.abs lim)) rest).

(** The four [.populate(.., 'name')] and the [map] that reads [_id] and
    [name] off each populated reference: a reference that resolves to
    nothing is [null], and reading a property of it raises. *)
Definition populate_request (s : db) (d : SwapRequest) : thrown + request_view :=
  match findById user__id (requester_id d) (users s),
        findById user__id (recipient_id d) (users s),
        findById skill__id (offered_skill_id d) (skills s),
        findById skill__id (requested_skill_id d) (skills s) with
  | Some rq, Some rc, Some off, Some req =>
      inr (mkRequestView (swap__id d) (status d) (message d) (user__id rq) (user__id rc)
                         (user_name rq) (user_name rc) (skill_name off) (skill_name req))
  | _, _, _, _ => inl TypeError
  end.

Fixpoint transformedRequests (s : db) (l : list SwapRequest) : thrown + list request_view :=
  match l with
  | [] => inr []
  | d :: rest =>
      match populate_request s d, transformedRequests s rest with
      | inr v, inr vs => inr (v :: vs)
      | inl e, _ => inl e
      | _, inl e => inl e
      end
  end.

Definition SwapRequest_find (p : SwapRequest -> bool) : io (list SwapRequest) :=
  fun s => (inr (sort_created_desc (filter p (swaps s))), s).

Definition SwapRequest_find_paged (p : SwapRequest -> bool) (skip lim : Z)
  : io (list SwapRequest) :=
  fun s => match skip_limit skip lim (sort_created_desc (filter p (swaps s))) with
           | inl e => (inl e, s)
           | inr l => (inr l, s)
           end.

Definition SwapRequest_countDocuments (p : SwapRequest -> bool) : io nat :=
  fun s => (inr (countDocuments p (swaps s)), s).

Definition transform (l : list SwapRequest) : io (list request_view) :=
  fun s => match transformedRequests s l with
           | inl e => (inl e, s)
           | inr vs => (inr vs, s)
           end.

(** The entries of the admin's listing carry the names only. *)
Record swap_view := mkSwapView {
  sw_id : oid;
  sw_status : string;
  sw_message : option string;
  sw_requester_name : string;
  sw_recipient_name : string;
  sw_offered_skill_name : string;
  sw_requested_skill_name : string
}.

Inductive swaps_reply : Type :=
| SwapsJson (swaps : list swap_view) (pg : page_info)
| SwapsFail (e : failure).

Definition populate_swap (s : db) (d : SwapRequest) : thrown + swap_view :=
  match findById user__id (requester_id d) (users s),
        findById user__id (recipient_id d) (users s),
        findById skill__id (offered_skill_id d) (skills s),
        findById skill__id (requested_skill_id d) (skills s) with
  | Some rq, Some rc, Some off, Some req =>
      inr (mkSwapView (swap__id d) (status d) (message d)
                      (user_name rq) (user_name rc) (skill_name off) (skill_name req))
  | _, _, _, _ => inl TypeError
  end.

Fixpoint transformedSwaps (s : db) (l : list SwapRequest) : thrown + list swap_view :=
  match l with
  | [] => inr []
  | d :: rest =>
      match populate_swap s d, transformedSwaps s rest with
      | inr v, inr vs => inr (v :: vs)
      | inl e, _ => inl e
      | _, inl e => inl e
      end
  end.

Definition pagination_of (q : requests_query) (total : nat) : page_info :=
  mkPageInfo (rq_page q) (rq_limit q) total
             (if (rq_limit q =? 0)%Z then None
              else Some (ceil_div (Z.of_nat total) (rq_limit q))).

Module Listing.
(** [GET /swaps/my-requests], first generation. *)
Definition my_requests (sc : scope) (userId : oid) (q : requests_query)
  : db -> requests_reply * db :=
  try_catch_with (RequestsFail ServerError)
    (let* requests := on sc "SwapRequest" (SwapRequest_find (my_requests_query userId q)) in
     let* transformed := transform requests in
     ret (RequestsJson transformed None)).

(** [GET /swaps/my-requests], second generation: one page of them. *)
Definition my_requests_paged (sc : scope) (userId : oid) (q : requests_query)
  : db -> requests_reply * db :=
  try_catch_with (RequestsFail ServerError)
    (let skip := ((rq_page q - 1) * rq_limit q)%Z in
     let* requests :=
       on sc "SwapRequest"
          (SwapRequest_find_paged (my_requests_query userId q) skip (rq_limit q)) in
     let* total :=
       on sc "SwapRequest" (SwapRequest_countDocuments (my_requests_query userId q)) in
     let* transformed := transform requests in
     ret (RequestsJson transformed (Some (pagination_of q total)))).

(** [GET /admin/swaps] *)
Definition admin_swaps (q : requests_query) : db -> swaps_reply * db :=
  try_catch_with (SwapsFail ServerError)
    (let skip := ((rq_page q - 1) * rq_limit q)%Z in
     let* swaps :=
       on Admin.bindings "SwapRequest"
          (SwapRequest_find_paged (status_filter q) skip (rq_limit q)) in
     let* total :=
       on Admin.bindings "SwapRequest" (SwapRequest_countDocuments (status_filter q)) in
     let* transformed :=
       fun s => match transformedSwaps s swaps with
                | inl e => (inl e, s)
                | inr vs => (inr vs, s)
                end in
     ret (SwapsJson transformed (pagination_of q total))).
End Listing.

(** The listings behind their middleware. *)
Definition get_my_requests (userId : oid) (q : requests_query) : db -> requests_reply * db :=
  checkNotBanned_as RequestsFail userId (Listing.my_requests Server.bindings userId q).

Definition get_my_requests_paged (userId : oid) (q : requests_query)
  : db -> requests_reply * db :=
  checkNotBanned_as RequestsFail userId (Listing.my_requests_paged Backend.bindings userId q).

Definition get_admin_swaps (token_is_admin : bool) (q : requests_query)
  : db -> swaps_reply * db :=
  requireAdmin_as SwapsFail token_is_admin (Listing.admin_swaps q).

(** Every reference of a request and of an offered association resolves. *)
Definition request_resolves (s : db) (d : SwapRequest) : Prop :=
  findById user__id (requester_id d) (users s) <> None
  /\ findById user__id (recipient_id d) (users s) <> None
  /\ findById skill__id (offered_skill_id d) (skills s) <> None
  /\ findById skill__id (requested_skill_id d) (skills s) <> None.

Definition references_resolve (s : db) : Prop :=
  Forall (request_resolves s) (swaps s)
  /\ Forall (fun a => findById skill__id (us_skill_id a) (skills s) <> None) (offered s).

(** What the admin's listing keeps of an entry. *)
Definition names_only (v : request_view) : swap_view :=
  mkSwapView (rv_id v) (rv_status v) (rv_message v) (requester_name v) (recipient_name v)
             (offered_skill_name v) (requested_skill_name v).

(* ------------------------------------------------------------------ *)
(** ** Accounts ([Routes/auth.js], and its validated generation [routes/auth.js]) *)

(** A user document in full: what the routes above read of it, and the
    fields that only the authentication routes touch. *)
Record Account := mkAccount {
  acc_user : User;
  acc_email : string;
  acc_password : string;
  acc_availability : option string;
  acc_profile_photo : option string
}.

Definition acc_id (a : Account) : oid := user__id (acc_user a).

(** The users collection, the generator of ObjectIds, and the salts that
    bcrypt has still to draw. *)
Record directory := mkDirectory {
  accounts : list Account;
  next_oid : oid;
  next_salt : nat
}.

(** The claims signed into a token; [authenticateToken] hands them to the
    routes as [req.user]. *)
Record token := mkToken {
  tk_id : oid;
  tk_email : option string;
  tk_name : option string;
  tk_is_admin : bool
}.

(** A document read with [.select('-password')]. *)
Record profile_view := mkProfileView {
  pv_user : User;
  pv_email : string;
  pv_availability : option string;
  pv_profile_photo : option string
}.

Definition without_password (a : Account) : profile_view :=
  mkProfileView (acc_user a) (acc_email a) (acc_availability a) (acc_profile_photo a).

Inductive auth_failure : Type :=
| EmailRequired            (* 400 *)
| NameRequired             (* 400 *)
| PasswordRequired         (* 400 *)
| UserExists               (* 400 *)
| NoFields                 (* 400 *)
| NameEmpty                (* 400 *)
| WrongPassword            (* 400 *)
| InvalidCredentials       (* 401 *)
| AccountBanned            (* 403 *)
| UserNotFound             (* 404 *)
| AuthServerError.         (* 500 *)

Definition auth_status (e : auth_failure) : nat :=
  match e with
  | EmailRequired | NameRequired | PasswordRequired | UserExists | NoFields
  | NameEmpty | WrongPassword => 400
  | InvalidCredentials => 401
  | AccountBanned => 403
  | UserNotFound => 404
  | AuthServerError => 500
  end.

Inductive auth_reply : Type :=
| Registered (t : token)            (* 201 *)
| LoggedIn (t : token)              (* 200 *)
| ProfileOf (user : profile_view)   (* 200 *)
| ProfileUpdated (user : profile_view)  (* 200 *)
| PasswordChanged                   (* 200 *)
| Refused (e : auth_failure).

Record register_body := mkRegisterBody {
  rb_email : option string;
  rb_password : option string;
  rb_name : option string;
  rb_location : option string;
  rb_availability : option string
}.

Record login_body := mkLoginBody {
  lb_email : option string;
  lb_password : option string
}.

(** A field of a body that is read as a flag: text when the body is a form,
    a boolean when it is JSON. *)
Inductive field : Type :=
| Text (s : string)
| Flag (b : bool).

Record profile_body := mkProfileBody {
  pb_name : option string;
  pb_location : option string;
  pb_availability : option string;
  pb_is_public : option field;
  pb_file : option string          (* [req.file.filename] *)
}.

Record password_body := mkPasswordBody {
  currentPassword : option string;
  newPassword : option string
}.

(** What a call can raise; every handler answers 500 to all of them. *)
Inductive raised : Type :=
| ValidationFailed      (* a [required] validator *)
| CastFailed            (* a value that does not cast to the type of its path *)
| DuplicateKey          (* the unique index on [email] *)
| IllegalArguments.     (* bcrypt on a value that is not a string *)

(** The cast of a Boolean path. *)
Definition castBoolean (v : field) : raised + bool :=
  match v with
  | Flag b => inr b
  | Text s =>
      if mem_string s ["true"; "1"; "yes"] then inr true
      else if mem_string s ["false"; "0"; "no"] then inr false
      else inl CastFailed
  end.

(** [Boolean(v)] *)
Definition Boolean (v : field) : bool :=
  match v with
  | Flag b => b
  | Text s => truthy s
  end.

(** A string that may be absent, in a condition. *)
Definition present (v : option string) : bool :=
  match v with
  | Some x => truthy x
  | None => false
  end.

Definition with_password (a : Account) (h : string) : Account :=
  mkAccount (acc_user a) (acc_email a) h (acc_availability a) (acc_profile_photo a).

(** The [required] validators of [userSchema]: [email], [password] and
    [name] each hold a string that is not empty. *)
Definition validate_user (a : Account) : bool :=
  negb ((acc_email a =? "") || (acc_password a =? "") || (user_name (acc_user a) =? ""))%string.

Section Accounts.

(** bcrypt: the hash of a password under the salt drawn, and the test of a
    password against a hash. *)
Variable hash : nat -> string -> string.
Variable compare : string -> string -> bool.
(** The strings: [String.prototype.trim], which is also the setter of
    [name] and [location]; [toLowerCase]; and the two setters of [email],
    [trim] and [lowercase], together. *)
Variable trim : string -> string.
Variable lowercase : string -> string.
Variable canon : string -> string.

(** [User.findOne({ email })]: the value is cast as the path is, setters
    included; no document is without an email, so that an absent one
    matches nothing. *)
Definition User_findOne_email (email : option string) (d : directory) : option Account :=
  match email with
  | None => None
  | Some e => find (fun a => (acc_email a =? canon e)%string) (accounts d)
  end.

(** [User.create({ email, password, name, location, availability })]: the
    setters, the defaults, the [required] validators, the unique index. *)
Definition User_create (email password name location availability : string)
           (d : directory) : raised + Account * directory :=
  let a := mkAccount (mkUser (next_oid d) (trim name) (Some (trim location)) true false false)
                     (canon email) password (Some availability) None in
  if ((acc_email a =? "") || (acc_password a =? "") || (user_name (acc_user a) =? ""))%string
  then inl ValidationFailed
  else if existsb (fun x => (acc_email x =? acc_email a)%string) (accounts d)
  then inl DuplicateKey
  else inr (a, mkDirectory (accounts d ++ [a]) (S (next_oid d)) (next_salt d)).

(** [await bcrypt.hash(password, 10)] *)
Definition bcrypt_hash (password : option string) (d : directory)
  : raised + string * directory :=
  match password with
  | None => inl IllegalArguments
  | Some p => inr (hash (next_salt d) p,
                   mkDirectory (accounts d) (next_oid d) (S (next_salt d)))
  end.

Definition claims_of (a : Account) : token :=
  mkToken (acc_id a) (Some (acc_email a)) (Some (user_name (acc_user a)))
          (is_admin (acc_user a)).

(** [POST /auth/register], "no validation for testing". *)
Definition register (b : register_body) (d : directory) : auth_reply * directory :=
  match User_findOne_email (rb_email b) d with
  | Some _ => (Refused UserExists, d)
  | None =>
      match (if present (rb_password b) then bcrypt_hash (rb_password b) d
             else inr ("", d)) with
      | inl _ => (Refused AuthServerError, d)
      | inr (hashedPassword, d1) =>
          match User_create (or_default (rb_email b) "") hashedPassword
                            (or_default (rb_name b) "") (or_default (rb_location b) "")
                            (or_default (rb_availability b) "") d1 with
          | inl _ => (Refused AuthServerError, d1)
          | inr (user, d2) =>
              (Registered (mkToken (acc_id user) (rb_email b) (rb_name b) false), d2)
          end
      end
  end.

(** [POST /auth/login], "no validation for testing". *)
Definition login (b : login_body) (d : directory) : auth_reply * directory :=
  match User_findOne_email (lb_email b) d with
  | None => (Refused InvalidCredentials, d)
  | Some user =>
      if is_banned (acc_user user) then (Refused AccountBanned, d) else
      let validPassword :=
        match lb_password b with
        | Some password =>
            if truthy (acc_password user) && truthy password
            then compare password (acc_password user) else true
        | None => true
        end in
      if negb validPassword then (Refused InvalidCredentials, d)
      else (LoggedIn (claims_of user), d)
  end.

(** [POST /auth/login] of the validated generation. *)
Definition login_validated (b : login_body) (d : directory) : auth_reply * directory :=
  match lb_email b with
  | None => (Refused EmailRequired, d)
  | Some email =>
      if negb (truthy email) || negb (truthy (trim email)) then (Refused EmailRequired, d)
      else
        match lb_password b with
        | None => (Refused PasswordRequired, d)
        | Some password =>
            if negb (truthy password) then (Refused PasswordRequired, d) else
            match User_findOne_email (Some (lowercase email)) d with
            | None => (Refused InvalidCredentials, d)
            | Some user =>
                if is_banned (acc_user user) then (Refused AccountBanned, d) else
                if negb (compare password (acc_password user))
                then (Refused InvalidCredentials, d)
                else (LoggedIn (claims_of user), d)
            end
        end
  end.

(** [GET /auth/profile] *)
Definition get_profile (userId : oid) (d : directory) : auth_reply * directory :=
  match findById acc_id userId (accounts d) with
  | None => (Refused UserNotFound, d)
  | Some user => (ProfileOf (without_password user), d)
  end.

(** What [updateData] holds, path by path. *)
Record update_data := mkUpdateData {
  ud_name : option string;
  ud_location : option string;
  ud_availability : option string;
  ud_is_public : option bool;
  ud_profile_photo : option string
}.

Definition no_keys (u : update_data) : bool :=
  match ud_name u, ud_location u, ud_availability u, ud_is_public u, ud_profile_photo u with
  | None, None, None, None, None => true
  | _, _, _, _, _ => false
  end.

Definition or_keep {A} (v : option A) (old : A) : A :=
  match v with
  | Some x => x
  | None => old
  end.

(** The document after [$set: updateData]; the setters of [name] and
    [location] run on the values set. *)
Definition apply_update (u : update_data) (a : Account) : Account :=
  mkAccount
    (mkUser (acc_id a)
            (or_keep (option_map trim (ud_name u)) (user_name (acc_user a)))
            (match ud_location u with
             | Some l => Some (trim l)
             | None => user_location (acc_user a)
             end)
            (or_keep (ud_is_public u) (is_public (acc_user a)))
            (is_admin (acc_user a)) (is_banned (acc_user a)))
    (acc_email a) (acc_password a)
    (match ud_availability u with
     | Some v => Some v
     | None => acc_availability a
     end)
    (match ud_profile_photo u with
     | Some p => Some p
     | None => acc_profile_photo a
     end).

(** [User.findByIdAndUpdate(req.user.id, updateData, { new: true, .. })];
    [required] tells whether the validators run, and then the name set
    must not be empty. *)
Definition User_findByIdAndUpdate (userId : oid) (u : update_data) (runValidators : bool)
           (d : directory) : raised + option Account * directory :=
  if runValidators &&
     match ud_name u with
     | Some n => (trim n =? "")%string
     | None => false
     end
  then inl ValidationFailed
  else
    match findById acc_id userId (accounts d) with
    | None => inr (None, d)
    | Some a =>
        inr (Some (apply_update u a),
             mkDirectory (replace_by_id acc_id (apply_update u a) (accounts d))
                         (next_oid d) (next_salt d))
    end.

Definition uploaded (file : option string) : option string :=
  option_map (fun filename => "/uploads/" ++ filename)%string file.

(** [PUT /auth/profile], "no validation for testing": the value of
    [is_public] goes into the update as sent and is cast there. *)
Definition update_profile (userId : oid) (b : profile_body) (d : directory)
  : auth_reply * directory :=
  match pb_name b, pb_location b, pb_availability b, pb_is_public b, pb_file b with
  | None, None, None, None, None => (Refused NoFields, d)
  | _, _, _, _, _ =>
      match (match pb_is_public b with
             | None => inr None
             | Some v => match castBoolean v with
                         | inl e => inl e
                         | inr p => inr (Some p)
                         end
             end) with
      | inl _ => (Refused AuthServerError, d)
      | inr is_public =>
          match User_findByIdAndUpdate userId
                  (mkUpdateData (pb_name b) (pb_location b) (pb_availability b)
                                is_public (uploaded (pb_file b))) false d with
          | inl _ => (Refused AuthServerError, d)
          | inr (None, d1) => (Refused UserNotFound, d1)
          | inr (Some user, d1) => (ProfileUpdated (without_password user), d1)
          end
      end
  end.

(** [value ? value.trim() : ''] *)
Definition trimmed (v : string) : string := if truthy v then trim v else "".

(** [PUT /auth/profile] of the validated generation. *)
Definition update_profile_validated (userId : oid) (b : profile_body) (d : directory)
  : auth_reply * directory :=
  if match pb_name b with
     | Some name => negb (truthy name) || negb (truthy (trim name))
     | None => false
     end
  then (Refused NameEmpty, d)
  else
    let updateData :=
      mkUpdateData (option_map trim (pb_name b)) (option_map trimmed (pb_location b))
                   (option_map trimmed (pb_availability b))
                   (option_map Boolean (pb_is_public b)) (uploaded (pb_file b)) in
    if no_keys updateData then (Refused NoFields, d)
    else
      match User_findByIdAndUpdate userId updateData true d with
      | inl _ => (Refused AuthServerError, d)
      | inr (None, d1) => (Refused UserNotFound, d1)
      | inr (Some user, d1) => (ProfileUpdated (without_password user), d1)
      end.

(** [PUT /auth/change-password], the same in both generations;
    [user.save()] validates the document, every [required] path of it,
    before it writes. *)
Definition change_password (userId : oid) (b : password_body) (d : directory)
  : auth_reply * directory :=
  match findById acc_id userId (accounts d) with
  | None => (Refused UserNotFound, d)
  | Some user =>
      match currentPassword b with
      | None => (Refused AuthServerError, d)
      | Some current =>
          if negb (compare current (acc_password user)) then (Refused WrongPassword, d)
          else
            match bcrypt_hash (newPassword b) d with
            | inl _ => (Refused AuthServerError, d)
            | inr (hashedNewPassword, d1) =>
                if negb (validate_user (with_password user hashedNewPassword))
                then (Refused AuthServerError, d1)
                else (PasswordChanged,
                      mkDirectory (replace_by_id acc_id (with_password user hashedNewPassword)
                                                 (accounts d1))
                                  (next_oid d1) (next_salt d1))
            end
      end
  end.

(** The authentication routes, one request after the other. *)
Inductive auth_request : Type :=
| Register (b : register_body)
| Login (b : login_body)
| LoginValidated (b : login_body)
| GetProfile (t : token)
| UpdateProfile (t : token) (b : profile_body)
| UpdateProfileValidated (t : token) (b : profile_body)
| ChangePassword (t : token) (b : password_body).

Definition auth_route (r : auth_request) : directory -> auth_reply * directory :=
  match r with
  | Register b => register b
  | Login b => login b
  | LoginValidated b => login_validated b
  | GetProfile t => get_profile (tk_id t)
  | UpdateProfile t b => update_profile (tk_id t) b
  | UpdateProfileValidated t b => update_profile_validated (tk_id t) b
  | ChangePassword t b => change_password (tk_id t) b
  end.

Fixpoint auth_serve (rs : list auth_request) (d : directory) : list auth_reply * directory :=
  match rs with
  | [] => ([], d)
  | r :: rest =>
      let (a, d1) := auth_route r d in
      let (al, d2) := auth_serve rest d1 in
      (a :: al, d2)
  end.

End Accounts.

(** What the other routes and the middleware go by: who an account is, and
    its two flags. *)
Definition flags (a : Account) : oid * bool * bool :=
  (acc_id a, is_admin (acc_user a), is_banned (acc_user a)).

(** Identifiers and emails are unique, and every identifier was handed out
    by the generator. *)
Definition directory_ok (d : directory) : Prop :=
  NoDup (map acc_id (accounts d))
  /\ NoDup (map acc_email (accounts d))
  /\ Forall (fun a => acc_id a < next_oid d) (accounts d).

(** Everything one authentication request can do to the accounts. *)
Inductive auth_change (d d' : directory) : Prop :=
| ac_none :
    accounts d' = accounts d -> next_oid d' = next_oid d -> auth_change d d'
| ac_register (a : Account) :
    accounts d' = (accounts d ++ [a])%list -> next_oid d' = S (next_oid d) ->
    flags a = (next_oid d, false, false) ->
    ~ In (acc_email a) (map acc_email (accounts d)) ->
    auth_change d d'
| ac_update (a a' : Account) :
    findById acc_id (acc_id a) (accounts d) = Some a ->
    accounts d' = replace_by_id acc_id a' (accounts d) -> next_oid d' = next_oid d ->
    flags a' = flags a -> acc_email a' = acc_email a ->
    auth_change d d'.

Definition with_is_public (a : Account) (p : bool) : Account :=
  mkAccount (mkUser (acc_id a) (user_name (acc_user a)) (user_location (acc_user a)) p
                    (is_admin (acc_user a)) (is_banned (acc_user a)))
            (acc_email a) (acc_password a) (acc_availability a) (acc_profile_photo a).

(** A body that sets the visibility and nothing else. *)
Definition visibility (v : field) : profile_body :=
  mkProfileBody None None None (Some v) None.

Definition put_accounts (d : directory) (l : list Account) : directory :=
  mkDirectory l (next_oid d) (next_salt d).

(** The token that a reply hands out, if any. *)
Definition issued (r : auth_reply) : option token :=
  match r with
  | Registered t | LoggedIn t => Some t
  | _ => None
  end.

(* ------------------------------------------------------------------ *)
(** ** Seeding ([database/init.js]) *)

Definition defaultSkills : list (string * string) :=
  [ ("JavaScript", "Programming"); ("Python", "Programming"); ("React", "Frontend");
    ("Node.js", "Backend"); ("Photoshop", "Design"); ("Excel", "Office"); ("Word", "Office");
    ("PowerPoint", "Office"); ("Guitar", "Music"); ("Piano", "Music");
    ("Cooking", "Lifestyle"); ("Photography", "Creative"); ("Spanish", "Language");
    ("French", "Language"); ("German", "Language"); ("Yoga", "Fitness");
    ("Gym Training", "Fitness"); ("Drawing", "Art"); ("Painting", "Art"); ("Sewing", "Craft") ].

Section Seeding.

Variable hash : nat -> string -> string.
Variable trim : string -> string.
Variable canon : string -> string.

(** [Skill.insertMany(docs)]: the setters of [name] and [category], the
    validator of [name]; one document that fails and none is stored. *)
Definition Skill_insertMany (docs : list (string * string)) (s : db) : raised + db :=
  let new := map (fun '(i, (name, category)) => mkSkill i (trim name) (Some (trim category)))
                 (combine (seq (next_id s) (List.length docs)) docs) in
  if existsb (fun k => (skill_name k =? "")%string) new then inl ValidationFailed
  else inr (mkDb (users s) (skills s ++ new) (offered s) (wanted s) (swaps s) (ratings s)
                 (next_id s + List.length docs)).

(** [User.create({ email, password, name, is_admin: true })] *)
Definition User_create_admin (email password name : string) (d : directory)
  : raised + directory :=
  let a := mkAccount (mkUser (next_oid d) (trim name) None true true false)
                     (canon email) password None None in
  if ((acc_email a =? "") || (acc_password a =? "") || (user_name (acc_user a) =? ""))%string
  then inl ValidationFailed
  else if existsb (fun x => (acc_email x =? acc_email a)%string) (accounts d)
  then inl DuplicateKey
  else inr (mkDirectory (accounts d ++ [a]) (S (next_oid d)) (next_salt d)).

(** [initializeDatabase]: whatever is raised is logged, and the rest of
    the seeding is skipped. *)
Definition initializeDatabase (st : directory * db) : directory * db :=
  let (d, s) := st in
  match (match User_findOne_email canon (Some "admin@skillswap.com") d with
         | Some _ => inr d
         | None =>
             let adminPassword := hash (next_salt d) "admin123" in
             let d1 := mkDirectory (accounts d) (next_oid d) (S (next_salt d)) in
             match User_create_admin "admin@skillswap.com" adminPassword "Admin User" d1 with
             | inl e => inl (e, d1)
             | inr d2 => inr d2
             end
         end) with
  | inl (_, d') => (d', s)
  | inr d' =>
      if countDocuments (fun _ => true) (skills s) =? 0 then
        match Skill_insertMany defaultSkills s with
        | inl _ => (d', s)
        | inr s' => (d', s')
        end
      else (d', s)
  end.

End Seeding.

(* ------------------------------------------------------------------ *)
(** ** Admin messages ([/admin/messages]) *)

Record AdminMessage := mkAdminMessage {
  msg__id : oid;
  msg_title : string;
  msg_message : string;
  msg_type : string;
  msg_is_active : bool
}.

(** [adminMessageSchema.type] *)
Definition message_type_enum : list string := ["info"; "warning"; "success"; "error"].

(** The collection and the generator of its ObjectIds. *)
Record board := mkBoard {
  messages : list AdminMessage;
  next_msg : oid
}.

Record message_body := mkMessageBody {
  mb_title : option string;
  mb_message : option string;
  mb_type : option string;
  mb_isActive : option field
}.

Record messages_query := mkMessagesQuery {
  mq_active : option string;
  mq_page : Z;                 (* default 1 *)
  mq_limit : Z                 (* default 20 *)
}.

Inductive message_reply : Type :=
| MessageCreated (messageId : oid)                                  (* 201 *)
| MessageDone                                                       (* 200 *)
| MessagesJson (l : list AdminMessage) (page limit : Z) (total : nat) (pages : option Z)
| MessageNoFields                                                   (* 400 *)
| MessageFail (e : failure).

(** [isBoolean()] *)
Definition isBoolean (v : field) : bool :=
  match v with
  | Flag _ => true
  | Text s => mem_string s ["true"; "false"; "1"; "0"]
  end.

Section Messages.

(** [trim()], the sanitizer of the validation chain and the setter of
    [title]; and the length that [isLength] measures. *)
Variable trim : string -> string.
Variable len : string -> nat.

(** [body(path).trim().isLength({ min: 1, max })]: the sanitized value
    when it passes; a field that is absent is validated as ''. *)
Definition trimmed_within (max : nat) (v : option string) : option string :=
  let x := trim (match v with Some x => x | None => "" end) in
  if (1 <=? len x) && (len x <=? max) then Some x else None.

(** The same behind [.optional()]: [Some None] for a field that is absent. *)
Definition optional {A} (check : string -> option A) (v : option string)
  : option (option A) :=
  match v with
  | None => Some None
  | Some x => option_map Some (check x)
  end.

Definition isIn (l : list string) (x : string) : option string :=
  if mem_string x l then Some x else None.

(** [POST /admin/messages] *)
Definition post_message (b : message_body) (m : board) : message_reply * board :=
  match trimmed_within 100 (mb_title b), trimmed_within 1000 (mb_message b),
        optional (isIn message_type_enum) (mb_type b) with
  | Some title, Some message, Some type =>
      let type := match type with Some t => t | None => "info" end in
      let doc := mkAdminMessage (next_msg m) (trim title) message type true in
      if ((msg_title doc =? "") || (msg_message doc =? "")
          || negb (mem_string (msg_type doc) message_type_enum))%string
      then (MessageFail ServerError, m)
      else (MessageCreated (next_msg m), mkBoard (messages m ++ [doc]) (S (next_msg m)))
  | _, _, _ => (MessageFail ValidationError, m)
  end.

(** [GET /admin/messages] *)
Definition active_filter (q : messages_query) (d : AdminMessage) : bool :=
  match mq_active q with
  | Some "true" => Bool.eqb (msg_is_active d) true
  | Some "false" => Bool.eqb (msg_is_active d) false
  | _ => true
  end.

Definition get_messages (q : messages_query) (m : board) : message_reply * board :=
  match skip_limit ((mq_page q - 1) * mq_limit q) (mq_limit q)
                   (sort_created_desc (filter (active_filter q) (messages m))) with
  | inl _ => (MessageFail ServerError, m)
  | inr l =>
      let total := countDocuments (active_filter q) (messages m) in
      (MessagesJson l (mq_page q) (mq_limit q) total
                    (if (mq_limit q =? 0)%Z then None
                     else Some (ceil_div (Z.of_nat total) (mq_limit q))), m)
  end.

(** The document after [$set: updateData]; [title] goes through its
    setter, [is_active] through the cast of its path. *)
Definition apply_message_update (title message type : option string)
           (isActive : option bool) (d : AdminMessage) : AdminMessage :=
  mkAdminMessage (msg__id d)
    (match title with Some t => trim t | None => msg_title d end)
    (match message with Some x => x | None => msg_message d end)
    (match type with Some t => t | None => msg_type d end)
    (match isActive with Some a => a | None => msg_is_active d end).

(** [PUT /admin/messages/:messageId] *)
Definition put_message (messageId : oid) (b : message_body) (m : board)
  : message_reply * board :=
  match optional (fun x => trimmed_within 100 (Some x)) (mb_title b),
        optional (fun x => trimmed_within 1000 (Some x)) (mb_message b),
        optional (isIn message_type_enum) (mb_type b),
        (match mb_isActive b with
         | None => Some None
         | Some v => if isBoolean v then Some (Some v) else None
         end) with
  | Some title, Some message, Some type, Some isActive =>
      match title, message, type, isActive with
      | None, None, None, None => (MessageNoFields, m)
      | _, _, _, _ =>
          match (match isActive with
                 | None => inr None
                 | Some v => match castBoolean v with
                             | inl e => inl e
                             | inr a => inr (Some a)
                             end
                 end) with
          | inl _ => (MessageFail ServerError, m)
          | inr is_active =>
              match findById msg__id messageId (messages m) with
              | None => (MessageFail NotFound, m)
              | Some d =>
                  (MessageDone,
                   mkBoard (replace_by_id msg__id
                              (apply_message_update title message type is_active d)
                              (messages m))
                           (next_msg m))
              end
          end
      end
  | _, _, _, _ => (MessageFail ValidationError, m)
  end.

(** [DELETE /admin/messages/:messageId] *)
Definition delete_message (messageId : oid) (m : board) : message_reply * board :=
  match findById msg__id messageId (messages m) with
  | None => (MessageFail NotFound, m)
  | Some _ => (MessageDone, mkBoard (delete_by_id msg__id messageId (messages m)) (next_msg m))
  end.

Inductive message_request : Type :=
| CreateMessage (b : message_body)
| UpdateMessage (messageId : oid) (b : message_body)
| DeleteMessage (messageId : oid)
| GetMessages (q : messages_query).

(** Every route of the module behind [requireAdmin]. *)
Definition message_route (token_is_admin : bool) (r : message_request)
  : board -> message_reply * board :=
  requireAdmin_as MessageFail token_is_admin
    match r with
    | CreateMessage b => post_message b
    | UpdateMessage i b => put_message i b
    | DeleteMessage i => delete_message i
    | GetMessages q => get_messages q
    end.

Fixpoint message_serve (rs : list (bool * message_request)) (m : board)
  : list message_reply * board :=
  match rs with
  | [] => ([], m)
  | (adm, r) :: rest =>
      let (a, m1) := message_route adm r m in
      let (al, m2) := message_serve rest m1 in
      (a :: al, m2)
  end.

(** What the validation chains let into the collection. *)
Definition message_valid (d : AdminMessage) : Prop :=
  1 <= len (msg_title d) <= 100 /\ 1 <= len (msg_message d) <= 1000
  /\ mem_string (msg_type d) message_type_enum = true.

Definition board_ok (m : board) : Prop :=
  Forall message_valid (messages m)
  /\ NoDup (map msg__id (messages m))
  /\ Forall (fun d => msg__id d < next_msg m) (messages m).

End Messages.

(** A body that sets [isActive] and nothing else. *)
Definition activation (v : field) : message_body := mkMessageBody None None None (Some v).

(* ------------------------------------------------------------------ *)
(** ** The users routes that bear with a skill that is gone ([routes/users.js]) *)

(** [item.skill_id?.name || 'Unknown Skill'] and
    [item.skill_id?.category || 'Unknown'] *)
Definition tolerant_view (ks : list Skill) (item : UserSkill) : skill_view :=
  let skill_id := findById skill__id (us_skill_id item) ks in
  mkSkillView (us__id item)
              (or_default (option_map skill_name skill_id) "Unknown Skill")
              (Some (or_default (match skill_id with
                                 | Some k => skill_category k
                                 | None => None
                                 end) "Unknown"))
              (us_description item) (us_level item).

Module Tolerant.
(** [const { User, UserOfferedSkill, UserWantedSkill, Skill } = require('../database/init')] *)
Definition bindings : scope :=
  ["express"; "router"; "User"; "UserOfferedSkill"; "UserWantedSkill"; "Skill"; "auth"].

(** [GET /users/me/skills] *)
Definition me_skills (userId : oid) : db -> skills_reply * db :=
  try_catch_with (SkillsFail ServerError)
    (let* offeredSkills := on bindings "UserOfferedSkill" (UserSkillOffered_find userId) in
     let* wantedSkills := on bindings "UserWantedSkill" (UserSkillWanted_find userId) in
     fun s => (inr (SkillsJson (map (tolerant_view (skills s)) offeredSkills)
                               (map (tolerant_view (skills s)) wantedSkills)), s)).

(** [GET /users/:userId], for an identifier that is well formed. *)
Definition get_user (userId : oid) : db -> profile_reply * db :=
  try_catch_with (ProfileFail ServerError)
    (let* user := on bindings "User" (User_findById userId) in
     match user with
     | None => ret (ProfileFail NotFound)
     | Some user =>
         if negb (is_public user) then ret (ProfileFail NotFound) else
         let* offeredSkills :=
           on bindings "UserOfferedSkill" (UserSkillOffered_find (user__id user)) in
         let* wantedSkills :=
           on bindings "UserWantedSkill" (UserSkillWanted_find (user__id user)) in
         fun s => (inr (ProfileJson
                          (mkBrowseEntry user
                             (map (tolerant_view (skills s)) offeredSkills)
                             (map (tolerant_view (skills s)) wantedSkills))), s)
     end).
End Tolerant.

(** An entry of the strict routes as the tolerant ones word it. *)
Definition reworded (v : skill_view) : skill_view :=
  mkSkillView (sv_id v) (or_default (Some (sv_name v)) "Unknown Skill")
              (Some (or_default (sv_category v) "Unknown"))
              (sv_description v) (sv_level v).

Module Cases.

(** Carol would like to learn Guitar, badly. *)
Definition wants_guitar : wanted_body := mkWantedBody 11 None (Some "high").

(** The same wish, with a proficiency where the priority goes. *)
Definition wants_guitar_advanced : wanted_body := mkWantedBody 11 None (Some "advanced").

(** What Alice has sent, first page of ten. *)
Definition sent : requests_query := mkRequestsQuery None (Some "sent") 1 10.

(** A stand-in for bcrypt: the hash keeps the password behind a prefix and
  the salt's parity. *)
Definition hash (salt : nat) (password : string) : string :=
((if Nat.even salt then "$2a$" else "$2b$") ++ password)%string.

Definition compare (password hashed : string) : bool :=
((hashed =? "$2a$" ++ password) || (hashed =? "$2b$" ++ password))%string.

Definition downcase (c : Ascii.ascii) : Ascii.ascii :=
let n := Ascii.nat_of_ascii c in
if (65 <=? n) && (n <=? 90) then Ascii.ascii_of_nat (n + 32) else c.

Fixpoint lowercase (x : string) : string :=
match x with
| EmptyString => EmptyString
| String c r => String (downcase c) (lowercase r)
end.

Fixpoint strip (l : list Ascii.ascii) : list Ascii.ascii :=
match l with
| c :: r => if Ascii.nat_of_ascii c =? 32 then strip r else l
| [] => []
end.

(** Blanks off both ends. *)
Definition trim (x : string) : string :=
string_of_list_ascii (rev (strip (rev (strip (list_ascii_of_string x))))).

Definition canon (x : string) : string := lowercase (trim x).

(** Alice, with the password 'secret', and Bob, whom an admin has banned. *)
Definition alice_account : Account :=
mkAccount Sample.alice "alice@example.com" "$2a$secret" (Some "evenings") None.

Definition bob_account : Account :=
mkAccount (with_is_banned Sample.bob true) "bob@example.com" "$2a$hunter2" None None.

Definition registry : directory := mkDirectory [alice_account; bob_account] 100 0.

(** Frank, whose ObjectId has a letter among its digits, offers Python. *)
Definition frank : User := mkUser 26 "Frank" None true false false.

Definition frank_python : UserSkill := mkUserSkill 27 26 10 "" "advanced".

Definition db_frank : db :=
mkDb [Sample.alice; Sample.bob; frank] (skills Sample.db0)
     [Sample.alice_python; Sample.bob_guitar; frank_python] [] [] [] 100.

Definition frank_id_upper : string := "00000000000000000000001A".

(** Frank asks the user of that identifier: his Python for their Python. *)
Definition python_for_python (recipient : string) : create_body :=
mkCreateBody (Some recipient) (Some 10) (Some 10) None.

Definition eve : register_body :=
mkRegisterBody (Some " Eve@Example.com") (Some "pass") (Some "Eve ") None None.
End Cases.
(* ================================================================== *)
(** * Properties *)

(** ** What the handlers compute *)

Lemma on_bound {A} (sc : scope) (model : string) (call : io A) (s : db) :
  mem_string model sc = true -> on sc model call s = call s.
Proof.
  intros H. unfold on, resolve, bind. rewrite H. cbn. reflexivity.
Qed.

Lemma on_unbound {A} (sc : scope) (model : string) (call : io A) (s : db) :
  mem_string model sc = false -> on sc model call s = (inl (ReferenceError model), s).
Proof.
  intros H. unfold on, resolve, bind. rewrite H. cbn. reflexivity.
Qed.

(** *** Identifiers as text *)

Lemma length_append_string (a b : string) :
  String.length (a ++ b) = String.length a + String.length b.
Proof. induction a as [|c a IH]; cbn; [reflexivity|]. rewrite IH. reflexivity. Qed.

Lemma hex_number_append acc a b :
  hex_number acc (a ++ b) =
  match hex_number acc a with
  | Some v => hex_number v b
  | None => None
  end.
Proof.
  revert acc. induction a as [|c a IH]; intros acc; cbn; [reflexivity|].
  destruct (hex_value c); [apply IH|reflexivity].
Qed.

Lemma hex_value_digit v : v < 16 -> hex_value (hex_digit v) = Some v.
Proof.
  intros Hv. unfold hex_value, hex_digit.
  rewrite Ascii.nat_ascii_embedding by (destruct (v <? 10); lia).
  destruct (v <? 10) eqn:E.
  - apply Nat.ltb_lt in E.
    replace ((48 <=? 48 + v) && (48 + v <=? 57)) with true
      by (symmetry; apply andb_true_iff; split; apply Nat.leb_le; lia).
    cbv zeta. f_equal. lia.
  - apply Nat.ltb_ge in E.
    replace ((48 <=? 87 + v) && (87 + v <=? 57)) with false
      by (symmetry; apply andb_false_iff; right; apply Nat.leb_gt; lia).
    replace ((97 <=? 87 + v) && (87 + v <=? 102)) with true
      by (symmetry; apply andb_true_iff; split; apply Nat.leb_le; lia).
    cbv zeta. f_equal. lia.
Qed.

Lemma length_hex_digits k n : String.length (hex_digits k n) = k.
Proof.
  revert n. induction k as [|k IH]; intros n; cbn [hex_digits]; [reflexivity|].
  rewrite length_append_string, IH. cbn. lia.
Qed.

Lemma hex_number_digits k : forall n acc,
  hex_number acc (hex_digits k n) = Some (acc * 16 ^ k + n mod 16 ^ k).
Proof.
  induction k as [|k IH]; intros n acc.
  - cbn. f_equal. lia.
  - cbn [hex_digits]. rewrite hex_number_append, IH. cbn [hex_number].
    rewrite hex_value_digit by (apply Nat.mod_upper_bound; lia).
    f_equal. rewrite Nat.pow_succ_r', (Nat.Div0.mod_mul_r n 16 (16 ^ k)). lia.
Qed.

(** The text [toString()] gives casts back to the ObjectId, twelve bytes of
    it. *)
Lemma cast_toString i : ObjectId_cast (ObjectId_toString i) = Some (i mod 16 ^ 24).
Proof.
  unfold ObjectId_cast, ObjectId_toString.
  rewrite length_hex_digits, Nat.eqb_refl, hex_number_digits. reflexivity.
Qed.

(** Text that spells no ObjectId is nobody's own identifier. *)
Lemma uncast_not_own u r :
  ObjectId_cast r = None -> (ObjectId_toString u =? r)%string = false.
Proof.
  intros Hcast. destruct (ObjectId_toString u =? r)%string eqn:E; [|reflexivity].
  apply String.eqb_eq in E. subst r. rewrite cast_toString in Hcast. discriminate.
Qed.

(** *** Queries *)

Lemma findById_key {D} (key : D -> oid) i l d :
  findById key i l = Some d -> key d = i /\ In d l.
Proof.
  unfold findById. intros H. apply find_some in H. destruct H as [Hin Hk].
  apply Nat.eqb_eq in Hk. auto.
Qed.

(** A document that was just read is still there when it is saved. *)
Lemma save_found i s swap st :
  findById swap__id i (swaps s) = Some swap ->
  findById swap__id (swap__id (with_status swap st)) (swaps s) = Some swap.
Proof.
  intros Hf. cbn [swap__id with_status].
  destruct (findById_key _ _ _ _ Hf) as [-> _]. exact Hf.
Qed.

Lemma validate_accepted d : validate_swap (with_status d "accepted") = true.
Proof. reflexivity. Qed.

Lemma validate_rejected d : validate_swap (with_status d "rejected") = true.
Proof. reflexivity. Qed.

Lemma validate_cancelled d : validate_swap (with_status d "cancelled") = false.
Proof. reflexivity. Qed.

Section TransitionEquations.
Variable sc : scope.
Hypothesis sc_SwapRequest : mem_string "SwapRequest" sc = true.

Lemma accept_swap_eq u i s :
  accept_swap sc u i s =
  guarded recipient_id u i s (fun swap =>
    (Done 200, set_swaps s (replace_by_id swap__id (with_status swap "accepted") (swaps s)))).
Proof.
  unfold accept_swap, guarded, try_catch, try_catch_with, bind.
  rewrite on_bound by assumption. unfold SwapRequest_findById.
  destruct (findById swap__id i (swaps s)) as [swap|] eqn:Hf; [|reflexivity].
  destruct (negb (recipient_id swap =? u)); [reflexivity|].
  destruct (negb (status swap =? "pending")%string); [reflexivity|].
  unfold SwapRequest_save. rewrite validate_accepted, (save_found _ _ _ _ Hf). reflexivity.
Qed.

Lemma reject_swap_eq u i s :
  reject_swap sc u i s =
  guarded recipient_id u i s (fun swap =>
    (Done 200, set_swaps s (replace_by_id swap__id (with_status swap "rejected") (swaps s)))).
Proof.
  unfold reject_swap, guarded, try_catch, try_catch_with, bind.
  rewrite on_bound by assumption. unfold SwapRequest_findById.
  destruct (findById swap__id i (swaps s)) as [swap|] eqn:Hf; [|reflexivity].
  destruct (negb (recipient_id swap =? u)); [reflexivity|].
  destruct (negb (status swap =? "pending")%string); [reflexivity|].
  unfold SwapRequest_save. rewrite validate_rejected, (save_found _ _ _ _ Hf). reflexivity.
Qed.

(** The save of a cancelled request is refused by the schema, and the
    handler's [catch] answers 500. *)
Lemma cancel_swap_eq u i s :
  cancel_swap sc u i s =
  guarded requester_id u i s (fun _ => (Fail ServerError, s)).
Proof.
  unfold cancel_swap, guarded, try_catch, try_catch_with, bind.
  rewrite on_bound by assumption. unfold SwapRequest_findById.
  destruct (findById swap__id i (swaps s)) as [swap|]; [|reflexivity].
  destruct (negb (requester_id swap =? u)); [reflexivity|].
  destruct (negb (status swap =? "pending")%string); [reflexivity|].
  unfold SwapRequest_save. rewrite validate_cancelled. reflexivity.
Qed.

Lemma delete_swap_eq u i s :
  delete_swap sc u i s =
  guarded requester_id u i s (fun _ =>
    (Done 200, set_swaps s (delete_by_id swap__id i (swaps s)))).
Proof.
  unfold delete_swap, guarded, try_catch, try_catch_with, bind.
  rewrite on_bound by assumption. unfold SwapRequest_findById.
  destruct (findById swap__id i (swaps s)) as [swap|]; [|reflexivity].
  destruct (negb (requester_id swap =? u)); [reflexivity|].
  destruct (negb (status swap =? "pending")%string); [reflexivity|].
  rewrite on_bound by assumption. reflexivity.
Qed.
End TransitionEquations.

(** The sample stores are what the routes produce. *)
Example sample_create :
  route (CreateSwap 1 Sample.python_for_guitar) Sample.db0 = (Created 100, Sample.db_pending).
Proof. reflexivity. Qed.

Example sample_accept :
  route (AcceptSwap 2 100) Sample.db_pending = (Done 200, Sample.db_accepted).
Proof. reflexivity. Qed.

Example sample_delete :
  route (DeleteSwap 1 100) Sample.db_pending
  = (Done 200, mkDb (users Sample.db0) (skills Sample.db0) (offered Sample.db0) [] [] [] 101).
Proof. reflexivity. Qed.

Example sample_rate :
  fst (route (RateSwap 1 100 Sample.five_stars) Sample.db_accepted) = Done 201.
Proof. reflexivity. Qed.

Lemma existsb_find {D} (p : D -> bool) (l : list D) :
  existsb p l = match find p l with Some _ => true | None => false end.
Proof.
  induction l as [|x l IH]; cbn; [reflexivity|].
  destruct (p x); cbn; auto.
Qed.

Lemma checkNotBanned_eq u next s :
  checkNotBanned u next s =
  match findById user__id u (users s) with
  | None => (Fail NotFound, s)
  | Some user => if is_banned user then (Fail BannedActor, s) else next s
  end.
Proof.
  unfold checkNotBanned. rewrite on_bound by reflexivity. reflexivity.
Qed.

Section CreationEquation.
Variable sc : scope.
Hypothesis sc_User : mem_string "User" sc = true.
Hypothesis sc_UserSkillOffered : mem_string "UserSkillOffered" sc = true.
Hypothesis sc_SwapRequest : mem_string "SwapRequest" sc = true.

Lemma create_swap_invalid u b s :
  recipientId b = None \/ offeredSkillId b = None \/ requestedSkillId b = None ->
  create_swap sc u b s = (Fail ValidationError, s).
Proof.
  unfold create_swap, try_catch, try_catch_with.
  destruct (recipientId b), (offeredSkillId b), (requestedSkillId b);
    intros [H|[H|H]]; try discriminate; reflexivity.
Qed.

(** A recipient whose text spells an ObjectId. *)
Lemma create_swap_eq u r rc off req msg s :
  ObjectId_cast r = Some rc ->
  create_swap sc u (mkCreateBody (Some r) (Some off) (Some req) msg) s =
  match first_failure (creation_checks s u r rc off req) with
  | Some e => (Fail e, s)
  | None =>
      (Created (next_id s),
       bump (set_swaps s (swaps s ++ [mkSwap (next_id s) u rc off req "pending" msg])))
  end.
Proof.
  intros Hcast.
  unfold create_swap, try_catch, try_catch_with, creation_checks. cbn [recipientId
    offeredSkillId requestedSkillId create_message first_failure].
  destruct (ObjectId_toString u =? r)%string; [reflexivity|].
  unfold bind, casting. rewrite Hcast.
  rewrite on_bound by assumption. unfold User_findById.
  destruct (findById user__id rc (users s)) as [recipient|]; [|reflexivity].
  destruct (is_banned recipient); [reflexivity|].
  rewrite on_bound by assumption. unfold UserSkillOffered_findOne.
  rewrite (existsb_find (by_user_skill u off)).
  destruct (find (by_user_skill u off) (offered s)); [|reflexivity].
  rewrite on_bound by assumption.
  rewrite (existsb_find (by_user_skill rc req)).
  destruct (find (by_user_skill rc req) (offered s)); [|reflexivity].
  rewrite on_bound by assumption. unfold SwapRequest_findOne_pending.
  rewrite (existsb_find (pending_between u rc)).
  destruct (find (pending_between u rc) (swaps s)); [reflexivity|].
  rewrite on_bound by assumption. reflexivity.
Qed.

(** A recipient whose text passed the validator and still spells none:
    the first query raises. *)
Lemma create_swap_uncast u r off req msg s :
  ObjectId_cast r = None ->
  create_swap sc u (mkCreateBody (Some r) (Some off) (Some req) msg) s =
  (Fail ServerError, s).
Proof.
  intros Hcast.
  unfold create_swap, try_catch, try_catch_with. cbn [recipientId
    offeredSkillId requestedSkillId create_message].
  rewrite (uncast_not_own u r Hcast).
  unfold bind, casting. rewrite Hcast.
  rewrite on_bound by assumption. reflexivity.
Qed.
End CreationEquation.

Section RatingEquation.
Variable sc : scope.
Hypothesis sc_SwapRequest : mem_string "SwapRequest" sc = true.

Lemma rate_swap_bound_eq u i b s :
  mem_string "Rating" sc = true ->
  rate_swap sc u i b s =
  rate_guards u i b s (fun z swap rated =>
    match find (by_swap_rater i u) (ratings s) with
    | Some _ => (Fail DuplicateRating, s)
    | None =>
        (Done 201,
         bump (set_ratings s (ratings s ++ [mkRating (next_id s) i u rated z (body_feedback b)])))
    end).
Proof.
  intros sc_Rating.
  unfold rate_swap, rate_guards, try_catch, try_catch_with.
  destruct (isInt_1_5 (body_rating b)) as [z|] eqn:Hz; [|reflexivity].
  unfold bind. rewrite on_bound by assumption. unfold SwapRequest_findById.
  destruct (findById swap__id i (swaps s)) as [swap|]; [|reflexivity].
  destruct (negb (status swap =? "accepted")%string); [reflexivity|].
  assert (Hv : forall rated, validate_rating (mkRating (next_id s) i u rated z (body_feedback b)) = true).
  { intros rated. unfold validate_rating. cbn [rating].
    unfold isInt_1_5 in Hz. destruct (body_rating b) as [z'|]; [|discriminate].
    destruct ((1 <=? z') && (z' <=? 5))%Z eqn:E; [|discriminate].
    injection Hz as <-. exact E. }
  destruct (requester_id swap =? u).
  - rewrite on_bound by assumption. unfold Rating_findOne.
    destruct (find (by_swap_rater i u) (ratings s)); [reflexivity|].
    rewrite on_bound by assumption. unfold Rating_create. rewrite Hv. reflexivity.
  - destruct (recipient_id swap =? u); [|reflexivity].
    rewrite on_bound by assumption. unfold Rating_findOne.
    destruct (find (by_swap_rater i u) (ratings s)); [reflexivity|].
    rewrite on_bound by assumption. unfold Rating_create. rewrite Hv. reflexivity.
Qed.

(** Without a binding for [Rating] the lookup of an earlier rating raises. *)
Lemma rate_swap_unbound_eq u i b s :
  mem_string "Rating" sc = false ->
  rate_swap sc u i b s = rate_guards u i b s (fun _ _ _ => (Fail ServerError, s)).
Proof.
  intros sc_Rating.
  unfold rate_swap, rate_guards, try_catch, try_catch_with.
  destruct (isInt_1_5 (body_rating b)) as [z|]; [|reflexivity].
  unfold bind. rewrite on_bound by assumption. unfold SwapRequest_findById.
  destruct (findById swap__id i (swaps s)) as [swap|]; [|reflexivity].
  destruct (negb (status swap =? "accepted")%string); [reflexivity|].
  destruct (requester_id swap =? u).
  - rewrite on_unbound by assumption. reflexivity.
  - destruct (recipient_id swap =? u); [|reflexivity].
    rewrite on_unbound by assumption. reflexivity.
Qed.
End RatingEquation.

Lemma add_offered_eq u b s :
  Users.add_offered u b s =
  match findById skill__id (skillId b) (skills s) with
  | None => (Fail SkillNotFound, s)
  | Some _ =>
      match find (by_user_skill u (skillId b)) (offered s) with
      | Some _ => (Fail DuplicateAssociation, s)
      | None =>
          let d := mkUserSkill (next_id s) u (skillId b) (or_default (description b) "")
                               (or_default (proficiencyLevel b) "intermediate") in
          if validate_offered d then (Done 201, bump (set_offered s (offered s ++ [d])))
          else (Fail ServerError, s)
      end
  end.
Proof.
  unfold Users.add_offered, try_catch, try_catch_with, bind.
  rewrite on_bound by reflexivity. unfold Skill_findById.
  destruct (findById skill__id (skillId b) (skills s)); [|reflexivity].
  rewrite on_bound by reflexivity. unfold UserSkillOffered_findOne.
  destruct (find (by_user_skill u (skillId b)) (offered s)) eqn:Hfind; [reflexivity|].
  rewrite on_bound by reflexivity. unfold UserSkillOffered_save_new. cbv zeta.
  rewrite existsb_find, Hfind.
  destruct (validate_offered _); reflexivity.
Qed.

Lemma remove_offered_eq u a s :
  Users.remove_offered u a s =
  match find (by_id_user a u) (offered s) with
  | None => (Fail NotFound, s)
  | Some _ => (Done 200, set_offered s (delete_first (by_id_user a u) (offered s)))
  end.
Proof.
  unfold Users.remove_offered, try_catch, try_catch_with, bind.
  rewrite on_bound by reflexivity. unfold UserSkillOffered_findOneAndDelete.
  destruct (find (by_id_user a u) (offered s)); reflexivity.
Qed.

Lemma ban_user_eq adminId userId isBanned s :
  Admin.ban_user adminId userId (Some isBanned) s =
  if (userId =? ObjectId_toString adminId)%string then (Fail SelfBanForbidden, s) else
  match ObjectId_cast userId with
  | None => (Fail ServerError, s)
  | Some t =>
      match findById user__id t (users s) with
      | None => (Fail NotFound, s)
      | Some u =>
          (Done 200, set_users s (replace_by_id user__id (with_is_banned u isBanned) (users s)))
      end
  end.
Proof.
  unfold Admin.ban_user, try_catch, try_catch_with, bind.
  destruct (userId =? ObjectId_toString adminId)%string; [reflexivity|].
  rewrite on_bound by reflexivity. unfold casting.
  destruct (ObjectId_cast userId) as [t|]; [|reflexivity].
  unfold User_findByIdAndUpdate_ban.
  destruct (findById user__id t (users s)); reflexivity.
Qed.

(** Creation, accept and reject compute the same reply and the same
    store in both generations. *)
Lemma generations_agree u i b s :
  Server.create_swap u b s = Backend.create_swap u b s
  /\ Server.accept_swap u i s = Backend.accept_swap u i s
  /\ Server.reject_swap u i s = Backend.reject_swap u i s.
Proof.
  unfold Server.create_swap, Backend.create_swap, Server.accept_swap, Backend.accept_swap,
    Server.reject_swap, Backend.reject_swap.
  rewrite !accept_swap_eq, !reject_swap_eq by reflexivity.
  split; [|split; reflexivity].
  destruct b as [[r|] [off|] [req|] msg];
    try (rewrite !create_swap_invalid by (reflexivity || (cbn; auto)); reflexivity).
  destruct (ObjectId_cast r) as [rc|] eqn:Hcast.
  - rewrite !create_swap_eq with (rc := rc) by (reflexivity || exact Hcast). reflexivity.
  - rewrite !create_swap_uncast by (reflexivity || exact Hcast). reflexivity.
Qed.

(** ** A request alone in flight is the request served *)

Ltac run_both :=
  unfold ret, throw;
  repeat first
    [ reflexivity
    | progress cbn [run]
    | progress cbv beta iota
    | match goal with
      | |- context [if ?c then _ else _] => destruct c
      end
    | match goal with
      | |- context [match ?x with Some _ => _ | None => _ end] => is_var x; destruct x
      end
    | match goal with
      | |- context [match ?call ?s with _ => _ end] =>
          is_var s; destruct (call s) as [[?|?] ?]
      end ].

Lemma run_checkNotBanned u next s :
  run (Fail ServerError) (checkNotBanned_steps u next) s
  = checkNotBanned u (run (Fail ServerError) next) s.
Proof. unfold checkNotBanned_steps, checkNotBanned. run_both. Qed.

Lemma run_requireAdmin adm next s :
  run (Fail ServerError) (requireAdmin_steps adm next) s
  = requireAdmin adm (run (Fail ServerError) next) s.
Proof. unfold requireAdmin_steps, requireAdmin. run_both. Qed.

Lemma run_create_swap sc u b s :
  run (Fail ServerError) (create_swap_steps sc u b) s = create_swap sc u b s.
Proof.
  unfold create_swap_steps, create_swap, try_catch, try_catch_with, bind.
  destruct (recipientId b), (offeredSkillId b), (requestedSkillId b); run_both.
Qed.

Lemma run_accept_swap sc u i s :
  run (Fail ServerError) (accept_swap_steps sc u i) s = accept_swap sc u i s.
Proof.
  unfold accept_swap_steps, transition_steps, accept_swap, try_catch, try_catch_with, bind.
  run_both.
Qed.

Lemma run_reject_swap sc u i s :
  run (Fail ServerError) (reject_swap_steps sc u i) s = reject_swap sc u i s.
Proof.
  unfold reject_swap_steps, transition_steps, reject_swap, try_catch, try_catch_with, bind.
  run_both.
Qed.

Lemma run_cancel_swap sc u i s :
  run (Fail ServerError) (cancel_swap_steps sc u i) s = cancel_swap sc u i s.
Proof.
  unfold cancel_swap_steps, transition_steps, cancel_swap, try_catch, try_catch_with, bind.
  run_both.
Qed.

Lemma run_delete_swap sc u i s :
  run (Fail ServerError) (delete_swap_steps sc u i) s = delete_swap sc u i s.
Proof.
  unfold delete_swap_steps, transition_steps, delete_swap, try_catch, try_catch_with, bind.
  run_both.
Qed.

Lemma run_rate_swap sc u i b s :
  run (Fail ServerError) (rate_swap_steps sc u i b) s = rate_swap sc u i b s.
Proof.
  unfold rate_swap_steps, rate_swap, try_catch, try_catch_with, bind.
  destruct (isInt_1_5 (body_rating b)); run_both.
Qed.

Lemma run_add_offered u b s :
  run (Fail ServerError) (add_offered_steps u b) s = Users.add_offered u b s.
Proof.
  unfold add_offered_steps, Users.add_offered, try_catch, try_catch_with, bind. run_both.
Qed.

Lemma run_remove_offered u a s :
  run (Fail ServerError) (remove_offered_steps u a) s = Users.remove_offered u a s.
Proof.
  unfold remove_offered_steps, Users.remove_offered, try_catch, try_catch_with, bind.
  run_both.
Qed.

Lemma run_ban_user u t v s :
  run (Fail ServerError) (ban_user_steps u t v) s = Admin.ban_user u t v s.
Proof.
  unfold ban_user_steps, Admin.ban_user, try_catch, try_catch_with, bind.
  destruct v; run_both.
Qed.

(** Served with nothing else in flight, every request is answered as
    [route] answers it, on the same store. *)
Lemma checkNotBanned_ext u (h h' : handler) s :
  (forall s0, h s0 = h' s0) -> checkNotBanned u h s = checkNotBanned u h' s.
Proof.
  intros H. unfold checkNotBanned.
  destruct (on auth_scope "User" (User_findById u) s) as [[e|[user|]] s']; try reflexivity.
  destruct (is_banned user); [reflexivity|apply H].
Qed.

Lemma run_route_steps r s : run (Fail ServerError) (route_steps r) s = route r s.
Proof.
  destruct r; cbn [route_steps route];
    rewrite ?run_checkNotBanned, ?run_requireAdmin;
    try (apply checkNotBanned_ext; intros s0).
  - apply run_create_swap.
  - apply run_accept_swap.
  - apply run_reject_swap.
  - apply run_cancel_swap.
  - apply run_delete_swap.
  - apply run_rate_swap.
  - apply run_rate_swap.
  - apply run_add_offered.
  - apply run_remove_offered.
  - unfold requireAdmin. destruct (negb token_is_admin); [reflexivity|apply run_ban_user].
Qed.

Lemma turns_answer {R} (e : R) n r s : turns e n (Answer r) s = (Answer r, s).
Proof. induction n as [|n IH]; cbn; [reflexivity|exact IH]. Qed.

Lemma turns_reach_run {R} (e : R) (p : script R) :
  forall s, exists n, forall m, n <= m ->
    turns e m p s = (Answer (fst (run e p s)), snd (run e p s)).
Proof.
  induction p as [r|A call k IH]; intros s.
  - exists 0. intros m _. apply turns_answer.
  - cbn [run]. destruct (call s) as [[x|a] s'] eqn:Hc.
    + exists 1. intros [|m] Hm; [lia|]. cbn [turns step]. rewrite Hc. apply turns_answer.
    + destruct (IH a s') as [n Hn]. exists (S n). intros [|m] Hm; [lia|].
      cbn [turns step]. rewrite Hc. apply Hn. lia.
Qed.

(** ** The effect of a request on the swap requests *)

Lemma effect_refl s : effect s s.
Proof. apply eff_none; auto. Qed.

Lemma guarded_effect party u i s k :
  (forall swap, findById swap__id i (swaps s) = Some swap -> status swap = "pending" ->
                effect s (snd (k swap))) ->
  effect s (snd (guarded party u i s k)).
Proof.
  intros Hk. unfold guarded.
  destruct (findById swap__id i (swaps s)) as [swap|] eqn:Hf; [|apply effect_refl].
  destruct (negb (party swap =? u)); [apply effect_refl|].
  destruct (status swap =? "pending")%string eqn:Hp; cbn [negb]; [|apply effect_refl].
  apply Hk; [reflexivity|]. apply String.eqb_eq. exact Hp.
Qed.

Lemma checkNotBanned_effect u next s :
  effect s (snd (next s)) -> effect s (snd (checkNotBanned u next s)).
Proof.
  intros H. rewrite checkNotBanned_eq.
  destruct (findById user__id u (users s)) as [user|]; [|apply effect_refl].
  destruct (is_banned user); [apply effect_refl|exact H].
Qed.

Lemma settle_effect s swap i st :
  findById swap__id i (swaps s) = Some swap -> status swap = "pending" ->
  st = "accepted" \/ st = "rejected" ->
  effect s (set_swaps s (replace_by_id swap__id (with_status swap st) (swaps s))).
Proof.
  intros Hf Hp Hst.
  destruct (findById_key _ _ _ _ Hf) as [Hk _]. subst i.
  eapply eff_settle; eauto.
Qed.

Lemma rate_guards_effect u i b s k :
  (forall z swap rated, swaps (snd (k z swap rated)) = swaps s /\
                        next_id s <= next_id (snd (k z swap rated))) ->
  effect s (snd (rate_guards u i b s k)).
Proof.
  intros Hk. unfold rate_guards.
  destruct (isInt_1_5 (body_rating b)); [|apply effect_refl].
  destruct (findById swap__id i (swaps s)) as [swap|]; [|apply effect_refl].
  destruct (negb (status swap =? "accepted")%string); [apply effect_refl|].
  destruct (requester_id swap =? u); [apply eff_none; apply Hk|].
  destruct (recipient_id swap =? u); [apply eff_none; apply Hk|apply effect_refl].
Qed.

Lemma route_effect r s : effect s (snd (route r s)).
Proof.
  destruct r as [u b|u i|u i|u i|u i|u i b|u i b|u b|u a|u adm t v]; unfold route.
  - (* create *)
    apply checkNotBanned_effect. unfold Backend.create_swap.
    destruct b as [[r|] [off|] [req|] msg];
      try (rewrite create_swap_invalid by (reflexivity || (cbn; auto)); apply effect_refl).
    destruct (ObjectId_cast r) as [rc|] eqn:Hcast;
      [|rewrite create_swap_uncast by (reflexivity || exact Hcast); apply effect_refl].
    rewrite create_swap_eq with (rc := rc) by (reflexivity || exact Hcast).
    destruct (first_failure (creation_checks s u r rc off req)) eqn:Hff; [apply effect_refl|].
    cbn [snd]. eapply eff_create; cbn; try reflexivity.
    unfold creation_checks in Hff. cbn [first_failure] in Hff.
    repeat match type of Hff with
           | (if ?c then _ else _) = None => destruct c eqn:?; [discriminate|]
           | match ?c with _ => _ end = None => destruct c eqn:?; try discriminate
           end.
    cbn [requester_id recipient_id].
    match goal with
    | H : existsb (pending_between u rc) _ = false |- _ =>
        rewrite existsb_find in H; destruct (find (pending_between u rc) (swaps s));
          [discriminate|reflexivity]
    end.
  - apply checkNotBanned_effect. unfold Backend.accept_swap.
    rewrite accept_swap_eq by reflexivity. apply guarded_effect.
    intros swap Hf Hp. cbn [snd]. eapply settle_effect; eauto.
  - apply checkNotBanned_effect. unfold Backend.reject_swap.
    rewrite reject_swap_eq by reflexivity. apply guarded_effect.
    intros swap Hf Hp. cbn [snd]. eapply settle_effect; eauto.
  - apply checkNotBanned_effect. unfold Server.cancel_swap.
    rewrite cancel_swap_eq by reflexivity. apply guarded_effect.
    intros. apply effect_refl.
  - apply checkNotBanned_effect. unfold Backend.delete_swap.
    rewrite delete_swap_eq by reflexivity. apply guarded_effect.
    intros swap Hf Hp. cbn [snd]. eapply eff_delete; reflexivity.
  - apply checkNotBanned_effect. unfold Server.rate_swap.
    rewrite rate_swap_unbound_eq by reflexivity. apply rate_guards_effect.
    intros; cbn; auto.
  - apply checkNotBanned_effect. unfold Backend.rate_swap.
    rewrite rate_swap_bound_eq by reflexivity. apply rate_guards_effect.
    intros z swap rated. destruct (find (by_swap_rater i u) (ratings s)); cbn; auto.
  - rewrite add_offered_eq.
    destruct (findById skill__id (skillId b) (skills s)); [|apply effect_refl].
    destruct (find (by_user_skill u (skillId b)) (offered s)); [apply effect_refl|].
    cbv zeta. destruct (validate_offered _); [|apply effect_refl].
    apply eff_none; cbn; auto.
  - rewrite remove_offered_eq.
    destruct (find (by_id_user a u) (offered s)); [|apply effect_refl].
    apply eff_none; cbn; auto.
  - unfold requireAdmin. destruct (negb adm); [apply effect_refl|].
    destruct v as [v|]; [|apply effect_refl].
    rewrite ban_user_eq. destruct (t =? ObjectId_toString u)%string; [apply effect_refl|].
    destruct (ObjectId_cast t) as [t'|]; [|apply effect_refl].
    destruct (findById user__id t' (users s)); [|apply effect_refl].
    apply eff_none; cbn; auto.
Qed.

(** ** Counting and replacing documents *)

Lemma countDocuments_app {D} (p : D -> bool) l1 l2 :
  countDocuments p (l1 ++ l2) = countDocuments p l1 + countDocuments p l2.
Proof. unfold countDocuments. rewrite filter_app, length_app. reflexivity. Qed.

Lemma countDocuments_find_none {D} (p : D -> bool) l :
  find p l = None -> countDocuments p l = 0.
Proof.
  unfold countDocuments. induction l as [|x l IH]; cbn; [reflexivity|].
  destruct (p x); [discriminate|exact IH].
Qed.

Lemma countDocuments_map_le {D} (p : D -> bool) (f : D -> D) l :
  (forall x, p (f x) = true -> p x = true) ->
  countDocuments p (map f l) <= countDocuments p l.
Proof.
  intros Hf. unfold countDocuments. induction l as [|x l IH]; cbn; [lia|].
  destruct (p (f x)) eqn:E.
  - rewrite (Hf _ E). cbn. lia.
  - destruct (p x); cbn; lia.
Qed.

Lemma countDocuments_filter_le {D} (p q : D -> bool) l :
  countDocuments p (filter q l) <= countDocuments p l.
Proof.
  unfold countDocuments. induction l as [|x l IH]; cbn; [lia|].
  destruct (q x); cbn; destruct (p x); cbn; lia.
Qed.

Lemma in_replace_by_id {D} (key : D -> oid) d l x :
  In x (replace_by_id key d l) -> x = d \/ (In x l /\ key x <> key d).
Proof.
  unfold replace_by_id. rewrite in_map_iff. intros [y [Hy Hin]].
  destruct (key y =? key d) eqn:E.
  - left. congruence.
  - right. subst y. split; [exact Hin|]. apply Nat.eqb_neq. exact E.
Qed.

Lemma in_delete_by_id {D} (key : D -> oid) i l x :
  In x (delete_by_id key i l) <-> In x l /\ key x <> i.
Proof.
  unfold delete_by_id. rewrite filter_In, negb_true_iff, Nat.eqb_neq. reflexivity.
Qed.

(** ** Invariants of the swap requests, one request at a time *)

Lemma effect_status_admissible s s' :
  effect s s' -> status_admissible s -> status_admissible s'.
Proof.
  unfold status_admissible. intros [He _|d He _ _ Hst _|sw st _ _ Hst He _|i He _] H;
    rewrite He.
  - exact H.
  - apply Forall_app. split; [exact H|]. constructor; [|constructor].
    rewrite Hst. cbn. auto.
  - rewrite Forall_forall in *. intros x Hx.
    apply in_replace_by_id in Hx. destruct Hx as [->|[Hx _]]; [|auto].
    cbn. destruct Hst as [->| ->]; auto.
  - rewrite Forall_forall in *. intros x Hx. apply in_delete_by_id in Hx. apply H, Hx.
Qed.

Lemma effect_swap_ids_fresh s s' :
  effect s s' -> swap_ids_fresh s -> swap_ids_fresh s'.
Proof.
  unfold swap_ids_fresh.
  intros [He Hn|d He Hid Hn _ _|sw st Hf _ _ He Hn|i He Hn] H; rewrite He;
    rewrite Forall_forall in *.
  - intros x Hx. specialize (H x Hx). lia.
  - intros x Hx. apply in_app_or in Hx. destruct Hx as [Hx|[<-|[]]].
    + specialize (H x Hx). lia.
    + lia.
  - intros x Hx. apply in_replace_by_id in Hx. rewrite Hn.
    destruct Hx as [->|[Hx _]]; [|auto].
    apply findById_key in Hf. cbn. apply H, Hf.
  - intros x Hx. apply in_delete_by_id in Hx. rewrite Hn. apply H, Hx.
Qed.

Lemma pending_between_true rq rc d :
  pending_between rq rc d = true ->
  requester_id d = rq /\ recipient_id d = rc /\ status d = "pending".
Proof.
  unfold pending_between. rewrite !andb_true_iff, !Nat.eqb_eq, String.eqb_eq. tauto.
Qed.

Lemma effect_pending_unique s s' :
  effect s s' -> pending_unique s -> pending_unique s'.
Proof.
  unfold pending_unique.
  intros [He _|d He _ _ _ Hnone|sw st _ _ Hst He _|i He _] H rq rc; rewrite He.
  - apply H.
  - rewrite countDocuments_app. unfold countDocuments at 2. cbn [filter].
    destruct (pending_between rq rc d) eqn:E; cbn [List.length].
    + apply pending_between_true in E. destruct E as [<- [<- _]].
      rewrite (countDocuments_find_none _ _ Hnone). lia.
    + specialize (H rq rc). lia.
  - etransitivity; [|apply (H rq rc)]. apply countDocuments_map_le.
    intros x. destruct (swap__id x =? swap__id (with_status sw st)); [|auto].
    intros E. apply pending_between_true in E. destruct E as [_ [_ E]].
    cbn in E. destruct Hst; subst st; discriminate.
  - etransitivity; [|apply (H rq rc)]. apply countDocuments_filter_le.
Qed.

(** ** ... and along any sequence of requests *)

Lemma serve_cons r rs s :
  serve (r :: rs) s =
  (fst (route r s) :: fst (serve rs (snd (route r s))), snd (serve rs (snd (route r s)))).
Proof.
  cbn [serve]. destruct (route r s) as [a s1]. cbn [fst snd].
  destruct (serve rs s1); reflexivity.
Qed.

Lemma serve_invariant (P : db -> Prop) :
  (forall s s', effect s s' -> P s -> P s') ->
  forall rs s, P s -> P (snd (serve rs s)).
Proof.
  intros HP rs. induction rs as [|r rs IH]; intros s Hs; [exact Hs|].
  rewrite serve_cons. cbn [snd]. apply IH. eapply HP; [apply route_effect|exact Hs].
Qed.

(** ** Settled requests stay settled *)

Lemma guarded_success party u i s k a s' :
  guarded party u i s k = (a, s') -> succeeded a = true ->
  exists swap, findById swap__id i (swaps s) = Some swap /\ party swap = u /\
               status swap = "pending" /\ k swap = (a, s').
Proof.
  unfold guarded. intros H Ha.
  destruct (findById swap__id i (swaps s)) as [swap|] eqn:Hf.
  2:{ injection H as <- _. discriminate. }
  destruct (party swap =? u) eqn:Hp; cbn [negb] in H.
  2:{ injection H as <- _. discriminate. }
  destruct (status swap =? "pending")%string eqn:Hs; cbn [negb] in H.
  2:{ injection H as <- _. discriminate. }
  exists swap. apply Nat.eqb_eq in Hp. apply String.eqb_eq in Hs. auto.
Qed.

Lemma guarded_settled party u i s k :
  settled i s -> exists e, guarded party u i s k = (Fail e, s).
Proof.
  intros [Hd _]. unfold guarded.
  destruct (findById swap__id i (swaps s)) as [swap|] eqn:Hf; [|eauto].
  destruct (negb (party swap =? u)); [eauto|].
  apply findById_key in Hf. destruct Hf as [Hk Hin].
  destruct (status swap =? "pending")%string eqn:Hs; cbn [negb]; [|eauto].
  apply String.eqb_eq in Hs. exfalso. eapply Hd; eauto.
Qed.

Lemma checkNotBanned_success u next s a s' :
  checkNotBanned u next s = (a, s') -> succeeded a = true -> next s = (a, s').
Proof.
  rewrite checkNotBanned_eq. intros H Ha.
  destruct (findById user__id u (users s)) as [user|].
  2:{ injection H as <- _. discriminate. }
  destruct (is_banned user); [|exact H].
  injection H as <- _. discriminate.
Qed.

Lemma checkNotBanned_blocked u next s :
  (exists e, next s = (Fail e, s)) -> exists e, checkNotBanned u next s = (Fail e, s).
Proof.
  rewrite checkNotBanned_eq. intros H.
  destruct (findById user__id u (users s)) as [user|]; [|eauto].
  destruct (is_banned user); eauto.
Qed.

Lemma transition_guarded r i :
  transition_on i r = true ->
  exists u party k, forall s,
    route r s = checkNotBanned u (fun s => guarded party u i s (k s)) s /\
    forall swap a s', findById swap__id i (swaps s) = Some swap ->
                      k s swap = (a, s') -> succeeded a = true ->
                      (exists st, st <> "pending" /\
                         swaps s' = replace_by_id swap__id (with_status swap st) (swaps s)
                         /\ next_id s' = next_id s)
                      \/ (swaps s' = delete_by_id swap__id i (swaps s) /\ next_id s' = next_id s).
Proof.
  destruct r as [u b|u j|u j|u j|u j|u j b|u j b|u b|u a|u adm t v]; cbn [transition_on];
    try discriminate; intros Hj; apply Nat.eqb_eq in Hj; subst j.
  - exists u, recipient_id,
      (fun s swap => (Done 200, set_swaps s (replace_by_id swap__id (with_status swap "accepted") (swaps s)))).
    intros s. split.
    + cbn [route]. rewrite !checkNotBanned_eq. unfold Backend.accept_swap.
      rewrite accept_swap_eq by reflexivity. reflexivity.
    + intros swap a s' _ H _. injection H as _ <-. left. exists "accepted".
      repeat split; discriminate.
  - exists u, recipient_id,
      (fun s swap => (Done 200, set_swaps s (replace_by_id swap__id (with_status swap "rejected") (swaps s)))).
    intros s. split.
    + cbn [route]. rewrite !checkNotBanned_eq. unfold Backend.reject_swap.
      rewrite reject_swap_eq by reflexivity. reflexivity.
    + intros swap a s' _ H _. injection H as _ <-. left. exists "rejected".
      repeat split; discriminate.
  - exists u, requester_id, (fun s _ => (Fail ServerError, s)).
    intros s. split.
    + cbn [route]. rewrite !checkNotBanned_eq. unfold Server.cancel_swap.
      rewrite cancel_swap_eq by reflexivity. reflexivity.
    + intros swap a s' _ H Ha. injection H as <- _. discriminate.
  - exists u, requester_id,
      (fun s _ => (Done 200, set_swaps s (delete_by_id swap__id i (swaps s)))).
    intros s. split.
    + cbn [route]. rewrite !checkNotBanned_eq. unfold Backend.delete_swap.
      rewrite delete_swap_eq by reflexivity. reflexivity.
    + intros swap a s' _ H _. injection H as _ <-. right. split; reflexivity.
Qed.

(** A transition that succeeds leaves its request settled. *)
Lemma success_settles r i s :
  swap_ids_fresh s -> transition_on i r = true -> succeeded (fst (route r s)) = true ->
  settled i (snd (route r s)).
Proof.
  intros Hfresh Hr Hok.
  destruct (transition_guarded r i Hr) as [u [party [k Hk]]].
  destruct (Hk s) as [Heq Hstep]. clear Hk.
  destruct (route r s) as [a s'] eqn:Hroute. cbn [fst snd] in *.
  symmetry in Heq. apply checkNotBanned_success in Heq; [|exact Hok].
  apply guarded_success in Heq; [|exact Hok].
  destruct Heq as [swap [Hf [_ [_ Hks]]]].
  specialize (Hstep swap a s' Hf Hks Hok).
  pose proof (findById_key _ _ _ _ Hf) as [Hid Hin].
  unfold swap_ids_fresh in Hfresh. rewrite Forall_forall in Hfresh.
  pose proof (Hfresh swap Hin) as Hlt. rewrite Hid in Hlt.
  destruct Hstep as [[st [Hst [Hsw Hn]]]|[Hsw Hn]]; unfold settled; rewrite Hsw, Hn;
    (split; [|exact Hlt]); intros d Hd Hdi.
  - apply in_replace_by_id in Hd. destruct Hd as [->|[_ Hne]]; [exact Hst|].
    exfalso. apply Hne. cbn. congruence.
  - apply in_delete_by_id in Hd. exfalso. tauto.
Qed.

Lemma effect_settled i s s' : effect s s' -> settled i s -> settled i s'.
Proof.
  unfold settled.
  intros [He Hn|d He Hid Hn _ _|sw st Hf Hp Hst He Hn|j He Hn] [H Hlt]; rewrite He;
    (split; [|lia]); intros x Hx Hxi.
  - auto.
  - apply in_app_or in Hx. destruct Hx as [Hx|[<-|[]]]; [auto|]. lia.
  - apply in_replace_by_id in Hx. destruct Hx as [->|[Hx _]]; [|auto].
    cbn. destruct Hst; subst st; discriminate.
  - apply in_delete_by_id in Hx. apply H; tauto.
Qed.

(** On a settled request every transition fails and writes nothing. *)
Lemma settled_refuses r i s :
  settled i s -> transition_on i r = true -> exists e, route r s = (Fail e, s).
Proof.
  intros Hs Hr.
  destruct (transition_guarded r i Hr) as [u [party [k Hk]]].
  destruct (Hk s) as [-> _].
  apply checkNotBanned_blocked. apply guarded_settled. exact Hs.
Qed.

Lemma settled_no_success i rs :
  forall s, settled i s -> successes i rs s = 0.
Proof.
  induction rs as [|r rs IH]; intros s Hs; [reflexivity|].
  cbn [successes]. destruct (route r s) as [a s1] eqn:Hroute.
  assert (Hs1 : settled i s1).
  { eapply effect_settled; [|exact Hs]. replace s1 with (snd (route r s)) by (rewrite Hroute; reflexivity).
    apply route_effect. }
  rewrite (IH _ Hs1).
  destruct (transition_on i r) eqn:Hr; [|reflexivity].
  destruct (settled_refuses r i s Hs Hr) as [e He].
  rewrite He in Hroute. injection Hroute as <- _. reflexivity.
Qed.

Lemma at_most_one_success i rs :
  forall s, swap_ids_fresh s -> successes i rs s <= 1.
Proof.
  induction rs as [|r rs IH]; intros s Hfresh; [cbn; lia|].
  cbn [successes]. destruct (route r s) as [a s1] eqn:Hroute.
  assert (Hfresh1 : swap_ids_fresh s1).
  { eapply effect_swap_ids_fresh; [|exact Hfresh].
    replace s1 with (snd (route r s)) by (rewrite Hroute; reflexivity).
    apply route_effect. }
  destruct (transition_on i r && succeeded a) eqn:E.
  - apply andb_true_iff in E. destruct E as [Hr Ha].
    assert (Hs1 : settled i s1).
    { replace s1 with (snd (route r s)) by (rewrite Hroute; reflexivity).
      apply success_settles; auto.
      rewrite Hroute. exact Ha. }
    rewrite (settled_no_success i rs s1 Hs1). lia.
  - specialize (IH s1 Hfresh1). lia.
Qed.

Lemma findById_replace_same {D} (key : D -> oid) d (l : list D) :
  findById key (key d) l <> None ->
  findById key (key d) (replace_by_id key d l) = Some d.
Proof.
  unfold findById, replace_by_id. induction l as [|x l IH]; cbn; [congruence|].
  destruct (key x =? key d) eqn:E.
  - intros _. rewrite Nat.eqb_refl. reflexivity.
  - intros H. rewrite E. apply IH. exact H.
Qed.

(** ** Requests in flight together *)

Lemma step_checkNotBanned u next s caller :
  findById user__id u (users s) = Some caller -> is_banned caller = false ->
  step (Fail ServerError) (checkNotBanned_steps u next) s = (next, s).
Proof.
  intros Hf Hb. unfold checkNotBanned_steps. cbn [step].
  rewrite on_bound by reflexivity. unfold User_findById. rewrite Hf, Hb. reflexivity.
Qed.

(** The read of a transition: the document is found, the caller is its
    party, it is pending; what is left is the write of the document read. *)
Lemma step_transition_read sc party u i write s swap :
  mem_string "SwapRequest" sc = true ->
  findById swap__id i (swaps s) = Some swap -> party swap = u -> status swap = "pending" ->
  step (Fail ServerError) (transition_steps sc party u i write) s
  = (await _ := write swap in Answer (Done 200), s).
Proof.
  intros Hsc Hf Hp Hst. unfold transition_steps. cbn [step].
  rewrite on_bound by exact Hsc. unfold SwapRequest_findById.
  rewrite Hf, Hp, Hst, Nat.eqb_refl. reflexivity.
Qed.

(** The write: the document is saved over whatever is stored under its
    [_id] by then. *)
Lemma step_save d s stored :
  validate_swap d = true ->
  findById swap__id (swap__id d) (swaps s) = Some stored ->
  step (Fail ServerError) (await _ := SwapRequest_save d in Answer (Done 200)) s
  = (Answer (Done 200), set_swaps s (replace_by_id swap__id d (swaps s))).
Proof.
  intros Hv Hf. cbn [step]. unfold SwapRequest_save. rewrite Hv, Hf. reflexivity.
Qed.

(** An accept and a reject of one pending request by its recipient, both in
    flight: each reads the request while it is pending, each then saves, and
    both are answered 200; the status is that of the later save. *)
Lemma accept_and_reject_in_flight sc s i swap user :
  mem_string "SwapRequest" sc = true ->
  findById swap__id i (swaps s) = Some swap -> status swap = "pending" ->
  findById user__id (recipient_id swap) (users s) = Some user -> is_banned user = false ->
  in_flight [0; 1; 0; 1; 0; 1]
            [checkNotBanned_steps (recipient_id swap)
               (accept_swap_steps sc (recipient_id swap) i);
             checkNotBanned_steps (recipient_id swap)
               (reject_swap_steps sc (recipient_id swap) i)] s
  = ([Some (Done 200); Some (Done 200)],
     set_swaps s (replace_by_id swap__id (with_status swap "rejected")
                    (replace_by_id swap__id (with_status swap "accepted") (swaps s)))).
Proof.
  intros Hsc Hf Hst Hu Hb. unfold in_flight.
  unfold accept_swap_steps, reject_swap_steps.
  cbn [interleave nth_error]. rewrite (step_checkNotBanned _ _ _ _ Hu Hb).
  cbn [interleave nth_error replace_nth]. rewrite (step_checkNotBanned _ _ _ _ Hu Hb).
  cbn [interleave nth_error replace_nth].
  rewrite (step_transition_read sc _ _ _ _ _ swap Hsc Hf eq_refl Hst).
  cbn [interleave nth_error replace_nth].
  rewrite (step_transition_read sc _ _ _ _ _ swap Hsc Hf eq_refl Hst).
  cbn [interleave nth_error replace_nth].
  rewrite (step_save _ _ swap (validate_accepted swap) (save_found _ _ _ _ Hf)).
  cbn [interleave nth_error replace_nth].
  assert (Hf' : findById swap__id (swap__id (with_status swap "rejected"))
                  (swaps (set_swaps s (replace_by_id swap__id (with_status swap "accepted")
                                         (swaps s))))
                = Some (with_status swap "accepted")).
  { cbn [swaps set_swaps swap__id with_status].
    apply (findById_replace_same swap__id (with_status swap "accepted")).
    cbn [swap__id with_status]. destruct (findById_key _ _ _ _ Hf) as [-> _].
    rewrite Hf. discriminate. }
  rewrite (step_save _ _ _ (validate_rejected swap) Hf').
  cbn [interleave nth_error replace_nth answered map]. reflexivity.
Qed.

(** Turns of the first, or of the second, of two requests in flight. *)
Lemma interleave_first n rest p q : forall s,
  interleave (repeat 0 n ++ rest) [p; q] s
  = interleave rest [fst (turns (Fail ServerError) n p s); q]
               (snd (turns (Fail ServerError) n p s)).
Proof.
  revert p. induction n as [|n IH]; intros p s; [reflexivity|].
  cbn [repeat app interleave nth_error turns].
  destruct (step (Fail ServerError) p s) as [p' s']. cbn [replace_nth]. apply IH.
Qed.

Lemma interleave_second n rest p q : forall s,
  interleave (repeat 1 n ++ rest) [p; q] s
  = interleave rest [p; fst (turns (Fail ServerError) n q s)]
               (snd (turns (Fail ServerError) n q s)).
Proof.
  revert q. induction n as [|n IH]; intros q s; [reflexivity|].
  cbn [repeat app interleave nth_error turns].
  destruct (step (Fail ServerError) q s) as [q' s']. cbn [replace_nth]. apply IH.
Qed.

Lemma checks_pass s u r rc off req :
  first_failure (creation_checks s u r rc off req) = None ->
  (ObjectId_toString u =? r)%string = false
  /\ (exists recipient, findById user__id rc (users s) = Some recipient
                        /\ is_banned recipient = false)
  /\ (exists d, find (by_user_skill u off) (offered s) = Some d)
  /\ (exists d, find (by_user_skill rc req) (offered s) = Some d)
  /\ find (pending_between u rc) (swaps s) = None.
Proof.
  unfold creation_checks. cbn [first_failure]. rewrite !existsb_find.
  destruct (ObjectId_toString u =? r)%string; [discriminate|].
  destruct (findById user__id rc (users s)) as [recipient|]; [|discriminate].
  destruct (is_banned recipient) eqn:Hb; [discriminate|].
  destruct (find (by_user_skill u off) (offered s)); [|discriminate].
  destruct (find (by_user_skill rc req) (offered s)); [|discriminate].
  destruct (find (pending_between u rc) (swaps s)); [discriminate|].
  intros _. cbn [negb]. eauto 10.
Qed.

Lemma generations_bind sc :
  In sc generations ->
  mem_string "User" sc = true /\ mem_string "UserSkillOffered" sc = true
  /\ mem_string "SwapRequest" sc = true.
Proof. intros [<-|[<-|[]]]; repeat split. Qed.

Lemma create_reaches_insert sc u b r rc off req s caller :
  In sc generations ->
  recipientId b = Some r -> offeredSkillId b = Some off -> requestedSkillId b = Some req ->
  ObjectId_cast r = Some rc ->
  findById user__id u (users s) = Some caller -> is_banned caller = false ->
  first_failure (creation_checks s u r rc off req) = None ->
  turns (Fail ServerError) 5 (checkNotBanned_steps u (create_swap_steps sc u b)) s
  = (insert_left sc u r off req (create_message b), s).
Proof.
  intros Hsc Hr Hoff Hreq Hcast Hu Hb Hff.
  destruct (generations_bind sc Hsc) as [B1 [B2 B3]].
  destruct (checks_pass _ _ _ _ _ _ Hff) as [H1 [[recipient [H2 H3]] [[d4 H4] [[d5 H5] H6]]]].
  cbn [turns]. rewrite (step_checkNotBanned _ _ _ _ Hu Hb).
  unfold create_swap_steps. rewrite Hr, Hoff, Hreq, H1.
  cbn [step]. rewrite on_bound by assumption. unfold casting at 1. rewrite Hcast.
  unfold User_findById. rewrite H2, H3.
  cbn [step]. rewrite on_bound by assumption. unfold UserSkillOffered_findOne at 1.
  rewrite H4.
  cbn [step]. rewrite on_bound by assumption. unfold casting at 1. rewrite Hcast.
  unfold UserSkillOffered_findOne. rewrite H5.
  cbn [step]. rewrite on_bound by assumption. unfold casting at 1. rewrite Hcast.
  unfold SwapRequest_findOne_pending. rewrite H6.
  reflexivity.
Qed.

Lemma step_insert sc u r rc off req msg s :
  mem_string "SwapRequest" sc = true ->
  ObjectId_cast r = Some rc ->
  step (Fail ServerError) (insert_left sc u r off req msg) s
  = (Answer (Created (next_id s)),
     bump (set_swaps s (swaps s ++ [mkSwap (next_id s) u rc off req "pending" msg]))).
Proof.
  intros Hsc Hcast. unfold insert_left. cbn [step].
  rewrite on_bound by exact Hsc. unfold casting. rewrite Hcast. reflexivity.
Qed.

(** Two creations for one pair in flight: both look for a pending request
    before either inserts, both find none, and both insert. *)
Lemma two_creations_in_flight sc u b r rc off req s caller :
  In sc generations ->
  recipientId b = Some r -> offeredSkillId b = Some off -> requestedSkillId b = Some req ->
  ObjectId_cast r = Some rc ->
  findById user__id u (users s) = Some caller -> is_banned caller = false ->
  first_failure (creation_checks s u r rc off req) = None ->
  in_flight [0; 0; 0; 0; 0; 1; 1; 1; 1; 1; 0; 1]
            [checkNotBanned_steps u (create_swap_steps sc u b);
             checkNotBanned_steps u (create_swap_steps sc u b)] s
  = ([Some (Created (next_id s)); Some (Created (S (next_id s)))],
     bump (bump (set_swaps s
       (swaps s ++ [mkSwap (next_id s) u rc off req "pending" (create_message b);
                    mkSwap (S (next_id s)) u rc off req "pending" (create_message b)])))).
Proof.
  intros Hsc Hr Hoff Hreq Hcast Hu Hb Hff.
  destruct (generations_bind sc Hsc) as [_ [_ B3]].
  unfold in_flight.
  change [0; 0; 0; 0; 0; 1; 1; 1; 1; 1; 0; 1] with (repeat 0 5 ++ repeat 1 5 ++ [0; 1])%list.
  rewrite interleave_first, interleave_second.
  rewrite !(create_reaches_insert sc u b r rc off req s caller) by assumption.
  cbn [fst snd].
  rewrite !(create_reaches_insert sc u b r rc off req s caller) by assumption.
  cbn [fst snd interleave nth_error].
  rewrite (step_insert sc _ _ rc) by assumption. cbn [replace_nth interleave nth_error].
  rewrite (step_insert sc _ _ rc) by assumption. cbn [replace_nth interleave nth_error].
  cbn [answered map next_id bump set_swaps swaps users skills offered wanted ratings].
  rewrite <- app_assoc. reflexivity.
Qed.

(* ================================================================== *)
(** * The claims *)

(** ** Cancelling *)

(** C1.  The claim has a cancel by the requester of a pending request succeed
    and leave the status 'cancelled'.  On [PUT /swaps/:swapId/cancel] the
    guards are the claimed ones, but the write never lands: the schema's enum
    has no 'cancelled', the save is refused and the handler answers 500 with
    the request still pending.  Evaluated where Alice cancels her own pending
    request, and in general: this route never succeeds and never writes. *)
Theorem put_cancel_never_succeeds :
  route (CancelSwap 1 100) Sample.db_pending = (Fail ServerError, Sample.db_pending)
  /\ status (Sample.request100 "pending") = "pending"
  /\ requester_id (Sample.request100 "pending") = 1
  /\ forall u i s, exists e, Server.cancel_swap u i s = (Fail e, s).
Proof.
  split; [reflexivity|]. split; [reflexivity|]. split; [reflexivity|].
  intros u i s. unfold Server.cancel_swap. rewrite cancel_swap_eq by reflexivity.
  unfold guarded.
  destruct (findById swap__id i (swaps s)) as [swap|]; [|eauto].
  destruct (negb (requester_id swap =? u)); [eauto|].
  destruct (negb (status swap =? "pending")%string); eauto.
Qed.

(** ** The status enum *)

(** C10.  'cancelled' is not a value of the schema's status enum; a request
    never stores a document that was not there before unless its status is
    pending, accepted or rejected; so a store whose requests all carry such a
    status keeps that property whatever requests are served, and none of its
    documents is ever 'cancelled'. *)
Theorem stored_status_in_enum (rs : list request) (s : db) :
  status_admissible s ->
  mem_string "cancelled" swap_status_enum = false
  /\ (forall r d, In d (swaps (snd (route r s))) ->
                  In d (swaps s) \/ In (status d) ["pending"; "accepted"; "rejected"])
  /\ status_admissible (snd (serve rs s))
  /\ (forall d, In d (swaps (snd (serve rs s))) ->
                In (status d) ["pending"; "accepted"; "rejected"] /\ status d <> "cancelled").
Proof.
  intros Hs. split; [reflexivity|]. split; [|split].
  - intros r d Hd.
    destruct (route_effect r s) as [He _|x He _ _ Hst _|sw st _ _ Hst He _|i He _];
      rewrite He in Hd.
    + auto.
    + apply in_app_or in Hd. destruct Hd as [Hd|[<-|[]]]; [auto|].
      right. rewrite Hst. cbn. auto.
    + apply in_replace_by_id in Hd. destruct Hd as [->|[Hd _]]; [|auto].
      right. cbn. destruct Hst as [->| ->]; auto.
    + apply in_delete_by_id in Hd. left. apply Hd.
  - apply serve_invariant; [exact effect_status_admissible|exact Hs].
  - intros d Hd.
    assert (H : status_admissible (snd (serve rs s)))
      by (apply serve_invariant; [exact effect_status_admissible|exact Hs]).
    unfold status_admissible in H. rewrite Forall_forall in H. specialize (H d Hd).
    split; [exact H|].
    cbn in H. intros E. rewrite E in H.
    destruct H as [H|[H|[H|[]]]]; discriminate.
Qed.

Lemma stored_status_in_enum_witness :
  status_admissible Sample.db_pending
  /\ status_admissible (snd (serve Sample.busy_day Sample.db_pending))
  /\ List.length (swaps (snd (serve Sample.busy_day Sample.db_pending))) = 2.
Proof.
  assert (H : status_admissible Sample.db_pending).
  { constructor; [cbn; auto|constructor]. }
  split; [exact H|]. split; [|reflexivity].
  exact (proj1 (proj2 (proj2 (stored_status_in_enum Sample.busy_day Sample.db_pending H)))).
Defined.

(** ** Transitions *)

Lemma generations_bind_SwapRequest sc :
  In sc generations -> mem_string "SwapRequest" sc = true.
Proof. intros [<-|[<-|[]]]; reflexivity. Qed.

Lemma guarded_final party u i s k swap :
  findById swap__id i (swaps s) = Some swap -> status swap <> "pending" ->
  guarded party u i s k
  = (Fail (if party swap =? u then InvalidTransition else Forbidden), s).
Proof.
  intros Hf Hst. unfold guarded. rewrite Hf.
  destruct (party swap =? u); cbn [negb]; [|reflexivity].
  destruct (status swap =? "pending")%string eqn:E; [|reflexivity].
  apply String.eqb_eq in E. contradiction.
Qed.

Lemma final_refuses r i s swap :
  findById swap__id i (swaps s) = Some swap -> status swap <> "pending" ->
  transition_on i r = true -> exists e, route r s = (Fail e, s).
Proof.
  intros Hf Hst Hr.
  destruct (transition_guarded r i Hr) as [u [party [k Hk]]].
  destruct (Hk s) as [-> _].
  apply checkNotBanned_blocked. rewrite (guarded_final _ _ _ _ _ swap Hf Hst). eauto.
Qed.

(** C2, as the code has it.  Of the accepts, rejects and cancels served one
    after the other on one request, each answered before the next begins, at
    most one succeeds.  Once its status is no longer pending, every accept,
    reject or cancel of it fails and leaves the store as it was; past the
    ban check of the middleware the failure is Forbidden when the caller is
    not the party the operation belongs to (the recipient for accept and
    reject, the requester for cancel), and InvalidTransition otherwise.
    The handlers read the request, await, and then save what they read
    without looking again: an accept and a reject by the recipient that are
    in flight together on a pending request both succeed, and the request
    ends up with the status of the later save.  A request that is alone in
    flight is answered as when it is served. *)
Theorem one_transition_then_final (s : db) (i : oid) (swap : SwapRequest) :
  swap_ids_fresh s ->
  findById swap__id i (swaps s) = Some swap ->
  (forall rs, successes i rs s <= 1)
  /\ (forall sc u s0,
        run (Fail ServerError) (checkNotBanned_steps u (accept_swap_steps sc u i)) s0
        = checkNotBanned u (accept_swap sc u i) s0
        /\ run (Fail ServerError) (checkNotBanned_steps u (reject_swap_steps sc u i)) s0
           = checkNotBanned u (reject_swap sc u i) s0)
  /\ (status swap = "pending" ->
      forall sc user,
        In sc generations ->
        findById user__id (recipient_id swap) (users s) = Some user ->
        is_banned user = false ->
        in_flight [0; 1; 0; 1; 0; 1]
                  [checkNotBanned_steps (recipient_id swap)
                     (accept_swap_steps sc (recipient_id swap) i);
                   checkNotBanned_steps (recipient_id swap)
                     (reject_swap_steps sc (recipient_id swap) i)] s
        = ([Some (Done 200); Some (Done 200)],
           set_swaps s (replace_by_id swap__id (with_status swap "rejected")
                          (replace_by_id swap__id (with_status swap "accepted") (swaps s)))))
  /\ (status swap <> "pending" ->
      (forall r, transition_on i r = true -> exists e, route r s = (Fail e, s))
      /\ forall sc u, In sc generations ->
           let by_recipient :=
             Fail (if recipient_id swap =? u then InvalidTransition else Forbidden) in
           let by_requester :=
             Fail (if requester_id swap =? u then InvalidTransition else Forbidden) in
           accept_swap sc u i s = (by_recipient, s)
           /\ reject_swap sc u i s = (by_recipient, s)
           /\ cancel_swap sc u i s = (by_requester, s)
           /\ delete_swap sc u i s = (by_requester, s)).
Proof.
  intros Hfresh Hf. split; [|split; [|split]].
  - intros rs. apply at_most_one_success. exact Hfresh.
  - intros sc u s0. rewrite !run_checkNotBanned.
    split; apply checkNotBanned_ext; intros s1; [apply run_accept_swap|apply run_reject_swap].
  - intros Hst sc user Hsc Hu Hb.
    apply (accept_and_reject_in_flight sc s i swap user); try assumption.
    apply generations_bind_SwapRequest. exact Hsc.
  - intros Hst. split.
    + intros r Hr. eapply final_refuses; eauto.
    + intros sc u Hsc. cbv zeta.
      pose proof (generations_bind_SwapRequest sc Hsc) as Hb.
      rewrite accept_swap_eq, reject_swap_eq, cancel_swap_eq, delete_swap_eq by exact Hb.
      rewrite !(guarded_final _ _ _ _ _ swap Hf Hst). auto.
Qed.

Lemma one_transition_then_final_witness :
  (swap_ids_fresh Sample.db_pending
   /\ findById swap__id 100 (swaps Sample.db_pending) = Some (Sample.request100 "pending")
   /\ successes 100 Sample.attempts Sample.db_pending <= 1
   /\ fst (in_flight [0; 1; 0; 1; 0; 1] (map route_steps [AcceptSwap 2 100; RejectSwap 2 100])
                     Sample.db_pending)
      = [Some (Done 200); Some (Done 200)])
  /\ (swap_ids_fresh Sample.db_accepted
      /\ findById swap__id 100 (swaps Sample.db_accepted) = Some (Sample.request100 "accepted")
      /\ status (Sample.request100 "accepted") <> "pending"
      /\ accept_swap Backend.bindings 2 100 Sample.db_accepted
         = (Fail InvalidTransition, Sample.db_accepted)
      /\ delete_swap Backend.bindings 2 100 Sample.db_accepted
         = (Fail Forbidden, Sample.db_accepted)).
Proof.
  assert (F1 : swap_ids_fresh Sample.db_pending).
  { constructor; [cbn; lia|constructor]. }
  assert (F2 : swap_ids_fresh Sample.db_accepted).
  { constructor; [cbn; lia|constructor]. }
  assert (N : status (Sample.request100 "accepted") <> "pending") by discriminate.
  split.
  - split; [exact F1|]. split; [reflexivity|].
    pose proof (one_transition_then_final Sample.db_pending 100
                  (Sample.request100 "pending") F1 eq_refl) as [H1 [_ [H3 _]]].
    split; [exact (H1 Sample.attempts)|].
    exact (f_equal fst (H3 eq_refl Backend.bindings Sample.bob
                           (or_intror (or_introl eq_refl)) eq_refl eq_refl)).
  - split; [exact F2|]. split; [reflexivity|]. split; [exact N|].
    pose proof (proj2 (proj2 (proj2 (proj2 (one_transition_then_final Sample.db_accepted 100
                                (Sample.request100 "accepted") F2 eq_refl))) N)
                      Backend.bindings 2 (or_intror (or_introl eq_refl))) as H.
    cbv zeta in H. destruct H as [Ha [_ [_ Hd]]]. split; [exact Ha|exact Hd].
Defined.

(** C2 as stated fails: Bob has accepted request 100; Carol, a user in good
    standing who is no party to it, tries to accept it and is answered
    Forbidden, not InvalidTransition. *)
Lemma outsider_on_accepted_is_forbidden :
  status (Sample.request100 "accepted") = "accepted"
  /\ route (AcceptSwap 3 100) Sample.db_accepted = (Fail Forbidden, Sample.db_accepted)
  /\ fst (route (AcceptSwap 3 100) Sample.db_accepted) <> Fail InvalidTransition.
Proof.
  split; [reflexivity|]. split; [reflexivity|]. discriminate.
Qed.

(** ** Creation *)

Lemma create_swap_outcome sc u b s :
  In sc generations ->
  create_swap sc u b s =
  match recipientId b, offeredSkillId b, requestedSkillId b with
  | Some r, Some off, Some req =>
      match ObjectId_cast r with
      | Some rc =>
          match first_failure (creation_checks s u r rc off req) with
          | Some e => (Fail e, s)
          | None =>
              (Created (next_id s),
               bump (set_swaps s (swaps s ++ [mkSwap (next_id s) u rc off req "pending"
                                                     (create_message b)])))
          end
      | None => (Fail ServerError, s)
      end
  | _, _, _ => (Fail ValidationError, s)
  end.
Proof.
  intros Hsc.
  assert (Hb : mem_string "User" sc = true /\ mem_string "UserSkillOffered" sc = true
               /\ mem_string "SwapRequest" sc = true)
    by (destruct Hsc as [<-|[<-|[]]]; repeat split).
  destruct Hb as [H1 [H2 H3]].
  destruct b as [[r|] [off|] [req|] msg]; cbn [recipientId offeredSkillId requestedSkillId
                                                create_message];
    try (apply create_swap_invalid; cbn; auto).
  destruct (ObjectId_cast r) as [rc|] eqn:Hcast.
  - apply create_swap_eq; assumption.
  - apply create_swap_uncast; assumption.
Qed.



(** ** One pending request per ordered pair *)

Lemma first_failure_with_pending s u r rc off req :
  existsb (pending_between u rc) (swaps s) = true ->
  first_failure (creation_checks s u r rc off req)
  = Some match first_failure (firstn 5 (creation_checks s u r rc off req)) with
         | Some e => e
         | None => DuplicatePendingRequest
         end.
Proof.
  intros Hex. unfold creation_checks. cbn [firstn first_failure]. rewrite Hex.
  repeat match goal with
         | |- context [if ?c then _ else _] => destruct c
         | |- context [match findById ?k ?i ?l with _ => _ end] => destruct (findById k i l)
         end; reflexivity.
Qed.

Lemma pending_between_refl u rc d :
  requester_id d = u -> recipient_id d = rc -> status d = "pending" ->
  pending_between u rc d = true.
Proof.
  intros <- <- Hst. unfold pending_between. rewrite !Nat.eqb_refl, Hst. reflexivity.
Qed.

(** C4, as the code has it.  A store with at most one pending request per
    ordered pair (requester, recipient) keeps that property whatever
    requests are served one after the other.  While a pending request from a
    requester to a recipient is stored, a creation for that pair, whatever
    skills it names, fails and writes nothing, in either generation: with
    NotFound or BannedActor when the middleware does not find the caller or
    finds them banned, with ValidationError when a skill identifier is
    missing, otherwise with the failure of the first of the five earlier
    validations that fires, and with DuplicatePendingRequest when none does.
    The look for a pending request and the insert are two awaited calls and
    no index stands behind them: two creations for one pair that are in
    flight together, every validation passing, are both answered 201, and
    two pending requests for the pair are stored. *)
Theorem one_pending_per_pair (s : db) :
  pending_unique s ->
  (forall rs, pending_unique (snd (serve rs s)))
  /\ (forall u b r rc,
        recipientId b = Some r -> ObjectId_cast r = Some rc ->
        existsb (pending_between u rc) (swaps s) = true ->
        let refusal :=
          match findById user__id u (users s) with
          | None => NotFound
          | Some caller =>
              if is_banned caller then BannedActor else
              match offeredSkillId b, requestedSkillId b with
              | Some off, Some req =>
                  match first_failure (firstn 5 (creation_checks s u r rc off req)) with
                  | Some earlier => earlier
                  | None => DuplicatePendingRequest
                  end
              | _, _ => ValidationError
              end
          end in
        route (CreateSwap u b) s = (Fail refusal, s)
        /\ checkNotBanned u (Server.create_swap u b) s = (Fail refusal, s))
  /\ (forall sc u b r rc off req caller,
        In sc generations ->
        recipientId b = Some r -> offeredSkillId b = Some off ->
        requestedSkillId b = Some req -> ObjectId_cast r = Some rc ->
        findById user__id u (users s) = Some caller -> is_banned caller = false ->
        first_failure (creation_checks s u r rc off req) = None ->
        let creation := checkNotBanned_steps u (create_swap_steps sc u b) in
        let together :=
          in_flight [0; 0; 0; 0; 0; 1; 1; 1; 1; 1; 0; 1] [creation; creation] s in
        (forall s0, run (Fail ServerError) creation s0 = checkNotBanned u (create_swap sc u b) s0)
        /\
        fst together = [Some (Created (next_id s)); Some (Created (S (next_id s)))]
        /\ countDocuments (pending_between u rc) (swaps (snd together)) = 2
        /\ ~ pending_unique (snd together)).
Proof.
  intros Hs. split; [|split].
  - intros rs. apply serve_invariant; [exact effect_pending_unique|exact Hs].
  - intros u b r rc Hr Hcast Hex. cbv zeta. cbn [route]. rewrite !checkNotBanned_eq.
    unfold Server.create_swap, Backend.create_swap.
    rewrite !create_swap_outcome by (cbn; auto). rewrite Hr, Hcast.
    destruct (findById user__id u (users s)) as [caller|]; [|split; reflexivity].
    destruct (is_banned caller); [split; reflexivity|].
    destruct (offeredSkillId b) as [off|]; [|split; reflexivity].
    destruct (requestedSkillId b) as [req|]; [|split; reflexivity].
    rewrite (first_failure_with_pending s u r rc off req Hex). split; reflexivity.
  - intros sc u b r rc off req caller Hsc Hr Hoff Hreq Hcast Hu Hb Hff. cbv zeta.
    split.
    { intros s0. rewrite run_checkNotBanned. apply checkNotBanned_ext. intros s1.
      apply run_create_swap. }
    rewrite (two_creations_in_flight sc u b r rc off req s caller) by assumption.
    cbn [fst snd swaps bump set_swaps].
    assert (Hc : countDocuments (pending_between u rc)
                   (swaps s ++ [mkSwap (next_id s) u rc off req "pending" (create_message b);
                                mkSwap (S (next_id s)) u rc off req "pending"
                                       (create_message b)]) = 2).
    { destruct (checks_pass _ _ _ _ _ _ Hff) as [_ [_ [_ [_ Hnone]]]].
      rewrite countDocuments_app, (countDocuments_find_none _ _ Hnone).
      unfold countDocuments. cbn [filter].
      rewrite !pending_between_refl by reflexivity. reflexivity. }
    split; [reflexivity|]. split; [exact Hc|].
    intros Hu2. specialize (Hu2 u rc). cbn [swaps bump set_swaps] in Hu2.
    rewrite Hc in Hu2. lia.
Qed.

Lemma one_pending_per_pair_witness :
  pending_unique Sample.db_pending
  /\ pending_unique (snd (serve Sample.busy_day Sample.db_pending))
  /\ existsb (pending_between 1 2) (swaps Sample.db_pending) = true
  /\ route (CreateSwap 1 Sample.python_for_guitar) Sample.db_pending
     = (Fail DuplicatePendingRequest, Sample.db_pending)
  /\ checkNotBanned 1 (Server.create_swap 1 Sample.cooking_for_guitar) Sample.db_pending
     = (Fail OfferedSkillNotOwned, Sample.db_pending)
  /\ (pending_unique Sample.db0
      /\ fst (in_flight [0; 0; 0; 0; 0; 1; 1; 1; 1; 1; 0; 1]
                        (map route_steps [CreateSwap 1 Sample.python_for_guitar;
                                          CreateSwap 1 Sample.python_for_guitar]) Sample.db0)
         = [Some (Created 100); Some (Created 101)]
      /\ ~ pending_unique
            (snd (in_flight [0; 0; 0; 0; 0; 1; 1; 1; 1; 1; 0; 1]
                            (map route_steps [CreateSwap 1 Sample.python_for_guitar;
                                              CreateSwap 1 Sample.python_for_guitar])
                            Sample.db0))).
Proof.
  assert (H : pending_unique Sample.db_pending).
  { intros rq rc. unfold countDocuments, Sample.db_pending. cbn [swaps filter].
    destruct (pending_between rq rc (Sample.request100 "pending")); cbn; lia. }
  assert (H0 : pending_unique Sample.db0) by (intros rq rc; cbn; lia).
  split; [exact H|].
  destruct (one_pending_per_pair Sample.db_pending H) as [Hinv [Hdup _]].
  destruct (one_pending_per_pair Sample.db0 H0) as [_ [_ Hrace]].
  split; [apply Hinv|]. split; [reflexivity|]. split; [|split].
  - exact (proj1 (Hdup 1 Sample.python_for_guitar Sample.bob_id 2
                       eq_refl eq_refl eq_refl)).
  - exact (proj2 (Hdup 1 Sample.cooking_for_guitar Sample.bob_id 2
                       eq_refl eq_refl eq_refl)).
  - split; [exact H0|].
    pose proof (Hrace Backend.bindings 1 Sample.python_for_guitar Sample.bob_id 2 10 11
                      Sample.alice (or_intror (or_introl eq_refl))
                      eq_refl eq_refl eq_refl eq_refl eq_refl eq_refl eq_refl) as Hr.
    cbv zeta in Hr. destruct Hr as [_ [Ha [_ Hn]]]. split; [exact Ha|exact Hn].
Defined.

(** C4 as stated fails: Alice's request to Bob is pending; she asks again,
    offering a skill she has not listed, and the creation fails with
    OfferedSkillNotOwned, the fourth validation, not with
    DuplicatePendingRequest, the sixth. *)
Lemma pending_pair_other_failure_first :
  existsb (pending_between 1 2) (swaps Sample.db_pending) = true
  /\ route (CreateSwap 1 Sample.cooking_for_guitar) Sample.db_pending
     = (Fail OfferedSkillNotOwned, Sample.db_pending)
  /\ fst (route (CreateSwap 1 Sample.cooking_for_guitar) Sample.db_pending)
     <> Fail DuplicatePendingRequest.
Proof.
  split; [reflexivity|]. split; [vm_compute; reflexivity|]. vm_compute. discriminate.
Qed.

(** ** Ratings *)

(** C5.  The claim has the first rating of an accepted swap by one of its
    parties succeed.  In the first generation of [Routes/swaps.js] the module
    never binds [Rating]: the lookup of an earlier rating raises and the
    handler answers 500, for Alice rating her accepted swap with Bob and for
    every other submission that gets that far; no rating is ever stored. *)
Theorem first_generation_rating_never_succeeds :
  mem_string "Rating" Server.bindings = false
  /\ route (RateSwapServer 1 100 Sample.five_stars) Sample.db_accepted
     = (Fail ServerError, Sample.db_accepted)
  /\ forall u i b s, exists e, Server.rate_swap u i b s = (Fail e, s).
Proof.
  split; [reflexivity|]. split; [reflexivity|].
  intros u i b s. unfold Server.rate_swap.
  rewrite rate_swap_unbound_eq by reflexivity. unfold rate_guards.
  destruct (isInt_1_5 (body_rating b)); [|eauto].
  destruct (findById swap__id i (swaps s)) as [swap|]; [|eauto].
  destruct (negb (status swap =? "accepted")%string); [eauto|].
  destruct (requester_id swap =? u); [eauto|].
  destruct (recipient_id swap =? u); eauto.
Qed.

Lemma isInt_1_5_some v z : isInt_1_5 v = Some z -> v = Some z /\ (1 <= z <= 5)%Z.
Proof.
  unfold isInt_1_5. destruct v as [z'|]; [|discriminate].
  destruct ((1 <=? z') && (z' <=? 5))%Z eqn:E; [|discriminate].
  intros H. injection H as <-. apply andb_true_iff in E.
  rewrite !Z.leb_le in E. auto.
Qed.

Lemma rate_swap_guards_eq sc u i b s :
  In sc generations ->
  exists k, rate_swap sc u i b s = rate_guards u i b s k
            /\ forall z swap rated a s',
                 k z swap rated = (a, s') -> succeeded a = true ->
                 ratings s' = (ratings s ++ [mkRating (next_id s) i u rated z (body_feedback b)])%list.
Proof.
  intros [<-|[<-|[]]].
  - eexists. split; [apply rate_swap_unbound_eq; reflexivity|].
    intros z swap rated a s' H Ha. injection H as <- _. discriminate.
  - eexists. split; [apply rate_swap_bound_eq; reflexivity|].
    intros z swap rated a s' H Ha. cbv beta in H.
    destruct (find (by_swap_rater i u) (ratings s)).
    + injection H as <- _. discriminate.
    + injection H as _ <-. reflexivity.
Qed.

Lemma rate_swap_checks (sc : scope) (u i : oid) (b : rate_body) (s : db) (swap : SwapRequest) :
  In sc generations ->
  findById swap__id i (swaps s) = Some swap ->
  (isInt_1_5 (body_rating b) = None -> rate_swap sc u i b s = (Fail ValidationError, s))
  /\ (isInt_1_5 (body_rating b) <> None -> status swap <> "accepted" ->
      rate_swap sc u i b s = (Fail InvalidState, s))
  /\ (isInt_1_5 (body_rating b) <> None -> status swap = "accepted" ->
      requester_id swap <> u -> recipient_id swap <> u ->
      rate_swap sc u i b s = (Fail Forbidden, s))
  /\ (succeeded (fst (rate_swap sc u i b s)) = true ->
      exists z rated,
        body_rating b = Some z /\ (1 <= z <= 5)%Z
        /\ status swap = "accepted"
        /\ ((requester_id swap = u /\ rated = recipient_id swap)
            \/ (recipient_id swap = u /\ rated = requester_id swap))
        /\ ratings (snd (rate_swap sc u i b s))
           = (ratings s ++ [mkRating (next_id s) i u rated z (body_feedback b)])%list).
Proof.
  intros Hsc Hf.
  destruct (rate_swap_guards_eq sc u i b s Hsc) as [k [-> Hk]].
  unfold rate_guards. rewrite Hf.
  split; [intros ->; reflexivity|].
  split; [|split].
  - intros Hz Hst. destruct (isInt_1_5 (body_rating b)); [|contradiction].
    destruct (status swap =? "accepted")%string eqn:E; [|reflexivity].
    apply String.eqb_eq in E. contradiction.
  - intros Hz Hst Hrq Hrc. destruct (isInt_1_5 (body_rating b)); [|contradiction].
    rewrite Hst. cbn [String.eqb Ascii.eqb Bool.eqb negb].
    apply Nat.eqb_neq in Hrq, Hrc. rewrite Hrq, Hrc. reflexivity.
  - destruct (isInt_1_5 (body_rating b)) as [z|] eqn:Hz; [|discriminate].
    apply isInt_1_5_some in Hz. destruct Hz as [Hb Hrange].
    destruct (status swap =? "accepted")%string eqn:Hst; cbn [negb]; [|discriminate].
    apply String.eqb_eq in Hst.
    destruct (requester_id swap =? u) eqn:Hrq.
    + intros Ha. exists z, (recipient_id swap).
      destruct (k z swap (recipient_id swap)) as [a s'] eqn:Hks.
      apply Nat.eqb_eq in Hrq. cbn [fst snd] in *.
      split; [exact Hb|]. split; [exact Hrange|]. split; [exact Hst|].
      split; [left; auto|]. eapply Hk; eauto.
    + destruct (recipient_id swap =? u) eqn:Hrc; [|discriminate].
      intros Ha. exists z, (requester_id swap).
      destruct (k z swap (requester_id swap)) as [a s'] eqn:Hks.
      apply Nat.eqb_eq in Hrc. cbn [fst snd] in *.
      split; [exact Hb|]. split; [exact Hrange|]. split; [exact Hst|].
      split; [right; auto|]. eapply Hk; eauto.
Qed.

(** C6, as the code has it.  A rating goes through the middleware first: a
    caller who is not stored is answered NotFound, a banned one BannedActor.
    For a caller in good standing a score that is not an integer between 1
    and 5 is a ValidationError, whatever the swap and whether it is stored
    or not.  With such a score and a stored swap: a swap whose status is not
    accepted gives InvalidState whoever the caller is, party to the swap or
    not; on an accepted swap a caller who is neither its requester nor its
    recipient gets Forbidden.  Each of these failures writes nothing.  A submission that succeeds comes from a caller in good
    standing and stores one rating whose rater is the caller, whose rated
    user is the other party of the swap and whose score is the submitted
    integer, between 1 and 5. *)
Theorem rating_checks (r : request) (u i : oid) (b : rate_body) (s : db) (swap : SwapRequest) :
  r = RateSwap u i b \/ r = RateSwapServer u i b ->
  findById swap__id i (swaps s) = Some swap ->
  (findById user__id u (users s) = None -> route r s = (Fail NotFound, s))
  /\ (forall caller, findById user__id u (users s) = Some caller ->
        (is_banned caller = true -> route r s = (Fail BannedActor, s))
        /\ (is_banned caller = false ->
            (isInt_1_5 (body_rating b) = None -> route r s = (Fail ValidationError, s))
            /\ (isInt_1_5 (body_rating b) <> None -> status swap <> "accepted" ->
                route r s = (Fail InvalidState, s))
            /\ (isInt_1_5 (body_rating b) <> None -> status swap = "accepted" ->
                requester_id swap <> u -> recipient_id swap <> u ->
                route r s = (Fail Forbidden, s))))
  /\ (forall s0 caller,
        findById user__id u (users s0) = Some caller -> is_banned caller = false ->
        isInt_1_5 (body_rating b) = None -> route r s0 = (Fail ValidationError, s0))
  /\ (succeeded (fst (route r s)) = true ->
      exists caller z rated,
        findById user__id u (users s) = Some caller /\ is_banned caller = false
        /\ body_rating b = Some z /\ (1 <= z <= 5)%Z
        /\ status swap = "accepted"
        /\ ((requester_id swap = u /\ rated = recipient_id swap)
            \/ (recipient_id swap = u /\ rated = requester_id swap))
        /\ ratings (snd (route r s))
           = (ratings s ++ [mkRating (next_id s) i u rated z (body_feedback b)])%list).
Proof.
  intros Hr Hf.
  assert (Hbad : forall s0 caller,
             findById user__id u (users s0) = Some caller -> is_banned caller = false ->
             isInt_1_5 (body_rating b) = None -> route r s0 = (Fail ValidationError, s0)).
  { intros s0 caller Hu Hb Hz.
    destruct Hr as [-> | ->]; cbn [route]; rewrite checkNotBanned_eq, Hu, Hb.
    - unfold Backend.rate_swap. rewrite rate_swap_bound_eq by reflexivity.
      unfold rate_guards. rewrite Hz. reflexivity.
    - unfold Server.rate_swap. rewrite rate_swap_unbound_eq by reflexivity.
      unfold rate_guards. rewrite Hz. reflexivity. }
  assert (Hroute : exists sc, In sc generations
                              /\ route r s = checkNotBanned u (rate_swap sc u i b) s).
  { destruct Hr as [-> | ->]; cbn [route].
    - exists Backend.bindings. split; [right; left|]; reflexivity.
    - exists Server.bindings. split; [left|]; reflexivity. }
  destruct Hroute as [sc [Hsc ->]]. rewrite checkNotBanned_eq.
  destruct (rate_swap_checks sc u i b s swap Hsc Hf) as [H1 [H2 [H3 H4]]].
  split; [intros ->; reflexivity|]. split; [|split; [exact Hbad|]].
  - intros caller ->. split; [intros ->; reflexivity|]. intros ->. auto.
  - destruct (findById user__id u (users s)) as [caller|]; [|discriminate].
    destruct (is_banned caller) eqn:Hb; [discriminate|].
    intros Hok. destruct (H4 Hok) as [z [rated Hz]].
    exists caller, z, rated. auto.
Qed.

Lemma rating_checks_witness :
  (findById swap__id 100 (swaps Sample.db_pending) = Some (Sample.request100 "pending")
   /\ route (RateSwap 1 100 Sample.five_stars) Sample.db_pending
      = (Fail InvalidState, Sample.db_pending))
  /\ (findById swap__id 100 (swaps Sample.db_accepted) = Some (Sample.request100 "accepted")
      /\ route (RateSwap 3 100 Sample.five_stars) Sample.db_accepted
         = (Fail Forbidden, Sample.db_accepted)
      /\ route (RateSwapServer 3 100 (mkRateBody (Some 6%Z) None)) Sample.db_accepted
         = (Fail ValidationError, Sample.db_accepted)
      /\ route (RateSwap 7 100 Sample.five_stars) Sample.db_accepted
         = (Fail NotFound, Sample.db_accepted)
      /\ succeeded (fst (route (RateSwap 2 100 Sample.five_stars) Sample.db_accepted)) = true
      /\ exists caller z rated,
           findById user__id 2 (users Sample.db_accepted) = Some caller
           /\ is_banned caller = false
           /\ body_rating Sample.five_stars = Some z /\ (1 <= z <= 5)%Z
           /\ status (Sample.request100 "accepted") = "accepted"
           /\ ((requester_id (Sample.request100 "accepted") = 2
                /\ rated = recipient_id (Sample.request100 "accepted"))
               \/ (recipient_id (Sample.request100 "accepted") = 2
                   /\ rated = requester_id (Sample.request100 "accepted")))
           /\ ratings (snd (route (RateSwap 2 100 Sample.five_stars) Sample.db_accepted))
              = (ratings Sample.db_accepted
                 ++ [mkRating (next_id Sample.db_accepted) 100 2 rated z
                              (body_feedback Sample.five_stars)])%list).
Proof.
  split.
  - split; [reflexivity|].
    destruct (rating_checks (RateSwap 1 100 Sample.five_stars) 1 100 Sample.five_stars
                Sample.db_pending (Sample.request100 "pending") (or_introl eq_refl) eq_refl)
      as [_ [H _]].
    apply (proj2 (H Sample.alice eq_refl) eq_refl); discriminate.
  - split; [reflexivity|]. split; [|split; [|split; [|split; [reflexivity|]]]].
    + destruct (rating_checks (RateSwap 3 100 Sample.five_stars) 3 100 Sample.five_stars
                  Sample.db_accepted (Sample.request100 "accepted") (or_introl eq_refl) eq_refl)
        as [_ [H _]].
      apply (proj2 (H Sample.carol eq_refl) eq_refl);
        [discriminate|reflexivity|discriminate|discriminate].
    + destruct (rating_checks (RateSwapServer 3 100 (mkRateBody (Some 6%Z) None)) 3 100
                  (mkRateBody (Some 6%Z) None)
                  Sample.db_accepted (Sample.request100 "accepted") (or_intror eq_refl) eq_refl)
        as [_ [H _]].
      apply (proj2 (H Sample.carol eq_refl) eq_refl). reflexivity.
    + destruct (rating_checks (RateSwap 7 100 Sample.five_stars) 7 100 Sample.five_stars
                  Sample.db_accepted (Sample.request100 "accepted") (or_introl eq_refl) eq_refl)
        as [H _].
      apply H. reflexivity.
    + destruct (rating_checks (RateSwap 2 100 Sample.five_stars) 2 100 Sample.five_stars
                  Sample.db_accepted (Sample.request100 "accepted") (or_introl eq_refl) eq_refl)
        as [_ [_ [_ H]]].
      apply H. reflexivity.
Defined.

(** C6 as stated fails: request 100 is still pending; Carol, who is no party
    to it, submits a rating and is answered InvalidState, not Forbidden: the
    status is tested before the caller is. *)
Lemma outsider_rating_pending_is_invalid_state :
  status (Sample.request100 "pending") <> "accepted"
  /\ requester_id (Sample.request100 "pending") <> 3
  /\ recipient_id (Sample.request100 "pending") <> 3
  /\ route (RateSwap 3 100 Sample.five_stars) Sample.db_pending
     = (Fail InvalidState, Sample.db_pending)
  /\ route (RateSwapServer 3 100 Sample.five_stars) Sample.db_pending
     = (Fail InvalidState, Sample.db_pending).
Proof.
  repeat split; discriminate.
Qed.

(** ** Admin statistics *)

(** C7.  The claim has the statistics operation return the counts and the
    average.  The module of [GET /admin/stats] never binds [Skill]: counting
    the skills raises after the user and swap counts were taken, and the
    handler answers 500 on every store, the empty one included; no count and
    no average is ever returned. *)
Theorem stats_always_fail :
  mem_string "Skill" Admin.bindings = false
  /\ Admin.get_stats empty_db = (StatsFail ServerError, empty_db)
  /\ forall s, Admin.get_stats s = (StatsFail ServerError, s).
Proof.
  split; [reflexivity|]. split; [reflexivity|].
  intros s. unfold Admin.get_stats, try_catch_with, bind.
  rewrite !on_bound by reflexivity.
  rewrite on_unbound by reflexivity. reflexivity.
Qed.

(** ** Browsing *)

Lemma browse_match_public regex_test q u :
  browse_match regex_test q u = true -> is_public u = true.
Proof.
  unfold browse_match. rewrite !andb_true_iff. intros [[H _] _].
  destruct (is_public u); [reflexivity|discriminate].
Qed.

Lemma in_skipn {D} n (l : list D) x : In x (skipn n l) -> In x l.
Proof.
  intros H. rewrite <- (firstn_skipn n l). apply in_or_app. right. exact H.
Qed.

Lemma in_firstn {D} n (l : list D) x : In x (firstn n l) -> In x l.
Proof.
  intros H. rewrite <- (firstn_skipn n l). apply in_or_app. left. exact H.
Qed.

Lemma paged_incl skip lim l l' : paged skip lim l = inr l' -> incl l' l.
Proof.
  unfold paged. destruct (skip <? 0)%Z; [discriminate|].
  intros H. injection H as <-. intros x Hx.
  destruct (lim =? 0)%Z.
  - eapply in_skipn. exact Hx.
  - eapply in_skipn. eapply in_firstn. exact Hx.
Qed.

Lemma with_skills_user s u e : with_skills s u = inr e -> be_user e = u.
Proof.
  unfold with_skills.
  repeat match goal with
         | |- context [match project_skills ?ks ?items with _ => _ end] =>
             destruct (project_skills ks items)
         end; try discriminate.
  intros H. injection H as <-. reflexivity.
Qed.

Lemma all_with_skills_users s us es :
  all_with_skills s us = inr es -> map be_user es = us.
Proof.
  revert es. induction us as [|u us IH]; intros es; cbn.
  - intros H. injection H as <-. reflexivity.
  - destruct (with_skills s u) as [x|e] eqn:He; [destruct (all_with_skills s us); discriminate|].
    destruct (all_with_skills s us) as [x|es']; [discriminate|].
    intros H. injection H as <-. cbn. rewrite (with_skills_user _ _ _ He).
    f_equal. apply IH. reflexivity.
Qed.

(** Whoever [browse] returns was selected by the query on the users. *)
Lemma browse_selected regex_valid regex_test q s us pg s' :
  browse regex_valid regex_test q s = (BrowseJson us pg, s') ->
  incl (map be_user us) (filter (browse_match regex_test q) (users s)).
Proof.
  unfold browse, try_catch_with, bind, User_find_paged, User_countDocuments.
  destruct (patterns_valid regex_valid q); [|discriminate].
  destruct (paged _ _ _) as [e|found] eqn:Hp; [discriminate|].
  apply paged_incl in Hp.
  assert (Hsub : forall filtered s1 es,
             incl filtered found ->
             all_with_skills s1 filtered = inr es ->
             incl (map be_user es) (filter (browse_match regex_test q) (users s))).
  { intros filtered s1 es Hi Ha. rewrite (all_with_skills_users _ _ _ Ha).
    intros x Hx. apply Hp, Hi, Hx. }
  destruct (truthy (skill q)).
  - destruct (regex_valid (skill q)); [|discriminate].
    destruct (all_with_skills s _) as [e|es] eqn:Ha; [discriminate|].
    intros H. injection H as <- _ _.
    eapply Hsub; [|exact Ha]. intros x Hx. apply filter_In in Hx. apply Hx.
  - unfold ret. destruct (all_with_skills s found) as [e|es] eqn:Ha; [discriminate|].
    intros H. injection H as <- _ _.
    eapply Hsub; [|exact Ha]. apply incl_refl.
Qed.

(** C8.  Whatever the page, the search text, the location and the skill
    filter, and whatever the regular-expression engine answers, every user
    in a browse result is a stored user with [is_public = true]; a user
    whose [is_public] is false is in no result. *)
Theorem browse_only_public
        (regex_valid : string -> bool) (regex_test : string -> string -> bool)
        (q : browse_query) (s s' : db) (us : list browse_entry) (pg : pagination) :
  browse regex_valid regex_test q s = (BrowseJson us pg, s') ->
  (forall e, In e us -> In (be_user e) (users s) /\ is_public (be_user e) = true)
  /\ (forall c, is_public c = false -> ~ In c (map be_user us)).
Proof.
  intros H. pose proof (browse_selected _ _ _ _ _ _ _ H) as Hsel. split.
  - intros e He. assert (Hin : In (be_user e) (map be_user us)) by (apply in_map; exact He).
    apply Hsel in Hin. apply filter_In in Hin. destruct Hin as [Hin Hm].
    split; [exact Hin|]. eapply browse_match_public. exact Hm.
  - intros c Hc Hin. apply Hsel in Hin. apply filter_In in Hin.
    destruct Hin as [_ Hm]. apply browse_match_public in Hm. congruence.
Qed.

Lemma browse_only_public_witness :
  browse Sample.regex_valid Sample.regex_test Sample.paris_python Sample.db0
  = (BrowseJson [mkBrowseEntry Sample.alice
                   [mkSkillView 20 "Python" (Some "Programming") "" "intermediate"] []]
                (mkPagination 1 (Some 1%Z) 1), Sample.db0)
  /\ is_public Sample.dave = false
  /\ Sample.regex_test "paris" "Paris" = true
  /\ ~ In Sample.dave [Sample.alice].
Proof.
  assert (H : browse Sample.regex_valid Sample.regex_test Sample.paris_python Sample.db0
              = (BrowseJson [mkBrowseEntry Sample.alice
                   [mkSkillView 20 "Python" (Some "Programming") "" "intermediate"] []]
                   (mkPagination 1 (Some 1%Z) 1), Sample.db0)) by (vm_compute; reflexivity).
  split; [exact H|]. split; [reflexivity|]. split; [vm_compute; reflexivity|].
  exact (proj2 (browse_only_public _ _ _ _ _ _ _ H) Sample.dave eq_refl).
Defined.

(** ** Offered skills *)

Lemma find_append {D} (p : D -> bool) l1 l2 :
  find p (l1 ++ l2) = match find p l1 with Some x => Some x | None => find p l2 end.
Proof.
  induction l1 as [|x l1 IH]; cbn; [reflexivity|]. destruct (p x); auto.
Qed.

Lemma countDocuments_zero_find {D} (p : D -> bool) l :
  countDocuments p l = 0 -> find p l = None.
Proof.
  unfold countDocuments. induction l as [|x l IH]; cbn; [reflexivity|].
  destruct (p x); cbn; [discriminate|exact IH].
Qed.

Lemma countDocuments_delete_first {D} (p q : D -> bool) l d :
  find q l = Some d -> p d = true ->
  S (countDocuments p (delete_first q l)) = countDocuments p l.
Proof.
  unfold countDocuments. induction l as [|x l IH]; cbn; [discriminate|].
  destruct (q x).
  - intros H Hp. injection H as ->. rewrite Hp. reflexivity.
  - intros H Hp. cbn. destruct (p x); cbn; rewrite (IH H Hp); reflexivity.
Qed.

(** C9, as the code has it.  For a user and a skill: adding the offered
    association fails with SkillNotFound when the skill id is unknown; with
    the skill known it fails with DuplicateAssociation, a Conflict, when the
    user already offers that skill.  With the skill known and not yet
    offered by the user, the add succeeds and stores the association when
    the proficiency level is left out or is one of the schema's closed set,
    beginner, intermediate, advanced, and a second add is then a Conflict;
    with any other level the schema refuses the document and the add is
    answered with a server error, nothing stored.  Once the user's
    association for the skill has been removed, from a store that holds one
    association per user and skill at most, adding it again with such a
    level succeeds. *)
Theorem offered_add_remove_add (u : oid) (b : offered_body) (s : db) :
  let level_ok :=
    mem_string (or_default (proficiencyLevel b) "intermediate") proficiency_enum = true in
  let added :=
    bump (set_offered s (offered s ++
            [mkUserSkill (next_id s) u (skillId b) (or_default (description b) "")
                         (or_default (proficiencyLevel b) "intermediate")])) in
  (findById skill__id (skillId b) (skills s) = None ->
   Users.add_offered u b s = (Fail SkillNotFound, s))
  /\ (findById skill__id (skillId b) (skills s) <> None ->
      existsb (by_user_skill u (skillId b)) (offered s) = true ->
      Users.add_offered u b s = (Fail DuplicateAssociation, s)
      /\ is_conflict DuplicateAssociation = true)
  /\ (findById skill__id (skillId b) (skills s) <> None ->
      existsb (by_user_skill u (skillId b)) (offered s) = false ->
      level_ok ->
      Users.add_offered u b s = (Done 201, added)
      /\ Users.add_offered u b added = (Fail DuplicateAssociation, added))
  /\ (findById skill__id (skillId b) (skills s) <> None ->
      existsb (by_user_skill u (skillId b)) (offered s) = false ->
      ~ level_ok ->
      Users.add_offered u b s = (Fail ServerError, s))
  /\ (forall a d,
        findById skill__id (skillId b) (skills s) <> None ->
        find (by_id_user a u) (offered s) = Some d -> us_skill_id d = skillId b ->
        level_ok -> offered_unique s ->
        fst (Users.remove_offered u a s) = Done 200
        /\ fst (Users.add_offered u b (snd (Users.remove_offered u a s))) = Done 201).
Proof.
  cbv zeta. split; [|split; [|split; [|split]]].
  - intros Hk. rewrite add_offered_eq, Hk. reflexivity.
  - intros Hk Hex. rewrite add_offered_eq.
    destruct (findById skill__id (skillId b) (skills s)); [|contradiction].
    rewrite existsb_find in Hex.
    destruct (find (by_user_skill u (skillId b)) (offered s)); [|discriminate].
    split; reflexivity.
  - intros Hk Hex Hlevel. rewrite !add_offered_eq.
    cbn [skills bump set_offered offered next_id].
    destruct (findById skill__id (skillId b) (skills s)); [|contradiction].
    rewrite existsb_find in Hex.
    destruct (find (by_user_skill u (skillId b)) (offered s)) eqn:Hfind; [discriminate|].
    cbv zeta. unfold validate_offered. cbn [us_level]. rewrite Hlevel.
    split; [reflexivity|].
    rewrite find_append, Hfind. cbn [find]. unfold by_user_skill at 1.
    cbn [us_user_id us_skill_id]. rewrite !Nat.eqb_refl. reflexivity.
  - intros Hk Hex Hlevel. rewrite add_offered_eq.
    destruct (findById skill__id (skillId b) (skills s)); [|contradiction].
    rewrite existsb_find in Hex.
    destruct (find (by_user_skill u (skillId b)) (offered s)); [discriminate|].
    cbv zeta. unfold validate_offered. cbn [us_level].
    destruct (mem_string (or_default (proficiencyLevel b) "intermediate") proficiency_enum);
      [exfalso; apply Hlevel; reflexivity|reflexivity].
  - intros a d Hk Hfind Hsk Hlevel Huniq. rewrite remove_offered_eq, Hfind. cbn [fst snd].
    split; [reflexivity|].
    rewrite add_offered_eq. cbn [skills set_offered offered next_id].
    destruct (findById skill__id (skillId b) (skills s)); [|contradiction].
    assert (Hd : by_user_skill u (skillId b) d = true).
    { apply find_some in Hfind. destruct Hfind as [_ Hd].
      unfold by_id_user in Hd. apply andb_true_iff in Hd. destruct Hd as [_ Hu].
      unfold by_user_skill. rewrite Hu, Hsk, Nat.eqb_refl. reflexivity. }
    pose proof (countDocuments_delete_first (by_user_skill u (skillId b)) _ _ _ Hfind Hd) as Hc.
    specialize (Huniq u (skillId b)).
    assert (Hz : countDocuments (by_user_skill u (skillId b))
                   (delete_first (by_id_user a u) (offered s)) = 0) by lia.
    rewrite (countDocuments_zero_find _ _ Hz).
    cbv zeta. unfold validate_offered. cbn [us_level]. rewrite Hlevel. reflexivity.
Qed.

Lemma offered_add_remove_add_witness :
  mem_string (or_default (proficiencyLevel Sample.expert_cooking) "intermediate")
             proficiency_enum = true
  /\ offered_unique (snd (Users.add_offered 1 Sample.expert_cooking Sample.db0))
  /\ Users.add_offered 1 Sample.expert_cooking Sample.db0
     = (Done 201, snd (Users.add_offered 1 Sample.expert_cooking Sample.db0))
  /\ fst (Users.add_offered 1 Sample.expert_cooking
            (snd (Users.add_offered 1 Sample.expert_cooking Sample.db0)))
     = Fail DuplicateAssociation
  /\ fst (Users.remove_offered 1 100
            (snd (Users.add_offered 1 Sample.expert_cooking Sample.db0))) = Done 200
  /\ fst (Users.add_offered 1 Sample.expert_cooking
            (snd (Users.remove_offered 1 100
                    (snd (Users.add_offered 1 Sample.expert_cooking Sample.db0)))))
     = Done 201.
Proof.
  assert (L : mem_string (or_default (proficiencyLevel Sample.expert_cooking) "intermediate")
                         proficiency_enum = true) by reflexivity.
  assert (U1 : offered_unique (snd (Users.add_offered 1 Sample.expert_cooking Sample.db0))).
  { intros u sk. unfold countDocuments.
    change (offered (snd (Users.add_offered 1 Sample.expert_cooking Sample.db0)))
      with [Sample.alice_python; Sample.bob_guitar; Sample.dave_python;
            mkUserSkill 100 1 12 "" "advanced"].
    unfold by_user_skill. cbn [filter Sample.alice_python Sample.bob_guitar Sample.dave_python
                               us_user_id us_skill_id].
    destruct (1 =? u) eqn:E1, (2 =? u) eqn:E2, (4 =? u) eqn:E4;
      try (apply Nat.eqb_eq in E1; apply Nat.eqb_eq in E2; lia);
      try (apply Nat.eqb_eq in E1; apply Nat.eqb_eq in E4; lia);
      try (apply Nat.eqb_eq in E2; apply Nat.eqb_eq in E4; lia);
      cbn [andb];
      destruct (10 =? sk) eqn:S10, (11 =? sk) eqn:S11, (12 =? sk) eqn:S12;
      try (apply Nat.eqb_eq in S10; apply Nat.eqb_eq in S12; lia);
      cbn; lia. }
  split; [exact L|]. split; [exact U1|].
  pose proof (offered_add_remove_add 1 Sample.expert_cooking Sample.db0) as H0.
  pose proof (offered_add_remove_add 1 Sample.expert_cooking
                (snd (Users.add_offered 1 Sample.expert_cooking Sample.db0))) as H1.
  cbv zeta in H0, H1.
  destruct H0 as [_ [_ [Hadd _]]]. destruct H1 as [_ [_ [_ [_ Hrem]]]].
  assert (K : findById skill__id (skillId Sample.expert_cooking) (skills Sample.db0) <> None)
    by discriminate.
  destruct (Hadd K eq_refl L) as [Ha Hdup].
  split; [rewrite Ha; reflexivity|]. split; [rewrite Ha; cbn [snd]; rewrite Hdup; reflexivity|].
  exact (Hrem 100 (mkUserSkill 100 1 12 "" "advanced") K eq_refl eq_refl L U1).
Defined.

(** C9 as stated fails: Cooking is a skill of the catalogue and Alice does
    not offer it, yet her add does not succeed: she names the level
    'expert', the schema's closed set does not hold it, the save is refused
    and the answer is 500, with nothing stored. *)
Lemma unlisted_level_is_refused :
  findById skill__id 12 (skills Sample.db0) = Some Sample.cooking
  /\ existsb (by_user_skill 1 12) (offered Sample.db0) = false
  /\ route (AddOffered 1 (mkOfferedBody 12 None (Some "expert"))) Sample.db0
     = (Fail ServerError, Sample.db0)
  /\ succeeded (fst (route (AddOffered 1 (mkOfferedBody 12 None (Some "expert"))) Sample.db0))
     = false.
Proof. repeat split. Qed.

(* ================================================================== *)
(** * Further properties of the second generation *)

(** ** One rating per swap and rater *)

Lemma guarded_rating_effect party u i s k :
  (forall swap, ratings (snd (k swap)) = ratings s) ->
  rating_effect s (snd (guarded party u i s k)).
Proof.
  intros Hk. apply reff_none. unfold guarded.
  destruct (findById swap__id i (swaps s)) as [swap|]; [|reflexivity].
  destruct (negb (party swap =? u)); [reflexivity|].
  destruct (negb (status swap =? "pending")%string); [reflexivity|apply Hk].
Qed.

Lemma checkNotBanned_rating_effect u next s :
  rating_effect s (snd (next s)) -> rating_effect s (snd (checkNotBanned u next s)).
Proof.
  intros H. rewrite checkNotBanned_eq.
  destruct (findById user__id u (users s)) as [user|]; [|apply reff_none; reflexivity].
  destruct (is_banned user); [apply reff_none; reflexivity|exact H].
Qed.

Lemma rate_guards_rating_effect u i b s k :
  (forall z swap rated, rating_effect s (snd (k z swap rated))) ->
  rating_effect s (snd (rate_guards u i b s k)).
Proof.
  intros Hk. unfold rate_guards.
  destruct (isInt_1_5 (body_rating b)); [|apply reff_none; reflexivity].
  destruct (findById swap__id i (swaps s)) as [swap|]; [|apply reff_none; reflexivity].
  destruct (negb (status swap =? "accepted")%string); [apply reff_none; reflexivity|].
  destruct (requester_id swap =? u); [apply Hk|].
  destruct (recipient_id swap =? u); [apply Hk|apply reff_none; reflexivity].
Qed.

Lemma route_rating_effect r s : rating_effect s (snd (route r s)).
Proof.
  destruct r as [u b|u i|u i|u i|u i|u i b|u i b|u b|u a|u adm t v]; unfold route.
  - apply checkNotBanned_rating_effect. apply reff_none. unfold Backend.create_swap.
    destruct b as [[r|] [off|] [req|] msg];
      try (rewrite create_swap_invalid by (reflexivity || (cbn; auto)); reflexivity).
    destruct (ObjectId_cast r) as [rc|] eqn:Hcast;
      [|rewrite create_swap_uncast by (reflexivity || exact Hcast); reflexivity].
    rewrite create_swap_eq with (rc := rc) by (reflexivity || exact Hcast).
    destruct (first_failure (creation_checks s u r rc off req)); reflexivity.
  - apply checkNotBanned_rating_effect. unfold Backend.accept_swap.
    rewrite accept_swap_eq by reflexivity. apply guarded_rating_effect. reflexivity.
  - apply checkNotBanned_rating_effect. unfold Backend.reject_swap.
    rewrite reject_swap_eq by reflexivity. apply guarded_rating_effect. reflexivity.
  - apply checkNotBanned_rating_effect. unfold Server.cancel_swap.
    rewrite cancel_swap_eq by reflexivity. apply guarded_rating_effect. reflexivity.
  - apply checkNotBanned_rating_effect. unfold Backend.delete_swap.
    rewrite delete_swap_eq by reflexivity. apply guarded_rating_effect. reflexivity.
  - apply checkNotBanned_rating_effect. unfold Server.rate_swap.
    rewrite rate_swap_unbound_eq by reflexivity. apply rate_guards_rating_effect.
    intros. apply reff_none. reflexivity.
  - apply checkNotBanned_rating_effect. unfold Backend.rate_swap.
    rewrite rate_swap_bound_eq by reflexivity. apply rate_guards_rating_effect.
    intros z swap rated. destruct (find (by_swap_rater i u) (ratings s)) eqn:Hfind.
    + apply reff_none. reflexivity.
    + eapply reff_add; [reflexivity|exact Hfind].
  - apply reff_none. rewrite add_offered_eq.
    destruct (findById skill__id (skillId b) (skills s)); [|reflexivity].
    destruct (find (by_user_skill u (skillId b)) (offered s)); [reflexivity|].
    cbv zeta. destruct (validate_offered _); reflexivity.
  - apply reff_none. rewrite remove_offered_eq.
    destruct (find (by_id_user a u) (offered s)); reflexivity.
  - apply reff_none. unfold requireAdmin. destruct (negb adm); [reflexivity|].
    destruct v as [v|]; [|reflexivity].
    rewrite ban_user_eq. destruct (t =? ObjectId_toString u)%string; [reflexivity|].
    destruct (ObjectId_cast t) as [t'|]; [|reflexivity].
    destruct (findById user__id t' (users s)); reflexivity.
Qed.

Lemma by_swap_rater_true sw u d :
  by_swap_rater sw u d = true -> swap_id d = sw /\ rater_id d = u.
Proof.
  unfold by_swap_rater. rewrite andb_true_iff, !Nat.eqb_eq. tauto.
Qed.

Lemma rating_effect_unique s s' :
  rating_effect s s' -> rating_unique s -> rating_unique s'.
Proof.
  unfold rating_unique. intros [He|d He Hnone] H sw u; rewrite He; [apply H|].
  rewrite countDocuments_app. unfold countDocuments at 2. cbn [filter].
  destruct (by_swap_rater sw u d) eqn:E; cbn [List.length].
  - apply by_swap_rater_true in E. destruct E as [<- <-].
    rewrite (countDocuments_find_none _ _ Hnone). lia.
  - specialize (H sw u). lia.
Qed.

Lemma serve_rating_unique rs :
  forall s, rating_unique s -> rating_unique (snd (serve rs s)).
Proof.
  induction rs as [|r rs IH]; intros s Hs; [exact Hs|].
  rewrite serve_cons. cbn [snd]. apply IH.
  eapply rating_effect_unique; [apply route_rating_effect|exact Hs].
Qed.

(** On an accepted swap a party's first rating succeeds at the handler and
    a later one is refused. *)
Lemma rate_swap_once (u i : oid) (b : rate_body) (s : db) (swap : SwapRequest) :
  rating_unique s ->
  findById swap__id i (swaps s) = Some swap ->
  status swap = "accepted" ->
  requester_id swap = u \/ recipient_id swap = u ->
  isInt_1_5 (body_rating b) <> None ->
  (forall rs, rating_unique (snd (serve rs s)))
  /\ is_conflict DuplicateRating = true
  /\ (find (by_swap_rater i u) (ratings s) <> None ->
      Backend.rate_swap u i b s = (Fail DuplicateRating, s))
  /\ (find (by_swap_rater i u) (ratings s) = None ->
      let s1 := snd (Backend.rate_swap u i b s) in
      fst (Backend.rate_swap u i b s) = Done 201
      /\ forall b', isInt_1_5 (body_rating b') <> None ->
                    Backend.rate_swap u i b' s1 = (Fail DuplicateRating, s1)).
Proof.
  intros Huniq Hf Hst Hparty Hz.
  split; [intros rs; apply serve_rating_unique; exact Huniq|].
  split; [reflexivity|].
  assert (Hguards : forall b' s0 k,
             isInt_1_5 (body_rating b') <> None ->
             swaps s0 = swaps s ->
             exists z rated, rate_guards u i b' s0 k = k z swap rated).
  { intros b' s0 k Hz' Hs0. unfold rate_guards.
    destruct (isInt_1_5 (body_rating b')) as [z|]; [|contradiction].
    rewrite Hs0, Hf, Hst. cbn [String.eqb Ascii.eqb Bool.eqb negb].
    destruct (requester_id swap =? u) eqn:Hrq; [eauto|].
    destruct (recipient_id swap =? u) eqn:Hrc; [eauto|].
    apply Nat.eqb_neq in Hrq, Hrc. tauto. }
  unfold Backend.rate_swap. split.
  - intros Hsome. rewrite rate_swap_bound_eq by reflexivity.
    match goal with
    | |- rate_guards u i b s ?k = _ =>
        destruct (Hguards b s k Hz eq_refl) as [z [rated ->]]
    end.
    destruct (find (by_swap_rater i u) (ratings s)); [reflexivity|contradiction].
  - intros Hnone. cbv zeta. rewrite rate_swap_bound_eq by reflexivity.
    match goal with
    | |- context [rate_guards u i b s ?k] =>
        destruct (Hguards b s k Hz eq_refl) as [z [rated ->]]
    end.
    rewrite Hnone. cbn [fst snd]. split; [reflexivity|].
    intros b' Hz'. rewrite rate_swap_bound_eq by reflexivity.
    match goal with
    | |- rate_guards u i b' ?s0 ?k = _ =>
        destruct (Hguards b' s0 k Hz' eq_refl) as [z' [rated' ->]]
    end.
    cbn [ratings bump set_ratings]. rewrite find_append, Hnone. cbn [find].
    unfold by_swap_rater at 1. cbn [swap_id rater_id]. rewrite !Nat.eqb_refl. reflexivity.
Qed.

Lemma step_rating_insert u i rated z fb s :
  (1 <= z <= 5)%Z ->
  step (Fail ServerError) (rating_left u i rated z fb) s
  = (Answer (Done 201),
     bump (set_ratings s (ratings s ++ [mkRating (next_id s) i u rated z fb]))).
Proof.
  intros Hz. unfold rating_left. cbn [step]. rewrite on_bound by reflexivity.
  unfold Rating_create, validate_rating. cbn [rating].
  replace ((1 <=? z)%Z && (z <=? 5)%Z) with true; [reflexivity|].
  symmetry. apply andb_true_iff. rewrite !Z.leb_le. exact Hz.
Qed.

Lemma rate_reaches_insert u i b s caller swap z :
  findById user__id u (users s) = Some caller -> is_banned caller = false ->
  isInt_1_5 (body_rating b) = Some z ->
  findById swap__id i (swaps s) = Some swap -> status swap = "accepted" ->
  requester_id swap = u \/ recipient_id swap = u ->
  find (by_swap_rater i u) (ratings s) = None ->
  turns (Fail ServerError) 3 (route_steps (RateSwap u i b)) s
  = (rating_left u i (if requester_id swap =? u then recipient_id swap
                      else requester_id swap) z (body_feedback b), s).
Proof.
  intros Hu Hb Hz Hf Hst Hparty Hnone.
  cbn [turns route_steps]. rewrite (step_checkNotBanned _ _ _ _ Hu Hb).
  unfold rate_swap_steps. rewrite Hz.
  cbn [step]. rewrite on_bound by reflexivity. unfold SwapRequest_findById.
  rewrite Hf, Hst. cbn [String.eqb Ascii.eqb Bool.eqb negb].
  destruct (requester_id swap =? u) eqn:Hrq.
  - cbn [step]. rewrite on_bound by reflexivity. unfold Rating_findOne. rewrite Hnone.
    reflexivity.
  - destruct (recipient_id swap =? u) eqn:Hrc.
    + cbn [step]. rewrite on_bound by reflexivity. unfold Rating_findOne. rewrite Hnone.
      reflexivity.
    + apply Nat.eqb_neq in Hrq, Hrc. tauto.
Qed.

(** Two ratings of one swap by one rater in flight: both look for an earlier
    rating before either inserts, and both insert. *)
Lemma two_ratings_in_flight u i b s caller swap z :
  findById user__id u (users s) = Some caller -> is_banned caller = false ->
  isInt_1_5 (body_rating b) = Some z ->
  findById swap__id i (swaps s) = Some swap -> status swap = "accepted" ->
  requester_id swap = u \/ recipient_id swap = u ->
  find (by_swap_rater i u) (ratings s) = None ->
  let rated := if requester_id swap =? u then recipient_id swap else requester_id swap in
  in_flight [0; 0; 0; 1; 1; 1; 0; 1] (map route_steps [RateSwap u i b; RateSwap u i b]) s
  = ([Some (Done 201); Some (Done 201)],
     bump (bump (set_ratings s
       (ratings s ++ [mkRating (next_id s) i u rated z (body_feedback b);
                      mkRating (S (next_id s)) i u rated z (body_feedback b)])))).
Proof.
  intros Hu Hb Hz Hf Hst Hparty Hnone. cbv zeta.
  destruct (isInt_1_5_some _ _ Hz) as [_ Hrange].
  unfold in_flight. cbn [map].
  change [0; 0; 0; 1; 1; 1; 0; 1] with (repeat 0 3 ++ repeat 1 3 ++ [0; 1])%list.
  rewrite interleave_first, interleave_second.
  rewrite !(rate_reaches_insert u i b s caller swap z) by assumption.
  cbn [fst snd].
  rewrite !(rate_reaches_insert u i b s caller swap z) by assumption.
  cbn [fst snd interleave nth_error].
  rewrite step_rating_insert by exact Hrange. cbn [replace_nth interleave nth_error].
  rewrite step_rating_insert by exact Hrange. cbn [replace_nth interleave nth_error].
  cbn [answered map next_id bump set_ratings ratings swaps users skills offered wanted].
  rewrite <- app_assoc. reflexivity.
Qed.

(** X1.  In the second generation a store with at most one rating per swap
    and rater keeps that property whatever is served, one request after the
    other.  For a stored caller who is a party of an accepted swap and
    submits a valid score: a banned caller is answered BannedActor; for one
    in good standing the first rating succeeds, and any later one by the
    same rater, served after it, is refused as a duplicate, a Conflict, and
    stores nothing.  The look for an earlier rating and the insert are two
    awaited calls with no index behind them: two submissions by the rater
    that are in flight together both succeed, and two ratings for the swap
    and the rater are stored. *)
Theorem backend_rating_once (u i : oid) (b : rate_body) (s : db) (swap : SwapRequest)
        (caller : User) :
  rating_unique s ->
  findById swap__id i (swaps s) = Some swap ->
  status swap = "accepted" ->
  requester_id swap = u \/ recipient_id swap = u ->
  isInt_1_5 (body_rating b) <> None ->
  findById user__id u (users s) = Some caller ->
  (forall rs, rating_unique (snd (serve rs s)))
  /\ is_conflict DuplicateRating = true
  /\ (is_banned caller = true -> route (RateSwap u i b) s = (Fail BannedActor, s))
  /\ (is_banned caller = false ->
      (find (by_swap_rater i u) (ratings s) <> None ->
       route (RateSwap u i b) s = (Fail DuplicateRating, s))
      /\ (find (by_swap_rater i u) (ratings s) = None ->
          let s1 := snd (route (RateSwap u i b) s) in
          let together :=
            in_flight [0; 0; 0; 1; 1; 1; 0; 1]
                      (map route_steps [RateSwap u i b; RateSwap u i b]) s in
          fst (route (RateSwap u i b) s) = Done 201
          /\ (forall b', isInt_1_5 (body_rating b') <> None ->
                         route (RateSwap u i b') s1 = (Fail DuplicateRating, s1))
          /\ (forall s0, run (Fail ServerError) (route_steps (RateSwap u i b)) s0
                         = route (RateSwap u i b) s0)
          /\ fst together = [Some (Done 201); Some (Done 201)]
          /\ countDocuments (by_swap_rater i u) (ratings (snd together)) = 2
          /\ ~ rating_unique (snd together))).
Proof.
  intros Huniq Hf Hst Hparty Hz Hu.
  destruct (rate_swap_once u i b s swap Huniq Hf Hst Hparty Hz) as [H1 [H2 [H3 H4]]].
  split; [exact H1|]. split; [exact H2|]. cbn [route]. split.
  - intros Hb. rewrite checkNotBanned_eq, Hu, Hb. reflexivity.
  - intros Hb. rewrite !checkNotBanned_eq, Hu, Hb. split; [exact H3|].
    intros Hnone. cbv zeta in *. destruct (H4 Hnone) as [H5 H6].
    split; [exact H5|]. split.
    + intros b' Hz'. rewrite checkNotBanned_eq.
      assert (Hu' : findById user__id u (users (snd (Backend.rate_swap u i b s)))
                    = Some caller).
      { replace (users (snd (Backend.rate_swap u i b s))) with (users s); [exact Hu|].
        unfold Backend.rate_swap. rewrite rate_swap_bound_eq by reflexivity.
        unfold rate_guards. destruct (isInt_1_5 (body_rating b)); [|reflexivity].
        rewrite Hf. destruct (negb (status swap =? "accepted")%string); [reflexivity|].
        destruct (requester_id swap =? u);
          [destruct (find (by_swap_rater i u) (ratings s)); reflexivity|].
        destruct (recipient_id swap =? u); [|reflexivity].
        destruct (find (by_swap_rater i u) (ratings s)); reflexivity. }
      rewrite Hu', Hb. apply H6. exact Hz'.
    + split; [intros s0; apply run_route_steps|].
      destruct (isInt_1_5 (body_rating b)) as [z|] eqn:Ez; [|contradiction].
      rewrite (two_ratings_in_flight u i b s caller swap z) by assumption.
      cbn [fst snd ratings bump set_ratings].
      set (rated := if requester_id swap =? u then recipient_id swap else requester_id swap).
      assert (Hc : countDocuments (by_swap_rater i u)
                     (ratings s ++ [mkRating (next_id s) i u rated z (body_feedback b);
                                    mkRating (S (next_id s)) i u rated z (body_feedback b)])
                   = 2).
      { rewrite countDocuments_app, (countDocuments_find_none _ _ Hnone).
        unfold countDocuments, by_swap_rater. cbn [filter swap_id rater_id].
        rewrite !Nat.eqb_refl. reflexivity. }
      split; [reflexivity|]. split; [exact Hc|].
      intros Hu2. specialize (Hu2 i u). cbn [ratings bump set_ratings] in Hu2.
      rewrite Hc in Hu2. lia.
Qed.

Lemma backend_rating_once_witness :
  rating_unique Sample.db_accepted
  /\ fst (route (RateSwap 1 100 Sample.five_stars) Sample.db_accepted) = Done 201
  /\ fst (route (RateSwap 1 100 (mkRateBody (Some 1%Z) None))
            (snd (route (RateSwap 1 100 Sample.five_stars) Sample.db_accepted)))
     = Fail DuplicateRating
  /\ fst (in_flight [0; 0; 0; 1; 1; 1; 0; 1]
                    (map route_steps [RateSwap 1 100 Sample.five_stars;
                                      RateSwap 1 100 Sample.five_stars])
                    Sample.db_accepted)
     = [Some (Done 201); Some (Done 201)].
Proof.
  assert (U : rating_unique Sample.db_accepted) by (intros sw u; cbn; lia).
  split; [exact U|].
  destruct (backend_rating_once 1 100 Sample.five_stars Sample.db_accepted
              (Sample.request100 "accepted") Sample.alice U eq_refl eq_refl
              (or_introl eq_refl))
    as [_ [_ [_ H]]]; [discriminate|reflexivity|].
  destruct (H eq_refl) as [_ H']. cbv zeta in H'.
  destruct (H' eq_refl) as [H1 [H2 [_ [H3 _]]]].
  split; [exact H1|]. split; [|exact H3]. rewrite H2; [reflexivity|discriminate].
Defined.

(** ** Cancelling by deletion *)

Lemma findById_delete_same {D} (key : D -> oid) i (l : list D) :
  findById key i (delete_by_id key i l) = None.
Proof.
  unfold findById, delete_by_id. induction l as [|x l IH]; cbn; [reflexivity|].
  destruct (key x =? i) eqn:E; cbn; [exact IH|]. rewrite E. exact IH.
Qed.

Lemma findById_delete_other {D} (key : D -> oid) i j (l : list D) :
  j <> i -> findById key j (delete_by_id key i l) = findById key j l.
Proof.
  intros Hne. unfold findById, delete_by_id. induction l as [|x l IH]; cbn; [reflexivity|].
  destruct (key x =? i) eqn:E; cbn.
  - apply Nat.eqb_eq in E. destruct (key x =? j) eqn:Ej; [|exact IH].
    apply Nat.eqb_eq in Ej. congruence.
  - destruct (key x =? j); [reflexivity|exact IH].
Qed.

(** The handler of [DELETE /swaps/:swapId], past the middleware. *)
Lemma delete_swap_handler (u i : oid) (s : db) :
  let out := Backend.delete_swap u i s in
  (succeeded (fst out) = true <->
   exists swap, findById swap__id i (swaps s) = Some swap
                /\ requester_id swap = u /\ status swap = "pending")
  /\ (succeeded (fst out) = true ->
      findById swap__id i (swaps (snd out)) = None
      /\ forall j, j <> i -> findById swap__id j (swaps (snd out)) = findById swap__id j (swaps s))
  /\ (succeeded (fst out) = false -> snd out = s).
Proof.
  cbv zeta. unfold Backend.delete_swap. rewrite delete_swap_eq by reflexivity.
  unfold guarded.
  destruct (findById swap__id i (swaps s)) as [swap|] eqn:Hf.
  2:{ cbn. split; [split; [discriminate|intros [x [H _]]; discriminate]|].
      split; [discriminate|reflexivity]. }
  destruct (requester_id swap =? u) eqn:Hrq; cbn [negb].
  2:{ cbn. apply Nat.eqb_neq in Hrq.
      split; [split; [discriminate|intros [x [H [H1 _]]]; congruence]|].
      split; [discriminate|reflexivity]. }
  destruct (status swap =? "pending")%string eqn:Hst; cbn [negb].
  2:{ cbn. apply String.eqb_neq in Hst.
      split; [split; [discriminate|intros [x [H [_ H1]]]; congruence]|].
      split; [discriminate|reflexivity]. }
  apply Nat.eqb_eq in Hrq. apply String.eqb_eq in Hst. cbn [fst snd succeeded swaps set_swaps].
  split; [split; [intros _; exists swap; auto|reflexivity]|].
  split; [|discriminate]. intros _. split.
  - apply findById_delete_same.
  - intros j Hj. apply findById_delete_other. exact Hj.
Qed.

(** X2.  [DELETE /swaps/:swapId] answers NotFound to a caller who is not
    stored and BannedActor to a banned one; it succeeds exactly when the
    caller is stored and not banned, the request exists, the caller is its
    requester and its status is pending; it then removes that request and
    touches no other; in every other case the store is left as it was. *)
Theorem delete_swap_contract (u i : oid) (s : db) :
  let out := route (DeleteSwap u i) s in
  (findById user__id u (users s) = None -> out = (Fail NotFound, s))
  /\ (forall caller, findById user__id u (users s) = Some caller ->
        is_banned caller = true -> out = (Fail BannedActor, s))
  /\ (succeeded (fst out) = true <->
      (exists caller, findById user__id u (users s) = Some caller
                      /\ is_banned caller = false)
      /\ exists swap, findById swap__id i (swaps s) = Some swap
                      /\ requester_id swap = u /\ status swap = "pending")
  /\ (succeeded (fst out) = true ->
      findById swap__id i (swaps (snd out)) = None
      /\ forall j, j <> i -> findById swap__id j (swaps (snd out)) = findById swap__id j (swaps s))
  /\ (succeeded (fst out) = false -> snd out = s).
Proof.
  cbv zeta. cbn [route]. rewrite checkNotBanned_eq.
  pose proof (delete_swap_handler u i s) as H. cbv zeta in H.
  destruct H as [Hiff [Hgone Hkept]].
  destruct (findById user__id u (users s)) as [caller|].
  2:{ split; [reflexivity|]. split; [discriminate|].
      split; [split; [discriminate|intros [[c [Hc _]] _]; discriminate]|].
      split; [discriminate|reflexivity]. }
  destruct (is_banned caller) eqn:Hb.
  - split; [discriminate|]. split; [reflexivity|].
    split; [split; [discriminate|intros [[c [Hc Hcb]] _]; congruence]|].
    split; [discriminate|reflexivity].
  - split; [discriminate|]. split; [intros c Hc Hcb; congruence|].
    split; [|split; assumption].
    split.
    + intros Hok. split; [exists caller; auto|]. apply Hiff. exact Hok.
    + intros [_ Hsw]. apply Hiff. exact Hsw.
Qed.

(** ** Scenarios of the spec *)

(** Alice offers Python, Bob offers Guitar.  Alice asks Bob, Python for
    Guitar: created, pending.  Bob accepts.  Alice rates Bob 5: stored.
    Alice rates Bob again: refused as a duplicate. *)
Example scenario_swap_accept_rate_twice :
  fst (serve [ CreateSwap 1 Sample.python_for_guitar; AcceptSwap 2 100;
               RateSwap 1 100 Sample.five_stars; RateSwap 1 100 Sample.five_stars ]
             Sample.db0)
  = [Created 100; Done 200; Done 201; Fail DuplicateRating]
  /\ map status (swaps (snd (serve [CreateSwap 1 Sample.python_for_guitar] Sample.db0)))
     = ["pending"]
  /\ map status (swaps (snd (serve [CreateSwap 1 Sample.python_for_guitar; AcceptSwap 2 100]
                                   Sample.db0)))
     = ["accepted"].
Proof. repeat split. Qed.

(** An admin bans Bob; Alice's new request to Bob is refused because the
    recipient is banned. *)
Example scenario_banned_recipient :
  fst (serve [ BanUser 9 true Sample.bob_id (Some true); CreateSwap 1 Sample.python_for_guitar ]
             Sample.db0)
  = [Done 200; Fail RecipientBanned]
  /\ http_status RecipientBanned = 403.
Proof. repeat split. Qed.

(** A creation whose recipient is the caller's own identifier, spelled as
    the token spells it, is a SelfSwap whatever the skills, the message and
    the store. *)
Lemma self_swap_refused (u off req : oid) (msg : option string) (s : db) :
  let body := mkCreateBody (Some (ObjectId_toString u)) (Some off) (Some req) msg in
  Server.create_swap u body s = (Fail SelfSwap, s)
  /\ Backend.create_swap u body s = (Fail SelfSwap, s).
Proof.
  cbv zeta. unfold Server.create_swap, Backend.create_swap.
  rewrite !create_swap_outcome by (cbn; auto).
  cbn [recipientId offeredSkillId requestedSkillId]. rewrite cast_toString.
  unfold creation_checks. cbn [first_failure]. rewrite String.eqb_refl. split; reflexivity.
Qed.



Lemma delete_swap_contract_witness :
  (exists swap, findById swap__id 100 (swaps Sample.db_pending) = Some swap
                /\ requester_id swap = 1 /\ status swap = "pending")
  /\ succeeded (fst (route (DeleteSwap 1 100) Sample.db_pending)) = true
  /\ findById swap__id 100 (swaps (snd (route (DeleteSwap 1 100) Sample.db_pending))) = None.
Proof.
  assert (E : exists swap, findById swap__id 100 (swaps Sample.db_pending) = Some swap
                           /\ requester_id swap = 1 /\ status swap = "pending").
  { exists (Sample.request100 "pending"). repeat split. }
  pose proof (delete_swap_contract 1 100 Sample.db_pending) as H. cbv zeta in H.
  destruct H as [_ [_ [Hiff [Hgone _]]]].
  assert (C : exists caller, findById user__id 1 (users Sample.db_pending) = Some caller
                             /\ is_banned caller = false)
    by (exists Sample.alice; split; reflexivity).
  split; [exact E|]. split; [exact (proj2 Hiff (conj C E))|].
  exact (proj1 (Hgone (proj2 Hiff (conj C E)))).
Defined.

(* ================================================================== *)
(** * What the store keeps *)

(** ** One request, one change *)

Lemma change_refl s : change s s.
Proof. apply ch_none. reflexivity. Qed.

Lemma checkNotBanned_change u next s :
  (forall usr, findById user__id u (users s) = Some usr -> is_banned usr = false ->
               change s (snd (next s))) ->
  change s (snd (checkNotBanned u next s)).
Proof.
  intros H. rewrite checkNotBanned_eq.
  destruct (findById user__id u (users s)) as [usr|] eqn:Hu; [|apply change_refl].
  destruct (is_banned usr) eqn:Hb; [apply change_refl|]. apply (H usr); auto.
Qed.

Lemma guarded_change party u i s k :
  (forall swap, findById swap__id i (swaps s) = Some swap -> status swap = "pending" ->
                change s (snd (k swap))) ->
  change s (snd (guarded party u i s k)).
Proof.
  intros Hk. unfold guarded.
  destruct (findById swap__id i (swaps s)) as [swap|] eqn:Hf; [|apply change_refl].
  destruct (negb (party swap =? u)); [apply change_refl|].
  destruct (status swap =? "pending")%string eqn:Hp; cbn [negb]; [|apply change_refl].
  apply Hk; [reflexivity|]. apply String.eqb_eq. exact Hp.
Qed.

Lemma route_change r s : change s (snd (route r s)).
Proof.
  destruct r as [u b|u i|u i|u i|u i|u i b|u i b|u b|u a|u adm t v]; unfold route.
  - (* create *)
    apply checkNotBanned_change. intros requester Hrq Hrqb. unfold Backend.create_swap.
    destruct b as [[r|] [off|] [req|] msg];
      try (rewrite create_swap_invalid by (reflexivity || (cbn; auto)); apply change_refl).
    destruct (ObjectId_cast r) as [rc|] eqn:Hcast;
      [|rewrite create_swap_uncast by (reflexivity || exact Hcast); apply change_refl].
    rewrite create_swap_eq with (rc := rc) by (reflexivity || exact Hcast).
    destruct (first_failure (creation_checks s u r rc off req)) eqn:Hff; [apply change_refl|].
    cbn [snd]. unfold creation_checks in Hff. cbn [first_failure] in Hff.
    destruct (ObjectId_toString u =? r)%string; [discriminate|].
    destruct (findById user__id rc (users s)) as [recipient|] eqn:Hrc; [|discriminate].
    destruct (is_banned recipient) eqn:Hrcb; [discriminate|].
    destruct (existsb (by_user_skill u off) (offered s)) eqn:Hoff; [|discriminate].
    destruct (existsb (by_user_skill rc req) (offered s)) eqn:Hreq; [|discriminate].
    destruct (existsb (pending_between u rc) (swaps s)) eqn:Hpen; [discriminate|].
    cbn [negb] in Hff.
    eapply (ch_create s _ requester recipient u rc off req msg); eauto.
  - apply checkNotBanned_change. intros _ _ _. unfold Backend.accept_swap.
    rewrite accept_swap_eq by reflexivity. apply guarded_change.
    intros swap Hf Hp. cbn [snd]. destruct (findById_key _ _ _ _ Hf) as [<- _].
    apply (ch_settle s _ swap "accepted"); auto.
  - apply checkNotBanned_change. intros _ _ _. unfold Backend.reject_swap.
    rewrite reject_swap_eq by reflexivity. apply guarded_change.
    intros swap Hf Hp. cbn [snd]. destruct (findById_key _ _ _ _ Hf) as [<- _].
    apply (ch_settle s _ swap "rejected"); auto.
  - apply checkNotBanned_change. intros _ _ _. unfold Server.cancel_swap.
    rewrite cancel_swap_eq by reflexivity. apply guarded_change.
    intros. apply change_refl.
  - apply checkNotBanned_change. intros _ _ _. unfold Backend.delete_swap.
    rewrite delete_swap_eq by reflexivity. apply guarded_change.
    intros swap Hf Hp. cbn [snd]. destruct (findById_key _ _ _ _ Hf) as [<- _].
    apply (ch_delete s _ swap); auto.
  - apply checkNotBanned_change. intros _ _ _. unfold Server.rate_swap.
    rewrite rate_swap_unbound_eq by reflexivity. unfold rate_guards.
    destruct (isInt_1_5 (body_rating b)); [|apply change_refl].
    destruct (findById swap__id i (swaps s)) as [swap|]; [|apply change_refl].
    destruct (negb (status swap =? "accepted")%string); [apply change_refl|].
    destruct (requester_id swap =? u); [apply change_refl|].
    destruct (recipient_id swap =? u); apply change_refl.
  - apply checkNotBanned_change. intros _ _ _. unfold Backend.rate_swap.
    rewrite rate_swap_bound_eq by reflexivity. unfold rate_guards.
    destruct (isInt_1_5 (body_rating b)) as [z|] eqn:Hz; [|apply change_refl].
    apply isInt_1_5_some in Hz. destruct Hz as [_ Hrange].
    destruct (findById swap__id i (swaps s)) as [swap|] eqn:Hf; [|apply change_refl].
    destruct (findById_key _ _ _ _ Hf) as [<- _].
    destruct (status swap =? "accepted")%string eqn:Hst; cbn [negb]; [|apply change_refl].
    apply String.eqb_eq in Hst.
    destruct (requester_id swap =? u) eqn:Hrq.
    + apply Nat.eqb_eq in Hrq.
      destruct (find (by_swap_rater (swap__id swap) u) (ratings s)) eqn:Hfind;
        [apply change_refl|].
      cbn [snd]. apply (ch_rate s _ swap u (recipient_id swap) z (body_feedback b)); auto.
    + destruct (recipient_id swap =? u) eqn:Hrc; [|apply change_refl].
      apply Nat.eqb_eq in Hrc.
      destruct (find (by_swap_rater (swap__id swap) u) (ratings s)) eqn:Hfind;
        [apply change_refl|].
      cbn [snd]. apply (ch_rate s _ swap u (requester_id swap) z (body_feedback b)); auto.
  - rewrite add_offered_eq.
    destruct (findById skill__id (skillId b) (skills s)) eqn:Hk; [|apply change_refl].
    destruct (find (by_user_skill u (skillId b)) (offered s)) eqn:Hfind; [apply change_refl|].
    cbv zeta. destruct (validate_offered _) eqn:Hv; [|apply change_refl].
    cbn [snd]. eapply ch_add_offered; eauto. rewrite Hk. discriminate.
  - rewrite remove_offered_eq.
    destruct (find (by_id_user a u) (offered s)) eqn:Hfind; [|apply change_refl].
    cbn [snd]. eapply ch_remove_offered; eauto.
  - unfold requireAdmin. destruct (negb adm); [apply change_refl|].
    destruct v as [v|]; [|apply change_refl].
    rewrite ban_user_eq. destruct (t =? ObjectId_toString u)%string; [apply change_refl|].
    destruct (ObjectId_cast t) as [t'|]; [|apply change_refl].
    destruct (findById user__id t' (users s)) eqn:Hu; [|apply change_refl].
    cbn [snd]. eapply ch_ban; eauto.
Qed.

Lemma serve_keeps (P : db -> Prop) :
  (forall s s', change s s' -> P s -> P s') ->
  forall rs s, P s -> P (snd (serve rs s)).
Proof.
  intros HP rs. induction rs as [|r rs IH]; intros s Hs; [exact Hs|].
  rewrite serve_cons. cbn [snd]. apply IH. eapply HP; [apply route_change|exact Hs].
Qed.

(** ** What no request touches *)

Lemma unique_key_same {D} (key : D -> oid) (l : list D) x y :
  NoDup (map key l) -> In x l -> In y l -> key x = key y -> x = y.
Proof.
  induction l as [|z l IH]; cbn; [tauto|].
  intros Hnd Hx Hy Hk. inversion Hnd as [|? ? Hnot Hnd']; subst.
  destruct Hx as [<-|Hx], Hy as [<-|Hy]; auto.
  - exfalso. apply Hnot. rewrite Hk. apply in_map. exact Hy.
  - exfalso. apply Hnot. rewrite <- Hk. apply in_map. exact Hx.
Qed.

Lemma ban_keeps_unflagged usr b l :
  NoDup (map user__id l) ->
  findById user__id (user__id usr) l = Some usr ->
  map unflagged (replace_by_id user__id (with_is_banned usr b) l) = map unflagged l.
Proof.
  intros Hnd Hf. apply findById_key in Hf. destruct Hf as [_ Hin].
  unfold replace_by_id. rewrite map_map. apply map_ext_in.
  intros x Hx. cbn [user__id with_is_banned].
  destruct (user__id x =? user__id usr) eqn:E; [|reflexivity].
  apply Nat.eqb_eq in E. rewrite (unique_key_same user__id l x usr Hnd Hx Hin E). reflexivity.
Qed.

(** X5.  Whatever requests are served, the skill catalogue and the wanted
    associations stay exactly as they were, no user is created or deleted,
    and the generator of identifiers never steps back; where the users'
    identifiers are distinct, nothing of a user but the ban flag ever
    changes: name, location, visibility and admin flag are out of reach of
    the routes for swaps, ratings, offered skills and bans. *)
Theorem serve_leaves_catalogue_and_users (rs : list request) (s : db) :
  skills (snd (serve rs s)) = skills s
  /\ wanted (snd (serve rs s)) = wanted s
  /\ map user__id (users (snd (serve rs s))) = map user__id (users s)
  /\ next_id s <= next_id (snd (serve rs s))
  /\ (NoDup (map user__id (users s)) ->
      map unflagged (users (snd (serve rs s))) = map unflagged (users s)).
Proof.
  revert s. induction rs as [|r rs IH]; intros s; [cbn; auto 6|].
  rewrite serve_cons. cbn [snd].
  destruct (IH (snd (route r s))) as [Hk [Hw [Hu [Hn Hf]]]].
  rewrite Hk, Hw, Hu. clear Hk Hw Hu IH.
  pose proof (route_change r s) as Hc.
  remember (snd (route r s)) as s1 eqn:Hs1. clear Hs1.
  destruct Hc; subst s1; cbn [skills wanted users next_id set_users set_swaps set_ratings
                              set_offered bump] in *;
    try (repeat split; auto; lia).
  assert (Hids : map user__id (replace_by_id user__id (with_is_banned usr b) (users s))
                 = map user__id (users s)).
  { unfold replace_by_id. rewrite map_map. apply map_ext_in. intros x Hx.
    destruct (user__id x =? user__id (with_is_banned usr b)) eqn:E; [|reflexivity].
    apply Nat.eqb_eq in E. cbn in *. congruence. }
  repeat split; auto.
  intros Hnd. rewrite Hf by (rewrite Hids; exact Hnd).
  apply ban_keeps_unflagged; [exact Hnd|].
  match goal with H : findById user__id _ _ = Some usr |- _ =>
    destruct (findById_key _ _ _ _ H) as [<- _]; exact H end.
Qed.

Lemma serve_leaves_catalogue_and_users_witness :
  NoDup (map user__id (users Sample.db0))
  /\ map unflagged (users (snd (serve (BanUser 9 true Sample.bob_id (Some true) :: Sample.busy_day)
                                      Sample.db_pending)))
     = map unflagged (users Sample.db_pending).
Proof.
  assert (H : NoDup (map user__id (users Sample.db0))).
  { cbn. repeat constructor; cbn; intuition discriminate. }
  split; [exact H|].
  exact (proj2 (proj2 (proj2 (proj2 (serve_leaves_catalogue_and_users
                                       (BanUser 9 true Sample.bob_id (Some true) :: Sample.busy_day)
                                       Sample.db_pending)))) H).
Defined.


(** ** Requests stay well formed *)

Lemma map_key_replace_by_id {D} (key : D -> oid) d l :
  map key (replace_by_id key d l) = map key l.
Proof.
  unfold replace_by_id. rewrite map_map. apply map_ext. intros x.
  destruct (key x =? key d) eqn:E; [|reflexivity]. apply Nat.eqb_eq in E. congruence.
Qed.

Lemma map_key_delete_by_id {D} (key : D -> oid) i l :
  map key (delete_by_id key i l) = filter (fun k => negb (k =? i)) (map key l).
Proof.
  unfold delete_by_id. induction l as [|x l IH]; cbn; [reflexivity|].
  destruct (key x =? i); cbn; rewrite IH; reflexivity.
Qed.

Lemma change_swap_ids_fresh s s' : change s s' -> swap_ids_fresh s -> swap_ids_fresh s'.
Proof.
  unfold swap_ids_fresh. intros Hc H. rewrite Forall_forall in H.
  destruct Hc; subst s'; rewrite Forall_forall;
    cbn [swaps next_id bump set_swaps set_ratings set_offered set_users]; auto.
  - intros x Hx. apply in_app_or in Hx. destruct Hx as [Hx|[<-|[]]].
    + specialize (H x Hx). lia.
    + cbn. lia.
  - intros x Hx. apply in_replace_by_id in Hx. destruct Hx as [->|[Hx _]]; [|auto].
    match goal with Hf : findById swap__id _ _ = Some sw |- _ =>
      apply findById_key in Hf; destruct Hf as [_ Hin] end.
    cbn. apply H, Hin.
  - intros x Hx. apply in_delete_by_id in Hx. apply H, Hx.
  - intros x Hx. specialize (H x Hx). lia.
  - intros x Hx. specialize (H x Hx). lia.
Qed.

Lemma change_request_ids_unique s s' :
  change s s' -> swap_ids_fresh s -> request_ids_unique s -> request_ids_unique s'.
Proof.
  unfold request_ids_unique, swap_ids_fresh. intros Hc Hfresh H.
  destruct Hc; subst s'; cbn [swaps bump set_swaps set_ratings set_offered set_users]; auto.
  - rewrite map_app. cbn [map swap__id]. apply NoDup_app; [exact H| |].
    + constructor; [intros []|constructor].
    + intros k Hk [<-|[]]. apply in_map_iff in Hk. destruct Hk as [x [Hx Hin]].
      rewrite Forall_forall in Hfresh. specialize (Hfresh x Hin). lia.
  - rewrite map_key_replace_by_id. exact H.
  - rewrite map_key_delete_by_id. apply NoDup_filter. exact H.
Qed.

(** What a creation stores is a request of the caller, and its recipient
    was not named by the text of the caller's token. *)
Lemma creation_stores u b s d :
  In d (swaps (snd (route (CreateSwap u b) s))) -> ~ In d (swaps s) ->
  requester_id d = u /\ status d = "pending"
  /\ recipientId b <> Some (ObjectId_toString u).
Proof.
  cbn [route]. rewrite checkNotBanned_eq.
  destruct (findById user__id u (users s)) as [caller|]; [|intros; contradiction].
  destruct (is_banned caller); [intros; contradiction|].
  unfold Backend.create_swap. rewrite create_swap_outcome by (cbn; auto).
  destruct (recipientId b) as [r|]; [|intros; contradiction].
  destruct (offeredSkillId b) as [off|]; [|intros; contradiction].
  destruct (requestedSkillId b) as [req|]; [|intros; contradiction].
  destruct (ObjectId_cast r) as [rc|]; [|intros; contradiction].
  destruct (first_failure (creation_checks s u r rc off req)) eqn:Hff; [intros; contradiction|].
  destruct (checks_pass _ _ _ _ _ _ Hff) as [Hself _].
  cbn [snd swaps bump set_swaps]. intros Hd Hnew.
  apply in_app_or in Hd. destruct Hd as [Hd|[<-|[]]]; [contradiction|].
  split; [reflexivity|]. split; [reflexivity|].
  intros E. injection E as ->. rewrite String.eqb_refl in Hself. discriminate.
Qed.

(** X6.  From a store whose requests have distinct identifiers, all handed
    out already, no sequence of requests served one after the other leads to
    a store with two requests under one identifier, or with an identifier
    that is still to be handed out.  A request that a creation stores is
    pending, is the caller's, and was not addressed to the text of the
    caller's own token.  That no stored request is from a user to themselves
    is not kept all the same: Frank's request to his own identifier with its
    letter in upper case is stored. *)
Theorem requests_stay_well_formed (rs : list request) (s : db) :
  swap_ids_fresh s -> request_ids_unique s ->
  swap_ids_fresh (snd (serve rs s))
  /\ request_ids_unique (snd (serve rs s))
  /\ (forall u b d,
        In d (swaps (snd (route (CreateSwap u b) s))) -> ~ In d (swaps s) ->
        requester_id d = u /\ status d = "pending"
        /\ recipientId b <> Some (ObjectId_toString u))
  /\ (parties_distinct Cases.db_frank
      /\ ~ parties_distinct
            (snd (serve [CreateSwap 26 (Cases.python_for_python Cases.frank_id_upper)]
                        Cases.db_frank))).
Proof.
  intros Hf Hu. split; [|split; [|split]].
  - apply (serve_keeps (fun s => swap_ids_fresh s /\ request_ids_unique s)); [|auto].
    intros s0 s1 Hc [H1 H2]. split.
    + eapply change_swap_ids_fresh; eauto.
    + eapply change_request_ids_unique; eauto.
  - apply (serve_keeps (fun s => swap_ids_fresh s /\ request_ids_unique s)); [|auto].
    intros s0 s1 Hc [H1 H2]. split.
    + eapply change_swap_ids_fresh; eauto.
    + eapply change_request_ids_unique; eauto.
  - intros u b d. apply creation_stores.
  - split; [constructor|].
    intros H. vm_compute in H. inversion H as [|x l Hx _]. apply Hx. reflexivity.
Qed.

Lemma requests_stay_well_formed_witness :
  swap_ids_fresh Sample.db_pending
  /\ request_ids_unique Sample.db_pending
  /\ request_ids_unique (snd (serve Sample.busy_day Sample.db_pending))
  /\ List.length (swaps (snd (serve Sample.busy_day Sample.db_pending))) = 2.
Proof.
  assert (F : swap_ids_fresh Sample.db_pending) by (constructor; [cbn; lia|constructor]).
  assert (U : request_ids_unique Sample.db_pending)
    by (constructor; [intros []|constructor]).
  split; [exact F|]. split; [exact U|].
  destruct (requests_stay_well_formed Sample.busy_day Sample.db_pending F U) as [_ [H1 _]].
  split; [exact H1|vm_compute; reflexivity].
Defined.

(** ** Ratings stay sound *)


Lemma findById_replace_other {D} (key : D -> oid) j d (l : list D) :
  j <> key d -> findById key j (replace_by_id key d l) = findById key j l.
Proof.
  intros Hne. unfold findById, replace_by_id. induction l as [|x l IH]; cbn; [reflexivity|].
  destruct (key x =? key d) eqn:E.
  - apply Nat.eqb_eq in E. destruct (key d =? j) eqn:Ed.
    + apply Nat.eqb_eq in Ed. congruence.
    + rewrite E, Ed. exact IH.
  - destruct (key x =? j); [reflexivity|exact IH].
Qed.







(** ** Accepting and rejecting *)

Lemma guarded_transition_contract h party u i st s :
  (forall s, h s = guarded party u i s (fun swap =>
     (Done 200, set_swaps s (replace_by_id swap__id (with_status swap st) (swaps s))))) ->
  transition_contract h party u i st s.
Proof.
  intros Hh. unfold transition_contract. rewrite Hh. unfold guarded.
  destruct (findById swap__id i (swaps s)) as [swap|] eqn:Hf.
  2:{ cbn. split; [split; [discriminate|intros [x [H _]]; discriminate]|].
      split; [discriminate|reflexivity]. }
  destruct (party swap =? u) eqn:Hp; cbn [negb].
  2:{ cbn. apply Nat.eqb_neq in Hp.
      split; [split; [discriminate|intros [x [H [H1 _]]]; congruence]|].
      split; [discriminate|reflexivity]. }
  destruct (status swap =? "pending")%string eqn:Hst; cbn [negb].
  2:{ cbn. apply String.eqb_neq in Hst.
      split; [split; [discriminate|intros [x [H [_ H1]]]; congruence]|].
      split; [discriminate|reflexivity]. }
  apply Nat.eqb_eq in Hp. apply String.eqb_eq in Hst.
  cbn [fst snd succeeded swaps set_swaps].
  destruct (findById_key _ _ _ _ Hf) as [Hk _].
  split; [split; [intros _; exists swap; auto|reflexivity]|].
  split; [|discriminate]. intros _. split; [|split].
  - intros swap' H. injection H as <-.
    replace i with (swap__id (with_status swap st)) by exact Hk.
    apply findById_replace_same. cbn [swap__id with_status]. rewrite Hk, Hf. discriminate.
  - intros j Hj. apply findById_replace_other. cbn. congruence.
  - reflexivity.
Qed.

Lemma served_transition_contract next party u i st s :
  transition_contract next party u i st s -> served_contract next party u i st s.
Proof.
  intros Hc. unfold served_contract. cbv zeta. rewrite checkNotBanned_eq.
  destruct (findById user__id u (users s)) as [caller|].
  2:{ split; [reflexivity|]. split; [discriminate|]. split; discriminate. }
  destruct (is_banned caller) eqn:Hb.
  - split; [discriminate|]. split; [reflexivity|]. split; [|discriminate].
    intros c Hc' Hcb. congruence.
  - split; [discriminate|]. split; [intros c Hc' Hcb; congruence|]. split.
    + intros c _ _. split; [reflexivity|exact Hc].
    + intros _. exists caller. auto.
Qed.

(** X8.  In either generation, [PUT /swaps/:swapId/accept] (reject) answers
    NotFound to a caller who is not stored and BannedActor to a banned one.
    For a caller in good standing it succeeds exactly when the request is
    stored, the caller is its recipient and its status is pending.  It then
    sets the status of that request to accepted (rejected), keeps its
    parties, skills and message, and leaves every other request and every
    other collection as they were; a failed attempt writes nothing.  Only a
    caller in good standing succeeds. *)
Theorem accept_reject_contract (sc : scope) (u i : oid) (s : db) :
  In sc generations ->
  served_contract (accept_swap sc u i) recipient_id u i "accepted" s
  /\ served_contract (reject_swap sc u i) recipient_id u i "rejected" s
  /\ route (AcceptSwap u i) s = checkNotBanned u (accept_swap sc u i) s
  /\ route (RejectSwap u i) s = checkNotBanned u (reject_swap sc u i) s.
Proof.
  intros Hsc. pose proof (generations_bind_SwapRequest sc Hsc) as Hb.
  split; [|split; [|split]].
  - apply served_transition_contract, guarded_transition_contract. intros s0.
    apply accept_swap_eq. exact Hb.
  - apply served_transition_contract, guarded_transition_contract. intros s0.
    apply reject_swap_eq. exact Hb.
  - cbn [route]. apply checkNotBanned_ext. intros s0. unfold Backend.accept_swap.
    rewrite !accept_swap_eq by (reflexivity || exact Hb). reflexivity.
  - cbn [route]. apply checkNotBanned_ext. intros s0. unfold Backend.reject_swap.
    rewrite !reject_swap_eq by (reflexivity || exact Hb). reflexivity.
Qed.

Lemma accept_reject_contract_witness :
  In Server.bindings generations
  /\ succeeded (fst (route (AcceptSwap 2 100) Sample.db_pending)) = true
  /\ findById swap__id 100 (swaps (snd (route (AcceptSwap 2 100) Sample.db_pending)))
     = Some (Sample.request100 "accepted")
  /\ snd (route (RejectSwap 1 100) Sample.db_pending) = Sample.db_pending
  /\ route (AcceptSwap 7 100) Sample.db_pending = (Fail NotFound, Sample.db_pending).
Proof.
  assert (G : In Server.bindings generations) by (left; reflexivity).
  destruct (accept_reject_contract Server.bindings 2 100 Sample.db_pending G)
    as [[_ [_ [Hgood _]]] [_ [Hra _]]].
  destruct (accept_reject_contract Server.bindings 1 100 Sample.db_pending G)
    as [_ [[_ [_ [Hgood1 _]]] [_ Hrr]]].
  destruct (accept_reject_contract Server.bindings 7 100 Sample.db_pending G)
    as [[Hnone _] [_ [Hr7 _]]].
  cbv zeta in *.
  destruct (Hgood Sample.bob eq_refl eq_refl) as [Heq [Hiff [Hok _]]].
  destruct (Hgood1 Sample.alice eq_refl eq_refl) as [Heq1 [_ [_ Hfail]]].
  assert (E : exists swap, findById swap__id 100 (swaps Sample.db_pending) = Some swap
                           /\ recipient_id swap = 2 /\ status swap = "pending").
  { exists (Sample.request100 "pending"). repeat split. }
  split; [exact G|]. rewrite Hra, Hrr, Hr7, Heq, Heq1.
  split; [exact (proj2 Hiff E)|]. split.
  - exact (proj1 (Hok (proj2 Hiff E)) (Sample.request100 "pending") eq_refl).
  - split; [apply Hfail; reflexivity|]. apply Hnone. reflexivity.
Defined.

(** ** Bans *)

Lemma route_swap_caller r u :
  swap_caller r = Some u -> exists next, forall s, route r s = checkNotBanned u next s.
Proof.
  destruct r; cbn [swap_caller]; intros H; try discriminate; injection H as <-;
    eexists; intros s; reflexivity.
Qed.

Lemma swap_route_refuses_banned r u s usr :
  swap_caller r = Some u -> findById user__id u (users s) = Some usr ->
  is_banned usr = true -> route r s = (Fail BannedActor, s).
Proof.
  intros Hr Hf Hb. destruct (route_swap_caller r u Hr) as [next Hnext].
  rewrite Hnext, checkNotBanned_eq, Hf, Hb. reflexivity.
Qed.

(** X9.  Every swap route, creation, accept, reject, both cancels and both
    ratings, refuses a caller whose account is banned, and a caller who has
    no account, before its handler runs: the answer is 403 or 404 and the
    store is untouched.  The routes for offered skills do not look at the
    users at all: their reply and what they write are the same whoever is
    banned. *)
Theorem banned_callers_locked_out (r : request) (u : oid) (s : db) :
  swap_caller r = Some u ->
  (findById user__id u (users s) = None -> route r s = (Fail NotFound, s))
  /\ (forall usr, findById user__id u (users s) = Some usr -> is_banned usr = true ->
                  route r s = (Fail BannedActor, s))
  /\ (forall caller b a everyone,
        route (AddOffered caller b) (set_users s everyone)
        = (fst (route (AddOffered caller b) s),
           set_users (snd (route (AddOffered caller b) s)) everyone)
        /\ route (RemoveOffered caller a) (set_users s everyone)
           = (fst (route (RemoveOffered caller a) s),
              set_users (snd (route (RemoveOffered caller a) s)) everyone)).
Proof.
  intros Hr. destruct (route_swap_caller r u Hr) as [next Hnext]. rewrite Hnext.
  rewrite checkNotBanned_eq. split; [intros ->; reflexivity|]. split.
  - intros usr -> ->. reflexivity.
  - intros caller b a everyone. cbn [route]. rewrite !add_offered_eq, !remove_offered_eq.
    cbn [skills offered set_users next_id]. split.
    + destruct (findById skill__id (skillId b) (skills s)); [|reflexivity].
      destruct (find (by_user_skill caller (skillId b)) (offered s)); [reflexivity|].
      cbv zeta. destruct (validate_offered _); reflexivity.
    + destruct (find (by_id_user a caller) (offered s)); reflexivity.
Qed.

Lemma banned_callers_locked_out_witness :
  swap_caller (AcceptSwap 2 100) = Some 2
  /\ findById user__id 2 (users (snd (route (BanUser 9 true Sample.bob_id (Some true)) Sample.db_pending)))
     = Some (with_is_banned Sample.bob true)
  /\ route (AcceptSwap 2 100) (snd (route (BanUser 9 true Sample.bob_id (Some true)) Sample.db_pending))
     = (Fail BannedActor, snd (route (BanUser 9 true Sample.bob_id (Some true)) Sample.db_pending)).
Proof.
  split; [reflexivity|]. split; [reflexivity|].
  exact (proj1 (proj2 (banned_callers_locked_out (AcceptSwap 2 100) 2
                         (snd (route (BanUser 9 true Sample.bob_id (Some true)) Sample.db_pending))
                         eq_refl))
               (with_is_banned Sample.bob true) eq_refl eq_refl).
Defined.

Lemma replace_by_id_same {D} (key : D -> oid) d (l : list D) :
  NoDup (map key l) -> In d l -> replace_by_id key d l = l.
Proof.
  intros Hnd Hin. unfold replace_by_id.
  rewrite <- (map_id l) at 2. apply map_ext_in. intros x Hx.
  destruct (key x =? key d) eqn:E; [|reflexivity].
  apply Nat.eqb_eq in E. symmetry. apply (unique_key_same key l x d Hnd Hx Hin E).
Qed.

Lemma replace_by_id_twice {D} (key : D -> oid) d1 d2 (l : list D) :
  key d1 = key d2 ->
  replace_by_id key d2 (replace_by_id key d1 l) = replace_by_id key d2 l.
Proof.
  intros Hk. unfold replace_by_id. rewrite map_map. apply map_ext. intros x.
  destruct (key x =? key d1) eqn:E.
  - rewrite Hk in E. rewrite E, Hk, Nat.eqb_refl. reflexivity.
  - rewrite Hk in E. rewrite E. reflexivity.
Qed.

(** X10.  An admin bans a stored user, named in the path by any text but
    that of the admin's own token.  From then on a creation addressed to
    that user, under whatever spelling of their identifier and whatever
    skills, by a caller in good standing who sends both skill identifiers
    and does not spell the recipient as their own token does, is refused
    with RecipientBanned in either generation; every swap route the banned
    user calls answers BannedActor; a ban repeated changes nothing more; and
    lifting the ban puts the store back exactly as it was before the ban,
    when the user was not banned then and the users' identifiers are
    distinct. *)
Theorem ban_then_unban (adminId : oid) (userId : string) (t : oid) (usr : User) (s : db) :
  userId <> ObjectId_toString adminId ->
  ObjectId_cast userId = Some t ->
  findById user__id t (users s) = Some usr ->
  let banned := snd (route (BanUser adminId true userId (Some true)) s) in
  fst (route (BanUser adminId true userId (Some true)) s) = Done 200
  /\ (forall u b r caller,
        recipientId b = Some r -> ObjectId_cast r = Some t ->
        offeredSkillId b <> None -> requestedSkillId b <> None ->
        r <> ObjectId_toString u ->
        findById user__id u (users banned) = Some caller -> is_banned caller = false ->
        route (CreateSwap u b) banned = (Fail RecipientBanned, banned)
        /\ checkNotBanned u (Server.create_swap u b) banned = (Fail RecipientBanned, banned))
  /\ (forall r, swap_caller r = Some t -> route r banned = (Fail BannedActor, banned))
  /\ snd (route (BanUser adminId true userId (Some true)) banned) = banned
  /\ (is_banned usr = false -> NoDup (map user__id (users s)) ->
      route (BanUser adminId true userId (Some false)) banned = (Done 200, s)).
Proof.
  intros Hne Hcast Hf. cbv zeta.
  assert (Hroute : forall v s0, route (BanUser adminId true userId v) s0
                                = Admin.ban_user adminId userId v s0) by reflexivity.
  rewrite !Hroute.
  destruct (findById_key _ _ _ _ Hf) as [Hk Hin].
  apply String.eqb_neq in Hne.
  assert (Hb : Admin.ban_user adminId userId (Some true) s
               = (Done 200,
                  set_users s (replace_by_id user__id (with_is_banned usr true) (users s)))).
  { rewrite ban_user_eq, Hne, Hcast, Hf. reflexivity. }
  rewrite Hb. cbn [fst snd].
  set (banned := set_users s (replace_by_id user__id (with_is_banned usr true) (users s))).
  assert (Hfb : findById user__id t (users banned) = Some (with_is_banned usr true)).
  { unfold banned. cbn [users set_users]. rewrite <- Hk.
    change (user__id usr) with (user__id (with_is_banned usr true)).
    apply findById_replace_same. cbn [user__id with_is_banned]. rewrite Hk, Hf. discriminate. }
  split; [reflexivity|]. split; [|split; [|split]].
  - intros u b r caller Hr Hrc Hoff Hreq Hself Hu Hub.
    cbn [route]. rewrite !checkNotBanned_eq, Hu, Hub.
    unfold Server.create_swap, Backend.create_swap.
    rewrite !create_swap_outcome by (cbn; auto). rewrite Hr, Hrc.
    destruct (offeredSkillId b) as [off|]; [|contradiction].
    destruct (requestedSkillId b) as [req|]; [|contradiction].
    unfold creation_checks. cbn [first_failure].
    replace (ObjectId_toString u =? r)%string with false
      by (symmetry; apply String.eqb_neq; congruence).
    rewrite Hfb. split; reflexivity.
  - intros r Hr.
    exact (swap_route_refuses_banned r t banned (with_is_banned usr true) Hr Hfb eq_refl).
  - rewrite ban_user_eq, Hne, Hcast, Hfb. cbn [snd].
    unfold banned, set_users. cbn [users skills offered wanted swaps ratings next_id].
    rewrite replace_by_id_twice by reflexivity. reflexivity.
  - intros Hnot Hnd. rewrite ban_user_eq, Hne, Hcast, Hfb.
    unfold banned, set_users. cbn [users skills offered wanted swaps ratings next_id].
    rewrite replace_by_id_twice by reflexivity.
    replace (with_is_banned (with_is_banned usr true) false) with usr
      by (destruct usr; cbn in *; subst; reflexivity).
    rewrite (replace_by_id_same user__id usr (users s) Hnd Hin).
    destruct s; reflexivity.
Qed.

Lemma ban_then_unban_witness :
  Sample.bob_id <> ObjectId_toString 9
  /\ ObjectId_cast Sample.bob_id = Some 2
  /\ findById user__id 2 (users Sample.db_pending) = Some Sample.bob
  /\ is_banned Sample.bob = false
  /\ NoDup (map user__id (users Sample.db_pending))
  /\ route (CreateSwap 3 (mkCreateBody (Some Sample.bob_id) (Some 10) (Some 11) None))
            (snd (route (BanUser 9 true Sample.bob_id (Some true)) Sample.db_pending))
     = (Fail RecipientBanned,
        snd (route (BanUser 9 true Sample.bob_id (Some true)) Sample.db_pending))
  /\ route (BanUser 9 true Sample.bob_id (Some false))
            (snd (route (BanUser 9 true Sample.bob_id (Some true)) Sample.db_pending))
     = (Done 200, Sample.db_pending).
Proof.
  assert (N : Sample.bob_id <> ObjectId_toString 9) by (vm_compute; discriminate).
  assert (D : NoDup (map user__id (users Sample.db_pending))).
  { cbn. repeat constructor; cbn; intuition discriminate. }
  assert (N3 : Sample.bob_id <> ObjectId_toString 3) by (vm_compute; discriminate).
  pose proof (ban_then_unban 9 Sample.bob_id 2 Sample.bob Sample.db_pending N eq_refl eq_refl)
    as H.
  cbv zeta in H. destruct H as [_ [Hc [_ [_ Hu]]]].
  split; [exact N|]. split; [reflexivity|]. split; [reflexivity|]. split; [reflexivity|].
  split; [exact D|]. split.
  - refine (proj1 (Hc 3 (mkCreateBody (Some Sample.bob_id) (Some 10) (Some 11) None)
                      Sample.bob_id Sample.carol eq_refl eq_refl _ _ N3 eq_refl eq_refl));
      discriminate.
  - exact (Hu eq_refl D).
Defined.

(** ** Offered associations *)

Lemma countDocuments_delete_first_le {D} (p q : D -> bool) l :
  countDocuments p (delete_first q l) <= countDocuments p l.
Proof.
  unfold countDocuments. induction l as [|x l IH]; cbn; [lia|].
  destruct (q x); cbn; destruct (p x); cbn; lia.
Qed.

Lemma length_delete_first {D} (q : D -> bool) l d :
  find q l = Some d -> S (List.length (delete_first q l)) = List.length l.
Proof.
  induction l as [|x l IH]; cbn; [discriminate|].
  destruct (q x); [reflexivity|]. intros H. cbn. rewrite (IH H). reflexivity.
Qed.

Lemma filter_delete_first {D} (p q : D -> bool) l :
  (forall x, q x = true -> p x = false) ->
  filter p (delete_first q l) = filter p l.
Proof.
  intros H. induction l as [|x l IH]; cbn; [reflexivity|].
  destruct (q x) eqn:E.
  - rewrite (H x E). reflexivity.
  - cbn. rewrite IH. reflexivity.
Qed.

Lemma by_user_skill_true u sk d :
  by_user_skill u sk d = true -> us_user_id d = u /\ us_skill_id d = sk.
Proof. unfold by_user_skill. rewrite andb_true_iff, !Nat.eqb_eq. tauto. Qed.

Lemma change_offered_unique s s' : change s s' -> offered_unique s -> offered_unique s'.
Proof.
  unfold offered_unique. intros Hc H u0 sk0.
  destruct Hc; subst s'; cbn [offered bump set_swaps set_ratings set_offered set_users]; auto.
  - rewrite countDocuments_app. unfold countDocuments at 2. cbn [filter].
    destruct (by_user_skill u0 sk0 (mkUserSkill (next_id s) u sk descr level)) eqn:E;
      cbn [List.length].
    + apply by_user_skill_true in E. cbn in E. destruct E as [<- <-].
      match goal with Hn : find _ _ = None |- _ =>
        rewrite (countDocuments_find_none _ _ Hn) end. lia.
    + specialize (H u0 sk0). lia.
  - etransitivity; [apply countDocuments_delete_first_le|apply H].
Qed.

(** X11.  A store with at most one offered association per user and skill
    keeps that property whatever is served.  Adding or removing an offered
    skill never touches the associations of other users; a removal that
    succeeds takes away exactly one association, one of the caller's; and a
    user who names an association that is not theirs is answered NotFound
    and nothing is removed. *)
Theorem offered_associations_kept (u a : oid) (b : offered_body) (s : db) :
  (offered_unique s -> forall rs, offered_unique (snd (serve rs s)))
  /\ others_offered u (snd (Users.add_offered u b s)) = others_offered u s
  /\ others_offered u (snd (Users.remove_offered u a s)) = others_offered u s
  /\ (fst (Users.remove_offered u a s) = Done 200 ->
      S (List.length (offered (snd (Users.remove_offered u a s)))) = List.length (offered s))
  /\ ((forall d, In d (offered s) -> us__id d = a -> us_user_id d <> u) ->
      Users.remove_offered u a s = (Fail NotFound, s)).
Proof.
  split; [intros H rs; apply serve_keeps; [exact change_offered_unique|exact H]|].
  unfold others_offered. rewrite add_offered_eq, remove_offered_eq.
  split; [|split; [|split]].
  - destruct (findById skill__id (skillId b) (skills s)); [|reflexivity].
    destruct (find (by_user_skill u (skillId b)) (offered s)); [reflexivity|].
    cbv zeta. destruct (validate_offered _); [|reflexivity].
    cbn [snd offered bump set_offered]. rewrite filter_app. cbn [filter us_user_id].
    rewrite Nat.eqb_refl. cbn [negb]. apply app_nil_r.
  - destruct (find (by_id_user a u) (offered s)); [|reflexivity].
    cbn [snd offered set_offered]. apply filter_delete_first.
    intros x Hx. unfold by_id_user in Hx. apply andb_true_iff in Hx.
    destruct Hx as [_ ->]. reflexivity.
  - destruct (find (by_id_user a u) (offered s)) eqn:Hf; [|discriminate].
    intros _. cbn [snd offered set_offered]. eapply length_delete_first. exact Hf.
  - intros Hnot. destruct (find (by_id_user a u) (offered s)) as [d|] eqn:Hf; [|reflexivity].
    apply find_some in Hf. destruct Hf as [Hin Hd].
    unfold by_id_user in Hd. apply andb_true_iff in Hd. destruct Hd as [Hi Hu].
    apply Nat.eqb_eq in Hi, Hu. exfalso. exact (Hnot d Hin Hi Hu).
Qed.

Lemma offered_associations_kept_witness :
  offered_unique Sample.db0
  /\ offered_unique (snd (serve [AddOffered 1 Sample.expert_cooking; RemoveOffered 1 20;
                                 AddOffered 1 Sample.expert_cooking] Sample.db0))
  /\ fst (Users.remove_offered 1 20 Sample.db0) = Done 200
  /\ S (List.length (offered (snd (Users.remove_offered 1 20 Sample.db0)))) = 3
  /\ Users.remove_offered 1 21 Sample.db0 = (Fail NotFound, Sample.db0).
Proof.
  assert (U : offered_unique Sample.db0).
  { intros u sk. unfold countDocuments. cbn [Sample.db0 offered filter].
    unfold by_user_skill. cbn [Sample.alice_python Sample.bob_guitar Sample.dave_python
                               us_user_id us_skill_id].
    destruct (1 =? u) eqn:E1, (2 =? u) eqn:E2, (4 =? u) eqn:E4;
      try (apply Nat.eqb_eq in E1; apply Nat.eqb_eq in E2; lia);
      try (apply Nat.eqb_eq in E1; apply Nat.eqb_eq in E4; lia);
      try (apply Nat.eqb_eq in E2; apply Nat.eqb_eq in E4; lia);
      cbn; repeat match goal with |- context [if ?c then _ else _] => destruct c end;
      cbn; lia. }
  pose proof (offered_associations_kept 1 20 Sample.expert_cooking Sample.db0)
    as [Hinv [_ [_ [Hlen _]]]].
  pose proof (offered_associations_kept 1 21 Sample.expert_cooking Sample.db0)
    as [_ [_ [_ [_ Hnf]]]].
  split; [exact U|]. split; [exact (Hinv U _)|]. split; [reflexivity|].
  split; [exact (Hlen eq_refl)|].
  apply Hnf. intros d [<-|[<-|[<-|[]]]]; cbn; intros; lia.
Defined.

(** ** Wanted skills, own skills and public profiles *)

Lemma project_skills_app ks a b :
  project_skills ks (a ++ b)
  = match project_skills ks a, project_skills ks b with
    | inr x, inr y => inr (x ++ y)%list
    | inl e, _ => inl e
    | _, inl e => inl e
    end.
Proof.
  induction a as [|i a IH]; cbn.
  - destruct (project_skills ks b); reflexivity.
  - destruct (findById skill__id (us_skill_id i) ks); [|reflexivity].
    rewrite IH. destruct (project_skills ks a); [reflexivity|].
    destruct (project_skills ks b); reflexivity.
Qed.

Lemma me_skills_eq u s :
  Profiles.me_skills u s
  = match project_skills (skills s) (filter (of_user u) (offered s)) with
    | inl _ => (SkillsFail ServerError, s)
    | inr os =>
        match project_skills (skills s) (filter (of_user u) (wanted s)) with
        | inl _ => (SkillsFail ServerError, s)
        | inr ws => (SkillsJson os ws, s)
        end
    end.
Proof.
  unfold Profiles.me_skills, try_catch_with, bind.
  rewrite on_bound by reflexivity. unfold UserSkillOffered_find.
  rewrite on_bound by reflexivity. unfold UserSkillWanted_find, populate_skills.
  destruct (project_skills (skills s) (filter (of_user u) (offered s))); [reflexivity|].
  destruct (project_skills (skills s) (filter (of_user u) (wanted s))); reflexivity.
Qed.

Lemma add_wanted_eq u b s :
  Profiles.add_wanted u b s
  = match findById skill__id (wb_skillId b) (skills s) with
    | None => (Fail SkillNotFound, s)
    | Some _ =>
        match find (by_user_skill u (wb_skillId b)) (wanted s) with
        | Some _ => (Fail DuplicateAssociation, s)
        | None =>
            let d := mkUserSkill (next_id s) u (wb_skillId b)
                       (or_default (wb_description b) "")
                       (or_default (priorityLevel b) "medium") in
            if validate_wanted d then (Done 201, bump (set_wanted s (wanted s ++ [d])))
            else (Fail ServerError, s)
        end
    end.
Proof.
  unfold Profiles.add_wanted, try_catch, try_catch_with, bind.
  rewrite on_bound by reflexivity. unfold Skill_findById.
  destruct (findById skill__id (wb_skillId b) (skills s)); [|reflexivity].
  rewrite on_bound by reflexivity. unfold UserSkillWanted_findOne.
  destruct (find (by_user_skill u (wb_skillId b)) (wanted s)); [reflexivity|].
  rewrite on_bound by reflexivity. unfold UserSkillWanted_save_new. cbv zeta.
  destruct (validate_wanted _); reflexivity.
Qed.

Lemma remove_wanted_eq u a s :
  Profiles.remove_wanted u a s
  = match find (by_id_user a u) (wanted s) with
    | None => (Fail NotFound, s)
    | Some _ => (Done 200, set_wanted s (delete_first (by_id_user a u) (wanted s)))
    end.
Proof.
  unfold Profiles.remove_wanted, try_catch, try_catch_with, bind.
  rewrite on_bound by reflexivity. unfold UserSkillWanted_findOneAndDelete.
  destruct (find (by_id_user a u) (wanted s)); reflexivity.
Qed.

Lemma delete_first_appended {D} (p : D -> bool) l d :
  find p l = None -> p d = true -> delete_first p (l ++ [d]) = l.
Proof.
  intros Hn Hd. induction l as [|x l IH]; cbn in *.
  - rewrite Hd. reflexivity.
  - destruct (p x); [discriminate|]. rewrite (IH Hn). reflexivity.
Qed.

Lemma find_none_all {D} (p : D -> bool) l :
  (forall x, In x l -> p x = false) -> find p l = None.
Proof.
  induction l as [|x l IH]; cbn; intros H; [reflexivity|].
  rewrite (H x (or_introl eq_refl)). apply IH. intros y Hy. apply H. right. exact Hy.
Qed.

(** X12.  For a skill of the catalogue that the caller does not want yet, and
    wanted associations whose identifiers were all handed out by the store:
    with a priority outside low, medium, high after the default ('medium'
    for an absent or empty one) the addition is answered 500 and stores
    nothing; otherwise it is answered 201, the caller's own listing gains
    exactly that skill at its end, with the skill's name and category, a
    second addition is a duplicate, and removing the new association is
    answered 200 and restores the store but for the identifier used up. *)
Theorem wanted_add_list_remove (u : oid) (b : wanted_body) (s : db) (k : Skill)
        (os ws : list skill_view) :
  findById skill__id (wb_skillId b) (skills s) = Some k ->
  find (by_user_skill u (wb_skillId b)) (wanted s) = None ->
  (forall d, In d (wanted s) -> us__id d < next_id s) ->
  fst (Profiles.me_skills u s) = SkillsJson os ws ->
  let level := or_default (priorityLevel b) "medium" in
  let s1 := snd (Profiles.add_wanted u b s) in
  if mem_string level priority_enum then
    fst (Profiles.add_wanted u b s) = Done 201
    /\ fst (Profiles.me_skills u s1)
       = SkillsJson os (ws ++ [mkSkillView (next_id s) (skill_name k) (skill_category k)
                                           (or_default (wb_description b) "") level])
    /\ fst (Profiles.add_wanted u b s1) = Fail DuplicateAssociation
    /\ Profiles.remove_wanted u (next_id s) s1 = (Done 200, bump s)
  else Profiles.add_wanted u b s = (Fail ServerError, s).
Proof.
  intros Hk Hnone Hfresh Hlist level s1. subst s1.
  rewrite !add_wanted_eq, Hk, Hnone. cbv zeta. unfold validate_wanted. cbn [us_level].
  fold level. destruct (mem_string level priority_enum) eqn:Hl; [|reflexivity].
  cbn [fst snd]. split; [reflexivity|].
  rewrite me_skills_eq in Hlist. rewrite me_skills_eq, remove_wanted_eq.
  cbn [skills offered wanted bump set_wanted next_id].
  destruct (project_skills (skills s) (filter (of_user u) (offered s))) as [e|os'];
    [discriminate|].
  destruct (project_skills (skills s) (filter (of_user u) (wanted s))) as [e|ws'] eqn:Hw;
    [discriminate|].
  cbn [fst] in Hlist. injection Hlist as -> ->.
  rewrite Hk. split; [|split].
  - rewrite filter_app. cbn [filter].
    replace (of_user u _) with true by (unfold of_user; cbn; symmetry; apply Nat.eqb_refl).
    rewrite project_skills_app, Hw. cbn [project_skills us_skill_id]. rewrite Hk.
    reflexivity.
  - rewrite find_append, Hnone. cbn [find].
    replace (by_user_skill u _ _) with true
      by (unfold by_user_skill; cbn; rewrite !Nat.eqb_refl; reflexivity).
    reflexivity.
  - assert (Hn : find (by_id_user (next_id s) u) (wanted s) = None).
    { apply find_none_all. intros x Hx. unfold by_id_user.
      apply Hfresh in Hx. destruct (Nat.eqb_spec (us__id x) (next_id s)); [lia|reflexivity]. }
    rewrite find_append, Hn. cbn [find].
    assert (Hd : forall d0 l0, by_id_user (next_id s) u (mkUserSkill (next_id s) u d0 l0 level)
                               = true).
    { intros. unfold by_id_user. cbn. rewrite !Nat.eqb_refl. reflexivity. }
    rewrite Hd. rewrite delete_first_appended; [reflexivity|exact Hn|apply Hd].
Qed.

Lemma wanted_add_list_remove_witness :
  (fst (Profiles.add_wanted 3 Cases.wants_guitar Sample.db0) = Done 201
   /\ fst (Profiles.me_skills 3 (snd (Profiles.add_wanted 3 Cases.wants_guitar Sample.db0)))
      = SkillsJson [] [mkSkillView 100 "Guitar" (Some "Music") "" "high"]
   /\ fst (Profiles.add_wanted 3 Cases.wants_guitar
             (snd (Profiles.add_wanted 3 Cases.wants_guitar Sample.db0)))
      = Fail DuplicateAssociation
   /\ Profiles.remove_wanted 3 100 (snd (Profiles.add_wanted 3 Cases.wants_guitar Sample.db0))
      = (Done 200, bump Sample.db0))
  /\ Profiles.add_wanted 3 Cases.wants_guitar_advanced Sample.db0
     = (Fail ServerError, Sample.db0).
Proof.
  split.
  - exact (wanted_add_list_remove 3 Cases.wants_guitar Sample.db0 Sample.guitar [] []
             eq_refl eq_refl (fun d (H : In d []) => match H with end) eq_refl).
  - exact (wanted_add_list_remove 3 Cases.wants_guitar_advanced Sample.db0 Sample.guitar [] []
             eq_refl eq_refl (fun d (H : In d []) => match H with end) eq_refl).
Defined.

Lemma get_user_eq i s :
  Profiles.get_user i s
  = match findById user__id i (users s) with
    | None => (ProfileFail NotFound, s)
    | Some u =>
        if is_public u then
          match with_skills s u with
          | inl _ => (ProfileFail ServerError, s)
          | inr e => (ProfileJson e, s)
          end
        else (ProfileFail NotFound, s)
    end.
Proof.
  unfold Profiles.get_user, try_catch_with, bind.
  rewrite on_bound by reflexivity. unfold User_findById.
  destruct (findById user__id i (users s)) as [u|]; [|reflexivity].
  destruct (is_public u); [|reflexivity]. cbn [negb].
  rewrite on_bound by reflexivity. unfold UserSkillOffered_find.
  rewrite on_bound by reflexivity. unfold UserSkillWanted_find, populate_skills, with_skills.
  change (fun d : UserSkill => us_user_id d =? user__id u) with (of_user (user__id u)).
  destruct (project_skills (skills s) (filter (of_user (user__id u)) (offered s)));
    [reflexivity|].
  destruct (project_skills (skills s) (filter (of_user (user__id u)) (wanted s)));
    reflexivity.
Qed.

Lemma project_skills_ids ks items vs :
  project_skills ks items = inr vs ->
  map sv_id vs = map us__id items /\ map sv_level vs = map us_level items
  /\ Forall (fun v => exists k, In k ks /\ sv_name v = skill_name k) vs.
Proof.
  revert vs. induction items as [|i items IH]; cbn; intros vs H.
  - injection H as <-. repeat split; constructor.
  - destruct (findById skill__id (us_skill_id i) ks) as [k|] eqn:Hk; [|discriminate].
    destruct (project_skills ks items) as [|vs']; [discriminate|].
    injection H as <-. destruct (IH vs' eq_refl) as [H1 [H2 H3]].
    cbn. rewrite H1, H2. repeat split. constructor; [|exact H3].
    exists k. apply findById_key in Hk. split; [apply Hk|reflexivity].
Qed.

(** X13.  [GET /users/:userId] reads only.  It answers 404 for an identifier
    that is not stored and for a user whose profile is private, so that its
    reply never tells the two apart; and what it does show is a stored public
    user with that identifier, together with exactly that user's offered and
    wanted associations, in the order of the store, each under the name of a
    skill of the catalogue. *)
Theorem profile_only_public (i : oid) (s : db) :
  snd (Profiles.get_user i s) = s
  /\ (findById user__id i (users s) = None ->
      fst (Profiles.get_user i s) = ProfileFail NotFound)
  /\ (forall u, findById user__id i (users s) = Some u -> is_public u = false ->
      fst (Profiles.get_user i s) = ProfileFail NotFound)
  /\ (forall e, fst (Profiles.get_user i s) = ProfileJson e ->
      In (be_user e) (users s) /\ user__id (be_user e) = i /\ is_public (be_user e) = true
      /\ map sv_id (offeredSkills e) = map us__id (filter (of_user i) (offered s))
      /\ map sv_id (wantedSkills e) = map us__id (filter (of_user i) (wanted s))
      /\ Forall (fun v => exists k, In k (skills s) /\ sv_name v = skill_name k)
                (offeredSkills e ++ wantedSkills e)).
Proof.
  rewrite get_user_eq.
  destruct (findById user__id i (users s)) as [u|] eqn:Hu.
  - destruct (is_public u) eqn:Hp.
    + destruct (with_skills s u) as [x|e] eqn:He; cbn [fst snd].
      * repeat split; try discriminate. intros u' H; injection H as <-; congruence.
      * split; [reflexivity|]. split; [discriminate|].
        split; [intros u' H; injection H as <-; congruence|].
        intros e' H. injection H as <-.
        pose proof (with_skills_user _ _ _ He) as Hbe.
        apply findById_key in Hu. destruct Hu as [Hi Hin].
        rewrite Hbe. split; [exact Hin|]. split; [exact Hi|]. split; [exact Hp|].
        unfold with_skills in He.
        change (fun d : UserSkill => us_user_id d =? user__id u)
          with (of_user (user__id u)) in He. rewrite Hi in He.
        destruct (project_skills (skills s) (filter (of_user i) (offered s))) as [|o] eqn:Ho;
          [discriminate|].
        destruct (project_skills (skills s) (filter (of_user i) (wanted s))) as [|w] eqn:Hw;
          [discriminate|].
        injection He as <-. cbn [offeredSkills wantedSkills].
        apply project_skills_ids in Ho, Hw.
        split; [apply Ho|]. split; [apply Hw|].
        apply Forall_app. split; [apply Ho|apply Hw].
    + cbn [fst snd]. repeat split; try discriminate; auto.
  - cbn [fst snd]. repeat split; try discriminate; auto.
Qed.

Lemma all_with_skills_each s us es e :
  all_with_skills s us = inr es -> In e es -> exists u, In u us /\ with_skills s u = inr e.
Proof.
  revert es. induction us as [|u us IH]; intros es; cbn.
  - intros H. injection H as <-. intros [].
  - destruct (with_skills s u) as [x|e0] eqn:He; [destruct (all_with_skills s us); discriminate|].
    destruct (all_with_skills s us) as [x|es']; [discriminate|].
    intros H. injection H as <-. intros [<-|Hin].
    + exists u. auto.
    + destruct (IH es' eq_refl Hin) as [u' [Hu' Hw]]. exists u'. auto.
Qed.

Lemma findById_unique {D} (key : D -> oid) (l : list D) x :
  NoDup (map key l) -> In x l -> findById key (key x) l = Some x.
Proof.
  intros Hnd Hin. destruct (findById key (key x) l) as [y|] eqn:Hf.
  - apply findById_key in Hf. destruct Hf as [Hk Hy].
    rewrite (unique_key_same key l y x Hnd Hy Hin Hk). reflexivity.
  - exfalso. unfold findById in Hf. eapply find_none in Hf; [|exact Hin].
    cbv beta in Hf. rewrite Nat.eqb_refl in Hf. discriminate.
Qed.

Lemma browse_entries regex_valid regex_test q s us pg s' e :
  browse regex_valid regex_test q s = (BrowseJson us pg, s') ->
  In e us ->
  s' = s /\ with_skills s (be_user e) = inr e
  /\ In (be_user e) (filter (browse_match regex_test q) (users s)).
Proof.
  intros H Hin.
  pose proof (browse_selected _ _ _ _ _ _ _ H) as Hsel.
  assert (Hu : In (be_user e) (filter (browse_match regex_test q) (users s))).
  { apply Hsel. apply in_map. exact Hin. }
  revert H. unfold browse, try_catch_with, bind, User_find_paged, User_countDocuments.
  destruct (patterns_valid regex_valid q); [|discriminate].
  destruct (paged _ _ _) as [x|found]; [discriminate|].
  assert (Hgen : forall filtered es, all_with_skills s filtered = inr es -> In e es ->
                                     with_skills s (be_user e) = inr e).
  { intros filtered es Ha He. destruct (all_with_skills_each _ _ _ _ Ha He) as [u [_ Hw]].
    rewrite (with_skills_user _ _ _ Hw). exact Hw. }
  destruct (truthy (skill q)).
  - destruct (regex_valid (skill q)); [|discriminate].
    destruct (all_with_skills s _) as [x|es] eqn:Ha; [discriminate|].
    intros H. injection H as <- _ <-. split; [reflexivity|]. split; [|exact Hu].
    eapply Hgen; eauto.
  - unfold ret. destruct (all_with_skills s found) as [x|es] eqn:Ha; [discriminate|].
    intros H. injection H as <- _ <-. split; [reflexivity|]. split; [|exact Hu].
    eapply Hgen; eauto.
Qed.

(** X14.  Browsing reads only, and it agrees with the profile route: when
    users have distinct identifiers, every user that [GET /users/browse]
    returns, whatever the query and the regular-expression engine, is served
    by [GET /users/:userId] as well, as the same user and with the same two
    lists of skills. *)
Theorem browsed_users_have_profiles
        (regex_valid : string -> bool) (regex_test : string -> string -> bool)
        (q : browse_query) (s s' : db) (us : list browse_entry) (pg : pagination) :
  NoDup (map user__id (users s)) ->
  browse regex_valid regex_test q s = (BrowseJson us pg, s') ->
  s' = s
  /\ forall e, In e us -> Profiles.get_user (user__id (be_user e)) s = (ProfileJson e, s).
Proof.
  intros Hnd H. split.
  - destruct us as [|e us].
    + revert H. unfold browse, try_catch_with, bind, User_find_paged, User_countDocuments.
      destruct (patterns_valid regex_valid q); [|discriminate].
      destruct (paged _ _ _) as [x|found]; [discriminate|].
      destruct (truthy (skill q)).
      * destruct (regex_valid (skill q)); [|discriminate].
        destruct (all_with_skills s _); [discriminate|]. intros E. injection E as _ _ <-.
        reflexivity.
      * unfold ret. destruct (all_with_skills s found); [discriminate|].
        intros E. injection E as _ _ <-. reflexivity.
    + apply (browse_entries _ _ _ _ _ _ _ e H). left. reflexivity.
  - intros e He. destruct (browse_entries _ _ _ _ _ _ _ e H He) as [_ [Hw Hin]].
    apply filter_In in Hin. destruct Hin as [Hin Hm].
    apply browse_match_public in Hm.
    rewrite get_user_eq, (findById_unique user__id _ _ Hnd Hin), Hm, Hw. reflexivity.
Qed.

Lemma browsed_users_have_profiles_witness :
  Profiles.get_user 1 Sample.db0
  = (ProfileJson (mkBrowseEntry Sample.alice
        [mkSkillView 20 "Python" (Some "Programming") "" "intermediate"] []), Sample.db0).
Proof.
  assert (Hnd : NoDup (map user__id (users Sample.db0))).
  { cbn. repeat constructor; cbn; intuition discriminate. }
  assert (H : browse Sample.regex_valid Sample.regex_test Sample.paris_python Sample.db0
              = (BrowseJson [mkBrowseEntry Sample.alice
                   [mkSkillView 20 "Python" (Some "Programming") "" "intermediate"] []]
                   (mkPagination 1 (Some 1%Z) 1), Sample.db0)) by (vm_compute; reflexivity).
  exact (proj2 (browsed_users_have_profiles _ _ _ _ _ _ _ Hnd H) _ (or_introl eq_refl)).
Defined.

(** ** Listings of swap requests *)

Lemma checkNotBanned_as_eq {R} (deny : failure -> R) u next s :
  checkNotBanned_as deny u next s
  = match findById user__id u (users s) with
    | None => (deny NotFound, s)
    | Some usr => if is_banned usr then (deny BannedActor, s) else next s
    end.
Proof.
  unfold checkNotBanned_as. rewrite on_bound by reflexivity. unfold User_findById.
  destruct (findById user__id u (users s)); reflexivity.
Qed.

Lemma populate_request_some s d :
  request_resolves s d -> exists v, populate_request s d = inr v.
Proof.
  unfold request_resolves, populate_request. intros [H1 [H2 [H3 H4]]].
  destruct (findById user__id (requester_id d) (users s)); [|congruence].
  destruct (findById user__id (recipient_id d) (users s)); [|congruence].
  destruct (findById skill__id (offered_skill_id d) (skills s)); [|congruence].
  destruct (findById skill__id (requested_skill_id d) (skills s)); [|congruence].
  eexists. reflexivity.
Qed.

Lemma populate_request_inr s d v :
  populate_request s d = inr v ->
  exists rq rc off req,
    findById user__id (requester_id d) (users s) = Some rq
    /\ findById user__id (recipient_id d) (users s) = Some rc
    /\ findById skill__id (offered_skill_id d) (skills s) = Some off
    /\ findById skill__id (requested_skill_id d) (skills s) = Some req
    /\ v = mkRequestView (swap__id d) (status d) (message d)
                         (requester_id d) (recipient_id d)
                         (user_name rq) (user_name rc) (skill_name off) (skill_name req).
Proof.
  unfold populate_request.
  destruct (findById user__id (requester_id d) (users s)) as [rq|] eqn:H1; [|discriminate].
  destruct (findById user__id (recipient_id d) (users s)) as [rc|] eqn:H2; [|discriminate].
  destruct (findById skill__id (offered_skill_id d) (skills s)) as [off|]; [|discriminate].
  destruct (findById skill__id (requested_skill_id d) (skills s)) as [req|]; [|discriminate].
  intros H. injection H as <-. exists rq, rc, off, req.
  apply findById_key in H1, H2. destruct H1 as [-> _], H2 as [-> _].
  repeat split; reflexivity.
Qed.

Lemma populate_request_resolves s d v :
  populate_request s d = inr v -> request_resolves s d.
Proof.
  intros H. destruct (populate_request_inr _ _ _ H) as [rq [rc [off [req [H1 [H2 [H3 [H4 _]]]]]]]].
  unfold request_resolves. rewrite H1, H2, H3, H4. repeat split; discriminate.
Qed.

Lemma transformedRequests_inr s l vs :
  transformedRequests s l = inr vs -> Forall2 (fun d v => populate_request s d = inr v) l vs.
Proof.
  revert vs. induction l as [|d l IH]; cbn; intros vs H.
  - injection H as <-. constructor.
  - destruct (populate_request s d) as [|v] eqn:Hv;
      [destruct (transformedRequests s l); discriminate|].
    destruct (transformedRequests s l) as [|vs']; [discriminate|].
    injection H as <-. constructor; [exact Hv|apply IH; reflexivity].
Qed.

Lemma transformedRequests_some s l :
  Forall (request_resolves s) l -> exists vs, transformedRequests s l = inr vs.
Proof.
  induction 1 as [|d l Hd _ [vs IH]]; cbn.
  - eexists; reflexivity.
  - destruct (populate_request_some _ _ Hd) as [v ->]. rewrite IH. eexists; reflexivity.
Qed.

Lemma my_requests_eq sc u q s :
  mem_string "SwapRequest" sc = true ->
  Listing.my_requests sc u q s
  = match transformedRequests s (rev (filter (my_requests_query u q) (swaps s))) with
    | inl _ => (RequestsFail ServerError, s)
    | inr vs => (RequestsJson vs None, s)
    end.
Proof.
  intros Hsc. unfold Listing.my_requests, try_catch_with, bind.
  rewrite on_bound by exact Hsc. unfold SwapRequest_find, transform, sort_created_desc.
  destruct (transformedRequests s _); reflexivity.
Qed.

Lemma my_requests_query_party u q d :
  my_requests_query u q d = true ->
  (requester_id d = u \/ recipient_id d = u)
  /\ (rq_type q = Some "sent" -> requester_id d = u)
  /\ (rq_type q = Some "received" -> recipient_id d = u)
  /\ (forall st, rq_status q = Some st -> st <> "" -> status d = st).
Proof.
  unfold my_requests_query, status_filter. cbv zeta. rewrite andb_true_iff.
  intros [Ht Hs]. split; [|split; [|split]].
  - destruct (_ =? "sent")%string; [left; apply Nat.eqb_eq; exact Ht|].
    destruct (_ =? "received")%string; [right; apply Nat.eqb_eq; exact Ht|].
    apply orb_true_iff in Ht. rewrite !Nat.eqb_eq in Ht. exact Ht.
  - intros E. rewrite E in Ht. apply Nat.eqb_eq. exact Ht.
  - intros E. rewrite E in Ht. apply Nat.eqb_eq. exact Ht.
  - intros st E Hne. rewrite E in Hs. unfold truthy in Hs.
    destruct (st =? "")%string eqn:E0; [apply String.eqb_eq in E0; congruence|].
    cbn in Hs. apply String.eqb_eq. exact Hs.
Qed.

Lemma Forall2_map_eq {A B C} (R : A -> B -> Prop) (f : B -> C) (g : A -> C) l vs :
  Forall2 R l vs -> (forall d v, R d v -> f v = g d) -> map f vs = map g l.
Proof.
  intros H Hfg. induction H as [|d v l vs Hr _ IH]; cbn; [reflexivity|].
  rewrite (Hfg d v Hr), IH. reflexivity.
Qed.

Lemma Forall2_Forall_r {A B} (R : A -> B -> Prop) (P : B -> Prop) l vs :
  Forall2 R l vs -> (forall d v, In d l -> R d v -> P v) -> Forall P vs.
Proof.
  intros H Hp. induction H as [|d v l vs Hr _ IH]; constructor.
  - apply (Hp d v); [left; reflexivity|exact Hr].
  - apply IH. intros d' v' Hin. apply Hp. right. exact Hin.
Qed.

Lemma Forall2_Forall_l {A B} (R : A -> B -> Prop) (P : A -> Prop) l vs :
  Forall2 R l vs -> (forall d v, R d v -> P d) -> Forall P l.
Proof.
  intros H Hp. induction H as [|d v l vs Hr _ IH]; constructor; eauto.
Qed.

(** What the listed entries say, read off the requests they come from. *)
Lemma listed_views u q s l vs :
  incl l (filter (my_requests_query u q) (swaps s)) ->
  transformedRequests s l = inr vs ->
  map rv_id vs = map swap__id l /\ map rv_status vs = map status l
  /\ Forall (fun v => rv_requester_id v = u \/ rv_recipient_id v = u) vs
  /\ (rq_type q = Some "sent" -> Forall (fun v => rv_requester_id v = u) vs)
  /\ (rq_type q = Some "received" -> Forall (fun v => rv_recipient_id v = u) vs)
  /\ (forall st, rq_status q = Some st -> st <> "" -> Forall (fun v => rv_status v = st) vs).
Proof.
  intros Hincl Ht. apply transformedRequests_inr in Ht.
  assert (Hv : forall d v, In d l -> populate_request s d = inr v ->
               my_requests_query u q d = true
               /\ rv_id v = swap__id d /\ rv_status v = status d
               /\ rv_requester_id v = requester_id d /\ rv_recipient_id v = recipient_id d).
  { intros d v Hin Hp. apply Hincl, filter_In in Hin. destruct Hin as [_ Hm].
    destruct (populate_request_inr _ _ _ Hp) as [rq [rc [off [req [_ [_ [_ [_ ->]]]]]]]].
    cbn. auto. }
  split; [|split; [|split; [|split; [|split]]]].
  - clear Hv. eapply Forall2_map_eq; [exact Ht|]. intros d v Hp.
    destruct (populate_request_inr _ _ _ Hp) as [rq [rc [off [req [_ [_ [_ [_ ->]]]]]]]].
    reflexivity.
  - clear Hv. eapply Forall2_map_eq; [exact Ht|]. intros d v Hp.
    destruct (populate_request_inr _ _ _ Hp) as [rq [rc [off [req [_ [_ [_ [_ ->]]]]]]]].
    reflexivity.
  - eapply Forall2_Forall_r; [exact Ht|]. intros d v Hin Hp.
    destruct (Hv d v Hin Hp) as [Hm [_ [_ [-> ->]]]].
    apply (my_requests_query_party _ _ _ Hm).
  - intros Ety. eapply Forall2_Forall_r; [exact Ht|]. intros d v Hin Hp.
    destruct (Hv d v Hin Hp) as [Hm [_ [_ [-> _]]]].
    apply (my_requests_query_party _ _ _ Hm). exact Ety.
  - intros Ety. eapply Forall2_Forall_r; [exact Ht|]. intros d v Hin Hp.
    destruct (Hv d v Hin Hp) as [Hm [_ [_ [_ ->]]]].
    apply (my_requests_query_party _ _ _ Hm). exact Ety.
  - intros st Est Hne. eapply Forall2_Forall_r; [exact Ht|]. intros d v Hin Hp.
    destruct (Hv d v Hin Hp) as [Hm [_ [-> _]]].
    apply (my_requests_query_party _ _ _ Hm); assumption.
Qed.

(** X15.  [GET /swaps/my-requests] of the first generation, for a caller in
    good standing: it reads only; it answers with the caller's requests, the
    most recent first, exactly when every reference of each of them
    resolves, and with 500 otherwise; and every entry it shows is a request
    that the caller sent or received, sent when [type] is 'sent', received
    when it is 'received', and of the status asked for when one is given. *)
Theorem own_requests_listing (u : oid) (usr : User) (q : requests_query) (s : db) :
  findById user__id u (users s) = Some usr -> is_banned usr = false ->
  let listed := rev (filter (my_requests_query u q) (swaps s)) in
  snd (get_my_requests u q s) = s
  /\ (Forall (request_resolves s) listed ->
      exists vs, fst (get_my_requests u q s) = RequestsJson vs None)
  /\ (~ Forall (request_resolves s) listed ->
      fst (get_my_requests u q s) = RequestsFail ServerError)
  /\ (forall vs pg, fst (get_my_requests u q s) = RequestsJson vs pg ->
      map rv_id vs = map swap__id listed /\ map rv_status vs = map status listed
      /\ Forall (fun v => rv_requester_id v = u \/ rv_recipient_id v = u) vs
      /\ (rq_type q = Some "sent" -> Forall (fun v => rv_requester_id v = u) vs)
      /\ (rq_type q = Some "received" -> Forall (fun v => rv_recipient_id v = u) vs)
      /\ (forall st, rq_status q = Some st -> st <> "" ->
          Forall (fun v => rv_status v = st) vs)).
Proof.
  intros Hu Hb listed. unfold get_my_requests.
  rewrite checkNotBanned_as_eq, Hu, Hb, my_requests_eq by reflexivity. fold listed.
  destruct (transformedRequests s listed) as [e|vs] eqn:Ht; cbn [fst snd].
  - split; [reflexivity|]. split; [|split; [reflexivity|discriminate]].
    intros Hall. destruct (transformedRequests_some _ _ Hall) as [vs Hvs]. congruence.
  - split; [reflexivity|]. split; [eexists; reflexivity|]. split.
    + intros Hn. exfalso. apply Hn.
      eapply Forall2_Forall_l; [apply transformedRequests_inr; exact Ht|].
      intros d v. apply populate_request_resolves.
    + intros vs' pg E. injection E as <- _.
      apply (listed_views u q s listed vs); [|exact Ht].
      intros d Hd. apply in_rev. exact Hd.
Qed.

Lemma own_requests_listing_witness :
  fst (get_my_requests 1 Cases.sent Sample.db_pending)
  = RequestsJson [mkRequestView 100 "pending" None 1 2 "Alice" "Bob" "Python" "Guitar"] None
  /\ Forall (fun v => rv_requester_id v = 1)
            [mkRequestView 100 "pending" None 1 2 "Alice" "Bob" "Python" "Guitar"].
Proof.
  pose proof (own_requests_listing 1 Sample.alice Cases.sent Sample.db_pending
                eq_refl eq_refl) as [_ [_ [_ H]]].
  split; [reflexivity|].
  exact (proj1 (proj2 (proj2 (proj2 (H _ None eq_refl)))) eq_refl).
Defined.

(** ** References keep resolving *)

Lemma findById_in_keys {D} (key : D -> oid) i (l : list D) :
  findById key i l <> None <-> In i (map key l).
Proof.
  unfold findById. induction l as [|x l IH]; cbn; [tauto|].
  destruct (Nat.eqb_spec (key x) i) as [E|E].
  - split; [auto|discriminate].
  - rewrite IH. tauto.
Qed.

Lemma request_resolves_keys s s' d :
  map user__id (users s') = map user__id (users s) -> skills s' = skills s ->
  request_resolves s d -> request_resolves s' d.
Proof.
  unfold request_resolves. intros Hu Hk. rewrite !findById_in_keys, Hu, Hk. tauto.
Qed.

Lemma change_keeps_keys s s' :
  change s s' -> map user__id (users s') = map user__id (users s) /\ skills s' = skills s.
Proof.
  intros Hc. destruct Hc; subst s';
    cbn [users skills bump set_swaps set_ratings set_offered set_users]; auto.
  split; [apply map_key_replace_by_id|reflexivity].
Qed.

Lemma existsb_offered_skill s u sk :
  Forall (fun a => findById skill__id (us_skill_id a) (skills s) <> None) (offered s) ->
  existsb (by_user_skill u sk) (offered s) = true ->
  findById skill__id sk (skills s) <> None.
Proof.
  intros Hall He. apply existsb_exists in He. destruct He as [a [Hin Ha]].
  apply by_user_skill_true in Ha. destruct Ha as [_ <-].
  rewrite Forall_forall in Hall. apply Hall. exact Hin.
Qed.

Lemma in_delete_first {D} (p : D -> bool) l x : In x (delete_first p l) -> In x l.
Proof.
  induction l as [|y l IH]; cbn; [tauto|].
  destruct (p y); cbn; [auto|]. intros [H|H]; auto.
Qed.

Lemma change_references_resolve s s' :
  change s s' -> references_resolve s -> references_resolve s'.
Proof.
  intros Hc [Hs Ho]. pose proof (change_keeps_keys _ _ Hc) as [Hu Hk].
  assert (Hold : forall d, request_resolves s d -> request_resolves s' d)
    by (intros d; apply request_resolves_keys; assumption).
  assert (Hs' : Forall (request_resolves s') (swaps s))
    by (eapply Forall_impl; [exact Hold|exact Hs]).
  unfold references_resolve. rewrite Hk. clear Hu.
  destruct Hc; subst s';
    cbn [swaps offered skills users bump set_swaps set_ratings set_offered set_users] in *;
    try (split; assumption).
  - split; [|exact Ho]. apply Forall_app. split; [exact Hs'|].
    constructor; [|constructor]. apply Hold. unfold request_resolves.
    cbn [requester_id recipient_id offered_skill_id requested_skill_id].
    repeat split; try congruence; eapply existsb_offered_skill; eauto.
  - split; [|exact Ho]. rewrite Forall_forall in *. intros x Hx.
    apply in_replace_by_id in Hx. destruct Hx as [->|[Hx _]]; [|auto].
    match goal with H : findById swap__id _ _ = Some sw |- _ =>
      apply findById_key in H; destruct H as [_ Hin] end.
    apply Hs' in Hin. exact Hin.
  - split; [|exact Ho]. rewrite Forall_forall in *. intros x Hx.
    apply in_delete_by_id in Hx. apply Hs'. apply Hx.
  - split; [exact Hs'|]. apply Forall_app. split; [exact Ho|].
    constructor; [|constructor]. assumption.
  - split; [exact Hs'|]. rewrite Forall_forall in *. intros x Hx.
    apply Ho. eapply in_delete_first. exact Hx.
Qed.

Lemma transformedSwaps_eq s l :
  transformedSwaps s l
  = match transformedRequests s l with
    | inl e => inl e
    | inr vs => inr (map names_only vs)
    end.
Proof.
  induction l as [|d l IH]; cbn; [reflexivity|]. rewrite IH.
  unfold populate_swap, populate_request.
  destruct (findById user__id (requester_id d) (users s)); [|reflexivity].
  destruct (findById user__id (recipient_id d) (users s)); [|reflexivity].
  destruct (findById skill__id (offered_skill_id d) (skills s)); [|reflexivity].
  destruct (findById skill__id (requested_skill_id d) (skills s)); [|reflexivity].
  destruct (transformedRequests s l); reflexivity.
Qed.

Lemma my_requests_paged_eq sc u q s :
  mem_string "SwapRequest" sc = true ->
  Listing.my_requests_paged sc u q s
  = match skip_limit ((rq_page q - 1) * rq_limit q) (rq_limit q)
            (rev (filter (my_requests_query u q) (swaps s))) with
    | inl _ => (RequestsFail ServerError, s)
    | inr l =>
        match transformedRequests s l with
        | inl _ => (RequestsFail ServerError, s)
        | inr vs =>
            (RequestsJson vs
               (Some (pagination_of q (countDocuments (my_requests_query u q) (swaps s)))), s)
        end
    end.
Proof.
  intros Hsc. unfold Listing.my_requests_paged, try_catch_with, bind. cbv zeta.
  rewrite on_bound by exact Hsc. unfold SwapRequest_find_paged, sort_created_desc.
  destruct (skip_limit _ _ _) as [e|l]; [reflexivity|].
  rewrite on_bound by exact Hsc. unfold SwapRequest_countDocuments, transform.
  destruct (transformedRequests s l); reflexivity.
Qed.

Lemma admin_swaps_eq q s :
  Listing.admin_swaps q s
  = match skip_limit ((rq_page q - 1) * rq_limit q) (rq_limit q)
            (rev (filter (status_filter q) (swaps s))) with
    | inl _ => (SwapsFail ServerError, s)
    | inr l =>
        match transformedRequests s l with
        | inl _ => (SwapsFail ServerError, s)
        | inr vs =>
            (SwapsJson (map names_only vs)
               (pagination_of q (countDocuments (status_filter q) (swaps s))), s)
        end
    end.
Proof.
  unfold Listing.admin_swaps, try_catch_with, bind. cbv zeta.
  rewrite on_bound by reflexivity. unfold SwapRequest_find_paged, sort_created_desc.
  destruct (skip_limit _ _ _) as [e|l]; [reflexivity|].
  rewrite on_bound by reflexivity. unfold SwapRequest_countDocuments.
  rewrite transformedSwaps_eq. destruct (transformedRequests s l); reflexivity.
Qed.

Lemma skip_limit_incl {D} skip lim (l l' : list D) :
  skip_limit skip lim l = inr l' -> incl l' l.
Proof.
  unfold skip_limit. destruct (skip <? 0)%Z; [discriminate|].
  intros H. injection H as <-. intros x Hx.
  destruct (lim =? 0)%Z.
  - eapply in_skipn. exact Hx.
  - eapply in_skipn. eapply in_firstn. exact Hx.
Qed.

Lemma skip_limit_some {D} skip lim (l : list D) :
  (0 <= skip)%Z -> exists l', skip_limit skip lim l = inr l'.
Proof.
  intros H. unfold skip_limit. destruct (Z.ltb_spec skip 0); [lia|]. eexists. reflexivity.
Qed.

Lemma resolve_listed s p l :
  references_resolve s -> incl l (rev (filter p (swaps s))) -> Forall (request_resolves s) l.
Proof.
  intros [Hs _] Hi. rewrite Forall_forall in *. intros d Hd.
  apply Hi, in_rev, filter_In in Hd. apply Hs, Hd.
Qed.

(** X16.  From a store in which the references of every request and of every
    offered association resolve, whatever requests are served, they still
    do; so no listing of requests is ever answered 500 for a dangling
    reference: the caller's own, in both generations, and the admin's all
    succeed, the paged ones whenever the offset [(page - 1) * limit] is not
    negative. *)
Theorem listings_survive_service (rs : list request) (s0 : db) (q : requests_query) :
  references_resolve s0 ->
  let s := snd (serve rs s0) in
  references_resolve s
  /\ (forall u usr, findById user__id u (users s) = Some usr -> is_banned usr = false ->
      exists vs, get_my_requests u q s = (RequestsJson vs None, s))
  /\ ((0 <= (rq_page q - 1) * rq_limit q)%Z ->
      (forall u usr, findById user__id u (users s) = Some usr -> is_banned usr = false ->
       exists vs, get_my_requests_paged u q s
                  = (RequestsJson vs
                       (Some (pagination_of q
                                (countDocuments (my_requests_query u q) (swaps s)))), s))
      /\ exists vs, get_admin_swaps true q s
                    = (SwapsJson vs
                         (pagination_of q (countDocuments (status_filter q) (swaps s))), s)).
Proof.
  intros H0 s.
  assert (Hs : references_resolve s)
    by (apply serve_keeps; [exact change_references_resolve|exact H0]).
  split; [exact Hs|]. split; [|intros Hskip; split].
  - intros u usr Hu Hb. unfold get_my_requests.
    rewrite checkNotBanned_as_eq, Hu, Hb, my_requests_eq by reflexivity.
    destruct (transformedRequests_some s (rev (filter (my_requests_query u q) (swaps s))))
      as [vs ->]; [|eexists; reflexivity].
    eapply resolve_listed; [exact Hs|apply incl_refl].
  - intros u usr Hu Hb. unfold get_my_requests_paged.
    rewrite checkNotBanned_as_eq, Hu, Hb, my_requests_paged_eq by reflexivity.
    destruct (skip_limit_some _ (rq_limit q)
                (rev (filter (my_requests_query u q) (swaps s))) Hskip) as [l Hl].
    rewrite Hl. apply skip_limit_incl in Hl.
    destruct (transformedRequests_some s l) as [vs ->]; [|eexists; reflexivity].
    eapply resolve_listed; [exact Hs|exact Hl].
  - unfold get_admin_swaps, requireAdmin_as. cbn [negb]. rewrite admin_swaps_eq.
    destruct (skip_limit_some _ (rq_limit q)
                (rev (filter (status_filter q) (swaps s))) Hskip) as [l Hl].
    rewrite Hl. apply skip_limit_incl in Hl.
    destruct (transformedRequests_some s l) as [vs ->]; [|eexists; reflexivity].
    eapply resolve_listed; [exact Hs|exact Hl].
Qed.

Lemma listings_survive_service_witness :
  references_resolve Sample.db_pending
  /\ exists vs, get_my_requests 2 Cases.sent (snd (serve Sample.busy_day Sample.db_pending))
                = (RequestsJson vs None, snd (serve Sample.busy_day Sample.db_pending)).
Proof.
  assert (H0 : references_resolve Sample.db_pending).
  { split; repeat constructor; cbn; discriminate. }
  split; [exact H0|].
  exact (proj1 (proj2 (listings_survive_service Sample.busy_day Sample.db_pending
                         Cases.sent H0)) 2 Sample.bob eq_refl eq_refl).
Defined.

(** ** Pages *)

Lemma ceil_div_spec a b :
  (0 <= a)%Z -> (0 < b)%Z ->
  (0 <= ceil_div a b /\ a <= b * ceil_div a b /\ b * (ceil_div a b - 1) < a)%Z.
Proof.
  intros Ha Hb. unfold ceil_div.
  pose proof (Z.div_mod (- a) b ltac:(lia)) as Hdm.
  pose proof (Z.mod_pos_bound (- a) b Hb) as Hr.
  assert (H1 : (a <= b * - (- a / b))%Z) by lia.
  assert (H2 : (b * (- (- a / b) - 1) < a)%Z) by lia.
  split; [nia|]. split; assumption.
Qed.

Lemma transformedRequests_length s l vs :
  transformedRequests s l = inr vs -> List.length vs = List.length l.
Proof.
  intros H. apply transformedRequests_inr in H.
  induction H; cbn; congruence.
Qed.

(** X17.  [GET /admin/swaps] on a store whose references resolve, for a page
    and a limit that are at least 1: the reply carries the total of the
    requests that pass the status filter and the least number of pages of
    [limit] entries that holds them all; the page shown is the window of the
    filtered requests, most recent first, that starts after the
    [(page - 1) * limit] entries of the pages before it and is at most
    [limit] long; and it is empty exactly when the page asked for lies
    beyond the last one. *)
Theorem admin_swaps_pages (q : requests_query) (s : db) :
  references_resolve s -> (1 <= rq_page q)%Z -> (1 <= rq_limit q)%Z ->
  let all := rev (filter (status_filter q) (swaps s)) in
  let L := Z.to_nat (rq_limit q) in
  let P := Z.to_nat (rq_page q) in
  exists vs pages,
    get_admin_swaps true q s
    = (SwapsJson vs (mkPageInfo (rq_page q) (rq_limit q) (List.length all)
                                (Some (Z.of_nat pages))), s)
    /\ map sw_id vs = firstn L (skipn ((P - 1) * L) (map swap__id all))
    /\ List.length vs <= L
    /\ List.length all <= pages * L
    /\ (forall n, List.length all <= n * L -> pages <= n)
    /\ (vs = [] <-> pages < P).
Proof.
  intros Hs Hp Hl all L P.
  unfold get_admin_swaps, requireAdmin_as. cbn [negb]. rewrite admin_swaps_eq.
  fold all. unfold skip_limit.
  destruct (Z.ltb_spec ((rq_page q - 1) * rq_limit q) 0) as [Hneg|_]; [nia|].
  destruct (Z.eqb_spec (rq_limit q) 0) as [E|_]; [lia|].
  replace (Z.to_nat (Z.abs (rq_limit q))) with L by (unfold L; f_equal; lia).
  replace (Z.to_nat ((rq_page q - 1) * rq_limit q)) with ((P - 1) * L)
    by (unfold P, L; nia).
  set (l := firstn L (skipn ((P - 1) * L) all)).
  destruct (transformedRequests_some s l) as [vs Hvs].
  { eapply resolve_listed; [exact Hs|]. intros x Hx. unfold l in Hx.
    eapply in_skipn, in_firstn, Hx. }
  rewrite Hvs.
  assert (Htotal : countDocuments (status_filter q) (swaps s) = List.length all).
  { unfold countDocuments, all. rewrite length_rev. reflexivity. }
  pose proof (ceil_div_spec (Z.of_nat (List.length all)) (rq_limit q) ltac:(lia) ltac:(lia))
    as [Hc0 [Hc1 Hc2]].
  set (c := ceil_div (Z.of_nat (List.length all)) (rq_limit q)) in *.
  exists (map names_only vs), (Z.to_nat c).
  assert (Hlen : List.length vs = Nat.min L (List.length all - (P - 1) * L)).
  { rewrite (transformedRequests_length _ _ _ Hvs). unfold l.
    rewrite length_firstn, length_skipn. reflexivity. }
  split; [|split; [|split; [|split; [|split]]]].
  - unfold pagination_of. rewrite Htotal.
    destruct (Z.eqb_spec (rq_limit q) 0) as [E|_]; [lia|].
    fold c. rewrite Z2Nat.id by exact Hc0. reflexivity.
  - rewrite map_map. cbn [names_only sw_id].
    assert (Hid : map (fun v => rv_id v) vs = map swap__id l).
    { eapply Forall2_map_eq; [apply transformedRequests_inr; exact Hvs|].
      intros d v Hv.
      destruct (populate_request_inr _ _ _ Hv) as [rq [rc [off [req [_ [_ [_ [_ ->]]]]]]]].
      reflexivity. }
    rewrite Hid. unfold l. rewrite skipn_map, firstn_map. reflexivity.
  - rewrite length_map, Hlen. lia.
  - unfold L. nia.
  - intros n Hn. unfold L in Hn. nia.
  - assert (L >= 1) by (unfold L; lia).
    assert (P >= 1) by (unfold P; lia).
    assert (Hiff : List.length vs = 0 <-> Z.to_nat c < P).
    { rewrite Hlen. unfold L, P in *. split; intros Hx.
      - assert (List.length all <= (Z.to_nat (rq_page q) - 1) * Z.to_nat (rq_limit q)) by lia.
        nia.
      - assert (List.length all <= (Z.to_nat (rq_page q) - 1) * Z.to_nat (rq_limit q)) by nia.
        lia. }
    rewrite <- Hiff. destruct vs; cbn; split; intros; try reflexivity; try discriminate.
Qed.

Lemma admin_swaps_pages_witness :
  references_resolve Sample.db_pending
  /\ exists vs pages,
       get_admin_swaps true Cases.sent Sample.db_pending
       = (SwapsJson vs (mkPageInfo 1 10 1 (Some (Z.of_nat pages))), Sample.db_pending)
       /\ (vs = [] <-> pages < 1).
Proof.
  assert (H0 : references_resolve Sample.db_pending).
  { split; repeat constructor; cbn; discriminate. }
  split; [exact H0|].
  destruct (admin_swaps_pages Cases.sent Sample.db_pending H0 ltac:(cbn; lia) ltac:(cbn; lia))
    as [vs [pages [H1 [_ [_ [_ [_ H2]]]]]]].
  exists vs, pages. split; [exact H1|exact H2].
Defined.

(** X18.  The paged listings at the edges, for a caller in good standing: a
    page below 1 with a limit of at least 1 makes a negative offset, which
    the database refuses, so that the caller's listing and the admin's are
    both answered 500; and with a limit of 0 there is no window at all: the
    second generation then lists whatever the first generation lists, the
    whole of it, and reports no number of pages. *)
Theorem listing_page_edges (u : oid) (usr : User) (q : requests_query) (s : db) :
  findById user__id u (users s) = Some usr -> is_banned usr = false ->
  ((rq_page q <= 0)%Z -> (1 <= rq_limit q)%Z ->
   get_my_requests_paged u q s = (RequestsFail ServerError, s)
   /\ get_admin_swaps true q s = (SwapsFail ServerError, s))
  /\ (rq_limit q = 0%Z ->
      forall vs, get_my_requests u q s = (RequestsJson vs None, s) ->
      get_my_requests_paged u q s
      = (RequestsJson vs
           (Some (mkPageInfo (rq_page q) 0
                    (List.length (filter (my_requests_query u q) (swaps s))) None)), s)).
Proof.
  intros Hu Hb. unfold get_my_requests_paged, get_my_requests, get_admin_swaps, requireAdmin_as.
  cbn [negb].
  rewrite !checkNotBanned_as_eq, Hu, Hb, my_requests_paged_eq, my_requests_eq, admin_swaps_eq
    by reflexivity.
  unfold skip_limit, pagination_of, countDocuments. split.
  - intros Hp Hl.
    destruct (Z.ltb_spec ((rq_page q - 1) * rq_limit q) 0) as [_|Hge]; [|nia].
    split; reflexivity.
  - intros ->. rewrite Z.mul_0_r. cbn [Z.ltb Z.compare Z.eqb Z.to_nat skipn].
    intros vs. destruct (transformedRequests s _); [discriminate|].
    intros E. injection E as ->. reflexivity.
Qed.

Lemma listing_page_edges_witness :
  get_my_requests_paged 1 (mkRequestsQuery None None 0 10) Sample.db_pending
  = (RequestsFail ServerError, Sample.db_pending)
  /\ get_my_requests_paged 1 (mkRequestsQuery None None 7 0) Sample.db_pending
     = (RequestsJson [mkRequestView 100 "pending" None 1 2 "Alice" "Bob" "Python" "Guitar"]
          (Some (mkPageInfo 7 0 1 None)), Sample.db_pending).
Proof.
  split.
  - exact (proj1 (proj1 (listing_page_edges 1 Sample.alice (mkRequestsQuery None None 0 10)
                           Sample.db_pending eq_refl eq_refl)
                        ltac:(cbn; lia) ltac:(cbn; lia))).
  - exact (proj2 (listing_page_edges 1 Sample.alice (mkRequestsQuery None None 7 0)
                    Sample.db_pending eq_refl eq_refl) eq_refl _ eq_refl).
Defined.

(** ** Accounts *)

Lemma truthy_true x : truthy x = true <-> x <> "".
Proof.
  unfold truthy. destruct (String.eqb_spec x ""); cbn; split; congruence.
Qed.

Lemma present_true v : present v = true <-> exists p, v = Some p /\ p <> "".
Proof.
  destruct v as [p|]; cbn.
  - rewrite truthy_true. split; [intros H; exists p; auto|intros [q [E H]]; congruence].
  - split; [discriminate|intros [q [E _]]; discriminate].
Qed.

Lemma or_default_present v dflt p : v = Some p -> p <> "" -> or_default v dflt = p.
Proof.
  intros -> H. cbn. destruct (String.eqb_spec p ""); congruence.
Qed.

(** What a registration that succeeded has done. *)
Lemma register_inv hash trim canon b d t d' :
  register hash trim canon b d = (Registered t, d') ->
  exists p,
    rb_password b = Some p /\ p <> ""
    /\ User_findOne_email canon (rb_email b) d = None
    /\ let a := mkAccount (mkUser (next_oid d) (trim (or_default (rb_name b) ""))
                                  (Some (trim (or_default (rb_location b) ""))) true false false)
                          (canon (or_default (rb_email b) "")) (hash (next_salt d) p)
                          (Some (or_default (rb_availability b) "")) None in
       acc_email a <> "" /\ acc_password a <> "" /\ user_name (acc_user a) <> ""
       /\ t = mkToken (next_oid d) (rb_email b) (rb_name b) false
       /\ d' = mkDirectory (accounts d ++ [a]) (S (next_oid d)) (S (next_salt d)).
Proof.
  unfold register. destruct (User_findOne_email canon (rb_email b) d); [discriminate|].
  destruct (present (rb_password b)) eqn:Hp.
  - apply present_true in Hp. destruct Hp as [p [Ep Hne]]. rewrite Ep.
    cbn [bcrypt_hash]. unfold User_create. cbv zeta.
    cbn [acc_email acc_password acc_user user_name accounts next_oid next_salt].
    destruct (canon (or_default (rb_email b) "") =? "")%string eqn:E1; [discriminate|].
    destruct (hash (next_salt d) p =? "")%string eqn:E2; [discriminate|].
    destruct (trim (or_default (rb_name b) "") =? "")%string eqn:E3; [discriminate|].
    cbn [orb]. destruct (existsb _ (accounts d)); [discriminate|].
    intros H. injection H as <- <-. exists p.
    apply String.eqb_neq in E1, E2, E3. cbn. repeat split; auto.
  - unfold User_create. cbv zeta. cbn [acc_email acc_password acc_user user_name].
    rewrite orb_true_r. cbn [orb]. discriminate.
Qed.

(** X19.  Registration and login of the generation without validation.  A
    registration that is answered 201 has stored one more account, public,
    neither admin nor banned, under the email in canonical form, and handed
    a token for it that does not claim admin rights.  From then on a second
    registration with that email is refused as existing; a login with that
    email and the password succeeds; and so does a login with that email and
    no password at all, or an empty one. *)
Theorem register_then_login
        (hash : nat -> string -> string) (compare : string -> string -> bool)
        (trim canon : string -> string)
        (b : register_body) (d d' : directory) (t : token) :
  canon "" = "" ->
  (forall n p, compare p (hash n p) = true) ->
  register hash trim canon b d = (Registered t, d') ->
  exists e p a,
    rb_email b = Some e /\ rb_password b = Some p
    /\ accounts d' = (accounts d ++ [a])%list
    /\ acc_id a = tk_id t /\ tk_is_admin t = false
    /\ acc_email a = canon e
    /\ is_public (acc_user a) = true /\ is_admin (acc_user a) = false
    /\ is_banned (acc_user a) = false
    /\ register hash trim canon b d' = (Refused UserExists, d')
    /\ login compare canon (mkLoginBody (Some e) (Some p)) d' = (LoggedIn (claims_of a), d')
    /\ login compare canon (mkLoginBody (Some e) None) d' = (LoggedIn (claims_of a), d')
    /\ login compare canon (mkLoginBody (Some e) (Some "")) d' = (LoggedIn (claims_of a), d').
Proof.
  intros Hcanon Hbcrypt H.
  destruct (register_inv _ _ _ _ _ _ _ H) as [p [Ep [Hp [Hnone Ha]]]].
  cbv zeta in Ha. destruct Ha as [He [Hh [Hn [-> ->]]]].
  cbn [acc_email acc_password] in He, Hh.
  destruct (rb_email b) as [e|] eqn:Ee; [|cbn in He; congruence].
  assert (Hee : e <> "") by (intros ->; cbn in He; congruence).
  assert (Hor : or_default (Some e) "" = e) by (apply or_default_present; auto).
  rewrite Hor in *.
  set (a := mkAccount _ (canon e) _ _ _).
  assert (Hfind : User_findOne_email canon (Some e)
                    (mkDirectory (accounts d ++ [a]) (S (next_oid d)) (S (next_salt d)))
                  = Some a).
  { unfold User_findOne_email in *. cbn [accounts]. rewrite find_append, Hnone.
    cbn [find]. subst a. cbn [acc_email]. rewrite String.eqb_refl. reflexivity. }
  exists e, p, a. split; [reflexivity|]. split; [exact Ep|].
  repeat (split; [reflexivity|]).
  split; [|split; [|split]].
  - unfold register. rewrite Ee, Hfind. reflexivity.
  - unfold login. cbn [lb_email lb_password]. rewrite Hfind.
    subst a. cbn [acc_user is_banned acc_password].
    replace (truthy (hash (next_salt d) p)) with true by (symmetry; apply truthy_true; exact Hh).
    replace (truthy p) with true by (symmetry; apply truthy_true; exact Hp).
    cbn [andb]. rewrite Hbcrypt. reflexivity.
  - unfold login. cbn [lb_email lb_password]. rewrite Hfind. reflexivity.
  - unfold login. cbn [lb_email lb_password]. rewrite Hfind.
    subst a. cbn [acc_user is_banned acc_password truthy].
    replace (truthy "") with false by reflexivity. rewrite andb_false_r. reflexivity.
Qed.

Lemma bcrypt_stand_in n p : Cases.compare p (Cases.hash n p) = true.
Proof.
  unfold Cases.compare, Cases.hash. destruct (Nat.even n).
  - rewrite String.eqb_refl. reflexivity.
  - rewrite String.eqb_refl. apply orb_true_r.
Qed.

Lemma register_then_login_witness :
  exists a,
    accounts (snd (register Cases.hash Cases.trim Cases.canon Cases.eve Cases.registry))
    = [Cases.alice_account; Cases.bob_account; a]
    /\ acc_email a = "eve@example.com"
    /\ login Cases.compare Cases.canon (mkLoginBody (Some " Eve@Example.com") None)
             (snd (register Cases.hash Cases.trim Cases.canon Cases.eve Cases.registry))
       = (LoggedIn (claims_of a),
          snd (register Cases.hash Cases.trim Cases.canon Cases.eve Cases.registry)).
Proof.
  destruct (register_then_login Cases.hash Cases.compare Cases.trim Cases.canon
              Cases.eve Cases.registry
              (snd (register Cases.hash Cases.trim Cases.canon Cases.eve Cases.registry))
              (mkToken 100 (Some " Eve@Example.com") (Some "Eve ") false)
              eq_refl bcrypt_stand_in eq_refl)
    as [e [p [a [He [_ [Ha [_ [_ [Hem [_ [_ [_ [_ [_ [Hl _]]]]]]]]]]]]]]].
  injection He as <-. exists a. split; [exact Ha|]. split; [exact Hem|exact Hl].
Defined.

Lemma findOne_email_in canon email d a :
  User_findOne_email canon email d = Some a -> In a (accounts d).
Proof.
  unfold User_findOne_email. destruct email; [|discriminate].
  intros H. apply find_some in H. apply H.
Qed.

(** X20.  Login in the two generations.  Neither writes.  Whoever is logged
    in is a stored account that is not banned, and the token carries that
    account's identifier, email, name and admin flag.  In the validated
    generation that takes a password that is not empty and that bcrypt
    accepts for the stored hash.  In the generation without validation the
    password is optional: for an account that is not banned, a login that
    sends none, or an empty one, is answered with the token. *)
Theorem login_password_checks
        (compare : string -> string -> bool) (trim lowercase canon : string -> string)
        (b : login_body) (d : directory) :
  snd (login compare canon b d) = d
  /\ snd (login_validated compare trim lowercase canon b d) = d
  /\ (forall t, fst (login compare canon b d) = LoggedIn t ->
      exists a, In a (accounts d) /\ is_banned (acc_user a) = false /\ t = claims_of a)
  /\ (forall t, fst (login_validated compare trim lowercase canon b d) = LoggedIn t ->
      exists a p, In a (accounts d) /\ is_banned (acc_user a) = false /\ t = claims_of a
                  /\ lb_password b = Some p /\ p <> ""
                  /\ compare p (acc_password a) = true)
  /\ (forall a, User_findOne_email canon (lb_email b) d = Some a ->
      is_banned (acc_user a) = false -> present (lb_password b) = false ->
      login compare canon b d = (LoggedIn (claims_of a), d)).
Proof.
  split; [|split; [|split; [|split]]].
  - unfold login. destruct (User_findOne_email canon (lb_email b) d) as [a|]; [|reflexivity].
    destruct (is_banned (acc_user a)); [reflexivity|].
    cbv zeta. destruct (negb _); reflexivity.
  - unfold login_validated. destruct (lb_email b) as [e|]; [|reflexivity].
    destruct (negb (truthy e) || negb (truthy (trim e))); [reflexivity|].
    destruct (lb_password b) as [p|]; [|reflexivity].
    destruct (negb (truthy p)); [reflexivity|].
    destruct (User_findOne_email canon (Some (lowercase e)) d) as [a|]; [|reflexivity].
    destruct (is_banned (acc_user a)); [reflexivity|].
    destruct (negb _); reflexivity.
  - intros t. unfold login.
    destruct (User_findOne_email canon (lb_email b) d) as [a|] eqn:Hf; [|discriminate].
    destruct (is_banned (acc_user a)) eqn:Hb; [discriminate|].
    cbv zeta. destruct (negb _); [discriminate|]. cbn [fst]. intros E. injection E as <-.
    exists a. split; [eapply findOne_email_in; exact Hf|]. auto.
  - intros t. unfold login_validated. destruct (lb_email b) as [e|]; [|discriminate].
    destruct (negb (truthy e) || negb (truthy (trim e))); [discriminate|].
    destruct (lb_password b) as [p|]; [|discriminate].
    destruct (truthy p) eqn:Hp; [|discriminate]. cbn [negb].
    destruct (User_findOne_email canon (Some (lowercase e)) d) as [a|] eqn:Hf; [|discriminate].
    destruct (is_banned (acc_user a)) eqn:Hb; [discriminate|].
    destruct (compare p (acc_password a)) eqn:Hc; [|discriminate].
    cbn [negb fst]. intros E. injection E as <-.
    exists a, p. split; [eapply findOne_email_in; exact Hf|].
    apply truthy_true in Hp. auto 8.
  - intros a Hf Hb Hp. unfold login. rewrite Hf, Hb. cbv zeta.
    destruct (lb_password b) as [p|]; [|reflexivity].
    cbn [present] in Hp. rewrite Hp, andb_false_r. reflexivity.
Qed.

Lemma existsb_find_none {D} (p : D -> bool) l : find p l = None -> existsb p l = false.
Proof. intros H. rewrite existsb_find, H. reflexivity. Qed.

(** X21.  What a registration of the generation without validation needs,
    its comments notwithstanding.  An email that an account already has, in
    canonical form, is refused as existing before anything else is looked
    at.  Otherwise the registration is answered 201 exactly when the
    password is present and not empty, its hash is not empty, and the email
    in canonical form and the trimmed name are not empty; in every other
    case the [required] validators of the schema reject the document, the
    answer is 500, and no account is stored. *)
Theorem registration_requirements
        (hash : nat -> string -> string) (trim canon : string -> string)
        (b : register_body) (d : directory) :
  canon "" = "" ->
  (forall a, User_findOne_email canon (rb_email b) d = Some a ->
   register hash trim canon b d = (Refused UserExists, d))
  /\ (User_findOne_email canon (rb_email b) d = None ->
      ((exists t, fst (register hash trim canon b d) = Registered t)
       <-> (exists p, rb_password b = Some p /\ p <> "" /\ hash (next_salt d) p <> "")
           /\ canon (or_default (rb_email b) "") <> ""
           /\ trim (or_default (rb_name b) "") <> "")
      /\ ((forall t, fst (register hash trim canon b d) <> Registered t) ->
          fst (register hash trim canon b d) = Refused AuthServerError
          /\ accounts (snd (register hash trim canon b d)) = accounts d)).
Proof.
  intros Hcanon. split.
  - intros a Ha. unfold register. rewrite Ha. reflexivity.
  - intros Hnone.
    assert (Hdup : existsb (fun x => (acc_email x =? canon (or_default (rb_email b) ""))%string)
                           (accounts d) = false
                   \/ canon (or_default (rb_email b) "") = "").
    { destruct (rb_email b) as [e|]; [|right; exact Hcanon].
      destruct (String.eqb_spec e "") as [->|Hne]; [right; exact Hcanon|].
      left. rewrite (or_default_present (Some e) "" e eq_refl Hne).
      apply existsb_find_none. exact Hnone. }
    unfold register. rewrite Hnone.
    destruct (present (rb_password b)) eqn:Hp.
    + apply present_true in Hp. destruct Hp as [p [Ep Hne]]. rewrite Ep.
      cbn [bcrypt_hash]. unfold User_create. cbv zeta.
      cbn [acc_email acc_password acc_user user_name accounts next_oid next_salt].
      destruct (String.eqb_spec (canon (or_default (rb_email b) "")) "") as [E1|E1].
      { cbn [orb fst snd accounts]. split; [|auto].
        split; [intros [t Ht]; discriminate|intros [_ [H _]]; congruence]. }
      destruct (String.eqb_spec (hash (next_salt d) p) "") as [E2|E2].
      { cbn [orb fst snd accounts]. split; [|auto].
        split; [intros [t Ht]; discriminate|].
        intros [[q [Eq [_ Hq]]] _]. congruence. }
      destruct (String.eqb_spec (trim (or_default (rb_name b) "")) "") as [E3|E3].
      { cbn [orb fst snd accounts]. split; [|auto].
        split; [intros [t Ht]; discriminate|intros [_ [_ H]]; congruence]. }
      cbn [orb]. destruct Hdup as [Hdup|Hdup]; [|congruence]. rewrite Hdup.
      cbn [fst snd]. split.
      * split; [|intros _; eexists; reflexivity].
        intros _. split; [exists p; auto|auto].
      * intros Hno. exfalso. eapply Hno. reflexivity.
    + unfold User_create. cbv zeta. cbn [acc_email acc_password acc_user user_name].
      rewrite orb_true_r. cbn [orb fst snd]. split; [|auto].
      split; [intros [t Ht]; discriminate|].
      intros [[p [Ep [Hne _]]] _]. rewrite Ep in Hp. cbn in Hp.
      apply truthy_true in Hne. congruence.
Qed.

Lemma registration_requirements_witness :
  register Cases.hash Cases.trim Cases.canon
           (mkRegisterBody (Some "ALICE@example.com ") None None None None) Cases.registry
  = (Refused UserExists, Cases.registry)
  /\ fst (register Cases.hash Cases.trim Cases.canon
                   (mkRegisterBody (Some "eve@example.com") None (Some "Eve") None None)
                   Cases.registry)
     = Refused AuthServerError.
Proof.
  split.
  - exact (proj1 (registration_requirements Cases.hash Cases.trim Cases.canon
                    (mkRegisterBody (Some "ALICE@example.com ") None None None None)
                    Cases.registry eq_refl) Cases.alice_account eq_refl).
  - refine (proj1 (proj2 (proj2 (registration_requirements Cases.hash Cases.trim Cases.canon
                    (mkRegisterBody (Some "eve@example.com") None (Some "Eve") None None)
                    Cases.registry eq_refl) eq_refl) _)).
    intros t. cbv. discriminate.
Defined.

(** ** What the authentication routes keep *)

Lemma findById_update_change userId u rv trim d r d' :
  User_findByIdAndUpdate trim userId u rv d = inr (r, d') -> auth_change d d'.
Proof.
  unfold User_findByIdAndUpdate. destruct (rv && _); [discriminate|].
  destruct (findById acc_id userId (accounts d)) as [a|] eqn:Hf.
  - intros H. injection H as _ <-. destruct (findById_key _ _ _ _ Hf) as [Hid _].
    apply (ac_update _ _ a (apply_update trim u a)); cbn [accounts next_oid]; auto.
    rewrite Hid. exact Hf.
  - intros H. injection H as _ <-. apply ac_none; reflexivity.
Qed.

Lemma auth_route_change hash compare trim lowercase canon r d :
  auth_change d (snd (auth_route hash compare trim lowercase canon r d)).
Proof.
  destruct r as [b|b|b|t|t b|t b|t b]; cbn [auth_route].
  - unfold register. destruct (User_findOne_email canon (rb_email b) d);
      [apply ac_none; reflexivity|].
    assert (Hgen : forall h d1, accounts d1 = accounts d -> next_oid d1 = next_oid d ->
              auth_change d
                (snd match User_create trim canon (or_default (rb_email b) "") h
                             (or_default (rb_name b) "") (or_default (rb_location b) "")
                             (or_default (rb_availability b) "") d1 with
                     | inl _ => (Refused AuthServerError, d1)
                     | inr (user, d2) =>
                         (Registered (mkToken (acc_id user) (rb_email b) (rb_name b) false), d2)
                     end)).
    { intros h d1 Ha Hn. unfold User_create. cbv zeta.
      destruct (_ || _ || _)%bool; [apply ac_none; assumption|].
      destruct (existsb _ (accounts d1)) eqn:He; [apply ac_none; assumption|].
      cbn [snd]. eapply ac_register; cbn [accounts next_oid]; [rewrite Ha; reflexivity|congruence| |].
      - unfold flags, acc_id. cbn. rewrite Hn. reflexivity.
      - rewrite <- Ha. intros Hin. apply in_map_iff in Hin. destruct Hin as [x [Hx Hin]].
        assert (existsb (fun x0 => (acc_email x0 =? canon (or_default (rb_email b) ""))%string)
                        (accounts d1) = true); [|cbn in He; congruence].
        apply existsb_exists. exists x. split; [exact Hin|].
        apply String.eqb_eq. exact Hx. }
    destruct (present (rb_password b)).
    + destruct (rb_password b) as [p|]; cbn [bcrypt_hash];
        [apply Hgen; reflexivity|apply ac_none; reflexivity].
    + apply Hgen; reflexivity.
  - unfold login. destruct (User_findOne_email canon (lb_email b) d) as [a|];
      [|apply ac_none; reflexivity].
    destruct (is_banned (acc_user a)); [apply ac_none; reflexivity|].
    cbv zeta. destruct (negb _); apply ac_none; reflexivity.
  - unfold login_validated. destruct (lb_email b) as [e|]; [|apply ac_none; reflexivity].
    destruct (negb (truthy e) || negb (truthy (trim e))); [apply ac_none; reflexivity|].
    destruct (lb_password b) as [p|]; [|apply ac_none; reflexivity].
    destruct (negb (truthy p)); [apply ac_none; reflexivity|].
    destruct (User_findOne_email canon (Some (lowercase e)) d) as [a|];
      [|apply ac_none; reflexivity].
    destruct (is_banned (acc_user a)); [apply ac_none; reflexivity|].
    destruct (negb _); apply ac_none; reflexivity.
  - unfold get_profile. destruct (findById acc_id (tk_id t) (accounts d));
      apply ac_none; reflexivity.
  - unfold update_profile.
    assert (Hgen : auth_change d
              (snd match (match pb_is_public b with
                          | None => inr None
                          | Some v => match castBoolean v with
                                      | inl e => inl e
                                      | inr p => inr (Some p)
                                      end
                          end) with
                   | inl _ => (Refused AuthServerError, d)
                   | inr is_public =>
                       match User_findByIdAndUpdate trim (tk_id t)
                               (mkUpdateData (pb_name b) (pb_location b) (pb_availability b)
                                             is_public (uploaded (pb_file b))) false d with
                       | inl _ => (Refused AuthServerError, d)
                       | inr (None, d1) => (Refused UserNotFound, d1)
                       | inr (Some user, d1) => (ProfileUpdated (without_password user), d1)
                       end
                   end)).
    { destruct (match pb_is_public b with None => _ | Some _ => _ end) as [e|p];
        [apply ac_none; reflexivity|].
      destruct (User_findByIdAndUpdate _ _ _ _ _) as [e|[[u|] d1]] eqn:Hu;
        [apply ac_none; reflexivity| |];
        cbn [snd]; eapply findById_update_change; exact Hu. }
    destruct (pb_name b), (pb_location b), (pb_availability b), (pb_is_public b), (pb_file b);
      try exact Hgen. apply ac_none; reflexivity.
  - unfold update_profile_validated.
    destruct (match pb_name b with Some _ => _ | None => _ end);
      [apply ac_none; reflexivity|].
    cbv zeta. destruct (no_keys _); [apply ac_none; reflexivity|].
    destruct (User_findByIdAndUpdate _ _ _ _ _) as [e|[[u|] d1]] eqn:Hu;
      [apply ac_none; reflexivity| |];
      cbn [snd]; eapply findById_update_change; exact Hu.
  - unfold change_password.
    destruct (findById acc_id (tk_id t) (accounts d)) as [a|] eqn:Hf;
      [|apply ac_none; reflexivity].
    destruct (currentPassword b) as [c|]; [|apply ac_none; reflexivity].
    destruct (negb _); [apply ac_none; reflexivity|].
    destruct (newPassword b) as [n|]; cbn [bcrypt_hash]; [|apply ac_none; reflexivity].
    destruct (negb (validate_user _)); [apply ac_none; reflexivity|].
    cbn [snd accounts next_oid]. destruct (findById_key _ _ _ _ Hf) as [Hid _].
    apply (ac_update _ _ a (with_password a (hash (next_salt d) n)));
      cbn [accounts next_oid]; auto. rewrite Hid. exact Hf.
Qed.

Lemma auth_serve_cons hash compare trim lowercase canon r rs d :
  snd (auth_serve hash compare trim lowercase canon (r :: rs) d)
  = snd (auth_serve hash compare trim lowercase canon rs
           (snd (auth_route hash compare trim lowercase canon r d))).
Proof.
  cbn [auth_serve]. destruct (auth_route _ _ _ _ _ r d) as [a d1]. cbn [snd].
  destruct (auth_serve _ _ _ _ _ rs d1). reflexivity.
Qed.

Lemma map_replace_same {D A} (key : D -> oid) (f : D -> A) (l : list D) a a' :
  NoDup (map key l) -> findById key (key a) l = Some a -> key a' = key a -> f a' = f a ->
  map f (replace_by_id key a' l) = map f l.
Proof.
  intros Hnd Hf Hk Hfa. apply findById_key in Hf. destruct Hf as [_ Hin].
  unfold replace_by_id. rewrite map_map. apply map_ext_in. intros x Hx.
  destruct (Nat.eqb_spec (key x) (key a')) as [E|E]; [|reflexivity].
  rewrite Hfa. f_equal. symmetry. apply (unique_key_same key l x a Hnd Hx Hin). congruence.
Qed.

Lemma auth_change_ok d d' : auth_change d d' -> directory_ok d -> directory_ok d'.
Proof.
  unfold directory_ok. intros Hc [Hid [Hem Hfr]].
  destruct Hc as [Ha Hn|a Ha Hn Hfl Hnew|a a' Hf Ha Hn Hfl Hemail]; rewrite Ha, Hn.
  - auto.
  - injection Hfl as Hi _ _. rewrite !map_app. cbn [map]. split; [|split].
    + apply NoDup_app; [exact Hid|repeat constructor; intros []|].
      intros x Hx [Hx'|[]]. rewrite Forall_forall in Hfr.
      apply in_map_iff in Hx. destruct Hx as [y [<- Hy]]. apply Hfr in Hy.
      unfold acc_id in *. lia.
    + apply NoDup_app; [exact Hem|repeat constructor; intros []|].
      intros x Hx [Hx'|[]]. subst x. contradiction.
    + apply Forall_app. split.
      * eapply Forall_impl; [|exact Hfr]. cbv beta. intros; lia.
      * constructor; [|constructor]. unfold acc_id in *. lia.
  - assert (Hk : acc_id a' = acc_id a) by (injection Hfl; auto).
    rewrite (map_replace_same acc_id acc_id _ a a' Hid Hf Hk Hk).
    rewrite (map_replace_same acc_id acc_email _ a a' Hid Hf Hk Hemail).
    split; [exact Hid|]. split; [exact Hem|].
    rewrite Forall_forall in *. intros x Hx. apply in_replace_by_id in Hx.
    destruct Hx as [->|[Hx _]]; [|auto]. rewrite Hk.
    apply Hfr. apply findById_key in Hf. apply Hf.
Qed.

(** X22.  From a directory with unique identifiers and emails, whatever the
    authentication routes of either generation are asked, in any order: the
    identifiers and the emails stay unique; no account is deleted; no
    account's email, admin flag or ban flag changes; and every account added
    is neither admin nor banned.  No registration, login, profile update or
    password change makes an admin or lifts a ban. *)
Theorem auth_routes_keep_flags
        (hash : nat -> string -> string) (compare : string -> string -> bool)
        (trim lowercase canon : string -> string)
        (rs : list auth_request) (d : directory) :
  directory_ok d ->
  let d' := snd (auth_serve hash compare trim lowercase canon rs d) in
  directory_ok d'
  /\ exists added,
       map flags (accounts d')
       = (map flags (accounts d) ++ map (fun a => (acc_id a, false, false)) added)%list
       /\ map acc_email (accounts d')
          = (map acc_email (accounts d) ++ map acc_email added)%list.
Proof.
  revert d. induction rs as [|r rs IH]; intros d Hok; cbv zeta.
  - split; [exact Hok|]. exists []. cbn. rewrite !app_nil_r. auto.
  - rewrite auth_serve_cons.
    pose proof (auth_route_change hash compare trim lowercase canon r d) as Hc.
    set (d1 := snd (auth_route hash compare trim lowercase canon r d)) in *.
    pose proof (auth_change_ok _ _ Hc Hok) as Hok1.
    destruct (IH d1 Hok1) as [Hok' [added [Hfl Hem]]]. split; [exact Hok'|].
    destruct Hc as [Ha Hn|a Ha Hn Hfa Hnew|a a' Hf Ha Hn Hfa Hemail].
    + exists added. rewrite Hfl, Hem, Ha. auto.
    + exists (a :: added). rewrite Hfl, Hem, Ha, !map_app. cbn [map].
      rewrite <- !app_assoc. cbn [app]. split; [|reflexivity].
      do 2 f_equal. rewrite Hfa. unfold flags in Hfa. congruence.
    + exists added. rewrite Hfl, Hem, Ha. destruct Hok as [Hid _].
      assert (Hk : acc_id a' = acc_id a) by (injection Hfa; auto).
      rewrite (map_replace_same acc_id flags _ a a' Hid Hf Hk Hfa).
      rewrite (map_replace_same acc_id acc_email _ a a' Hid Hf Hk Hemail). auto.
Qed.

Lemma auth_routes_keep_flags_witness :
  directory_ok Cases.registry
  /\ directory_ok
       (snd (auth_serve Cases.hash Cases.compare Cases.trim Cases.lowercase Cases.canon
               [Register Cases.eve;
                UpdateProfile (mkToken 1 None None false) (visibility (Text "0"));
                ChangePassword (mkToken 1 None None false)
                               (mkPasswordBody (Some "secret") (Some "s3cret"))]
               Cases.registry)).
Proof.
  assert (H : directory_ok Cases.registry).
  { unfold directory_ok. cbn. repeat split.
    - repeat constructor; cbn; intuition discriminate.
    - repeat constructor; cbn; intuition discriminate.
    - repeat constructor; cbn; lia. }
  split; [exact H|].
  exact (proj1 (auth_routes_keep_flags Cases.hash Cases.compare Cases.trim Cases.lowercase
                  Cases.canon _ Cases.registry H)).
Defined.

(** X23.  The visibility of a profile, set through [PUT /auth/profile] with
    no other field, for a stored account.  The generation without validation
    hands the value to the cast of the Boolean path: 'true', '1', 'yes' make
    the profile public, 'false', '0', 'no' make it private, a boolean is
    taken as it is, and any other text is answered 500 and changes nothing.
    The validated generation applies [Boolean] to it first: every text but
    the empty one makes the profile public, so that '0', 'false' and 'no'
    publish a profile in one generation and hide it in the other.  Either
    way only the visibility of that one account is written. *)
Theorem profile_visibility_by_generation
        (trim : string -> string) (u : oid) (a : Account) (v : field) (d : directory) :
  findById acc_id u (accounts d) = Some a ->
  update_profile trim u (visibility v) d
  = match castBoolean v with
    | inr p => (ProfileUpdated (without_password (with_is_public a p)),
                put_accounts d (replace_by_id acc_id (with_is_public a p) (accounts d)))
    | inl _ => (Refused AuthServerError, d)
    end
  /\ update_profile_validated trim u (visibility v) d
     = (ProfileUpdated (without_password (with_is_public a (Boolean v))),
        put_accounts d (replace_by_id acc_id (with_is_public a (Boolean v)) (accounts d)))
  /\ (forall s, v = Text s -> In s ["0"; "false"; "no"] ->
      castBoolean v = inr false /\ Boolean v = true)
  /\ (forall s, v = Text s -> ~ In s ["true"; "1"; "yes"; "false"; "0"; "no"] ->
      castBoolean v = inl CastFailed)
  /\ (forall b, v = Flag b -> castBoolean v = inr b /\ Boolean v = b).
Proof.
  intros Hf. split; [|split; [|split; [|split]]].
  - unfold update_profile, visibility.
    cbn [pb_name pb_location pb_availability pb_is_public pb_file].
    destruct (castBoolean v) as [e|p]; [reflexivity|].
    unfold User_findByIdAndUpdate. cbn [andb ud_name]. rewrite Hf. reflexivity.
  - unfold update_profile_validated, visibility.
    cbn [pb_name pb_location pb_availability pb_is_public pb_file option_map uploaded no_keys
         ud_name ud_location ud_availability ud_is_public ud_profile_photo].
    unfold User_findByIdAndUpdate. cbn [andb ud_name]. rewrite Hf. reflexivity.
  - intros s -> [<-|[<-|[<-|[]]]]; split; reflexivity.
  - intros s -> Hn. cbn [castBoolean].
    assert (H1 : mem_string s ["true"; "1"; "yes"] = false).
    { apply not_true_is_false. intros H. apply Hn. unfold mem_string in H.
      apply existsb_exists in H. destruct H as [x [Hx E]]. apply String.eqb_eq in E. subst x.
      cbn in Hx. cbn. tauto. }
    assert (H2 : mem_string s ["false"; "0"; "no"] = false).
    { apply not_true_is_false. intros H. apply Hn. unfold mem_string in H.
      apply existsb_exists in H. destruct H as [x [Hx E]]. apply String.eqb_eq in E. subst x.
      cbn in Hx. cbn. tauto. }
    rewrite H1, H2. reflexivity.
  - intros b ->. split; reflexivity.
Qed.

Lemma profile_visibility_by_generation_witness :
  is_public (pv_user (without_password (with_is_public Cases.alice_account false))) = false
  /\ fst (update_profile Cases.trim 1 (visibility (Text "0")) Cases.registry)
     = ProfileUpdated (without_password (with_is_public Cases.alice_account false))
  /\ fst (update_profile_validated Cases.trim 1 (visibility (Text "0")) Cases.registry)
     = ProfileUpdated (without_password (with_is_public Cases.alice_account true)).
Proof.
  pose proof (profile_visibility_by_generation Cases.trim 1 Cases.alice_account (Text "0")
                Cases.registry eq_refl) as [H1 [H2 _]].
  split; [reflexivity|]. split.
  - exact (f_equal fst H1).
  - exact (f_equal fst H2).
Defined.

Lemma find_map_same {D} (p : D -> bool) (f : D -> D) l :
  (forall x, In x l -> p (f x) = p x) -> find p (map f l) = option_map f (find p l).
Proof.
  induction l as [|x l IH]; cbn; intros H; [reflexivity|].
  rewrite (H x (or_introl eq_refl)). destruct (p x); [reflexivity|].
  apply IH. intros y Hy. apply H. right. exact Hy.
Qed.

Lemma find_replace_by_id {D} (key : D -> oid) (p : D -> bool) (l : list D) a a' :
  NoDup (map key l) -> In a l -> key a' = key a -> p a' = p a ->
  find p l = Some a -> find p (replace_by_id key a' l) = Some a'.
Proof.
  intros Hnd Hin Hk Hp Hf. unfold replace_by_id. rewrite find_map_same.
  - rewrite Hf. cbn. rewrite Hk, Nat.eqb_refl. reflexivity.
  - intros x Hx. destruct (Nat.eqb_spec (key x) (key a')) as [E|E]; [|reflexivity].
    rewrite Hp. f_equal. symmetry. apply (unique_key_same key l x a Hnd Hx Hin). congruence.
Qed.

(** X24.  Changing a password, for a stored account that is not banned, with
    unique identifiers in the directory, the current password given, and a
    bcrypt that accepts the new password for the hash it has just made of
    it.  The save validates the whole document.  When the account's name and
    email are not empty the change is answered 200 and writes the new hash
    into that account and nothing else; a login under the account's email
    with the new password then succeeds, with the same claims as before; and
    the old password no longer logs in, as far as bcrypt tells it from the
    new one.  When the name or the email is empty, as the name is once
    [PUT /auth/profile] has blanked it, the save is refused: the answer is
    500, no account is written and the old password still logs in.  With a
    password that bcrypt does not accept for the stored hash the change is
    refused with 400 and nothing is written. *)
Theorem password_change_round_trip
        (hash : nat -> string -> string) (compare : string -> string -> bool)
        (canon : string -> string)
        (u : oid) (a : Account) (e current new : string) (d : directory) :
  NoDup (map acc_id (accounts d)) ->
  findById acc_id u (accounts d) = Some a ->
  User_findOne_email canon (Some e) d = Some a ->
  is_banned (acc_user a) = false ->
  compare current (acc_password a) = true ->
  hash (next_salt d) new <> "" ->
  compare new (hash (next_salt d) new) = true ->
  let changed := change_password hash compare u (mkPasswordBody (Some current) (Some new)) d in
  (user_name (acc_user a) <> "" -> acc_email a <> "" ->
   fst changed = PasswordChanged
   /\ accounts (snd changed)
      = replace_by_id acc_id (with_password a (hash (next_salt d) new)) (accounts d)
   /\ login compare canon (mkLoginBody (Some e) (Some new)) (snd changed)
      = (LoggedIn (claims_of a), snd changed)
   /\ (current <> "" -> compare current (hash (next_salt d) new) = false ->
       login compare canon (mkLoginBody (Some e) (Some current)) (snd changed)
       = (Refused InvalidCredentials, snd changed)))
  /\ (user_name (acc_user a) = "" \/ acc_email a = "" ->
      fst changed = Refused AuthServerError
      /\ accounts (snd changed) = accounts d
      /\ login compare canon (mkLoginBody (Some e) (Some current)) (snd changed)
         = (LoggedIn (claims_of a), snd changed))
  /\ (forall wrong, compare wrong (acc_password a) = false ->
      change_password hash compare u (mkPasswordBody (Some wrong) (Some new)) d
      = (Refused WrongPassword, d)).
Proof.
  intros Hnd Hf He Hb Hcur Hne Hnew changed.
  assert (Hstep : changed
                  = if negb (validate_user (with_password a (hash (next_salt d) new)))
                    then (Refused AuthServerError,
                          mkDirectory (accounts d) (next_oid d) (S (next_salt d)))
                    else (PasswordChanged,
                          mkDirectory
                            (replace_by_id acc_id (with_password a (hash (next_salt d) new))
                                           (accounts d))
                            (next_oid d) (S (next_salt d)))).
  { unfold changed, change_password. rewrite Hf. cbn [currentPassword newPassword bcrypt_hash].
    rewrite Hcur. cbn [negb]. reflexivity. }
  assert (Hval : validate_user (with_password a (hash (next_salt d) new))
                 = negb ((acc_email a =? "") || (user_name (acc_user a) =? ""))%string).
  { unfold validate_user. cbn [with_password acc_email acc_password acc_user].
    destruct (String.eqb_spec (hash (next_salt d) new) ""); [congruence|].
    rewrite orb_false_r. reflexivity. }
  split; [|split].
  - intros Hname Hemail.
    apply String.eqb_neq in Hname, Hemail. rewrite Hval, Hname, Hemail in Hstep.
    cbn [orb negb] in Hstep. rewrite Hstep. cbn [fst snd accounts].
    assert (Hfind : User_findOne_email canon (Some e)
                      (mkDirectory
                         (replace_by_id acc_id (with_password a (hash (next_salt d) new))
                                        (accounts d))
                         (next_oid d) (S (next_salt d)))
                    = Some (with_password a (hash (next_salt d) new))).
    { unfold User_findOne_email in *. cbn [accounts].
      apply (find_replace_by_id acc_id _ (accounts d) a); auto.
      apply findById_key in Hf. apply Hf. }
    split; [reflexivity|]. split; [reflexivity|]. split.
    + unfold login. cbn [lb_email lb_password]. rewrite Hfind.
      cbn [with_password acc_user acc_password]. rewrite Hb.
      destruct (truthy (hash (next_salt d) new) && truthy new); [rewrite Hnew|]; reflexivity.
    + intros Hc Hold. unfold login. cbn [lb_email lb_password]. rewrite Hfind.
      cbn [with_password acc_user acc_password]. rewrite Hb.
      replace (truthy (hash (next_salt d) new)) with true
        by (symmetry; apply truthy_true; exact Hne).
      replace (truthy current) with true by (symmetry; apply truthy_true; exact Hc).
      cbn [andb]. rewrite Hold. reflexivity.
  - intros Hblank.
    assert (Hinv : ((acc_email a =? "") || (user_name (acc_user a) =? ""))%string = true).
    { apply orb_true_iff. destruct Hblank as [H|H]; [right|left]; rewrite H; reflexivity. }
    rewrite Hval, Hinv in Hstep. cbn [negb] in Hstep. rewrite Hstep. cbn [fst snd accounts].
    split; [reflexivity|]. split; [reflexivity|].
    unfold login. cbn [lb_email lb_password].
    replace (User_findOne_email canon (Some e)
               (mkDirectory (accounts d) (next_oid d) (S (next_salt d))))
      with (Some a) by (symmetry; exact He).
    rewrite Hb, Hcur.
    destruct (truthy (acc_password a) && truthy current); reflexivity.
  - intros wrong Hw. unfold change_password. rewrite Hf. cbn [currentPassword].
    rewrite Hw. reflexivity.
Qed.

Lemma password_change_round_trip_witness :
  login Cases.compare Cases.canon (mkLoginBody (Some "Alice@example.com") (Some "s3cret"))
        (snd (change_password Cases.hash Cases.compare 1
                (mkPasswordBody (Some "secret") (Some "s3cret")) Cases.registry))
  = (LoggedIn (claims_of Cases.alice_account),
     snd (change_password Cases.hash Cases.compare 1
            (mkPasswordBody (Some "secret") (Some "s3cret")) Cases.registry))
  /\ (let blanked :=
        snd (update_profile Cases.trim 1 (mkProfileBody (Some " ") None None None None)
                            Cases.registry) in
      option_map (fun x => user_name (acc_user x)) (findById acc_id 1 (accounts blanked))
      = Some ""
      /\ fst (change_password Cases.hash Cases.compare 1
                (mkPasswordBody (Some "secret") (Some "s3cret")) blanked)
         = Refused AuthServerError
      /\ fst (login Cases.compare Cases.canon
                    (mkLoginBody (Some "alice@example.com") (Some "secret"))
                    (snd (change_password Cases.hash Cases.compare 1
                            (mkPasswordBody (Some "secret") (Some "s3cret")) blanked)))
         = LoggedIn (mkToken 1 (Some "alice@example.com") (Some "") false)).
Proof.
  assert (Hnd : NoDup (map acc_id (accounts Cases.registry))).
  { cbn. repeat constructor; cbn; intuition discriminate. }
  split.
  - refine (proj1 (proj2 (proj2 (proj1 (password_change_round_trip Cases.hash Cases.compare
              Cases.canon 1 Cases.alice_account "Alice@example.com" "secret" "s3cret"
              Cases.registry Hnd eq_refl eq_refl eq_refl eq_refl _ eq_refl) _ _))));
      cbv; discriminate.
  - cbv zeta.
    set (blanked := snd (update_profile Cases.trim 1
                           (mkProfileBody (Some " ") None None None None) Cases.registry)).
    assert (Hnd' : NoDup (map acc_id (accounts blanked))).
    { vm_compute. repeat constructor; cbn; intuition discriminate. }
    split; [vm_compute; reflexivity|].
    assert (Hne : Cases.hash (next_salt blanked) "s3cret" <> "") by (cbv; discriminate).
    pose proof (password_change_round_trip Cases.hash Cases.compare Cases.canon 1
                  (mkAccount (mkUser 1 "" (Some "Paris") true false false)
                             "alice@example.com" "$2a$secret" (Some "evenings") None)
                  "alice@example.com" "secret" "s3cret" blanked
                  Hnd' eq_refl eq_refl eq_refl eq_refl Hne eq_refl) as H.
    cbv zeta in H. destruct H as [_ [H _]].
    destruct (H (or_introl eq_refl)) as [H1 [_ H3]].
    split; [exact H1|]. rewrite H3. reflexivity.
Defined.

Lemma admin_back d d1 a1 :
  auth_change d d1 -> In a1 (accounts d1) -> is_admin (acc_user a1) = true ->
  exists a, In a (accounts d) /\ acc_id a = acc_id a1 /\ is_admin (acc_user a) = true.
Proof.
  intros Hc Hin Hadm.
  destruct Hc as [Ha Hn|a Ha Hn Hfl Hnew|a a' Hf Ha Hn Hfl Hemail]; rewrite Ha in Hin.
  - exists a1. auto.
  - apply in_app_or in Hin. destruct Hin as [Hin|[<-|[]]]; [exists a1; auto|].
    unfold flags in Hfl. congruence.
  - apply in_replace_by_id in Hin. destruct Hin as [->|[Hin _]]; [|exists a1; auto].
    exists a. apply findById_key in Hf. unfold flags in Hfl.
    split; [apply Hf|]. split; congruence.
Qed.

Lemma login_issued compare canon b d t :
  issued (fst (login compare canon b d)) = Some t ->
  exists a, In a (accounts d) /\ t = claims_of a.
Proof.
  unfold login.
  destruct (User_findOne_email canon (lb_email b) d) as [a|] eqn:Hf; [|discriminate].
  destruct (is_banned (acc_user a)); [discriminate|].
  cbv zeta. destruct (negb _); [discriminate|]. cbn. intros E. injection E as <-.
  exists a. split; [eapply findOne_email_in; exact Hf|reflexivity].
Qed.

Lemma login_validated_issued compare trim lowercase canon b d t :
  issued (fst (login_validated compare trim lowercase canon b d)) = Some t ->
  exists a, In a (accounts d) /\ t = claims_of a.
Proof.
  unfold login_validated. destruct (lb_email b) as [e|]; [|discriminate].
  destruct (negb (truthy e) || negb (truthy (trim e))); [discriminate|].
  destruct (lb_password b) as [p|]; [|discriminate].
  destruct (negb (truthy p)); [discriminate|].
  destruct (User_findOne_email canon (Some (lowercase e)) d) as [a|] eqn:Hf; [|discriminate].
  destruct (is_banned (acc_user a)); [discriminate|].
  destruct (negb _); [discriminate|]. cbn. intros E. injection E as <-.
  exists a. split; [eapply findOne_email_in; exact Hf|reflexivity].
Qed.

Lemma issued_admin hash compare trim lowercase canon r d t :
  issued (fst (auth_route hash compare trim lowercase canon r d)) = Some t ->
  tk_is_admin t = true ->
  exists a, In a (accounts d) /\ acc_id a = tk_id t /\ is_admin (acc_user a) = true.
Proof.
  destruct r as [b|b|b|k|k b|k b|k b]; cbn [auth_route].
  - unfold register. destruct (User_findOne_email canon (rb_email b) d); [discriminate|].
    destruct (if present (rb_password b) then _ else _) as [e|[h d1]]; [discriminate|].
    destruct (User_create _ _ _ _ _ _ _ _) as [e|[user d2]]; [discriminate|].
    cbn. intros H. injection H as <-. discriminate.
  - intros H Hadm. destruct (login_issued _ _ _ _ _ H) as [a [Hin ->]]. exists a. auto.
  - intros H Hadm. destruct (login_validated_issued _ _ _ _ _ _ _ H) as [a [Hin ->]].
    exists a. auto.
  - unfold get_profile. destruct (findById acc_id (tk_id k) (accounts d)); discriminate.
  - assert (Hno : issued (fst (update_profile trim (tk_id k) b d)) = None).
    { unfold update_profile.
      destruct (pb_name b), (pb_location b), (pb_availability b), (pb_is_public b), (pb_file b);
        try reflexivity;
        repeat match goal with
               | |- context [match ?x with _ => _ end] => destruct x
               end; reflexivity. }
    rewrite Hno. discriminate.
  - unfold update_profile_validated.
    destruct (match pb_name b with Some _ => _ | None => _ end); [discriminate|].
    cbv zeta. destruct (no_keys _); [discriminate|].
    destruct (User_findByIdAndUpdate _ _ _ _ _) as [e|[[x|] d1]]; discriminate.
  - unfold change_password.
    destruct (findById acc_id (tk_id k) (accounts d)); [|discriminate].
    destruct (currentPassword b); [|discriminate].
    destruct (negb _); [discriminate|].
    destruct (bcrypt_hash hash (newPassword b) d) as [e|[h d1]]; [discriminate|].
    destruct (negb (validate_user _)); discriminate.
Qed.

Lemma auth_serve_replies hash compare trim lowercase canon r rs d :
  fst (auth_serve hash compare trim lowercase canon (r :: rs) d)
  = fst (auth_route hash compare trim lowercase canon r d)
    :: fst (auth_serve hash compare trim lowercase canon rs
              (snd (auth_route hash compare trim lowercase canon r d))).
Proof.
  cbn [auth_serve]. destruct (auth_route _ _ _ _ _ r d) as [a d1]. cbn [fst snd].
  destruct (auth_serve _ _ _ _ _ rs d1). reflexivity.
Qed.

(** X25.  Admin rights cannot be obtained through the authentication routes.
    Whatever is asked of them, in either generation and in any order, a
    token that claims admin rights is only ever issued for an account that
    was an admin to begin with; so from a directory without an admin every
    token issued is turned away by [requireAdmin], whatever route it
    guards. *)
Theorem admin_tokens_only_for_admins
        (hash : nat -> string -> string) (compare : string -> string -> bool)
        (trim lowercase canon : string -> string)
        (rs : list auth_request) (d : directory) (reply : auth_reply) (t : token) :
  In reply (fst (auth_serve hash compare trim lowercase canon rs d)) ->
  issued reply = Some t ->
  (tk_is_admin t = true ->
   exists a, In a (accounts d) /\ acc_id a = tk_id t /\ is_admin (acc_user a) = true)
  /\ (Forall (fun a => is_admin (acc_user a) = false) (accounts d) ->
      forall (next : handler) (s : db), requireAdmin (tk_is_admin t) next s = (Fail AdminRequired, s)).
Proof.
  intros Hin Hiss.
  assert (Hmain : tk_is_admin t = true ->
            exists a, In a (accounts d) /\ acc_id a = tk_id t /\ is_admin (acc_user a) = true).
  { revert d Hin. induction rs as [|r rs IH]; intros d Hin Hadm; [destruct Hin|].
    rewrite auth_serve_replies in Hin. destruct Hin as [<-|Hin].
    - eapply issued_admin; eauto.
    - destruct (IH _ Hin Hadm) as [a1 [Hin1 [Hid Ha1]]].
      destruct (admin_back _ _ a1 (auth_route_change hash compare trim lowercase canon r d)
                           Hin1 Ha1) as [a [Ha [Hida Hadma]]].
      exists a. split; [exact Ha|]. split; congruence. }
  split; [exact Hmain|].
  intros Hnone next s. unfold requireAdmin.
  destruct (tk_is_admin t) eqn:E; [|reflexivity].
  destruct (Hmain eq_refl) as [a [Ha [_ Hadm]]].
  rewrite Forall_forall in Hnone. rewrite (Hnone a Ha) in Hadm. discriminate.
Qed.

Lemma admin_tokens_only_for_admins_witness :
  requireAdmin (tk_is_admin (mkToken 100 (Some " Eve@Example.com") (Some "Eve ") false))
               (Admin.ban_user 100 Sample.bob_id (Some true)) Sample.db0
  = (Fail AdminRequired, Sample.db0).
Proof.
  refine (proj2 (admin_tokens_only_for_admins Cases.hash Cases.compare Cases.trim
                   Cases.lowercase Cases.canon
                   [Login (mkLoginBody (Some "eve@example.com") None); Register Cases.eve]
                   Cases.registry
                   (Registered (mkToken 100 (Some " Eve@Example.com") (Some "Eve ") false))
                   (mkToken 100 (Some " Eve@Example.com") (Some "Eve ") false) _ eq_refl)
                _ (Admin.ban_user 100 Sample.bob_id (Some true)) Sample.db0).
  - right. left. reflexivity.
  - repeat constructor.
Defined.

(** ** Seeding *)

Lemma filter_true_all {D} (l : list D) : filter (fun _ => true) l = l.
Proof. induction l as [|x l IH]; cbn; [reflexivity|]. rewrite IH. reflexivity. Qed.

Lemma insertMany_names trim docs s :
  Forall (fun x => trim (fst x) <> "") docs ->
  exists new,
    Skill_insertMany trim docs s
    = inr (mkDb (users s) (skills s ++ new) (offered s) (wanted s) (swaps s) (ratings s)
                (next_id s + List.length docs))
    /\ map skill_name new = map (fun x => trim (fst x)) docs
    /\ map skill__id new = seq (next_id s) (List.length docs).
Proof.
  intros Hall. unfold Skill_insertMany. cbv zeta.
  set (new := map (fun '(i, (name, category)) => mkSkill i (trim name) (Some (trim category)))
                  (combine (seq (next_id s) (List.length docs)) docs)).
  assert (Hnames : map skill_name new = map (fun x => trim (fst x)) docs
                   /\ map skill__id new = seq (next_id s) (List.length docs)).
  { unfold new. generalize (next_id s). clear new. induction docs as [|[n c] docs IH]; intros k.
    - split; reflexivity.
    - apply Forall_inv_tail in Hall. destruct (IH Hall (S k)) as [E1 E2].
      cbn. rewrite E1, E2. split; reflexivity. }
  destruct Hnames as [Hn Hi].
  assert (He : existsb (fun k => (skill_name k =? "")%string) new = false).
  { apply not_true_is_false. intros H. apply existsb_exists in H.
    destruct H as [k [Hk E]]. apply String.eqb_eq in E.
    assert (Hin : In (skill_name k) (map skill_name new)) by (apply in_map; exact Hk).
    rewrite Hn in Hin. apply in_map_iff in Hin. destruct Hin as [x [Hx Hxin]].
    rewrite Forall_forall in Hall. apply (Hall x Hxin). congruence. }
  rewrite He. exists new. auto.
Qed.

Lemma create_admin_ok trim canon h d :
  canon "admin@skillswap.com" <> "" -> trim "Admin User" <> "" -> h <> "" ->
  User_findOne_email canon (Some "admin@skillswap.com") d = None ->
  User_create_admin trim canon "admin@skillswap.com" h "Admin User" d
  = inr (mkDirectory
           (accounts d ++ [mkAccount (mkUser (next_oid d) (trim "Admin User") None true true false)
                                     (canon "admin@skillswap.com") h None None])
           (S (next_oid d)) (next_salt d)).
Proof.
  intros Hc Ht Hh Hnone. unfold User_create_admin. cbv zeta.
  cbn [acc_email acc_password acc_user user_name].
  destruct (String.eqb_spec (canon "admin@skillswap.com") ""); [congruence|].
  destruct (String.eqb_spec h ""); [congruence|].
  destruct (String.eqb_spec (trim "Admin User") ""); [congruence|].
  cbn [orb]. unfold User_findOne_email in Hnone.
  rewrite (existsb_find_none _ _ Hnone). reflexivity.
Qed.

(** X26.  Seeding, with a bcrypt whose hashes are never empty and strings
    that normalisation does not empty.  After it has run, an account answers
    to admin@skillswap.com and the catalogue is not empty.  It never touches
    what it finds: an account that already has that email is left as it is,
    password included, and nothing else is written to the accounts; a
    catalogue with at least one skill is left as it is; an empty one
    receives the twenty default skills, in their order, under fresh
    identifiers.  And running it a second time changes nothing at all. *)
Theorem seeding_runs_once
        (hash : nat -> string -> string) (trim canon : string -> string)
        (d : directory) (s : db) :
  (forall n p, hash n p <> "") ->
  canon "admin@skillswap.com" <> "" -> trim "Admin User" <> "" ->
  Forall (fun x => trim (fst x) <> "") defaultSkills ->
  let st1 := initializeDatabase hash trim canon (d, s) in
  (exists a, User_findOne_email canon (Some "admin@skillswap.com") (fst st1) = Some a)
  /\ skills (snd st1) <> []
  /\ (forall a, User_findOne_email canon (Some "admin@skillswap.com") d = Some a -> fst st1 = d)
  /\ (skills s <> [] -> snd st1 = s)
  /\ (skills s = [] ->
      map skill_name (skills (snd st1)) = map (fun x => trim (fst x)) defaultSkills
      /\ map skill__id (skills (snd st1)) = seq (next_id s) 20)
  /\ initializeDatabase hash trim canon st1 = st1.
Proof.
  intros Hh Hc Ht Hall st1.
  destruct (insertMany_names trim defaultSkills s Hall) as [new [Hins [Hnames Hids]]].
  assert (Hnew : new <> []).
  { intros ->. cbn in Hnames. discriminate. }
  (* the accounts after the first run *)
  set (d1 := match User_findOne_email canon (Some "admin@skillswap.com") d with
             | Some _ => d
             | None =>
                 mkDirectory
                   (accounts d ++
                    [mkAccount (mkUser (next_oid d) (trim "Admin User") None true true false)
                               (canon "admin@skillswap.com") (hash (next_salt d) "admin123")
                               None None])
                   (S (next_oid d)) (S (next_salt d))
             end).
  set (s1 := if countDocuments (fun _ => true) (skills s) =? 0
             then mkDb (users s) (skills s ++ new) (offered s) (wanted s) (swaps s) (ratings s)
                       (next_id s + List.length defaultSkills)
             else s).
  assert (Hst : st1 = (d1, s1)).
  { unfold st1, initializeDatabase, d1, s1.
    destruct (User_findOne_email canon (Some "admin@skillswap.com") d) as [a|] eqn:Hf.
    - destruct (countDocuments _ (skills s) =? 0); [rewrite Hins|]; reflexivity.
    - cbv zeta. rewrite create_admin_ok; auto.
      cbn [accounts next_oid next_salt].
      destruct (countDocuments _ (skills s) =? 0); [rewrite Hins|]; reflexivity. }
  assert (Hadmin : exists a, User_findOne_email canon (Some "admin@skillswap.com") d1 = Some a).
  { unfold d1. destruct (User_findOne_email canon (Some "admin@skillswap.com") d) as [a|] eqn:Hf.
    - exists a. exact Hf.
    - eexists. unfold User_findOne_email in *. cbn [accounts].
      rewrite find_append, Hf. cbn [find acc_email]. rewrite String.eqb_refl. reflexivity. }
  assert (Hcat : skills s1 <> []).
  { unfold s1, countDocuments. rewrite filter_true_all.
    destruct (skills s) as [|k ks] eqn:Hk; cbn [List.length Nat.eqb skills];
      [exact Hnew|congruence]. }
  rewrite Hst. cbn [fst snd].
  split; [exact Hadmin|]. split; [exact Hcat|]. split; [|split; [|split]].
  - intros a Ha. unfold d1. rewrite Ha. reflexivity.
  - intros Hne. unfold s1, countDocuments. rewrite filter_true_all.
    destruct (skills s); [congruence|reflexivity].
  - intros He. unfold s1, countDocuments. rewrite filter_true_all, He.
    cbn [List.length Nat.eqb skills app]. split; [exact Hnames|exact Hids].
  - unfold initializeDatabase. destruct Hadmin as [a ->].
    unfold countDocuments. rewrite filter_true_all.
    destruct (skills s1) as [|k ks]; [congruence|reflexivity].
Qed.

Lemma hash_stand_in_not_empty n p : Cases.hash n p <> "".
Proof. unfold Cases.hash. destruct (Nat.even n); discriminate. Qed.

Lemma seeding_runs_once_witness :
  initializeDatabase Cases.hash Cases.trim Cases.canon
    (initializeDatabase Cases.hash Cases.trim Cases.canon (mkDirectory [] 1 0, empty_db))
  = initializeDatabase Cases.hash Cases.trim Cases.canon (mkDirectory [] 1 0, empty_db).
Proof.
  refine (proj2 (proj2 (proj2 (proj2 (proj2
            (seeding_runs_once Cases.hash Cases.trim Cases.canon (mkDirectory [] 1 0) empty_db
               hash_stand_in_not_empty _ _ _)))))).
  - cbv. discriminate.
  - cbv. discriminate.
  - repeat constructor; cbv; discriminate.
Defined.

(** X27.  A fresh installation of the generation without validation.  Where
    no account answers to admin@skillswap.com, seeding stores one that is an
    admin; from then on a login under that email with the password
    'admin123' is answered with a token, and so is a login under that email
    with no password at all; and the token claims admin rights, so that
    [requireAdmin] lets it through to whatever route it guards. *)
Theorem fresh_install_admin_login
        (hash : nat -> string -> string) (compare : string -> string -> bool)
        (trim canon : string -> string) (d : directory) (s : db) :
  (forall n p, hash n p <> "") -> (forall n p, compare p (hash n p) = true) ->
  canon "admin@skillswap.com" <> "" -> trim "Admin User" <> "" ->
  User_findOne_email canon (Some "admin@skillswap.com") d = None ->
  let d1 := fst (initializeDatabase hash trim canon (d, s)) in
  exists admin,
    accounts d1 = (accounts d ++ [admin])%list
    /\ is_admin (acc_user admin) = true /\ is_banned (acc_user admin) = false
    /\ login compare canon (mkLoginBody (Some "admin@skillswap.com") (Some "admin123")) d1
       = (LoggedIn (claims_of admin), d1)
    /\ login compare canon (mkLoginBody (Some "admin@skillswap.com") None) d1
       = (LoggedIn (claims_of admin), d1)
    /\ forall (next : handler) (st : db),
         requireAdmin (tk_is_admin (claims_of admin)) next st = next st.
Proof.
  intros Hh Hb Hc Ht Hnone d1.
  set (admin := mkAccount (mkUser (next_oid d) (trim "Admin User") None true true false)
                          (canon "admin@skillswap.com") (hash (next_salt d) "admin123")
                          None None).
  assert (Hd1 : d1 = mkDirectory (accounts d ++ [admin]) (S (next_oid d)) (S (next_salt d))).
  { unfold d1, initializeDatabase. rewrite Hnone. cbv zeta.
    rewrite create_admin_ok; auto. cbn [accounts next_oid next_salt].
    destruct (countDocuments _ (skills s) =? 0); [|reflexivity].
    destruct (Skill_insertMany trim defaultSkills s); reflexivity. }
  assert (Hfind : User_findOne_email canon (Some "admin@skillswap.com") d1 = Some admin).
  { rewrite Hd1. unfold User_findOne_email in *. cbn [accounts].
    rewrite find_append, Hnone. cbn [find]. unfold admin at 1. cbn [acc_email].
    rewrite String.eqb_refl. reflexivity. }
  exists admin. split; [rewrite Hd1; reflexivity|].
  split; [reflexivity|]. split; [reflexivity|]. split; [|split].
  - unfold login. cbn [lb_email lb_password]. rewrite Hfind.
    cbn [admin acc_user is_banned acc_password].
    replace (truthy (hash (next_salt d) "admin123")) with true
      by (symmetry; apply truthy_true; apply Hh).
    cbn [truthy andb]. rewrite Hb. reflexivity.
  - unfold login. cbn [lb_email lb_password]. rewrite Hfind. reflexivity.
  - intros next st. reflexivity.
Qed.

Lemma fresh_install_admin_login_witness :
  exists admin,
    login Cases.compare Cases.canon (mkLoginBody (Some "admin@skillswap.com") None)
          (fst (initializeDatabase Cases.hash Cases.trim Cases.canon (Cases.registry, empty_db)))
    = (LoggedIn (claims_of admin),
       fst (initializeDatabase Cases.hash Cases.trim Cases.canon (Cases.registry, empty_db)))
    /\ tk_is_admin (claims_of admin) = true.
Proof.
  destruct (fresh_install_admin_login Cases.hash Cases.compare Cases.trim Cases.canon
              Cases.registry empty_db hash_stand_in_not_empty bcrypt_stand_in
              ltac:(cbv; discriminate) ltac:(cbv; discriminate) eq_refl)
    as [admin [_ [Hadm [_ [_ [Hl _]]]]]].
  exists admin. split; [exact Hl|exact Hadm].
Defined.

(** ** Admin messages *)

Lemma trimmed_within_some trim len max v x :
  trimmed_within trim len max v = Some x ->
  x = trim (match v with Some y => y | None => "" end) /\ 1 <= len x <= max.
Proof.
  unfold trimmed_within. cbv zeta.
  destruct (Nat.leb_spec 1 (len (trim match v with Some y => y | None => "" end)))
    as [H1|H1]; [|discriminate].
  destruct (Nat.leb_spec (len (trim match v with Some y => y | None => "" end)) max)
    as [H2|H2]; [|discriminate].
  cbn [andb]. intros E. injection E as <-. auto.
Qed.

Lemma optional_some {A} (check : string -> option A) v r :
  optional check v = Some r ->
  match r with
  | None => v = None
  | Some a => exists x, v = Some x /\ check x = Some a
  end.
Proof.
  unfold optional. destruct v as [x|].
  - destruct (check x) as [a|] eqn:E; [|discriminate]. cbn. intros H. injection H as <-.
    exists x. auto.
  - intros H. injection H as <-. reflexivity.
Qed.

Lemma isIn_some l x y : isIn l x = Some y -> y = x /\ mem_string x l = true.
Proof.
  unfold isIn. destruct (mem_string x l); [|discriminate]. intros H. injection H as <-. auto.
Qed.

(** Everything one request can do to the board. *)
Lemma message_route_step trim len adm r m :
  (forall x, trim (trim x) = trim x) ->
  let m' := snd (message_route trim len adm r m) in
  m' = m
  \/ (adm = true /\ exists d, message_valid len d /\ msg__id d = next_msg m
                              /\ m' = mkBoard (messages m ++ [d]) (S (next_msg m)))
  \/ (adm = true /\ exists d d', findById msg__id (msg__id d) (messages m) = Some d
                                 /\ msg__id d' = msg__id d
                                 /\ (message_valid len d -> message_valid len d')
                                 /\ m' = mkBoard (replace_by_id msg__id d' (messages m))
                                                 (next_msg m))
  \/ (adm = true /\ exists i, m' = mkBoard (delete_by_id msg__id i (messages m)) (next_msg m)).
Proof.
  intros Hidem. unfold message_route, requireAdmin_as. cbv zeta.
  destruct adm; cbn [negb]; [|left; reflexivity].
  destruct r as [b|i b|i|q].
  - unfold post_message.
    destruct (trimmed_within trim len 100 (mb_title b)) as [title|] eqn:Et; [|left; reflexivity].
    destruct (trimmed_within trim len 1000 (mb_message b)) as [message|] eqn:Em;
      [|left; reflexivity].
    destruct (optional (isIn message_type_enum) (mb_type b)) as [type|] eqn:Ety;
      [|left; reflexivity].
    cbv zeta. cbn [msg_title msg_message msg_type].
    destruct (_ || _ || _)%bool eqn:Ev; [left; reflexivity|].
    right. left. split; [reflexivity|].
    exists (mkAdminMessage (next_msg m) (trim title) message
                           (match type with Some t => t | None => "info" end) true).
    split; [|split; reflexivity].
    apply trimmed_within_some in Et, Em. destruct Et as [-> Ht], Em as [-> Hm].
    apply orb_false_iff in Ev. destruct Ev as [_ Hty]. apply negb_false_iff in Hty.
    unfold message_valid. cbn [msg_title msg_message msg_type]. rewrite Hidem. auto.
  - unfold put_message.
    destruct (optional _ (mb_title b)) as [title|] eqn:Et; [|left; reflexivity].
    destruct (optional _ (mb_message b)) as [message|] eqn:Em; [|left; reflexivity].
    destruct (optional (isIn message_type_enum) (mb_type b)) as [type|] eqn:Ety;
      [|left; reflexivity].
    destruct (match mb_isActive b with None => _ | Some _ => _ end) as [isActive|];
      [|left; reflexivity].
    assert (Hgen : forall is_active,
              let m' := snd match findById msg__id i (messages m) with
                            | None => (MessageFail NotFound, m)
                            | Some d =>
                                (MessageDone,
                                 mkBoard (replace_by_id msg__id
                                            (apply_message_update trim title message type
                                                                  is_active d) (messages m))
                                         (next_msg m))
                            end in
              m' = m
              \/ (exists d d', findById msg__id (msg__id d) (messages m) = Some d
                               /\ msg__id d' = msg__id d
                               /\ (message_valid len d -> message_valid len d')
                               /\ m' = mkBoard (replace_by_id msg__id d' (messages m))
                                               (next_msg m))).
    { intros is_active. cbv zeta.
      destruct (findById msg__id i (messages m)) as [d|] eqn:Hf; [|left; reflexivity].
      right. exists d, (apply_message_update trim title message type is_active d).
      destruct (findById_key _ _ _ _ Hf) as [Hid _].
      split; [rewrite Hid; exact Hf|]. split; [reflexivity|]. split; [|reflexivity].
      unfold message_valid, apply_message_update. cbn [msg_title msg_message msg_type].
      intros [Hvt [Hvm Hvy]].
      apply optional_some in Et, Em, Ety. split; [|split].
      - destruct title as [t|]; [|exact Hvt]. destruct Et as [x [_ Hx]].
        apply trimmed_within_some in Hx. destruct Hx as [-> Hx]. rewrite Hidem. exact Hx.
      - destruct message as [t|]; [|exact Hvm]. destruct Em as [x [_ Hx]].
        apply trimmed_within_some in Hx. apply Hx.
      - destruct type as [t|]; [|exact Hvy]. destruct Ety as [x [_ Hx]].
        apply isIn_some in Hx. destruct Hx as [-> Hx]. exact Hx. }
    assert (Hcast : forall x : raised + option bool,
              snd match x with
                  | inl _ => (MessageFail ServerError, m)
                  | inr is_active =>
                      match findById msg__id i (messages m) with
                      | None => (MessageFail NotFound, m)
                      | Some d =>
                          (MessageDone,
                           mkBoard (replace_by_id msg__id
                                      (apply_message_update trim title message type
                                                            is_active d) (messages m))
                                   (next_msg m))
                      end
                  end = m
              \/ (true = true /\ exists d, message_valid len d /\ msg__id d = next_msg m
                     /\ snd match x with
                            | inl _ => (MessageFail ServerError, m)
                            | inr is_active =>
                                match findById msg__id i (messages m) with
                                | None => (MessageFail NotFound, m)
                                | Some d =>
                                    (MessageDone,
                                     mkBoard (replace_by_id msg__id
                                                (apply_message_update trim title message type
                                                                      is_active d) (messages m))
                                             (next_msg m))
                                end
                            end = mkBoard (messages m ++ [d]) (S (next_msg m)))
              \/ (true = true /\ exists d d',
                     findById msg__id (msg__id d) (messages m) = Some d
                     /\ msg__id d' = msg__id d
                     /\ (message_valid len d -> message_valid len d')
                     /\ snd match x with
                            | inl _ => (MessageFail ServerError, m)
                            | inr is_active =>
                                match findById msg__id i (messages m) with
                                | None => (MessageFail NotFound, m)
                                | Some d =>
                                    (MessageDone,
                                     mkBoard (replace_by_id msg__id
                                                (apply_message_update trim title message type
                                                                      is_active d) (messages m))
                                             (next_msg m))
                                end
                            end = mkBoard (replace_by_id msg__id d' (messages m)) (next_msg m))
              \/ (true = true /\ exists i0,
                     snd match x with
                         | inl _ => (MessageFail ServerError, m)
                         | inr is_active =>
                             match findById msg__id i (messages m) with
                             | None => (MessageFail NotFound, m)
                             | Some d =>
                                 (MessageDone,
                                  mkBoard (replace_by_id msg__id
                                             (apply_message_update trim title message type
                                                                   is_active d) (messages m))
                                          (next_msg m))
                             end
                         end = mkBoard (delete_by_id msg__id i0 (messages m)) (next_msg m))).
    { intros [e|a]; [left; reflexivity|].
      destruct (Hgen a) as [H|H]; [left; exact H|right; right; left; split; [reflexivity|exact H]]. }
    destruct title, message, type, isActive;
      first [apply Hcast | apply (Hcast (inr None)) | (left; reflexivity)].
  - unfold delete_message. destruct (findById msg__id i (messages m)); [|left; reflexivity].
    right. right. right. split; [reflexivity|]. exists i. reflexivity.
  - unfold get_messages. destruct (skip_limit _ _ _); left; reflexivity.
Qed.

Lemma message_serve_cons trim len adm r rs m :
  snd (message_serve trim len ((adm, r) :: rs) m)
  = snd (message_serve trim len rs (snd (message_route trim len adm r m))).
Proof.
  cbn [message_serve]. destruct (message_route trim len adm r m) as [a m1]. cbn [snd].
  destruct (message_serve trim len rs m1). reflexivity.
Qed.

Lemma board_step_ok trim len adm r m :
  (forall x, trim (trim x) = trim x) ->
  board_ok len m ->
  board_ok len (snd (message_route trim len adm r m))
  /\ next_msg m <= next_msg (snd (message_route trim len adm r m))
  /\ (adm = false -> snd (message_route trim len adm r m) = m).
Proof.
  intros Hidem [Hv [Hnd Hfr]].
  split; [|split].
  - destruct (message_route_step trim len adm r m Hidem)
      as [->|[[_ [d [Hd [Hid ->]]]]|[[_ [d [d' [Hf [Hk [Hval ->]]]]]]|[_ [i ->]]]]];
      unfold board_ok; cbn [messages next_msg].
    + auto.
    + split; [|split].
      * apply Forall_app. split; [exact Hv|]. constructor; [exact Hd|constructor].
      * rewrite map_app. cbn [map]. apply NoDup_app; [exact Hnd|repeat constructor; intros []|].
        intros x Hx [Hx'|[]]. apply in_map_iff in Hx. destruct Hx as [y [<- Hy]].
        rewrite Forall_forall in Hfr. apply Hfr in Hy. lia.
      * apply Forall_app. split.
        -- eapply Forall_impl; [|exact Hfr]. cbv beta. intros; lia.
        -- constructor; [lia|constructor].
    + assert (Hin : In d (messages m)) by (apply findById_key in Hf; apply Hf).
      split; [|split].
      * rewrite Forall_forall in *. intros x Hx. apply in_replace_by_id in Hx.
        destruct Hx as [->|[Hx _]]; auto.
      * rewrite map_key_replace_by_id. exact Hnd.
      * rewrite Forall_forall in *. intros x Hx. apply in_replace_by_id in Hx.
        destruct Hx as [->|[Hx _]]; [rewrite Hk|]; auto.
    + split; [|split].
      * rewrite Forall_forall in *. intros x Hx. apply in_delete_by_id in Hx. apply Hv, Hx.
      * rewrite map_key_delete_by_id. apply NoDup_filter. exact Hnd.
      * rewrite Forall_forall in *. intros x Hx. apply in_delete_by_id in Hx. apply Hfr, Hx.
  - destruct (message_route_step trim len adm r m Hidem)
      as [->|[[_ [d [Hd [Hid ->]]]]|[[_ [d [d' [Hf [Hk [Hval ->]]]]]]|[_ [i ->]]]]];
      cbn [next_msg]; lia.
  - intros ->. reflexivity.
Qed.

(** X28.  The admin messages, with a [trim] that does nothing to what it has
    trimmed.  A board whose messages all have a title of 1 to 100, a text
    of 1 to 1000 and a type among info, warning, success, error, under
    distinct identifiers handed out by the board, stays such a board
    whatever is asked of the four routes, by admins and by others; an update
    can set any subset of the fields but cannot smuggle in a value that a
    creation would refuse.  And a sequence of requests none of which carries
    an admin token leaves the board exactly as it was. *)
Theorem messages_stay_valid
        (trim : string -> string) (len : string -> nat)
        (rs : list (bool * message_request)) (m : board) :
  (forall x, trim (trim x) = trim x) ->
  board_ok len m ->
  board_ok len (snd (message_serve trim len rs m))
  /\ next_msg m <= next_msg (snd (message_serve trim len rs m))
  /\ (Forall (fun r => fst r = false) rs -> snd (message_serve trim len rs m) = m).
Proof.
  intros Hidem. revert m. induction rs as [|[adm r] rs IH]; intros m Hok.
  - cbn. auto.
  - rewrite message_serve_cons.
    destruct (board_step_ok trim len adm r m Hidem Hok) as [Hok1 [Hn1 Hsame]].
    destruct (IH _ Hok1) as [Hok' [Hn' Hno]].
    split; [exact Hok'|]. split; [lia|].
    intros Hall. inversion Hall as [|? ? Hadm Hrest]; subst. cbn [fst] in Hadm.
    rewrite (Hno Hrest). apply Hsame. exact Hadm.
Qed.

(** The stand-in for [trim] does nothing to what it has trimmed. *)
Lemma strip_clean l :
  Cases.strip l = [] \/ exists c r, Cases.strip l = c :: r /\ (Ascii.nat_of_ascii c =? 32) = false.
Proof.
  induction l as [|c l IH]; cbn; [left; reflexivity|].
  destruct (Ascii.nat_of_ascii c =? 32) eqn:E; [exact IH|].
  right. exists c, l. auto.
Qed.

Lemma strip_strip l : Cases.strip (Cases.strip l) = Cases.strip l.
Proof.
  destruct (strip_clean l) as [->|[c [r [-> E]]]]; [reflexivity|]. cbn. rewrite E. reflexivity.
Qed.

Lemma strip_split l :
  exists blanks, l = (blanks ++ Cases.strip l)%list.
Proof.
  induction l as [|c l [blanks IH]]; cbn; [exists []; reflexivity|].
  destruct (Ascii.nat_of_ascii c =? 32); [|exists []; reflexivity].
  exists (c :: blanks). cbn. rewrite <- IH. reflexivity.
Qed.

Lemma trim_stand_in_idempotent x : Cases.trim (Cases.trim x) = Cases.trim x.
Proof.
  unfold Cases.trim. rewrite list_ascii_of_string_of_list_ascii.
  set (A := Cases.strip (list_ascii_of_string x)).
  set (T := rev (Cases.strip (rev A))).
  assert (H1 : Cases.strip T = T).
  { destruct (strip_split (rev A)) as [blanks Hb].
    assert (HA : A = (T ++ rev blanks)%list).
    { unfold T. rewrite <- rev_app_distr, <- Hb, rev_involutive. reflexivity. }
    destruct T as [|c t]; [reflexivity|].
    destruct (strip_clean (list_ascii_of_string x)) as [E|[c' [r [E Hc]]]]; fold A in E.
    - rewrite E in HA. discriminate.
    - rewrite E in HA. cbn in HA. injection HA as -> _. cbn. rewrite Hc. reflexivity. }
  rewrite H1. unfold T at 1. rewrite rev_involutive, strip_strip. reflexivity.
Qed.

Lemma messages_stay_valid_witness :
  board_ok String.length (mkBoard [] 1)
  /\ board_ok String.length
       (snd (message_serve Cases.trim String.length
               [(true, CreateMessage (mkMessageBody (Some " Maintenance ") (Some "Back at noon.")
                                                    None None));
                (false, DeleteMessage 1);
                (true, UpdateMessage 1 (mkMessageBody None None (Some "warning")
                                                      (Some (Text "0"))))]
               (mkBoard [] 1))).
Proof.
  assert (H : board_ok String.length (mkBoard [] 1)).
  { unfold board_ok. cbn. repeat split; constructor. }
  split; [exact H|].
  exact (proj1 (messages_stay_valid Cases.trim String.length _ (mkBoard [] 1)
                  trim_stand_in_idempotent H)).
Defined.

Lemma findById_fresh {D} (key : D -> oid) i (l : list D) :
  Forall (fun d => key d < i) l -> findById key i l = None.
Proof.
  intros H. unfold findById. apply find_none_all. intros x Hx.
  rewrite Forall_forall in H. apply H in Hx. apply Nat.eqb_neq. lia.
Qed.

Lemma findById_last {D} (key : D -> oid) (l : list D) d :
  Forall (fun x => key x < key d) l -> findById key (key d) (l ++ [d]) = Some d.
Proof.
  intros H. unfold findById. rewrite find_append.
  fold (findById key (key d) l). rewrite (findById_fresh key (key d) l H).
  cbn. rewrite Nat.eqb_refl. reflexivity.
Qed.

Lemma replace_by_id_last {D} (key : D -> oid) (l : list D) d d' :
  Forall (fun x => key x < key d) l -> key d' = key d ->
  replace_by_id key d' (l ++ [d]) = (l ++ [d'])%list.
Proof.
  intros H Hk. unfold replace_by_id. rewrite map_app. cbn [map].
  rewrite Hk, Nat.eqb_refl. f_equal.
  rewrite <- (map_id l) at 2. apply map_ext_in. intros x Hx.
  rewrite Forall_forall in H. apply H in Hx.
  destruct (Nat.eqb_spec (key x) (key d)); [lia|reflexivity].
Qed.

Lemma delete_by_id_last {D} (key : D -> oid) (l : list D) d :
  Forall (fun x => key x < key d) l -> delete_by_id key (key d) (l ++ [d]) = l.
Proof.
  intros H. unfold delete_by_id. rewrite filter_app. cbn [filter].
  rewrite Nat.eqb_refl. cbn [negb]. rewrite app_nil_r.
  induction l as [|x l IH]; cbn; [reflexivity|].
  inversion H as [|? ? Hx Hl]; subst.
  destruct (Nat.eqb_spec (key x) (key d)); [lia|]. cbn [negb]. rewrite (IH Hl). reflexivity.
Qed.

Lemma post_message_inv trim len b m i m1 :
  post_message trim len b m = (MessageCreated i, m1) ->
  exists d, i = next_msg m /\ msg__id d = next_msg m /\ msg_is_active d = true
            /\ m1 = mkBoard (messages m ++ [d]) (S (next_msg m)).
Proof.
  unfold post_message.
  destruct (trimmed_within trim len 100 (mb_title b)) as [title|]; [|discriminate].
  destruct (trimmed_within trim len 1000 (mb_message b)) as [message|]; [|discriminate].
  destruct (optional (isIn message_type_enum) (mb_type b)) as [type|]; [|discriminate].
  cbv zeta. destruct (_ || _ || _)%bool; [discriminate|].
  intros H. injection H as <- <-. eexists. repeat split; reflexivity.
Qed.

(** X29.  The life of an admin message, on a board whose identifiers were
    all handed out by it.  A creation that is answered 201 has appended one
    active message under the identifier it returns; the first page of the
    active messages, whatever its limit of at least 1, then opens with it;
    once it is deactivated through an update that sets nothing else, no
    page of the active messages shows it any more; deleting it is answered
    200 and leaves the messages that were there before; and after that both
    a second deletion and an update of it are answered 404. *)
Theorem message_lifecycle
        (trim : string -> string) (len : string -> nat)
        (b : message_body) (i : oid) (m m1 : board) (q : messages_query) :
  Forall (fun d => msg__id d < next_msg m) (messages m) ->
  post_message trim len b m = (MessageCreated i, m1) ->
  mq_active q = Some "true" -> (1 <= mq_limit q)%Z ->
  let first_page := mkMessagesQuery (Some "true") 1 (mq_limit q) in
  let m2 := snd (put_message trim len i (activation (Flag false)) m1) in
  let m3 := snd (delete_message i m2) in
  (exists d rest total pages,
      messages m1 = (messages m ++ [d])%list /\ msg__id d = i /\ msg_is_active d = true
      /\ fst (get_messages first_page m1) = MessagesJson (d :: rest) 1 (mq_limit q) total pages)
  /\ fst (put_message trim len i (activation (Flag false)) m1) = MessageDone
  /\ (forall l page limit total pages,
      fst (get_messages q m2) = MessagesJson l page limit total pages ->
      ~ In i (map msg__id l))
  /\ fst (delete_message i m2) = MessageDone
  /\ messages m3 = messages m
  /\ fst (delete_message i m3) = MessageFail NotFound
  /\ fst (put_message trim len i (activation (Flag false)) m3) = MessageFail NotFound.
Proof.
  intros Hfr Hpost Hq Hl first_page m2 m3.
  destruct (post_message_inv _ _ _ _ _ _ Hpost) as [d [-> [Hid [Hact ->]]]].
  assert (Hfr' : Forall (fun x => msg__id x < msg__id d) (messages m))
    by (rewrite Hid; exact Hfr).
  set (d' := apply_message_update trim None None None (Some false) d).
  assert (Hput : put_message trim len (next_msg m) (activation (Flag false))
                   (mkBoard (messages m ++ [d]) (S (next_msg m)))
                 = (MessageDone, mkBoard (messages m ++ [d']) (S (next_msg m)))).
  { unfold put_message, activation.
    cbn [mb_title mb_message mb_type mb_isActive optional isBoolean castBoolean messages
         next_msg].
    rewrite <- Hid, (findById_last msg__id _ d Hfr').
    rewrite replace_by_id_last; [reflexivity|exact Hfr'|reflexivity]. }
  assert (Hm2 : m2 = mkBoard (messages m ++ [d']) (S (next_msg m)))
    by (unfold m2; rewrite Hput; reflexivity).
  assert (Hid' : msg__id d' = msg__id d) by reflexivity.
  assert (Hdel : delete_message (next_msg m) m2 = (MessageDone, mkBoard (messages m) (S (next_msg m)))).
  { rewrite Hm2. unfold delete_message. cbn [messages next_msg].
    rewrite <- Hid, <- Hid'.
    rewrite (findById_last msg__id _ d') by (rewrite Hid'; exact Hfr').
    rewrite delete_by_id_last by (rewrite Hid'; exact Hfr'). reflexivity. }
  assert (Hm3 : m3 = mkBoard (messages m) (S (next_msg m)))
    by (unfold m3; rewrite Hdel; reflexivity).
  split; [|split; [|split; [|split; [|split; [|split]]]]].
  - unfold get_messages, first_page, skip_limit.
    cbn [mq_page mq_limit mq_active messages].
    replace ((1 - 1) * mq_limit q)%Z with 0%Z by lia.
    cbn [Z.ltb Z.compare Z.to_nat skipn].
    destruct (Z.eqb_spec (mq_limit q) 0); [lia|].
    unfold sort_created_desc. rewrite filter_app. cbn [filter].
    unfold active_filter at 2. cbn [mq_active]. rewrite Hact. cbn [Bool.eqb].
    rewrite rev_app_distr. cbn [rev app].
    destruct (Z.to_nat (Z.abs (mq_limit q))) as [|k] eqn:En; [lia|].
    cbn [firstn fst]. do 4 eexists. repeat split; eauto.
  - rewrite Hput. reflexivity.
  - intros l page limit total pages. rewrite Hm2. unfold get_messages.
    destruct (skip_limit _ _ _) as [e|l'] eqn:Hs; [discriminate|].
    cbn [fst]. intros E. injection E as <- _ _ _ _.
    apply skip_limit_incl in Hs. intros Hin. apply in_map_iff in Hin.
    destruct Hin as [x [Hx Hin]]. apply Hs in Hin.
    unfold sort_created_desc in Hin. apply in_rev in Hin. apply filter_In in Hin.
    destruct Hin as [Hin Hf]. cbn [messages] in Hin. apply in_app_or in Hin.
    destruct Hin as [Hin|[<-|[]]].
    + rewrite Forall_forall in Hfr. apply Hfr in Hin. lia.
    + unfold active_filter in Hf. rewrite Hq in Hf. discriminate.
  - rewrite Hdel. reflexivity.
  - rewrite Hm3. reflexivity.
  - rewrite Hm3. unfold delete_message. cbn [messages].
    rewrite (findById_fresh msg__id (next_msg m) _ Hfr). reflexivity.
  - rewrite Hm3. unfold put_message, activation.
    cbn [mb_title mb_message mb_type mb_isActive optional isBoolean castBoolean messages].
    rewrite (findById_fresh msg__id (next_msg m) _ Hfr). reflexivity.
Qed.

Lemma message_lifecycle_witness :
  messages (snd (delete_message 1
             (snd (put_message Cases.trim String.length 1 (activation (Flag false))
                (snd (post_message Cases.trim String.length
                        (mkMessageBody (Some " Maintenance ") (Some "Back at noon.") None None)
                        (mkBoard [] 1)))))))
  = [].
Proof.
  exact (proj1 (proj2 (proj2 (proj2 (proj2
           (message_lifecycle Cases.trim String.length
              (mkMessageBody (Some " Maintenance ") (Some "Back at noon.") None None)
              1 (mkBoard [] 1) _ (mkMessagesQuery (Some "true") 1 20)
              (Forall_nil _) eq_refl eq_refl ltac:(cbn; lia))))))).
Defined.

(** ** What a ban leaves alone *)

Lemma with_skills_same s s' u u' :
  skills s' = skills s -> offered s' = offered s -> wanted s' = wanted s ->
  user__id u' = user__id u ->
  with_skills s' u'
  = match with_skills s u with
    | inl e => inl e
    | inr e => inr (mkBrowseEntry u' (offeredSkills e) (wantedSkills e))
    end.
Proof.
  intros Hk Ho Hw Hi. unfold with_skills. rewrite Hk, Ho, Hw, Hi.
  destruct (project_skills (skills s) (filter _ (offered s))); [reflexivity|].
  destruct (project_skills (skills s) (filter _ (wanted s))); reflexivity.
Qed.

(** X30.  What a ban does not do.  Once an admin has banned a user, under
    whatever spelling of the user's identifier the path had, that
    user is locked out of the swap routes, but the routes for skills never
    look at the flag: for the banned user, adding and removing offered and
    wanted skills and listing their own are answered exactly as they were
    before the ban; and a public profile stays public: [GET /users/:userId]
    still serves it, with the same skills, to anyone who asks. *)
Theorem ban_is_not_removal (adminId : oid) (userId : string) (t : oid) (s s' : db) :
  ObjectId_cast userId = Some t ->
  Admin.ban_user adminId userId (Some true) s = (Done 200, s') ->
  (forall b, fst (Users.add_offered t b s') = fst (Users.add_offered t b s))
  /\ (forall a, fst (Users.remove_offered t a s') = fst (Users.remove_offered t a s))
  /\ (forall b, fst (Profiles.add_wanted t b s') = fst (Profiles.add_wanted t b s))
  /\ (forall a, fst (Profiles.remove_wanted t a s') = fst (Profiles.remove_wanted t a s))
  /\ fst (Profiles.me_skills t s') = fst (Profiles.me_skills t s)
  /\ (forall e, fst (Profiles.get_user t s) = ProfileJson e ->
      fst (Profiles.get_user t s')
      = ProfileJson (mkBrowseEntry (with_is_banned (be_user e) true)
                                   (offeredSkills e) (wantedSkills e)))
  /\ (forall r b, swap_caller r = Some t -> route r s' = (Fail BannedActor, s')
                  /\ fst (route (AddOffered t b) s') = fst (route (AddOffered t b) s)).
Proof.
  intros Hcast. rewrite ban_user_eq, Hcast.
  destruct (userId =? ObjectId_toString adminId)%string; [discriminate|].
  destruct (findById user__id t (users s)) as [usr|] eqn:Hu; [|discriminate].
  intros H. injection H as <-.
  set (s' := set_users s (replace_by_id user__id (with_is_banned usr true) (users s))).
  assert (Hk : skills s' = skills s) by reflexivity.
  assert (Ho : offered s' = offered s) by reflexivity.
  assert (Hw : wanted s' = wanted s) by reflexivity.
  assert (Hn : next_id s' = next_id s) by reflexivity.
  destruct (findById_key _ _ _ _ Hu) as [Hid _].
  assert (Hu' : findById user__id t (users s') = Some (with_is_banned usr true)).
  { unfold s'. cbn [users set_users]. rewrite <- Hid.
    change (user__id usr) with (user__id (with_is_banned usr true)) at 1.
    apply findById_replace_same. cbn [user__id with_is_banned]. rewrite Hid.
    intros E. rewrite E in Hu. discriminate. }
  split; [|split; [|split; [|split; [|split; [|split]]]]].
  - intros b. rewrite !add_offered_eq, Hk, Ho, Hn.
    destruct (findById skill__id (skillId b) (skills s)); [|reflexivity].
    destruct (find _ (offered s)); [reflexivity|]. cbv zeta.
    destruct (validate_offered _); reflexivity.
  - intros a. rewrite !remove_offered_eq, Ho. destruct (find _ (offered s)); reflexivity.
  - intros b. rewrite !add_wanted_eq, Hk, Hw, Hn.
    destruct (findById skill__id (wb_skillId b) (skills s)); [|reflexivity].
    destruct (find _ (wanted s)); [reflexivity|]. cbv zeta.
    destruct (validate_wanted _); reflexivity.
  - intros a. rewrite !remove_wanted_eq, Hw. destruct (find _ (wanted s)); reflexivity.
  - rewrite !me_skills_eq, Hk, Ho, Hw.
    destruct (project_skills (skills s) (filter _ (offered s))); [reflexivity|].
    destruct (project_skills (skills s) (filter _ (wanted s))); reflexivity.
  - intros e. rewrite !get_user_eq, Hu, Hu'. cbn [is_public with_is_banned].
    destruct (is_public usr); [|discriminate].
    rewrite (with_skills_same s s' usr (with_is_banned usr true) Hk Ho Hw eq_refl).
    destruct (with_skills s usr) as [x|e0] eqn:He; [discriminate|].
    cbn [fst]. intros E. injection E as <-.
    rewrite (with_skills_user _ _ _ He). reflexivity.
  - intros r b Hr. split.
    + eapply swap_route_refuses_banned; [exact Hr|exact Hu'|reflexivity].
    + cbn [route]. rewrite !add_offered_eq, Hk, Ho, Hn.
      destruct (findById skill__id (skillId b) (skills s)); [|reflexivity].
      destruct (find _ (offered s)); [reflexivity|]. cbv zeta.
      destruct (validate_offered _); reflexivity.
Qed.

Lemma ban_is_not_removal_witness :
  fst (Profiles.get_user 2 (snd (Admin.ban_user 9 Sample.bob_id (Some true) Sample.db0)))
  = ProfileJson (mkBrowseEntry (with_is_banned Sample.bob true)
                               [mkSkillView 21 "Guitar" (Some "Music") "" "advanced"] []).
Proof.
  assert (Hban : Admin.ban_user 9 Sample.bob_id (Some true) Sample.db0
                 = (Done 200, snd (Admin.ban_user 9 Sample.bob_id (Some true) Sample.db0)))
    by (vm_compute; reflexivity).
  exact (proj1 (proj2 (proj2 (proj2 (proj2 (proj2
           (ban_is_not_removal 9 Sample.bob_id 2 Sample.db0 _ eq_refl Hban))))))
           (mkBrowseEntry Sample.bob [mkSkillView 21 "Guitar" (Some "Music") "" "advanced"] [])
           eq_refl).
Defined.

(** ** Skills that are gone *)

Lemma tolerant_me_skills_eq u s :
  Tolerant.me_skills u s
  = (SkillsJson (map (tolerant_view (skills s)) (filter (of_user u) (offered s)))
                (map (tolerant_view (skills s)) (filter (of_user u) (wanted s))), s).
Proof.
  unfold Tolerant.me_skills, try_catch_with, bind.
  rewrite on_bound by reflexivity. unfold UserSkillOffered_find.
  rewrite on_bound by reflexivity. reflexivity.
Qed.

Lemma tolerant_get_user_eq i s :
  Tolerant.get_user i s
  = match findById user__id i (users s) with
    | None => (ProfileFail NotFound, s)
    | Some u =>
        if is_public u then
          (ProfileJson (mkBrowseEntry u
             (map (tolerant_view (skills s)) (filter (of_user (user__id u)) (offered s)))
             (map (tolerant_view (skills s)) (filter (of_user (user__id u)) (wanted s)))), s)
        else (ProfileFail NotFound, s)
    end.
Proof.
  unfold Tolerant.get_user, try_catch_with, bind.
  rewrite on_bound by reflexivity. unfold User_findById.
  destruct (findById user__id i (users s)) as [u|]; [|reflexivity].
  destruct (is_public u); [|reflexivity]. cbn [negb].
  rewrite on_bound by reflexivity. unfold UserSkillOffered_find.
  rewrite on_bound by reflexivity. reflexivity.
Qed.

Lemma project_skills_reworded ks items vs :
  project_skills ks items = inr vs -> map (tolerant_view ks) items = map reworded vs.
Proof.
  revert vs. induction items as [|i items IH]; cbn [project_skills map]; intros vs H.
  - injection H as <-. reflexivity.
  - unfold tolerant_view at 1. cbv zeta.
    destruct (findById skill__id (us_skill_id i) ks) as [k|]; [|discriminate].
    destruct (project_skills ks items) as [|vs']; [discriminate|].
    injection H as <-. cbn [map]. rewrite (IH vs' eq_refl). reflexivity.
Qed.

Lemma project_skills_fails ks items e :
  project_skills ks items = inl e ->
  exists item, In item items /\ findById skill__id (us_skill_id item) ks = None.
Proof.
  revert e. induction items as [|i items IH]; intros e; cbn [project_skills]; [discriminate|].
  destruct (findById skill__id (us_skill_id i) ks) as [k|] eqn:Hk.
  - destruct (project_skills ks items) as [e'|vs]; [|discriminate].
    intros _. destruct (IH e' eq_refl) as [item [Hin Hn]].
    exists item. split; [right|]; assumption.
  - intros _. exists i. split; [left; reflexivity|exact Hk].
Qed.

Lemma tolerant_view_unknown ks item :
  findById skill__id (us_skill_id item) ks = None ->
  tolerant_view ks item
  = mkSkillView (us__id item) "Unknown Skill" (Some "Unknown") (us_description item)
                (us_level item).
Proof. intros H. unfold tolerant_view. rewrite H. reflexivity. Qed.

(** X3.  The two generations of the routes that show skills.  The tolerant
    one never answers 500 for a skill that has gone from the catalogue: its
    listing of a user's own skills always shows every association of the
    user, in order.  Where the strict one succeeds, the tolerant one shows
    the same entries, but for an empty name, which reads 'Unknown Skill',
    and a missing or empty category, which reads 'Unknown'.  Where the
    strict one answers 500, one of the user's associations names a skill
    that is gone, and the tolerant one lists it as 'Unknown Skill' of
    category 'Unknown'.  The same holds of the public profile, which both
    refuse with 404 in the same cases. *)
Theorem tolerant_routes_refine_strict (u : oid) (s : db) :
  (exists os ws,
      Tolerant.me_skills u s = (SkillsJson os ws, s)
      /\ map sv_id os = map us__id (filter (of_user u) (offered s))
      /\ map sv_id ws = map us__id (filter (of_user u) (wanted s)))
  /\ (forall os ws, fst (Profiles.me_skills u s) = SkillsJson os ws ->
      fst (Tolerant.me_skills u s) = SkillsJson (map reworded os) (map reworded ws))
  /\ (forall e, fst (Profiles.me_skills u s) = SkillsFail e ->
      exists item,
        In item (filter (of_user u) (offered s) ++ filter (of_user u) (wanted s))
        /\ findById skill__id (us_skill_id item) (skills s) = None
        /\ forall os ws, fst (Tolerant.me_skills u s) = SkillsJson os ws ->
           In (mkSkillView (us__id item) "Unknown Skill" (Some "Unknown")
                           (us_description item) (us_level item)) (os ++ ws))
  /\ (fst (Tolerant.get_user u s) = ProfileFail NotFound
      <-> fst (Profiles.get_user u s) = ProfileFail NotFound)
  /\ (forall e, fst (Profiles.get_user u s) = ProfileJson e ->
      fst (Tolerant.get_user u s)
      = ProfileJson (mkBrowseEntry (be_user e) (map reworded (offeredSkills e))
                                   (map reworded (wantedSkills e)))).
Proof.
  rewrite tolerant_me_skills_eq, me_skills_eq, tolerant_get_user_eq, get_user_eq.
  split; [|split; [|split; [|split]]].
  - do 2 eexists. split; [reflexivity|]. rewrite !map_map. split; reflexivity.
  - intros os ws.
    destruct (project_skills (skills s) (filter (of_user u) (offered s))) as [|os'] eqn:Ho;
      [discriminate|].
    destruct (project_skills (skills s) (filter (of_user u) (wanted s))) as [|ws'] eqn:Hw;
      [discriminate|].
    cbn [fst]. intros E. injection E as <- <-.
    rewrite (project_skills_reworded _ _ _ Ho), (project_skills_reworded _ _ _ Hw).
    reflexivity.
  - intros e.
    assert (Hgen : forall items e0, project_skills (skills s) items = inl e0 ->
              incl items (filter (of_user u) (offered s) ++ filter (of_user u) (wanted s)) ->
              exists item,
                In item (filter (of_user u) (offered s) ++ filter (of_user u) (wanted s))
                /\ findById skill__id (us_skill_id item) (skills s) = None
                /\ forall os ws,
                     fst (SkillsJson
                            (map (tolerant_view (skills s)) (filter (of_user u) (offered s)))
                            (map (tolerant_view (skills s)) (filter (of_user u) (wanted s))),
                          s) = SkillsJson os ws ->
                     In (mkSkillView (us__id item) "Unknown Skill" (Some "Unknown")
                                     (us_description item) (us_level item)) (os ++ ws)).
    { intros items e0 Hf Hincl. destruct (project_skills_fails _ _ _ Hf) as [item [Hin Hn]].
      exists item. split; [apply Hincl; exact Hin|]. split; [exact Hn|].
      intros os ws E. cbn [fst] in E. injection E as <- <-.
      rewrite <- map_app, <- (tolerant_view_unknown _ _ Hn).
      apply in_map. apply Hincl. exact Hin. }
    destruct (project_skills (skills s) (filter (of_user u) (offered s))) as [e0|os'] eqn:Ho.
    + intros _. apply (Hgen _ _ Ho). apply incl_appl, incl_refl.
    + destruct (project_skills (skills s) (filter (of_user u) (wanted s))) as [e0|ws'] eqn:Hw;
        [|discriminate].
      intros _. apply (Hgen _ _ Hw). apply incl_appr, incl_refl.
  - destruct (findById user__id u (users s)) as [usr|]; [|tauto].
    destruct (is_public usr); [|tauto].
    destruct (with_skills s usr); cbn [fst]; split; discriminate.
  - intros e. destruct (findById user__id u (users s)) as [usr|] eqn:Hu; [|discriminate].
    destruct (is_public usr); [|discriminate]. unfold with_skills.
    change (fun d : UserSkill => us_user_id d =? user__id usr) with (of_user (user__id usr)).
    destruct (project_skills (skills s) (filter (of_user (user__id usr)) (offered s)))
      as [|os'] eqn:Ho; [discriminate|].
    destruct (project_skills (skills s) (filter (of_user (user__id usr)) (wanted s)))
      as [|ws'] eqn:Hw; [discriminate|].
    cbn [fst]. intros E. injection E as <-. cbn [be_user offeredSkills wantedSkills].
    rewrite (project_skills_reworded _ _ _ Ho), (project_skills_reworded _ _ _ Hw).
    reflexivity.
Qed.
